(** * leaflet-a7-drawshape: the shape editor of [leaflet.a7.drawshape.js]

    A shallow embedding of [L.A7DrawShape] (the click router, the node
    context-menu handler, the geometry builder, the distance helper, auto-pan
    and the GeoJSON codec), with the properties of its specification stated
    over the embedding.

    JavaScript numbers are kept behind the interface [JSNumber]: the editor is
    written once, over any carrier, and read at two of them: IEEE binary64
    ([PrimFloat], what the engine computes) and the real numbers (the
    geometry the distance helper is meant to compute). *)

From Stdlib Require Import List String Ascii Bool Arith ZArith Lia.
From Stdlib Require Import Reals Lra.
From Stdlib Require Import Floats.
Import ListNotations.

Set Implicit Arguments.

(** ** Numbers *)

Declare Scope js_scope.
Delimit Scope js_scope with js.

(** The operations of a JavaScript number the source uses. *)
Class JSNumber (num : Type) : Type := {
  num_add : num -> num -> num;
  num_sub : num -> num -> num;
  num_mul : num -> num -> num;
  num_div : num -> num -> num;
  num_neg : num -> num;            (* unary minus *)
  num_sqrt : num -> num;           (* Math.sqrt *)
  num_lt : num -> num -> bool;     (* <  *)
  num_le : num -> num -> bool;     (* <= *)
  num_eq : num -> num -> bool;     (* === *)
  num_of_Z : Z -> num              (* an integer literal *)
}.

(** A carrier that also has the global [Infinity]. *)
Class JSInfinity (num : Type) : Type := Infinity : num.

Notation "x + y" := (num_add x y) : js_scope.
Notation "x - y" := (num_sub x y) : js_scope.
Notation "x * y" := (num_mul x y) : js_scope.
Notation "x / y" := (num_div x y) : js_scope.
Notation "- x" := (num_neg x) : js_scope.
Notation "x <? y" := (num_lt x y) : js_scope.
Notation "x <=? y" := (num_le x y) : js_scope.
Notation "x >? y" := (num_lt y x) : js_scope.
Notation "x === y" := (num_eq x y) (at level 70, no associativity) : js_scope.
Notation "x !== y" := (negb (num_eq x y)) (at level 70, no associativity) : js_scope.
Notation "# z" := (num_of_Z z%Z) (at level 5, format "# z") : js_scope.

(** IEEE 754 binary64, as the engine has it. *)
Definition float_of_Z (z : Z) : float :=
  match z with
  | Z0 => PrimFloat.zero
  | Zpos _ => PrimFloat.of_uint63 (Uint63.of_Z z)
  | Zneg p => PrimFloat.opp (PrimFloat.of_uint63 (Uint63.of_Z (Zpos p)))
  end.

#[export] Instance float_number : JSNumber float := {
  num_add := PrimFloat.add;
  num_sub := PrimFloat.sub;
  num_mul := PrimFloat.mul;
  num_div := PrimFloat.div;
  num_neg := PrimFloat.opp;
  num_sqrt := PrimFloat.sqrt;
  num_lt := PrimFloat.ltb;
  num_le := PrimFloat.leb;
  num_eq := PrimFloat.eqb;
  num_of_Z := float_of_Z
}.

#[export] Instance float_infinity : JSInfinity float := PrimFloat.infinity.

(** The real numbers: exact arithmetic, comparisons decided classically. *)
Definition Rltb (x y : R) : bool := if Rlt_dec x y then true else false.
Definition Rleb (x y : R) : bool := if Rle_dec x y then true else false.
Definition Reqb (x y : R) : bool := if Req_dec_T x y then true else false.

#[export] Instance real_number : JSNumber R := {
  num_add := Rplus;
  num_sub := Rminus;
  num_mul := Rmult;
  num_div := Rdiv;
  num_neg := Ropp;
  num_sqrt := R_sqrt.sqrt;
  num_lt := Rltb;
  num_le := Rleb;
  num_eq := Reqb;
  num_of_Z := IZR
}.

(** ** Points and coordinates *)

(** [L.Point]: a position in container pixels. *)
Record Point (num : Type) : Type := mkPoint { px : num; py : num }.

(** [L.LatLng]: a geographic position. *)
Record LatLng (num : Type) : Type := mkLatLng { lat : num; lng : num }.

Arguments mkPoint {num} _ _.
Arguments mkLatLng {num} _ _.

(** ** The distance helper *)

Section DistanceHelper.
Context {num : Type} `{JSNumber num}.
Local Open Scope js_scope.

(** [_pointToLineDistance(p, a, b)] *)
Definition _pointToLineDistance (p a b : Point num) : num :=
  let x := px p in
  let y := py p in
  let x1 := px a in
  let y1 := py a in
  let x2 := px b in
  let y2 := py b in
  let A := x - x1 in
  let B := y - y1 in
  let C := x2 - x1 in
  let D := y2 - y1 in
  let dot := A * C + B * D in
  let len_sq := C * C + D * D in
  let param := if len_sq !== #0 then dot / len_sq else #(-1) in
  let '(xx, yy) :=
    if param <? #0 then (x1, y1)
    else if param >? #1 then (x2, y2)
    else (x1 + param * C, y1 + param * D) in
  let dx := x - xx in
  let dy := y - yy in
  num_sqrt (dx * dx + dy * dy).
End DistanceHelper.

(** ** JavaScript values and completions *)

(** The exceptions the modelled code can raise: the engine's [TypeError],
    and the [Error("Invalid LatLng object: ...")] of Leaflet's [LatLng]
    constructor. *)
Inductive JSError : Type := TypeError | InvalidLatLng.

(** How a call ends: with a value, with an exception, or outside what is
    modelled (a Leaflet factory applied to something that is not a number). *)
Inductive Completion (A : Type) : Type :=
| Returns (a : A)
| Throws (e : JSError)
| Unmodelled.

Arguments Returns {A} a.
Arguments Throws {A} e.
Arguments Unmodelled {A}.

Definition bind {A B : Type} (c : Completion A) (k : A -> Completion B) : Completion B :=
  match c with
  | Returns a => k a
  | Throws e => Throws e
  | Unmodelled => Unmodelled
  end.

Notation "x <- c ;; k" := (bind c (fun x => k))
  (at level 61, c at next level, right associativity).

Fixpoint mapM {A B : Type} (f : A -> Completion B) (l : list A) : Completion (list B) :=
  match l with
  | [] => Returns []
  | a :: l' => b <- f a ;; bs <- mapM f l' ;; Returns (b :: bs)
  end.

(** The plain values GeoJSON coordinates are made of. *)
#[warnings="-register-all"]
Inductive JSValue (num : Type) : Type :=
| JUndefined
| JNumber (x : num)
| JArray (items : list (JSValue num)).

Arguments JUndefined {num}.
Arguments JNumber {num} x.
Arguments JArray {num} items.

(** [v[i]]: a missing element is [undefined], a number has no elements, and
    reading a property of [undefined] throws. *)
Definition js_index {num : Type} (v : JSValue num) (i : nat) : Completion (JSValue num) :=
  match v with
  | JUndefined => Throws TypeError
  | JNumber _ => Returns JUndefined
  | JArray items => Returns (nth i items JUndefined)
  end.

(** [arr[i]] where [arr] is known to be an array. *)
Definition js_nth {num : Type} (items : list (JSValue num)) (i : nat) : JSValue num :=
  nth i items JUndefined.

(** [v.distanceTo(w)] for a plain value [v]. Leaflet defines [distanceTo] on
    [L.LatLng] and [L.Point] instances only: an Array or a number has no such
    property, so the call applies [undefined]; and reading a property of
    [undefined] throws as well. *)
Definition plain_distanceTo {num : Type} (v w : JSValue num) : Completion num :=
  match v with
  | JUndefined => Throws TypeError
  | JNumber _ => Throws TypeError
  | JArray _ => Throws TypeError
  end.

(** [Array.prototype.splice(start, 0, x)] and [splice(start, 1)], with the
    start index normalised as the language does (negative: from the end). *)
Definition splice_start {A : Type} (start : Z) (l : list A) : nat :=
  let len := Z.of_nat (List.length l) in
  Z.to_nat (if (start <? 0)%Z then Z.max (len + start) 0 else Z.min start len).

Definition splice_insert {A : Type} (start : Z) (x : A) (l : list A) : list A :=
  let k := splice_start start l in
  firstn k l ++ x :: skipn k l.

Definition splice_remove1 {A : Type} (start : Z) (l : list A) : list A :=
  let k := splice_start start l in
  firstn k l ++ skipn (S k) l.

(** [String.prototype.toLowerCase] on strings of ASCII characters: the
    letters A to Z are lowered. On other characters the engine follows the
    Unicode case mapping, which is not modelled. *)
Definition ascii_only (s : string) : bool :=
  forallb (fun c => (nat_of_ascii c <? 128)%nat) (list_ascii_of_string s).

Definition lower_ascii (c : ascii) : ascii :=
  let n := nat_of_ascii c in
  if (65 <=? n)%nat && (n <=? 90)%nat then ascii_of_nat (n + 32) else c.

Fixpoint toLowerCase (s : string) : string :=
  match s with
  | EmptyString => EmptyString
  | String c s' => String (lower_ascii c) (toLowerCase s')
  end.

(** ** The data model *)

(** [this.state] *)
Inductive EditorState : Type := Idle | Drawing.

Section DataModel.
Variable num : Type.

(** The options the modelled code reads (the others only style what is drawn). *)
Record Options : Type := mkOptions {
  nodeRadius : num;
  autoPanSpeed : num;
  autoPanPadding : num * num
}.

(** The [options] argument of [drawFromGeoJSON]: the keys it carries. *)
Record OptionsPatch : Type := mkPatch {
  patch_nodeRadius : option num;
  patch_autoPanSpeed : option num;
  patch_autoPanPadding : option (num * num)
}.

(** A node: the circle marker of [_createNode], with the identity of its
    layer, its position and the layer of its white background. *)
Record Node : Type := mkNode {
  node_id : nat;
  node_latlng : LatLng num;
  node_background : nat
}.

(** What Leaflet is asked to draw. *)
Inductive Primitive : Type :=
| Polyline (latlngs : list (LatLng num))        (* L.polyline(latlngs) *)
| Polygon (latlngs : list (LatLng num))         (* L.polygon(latlngs) *)
| Rectangle (latlngs : list (LatLng num))       (* L.rectangle(L.latLngBounds(latlngs)) *)
| Circle (center : LatLng num) (radius : num).  (* L.circle(center, {radius}) *)

(** [this.shape]: the node itself (a point), or a layer of its own. *)
Inductive Shape : Type :=
| ShapeIsNode (id : nat)
| ShapeLayer (id : nat) (geometry : Primitive).

Definition shape_id (sh : Shape) : nat :=
  match sh with
  | ShapeIsNode id => id
  | ShapeLayer id _ => id
  end.

(** The notifications of [this.fire]. *)
Inductive Event : Type :=
| statechange (st : EditorState)
| beforenodecreate (latlng : LatLng num)
| nodeadd (node : nat)
| noderemove (node : nat).

(** The editor, with the part of the map it acts on: the layers on the
    map (by identity), whether the map's own dragging is enabled, and the
    [panBy] calls made. *)
Record Editor : Type := mkEditor {
  options : Options;
  shape : option Shape;
  nodes : list Node;
  isDrawing : bool;
  shapeType : option string;
  tempLine : option (nat * list (LatLng num));
  state : EditorState;
  map_layers : list nat;
  map_dragging : bool;
  map_panned : list (num * num);
  next_id : nat;
  fired : list Event
}.

(** A GeoJSON object, as far as the codec reads and writes it. *)
Record GeoJSON : Type := mkGeoJSON {
  g_type : option string;          (* [None]: no [type] property *)
  g_coordinates : JSValue num;
  g_radius : option num            (* [None]: no [radius] property *)
}.

(** What [getGeoJSON] returns and [drawFromGeoJSON] receives. *)
Inductive GeoJSONValue : Type :=
| GNull
| GUndefined
| GObject (g : GeoJSON).

(** A map click or mouse move. *)
Record MouseEvent : Type := mkMouseEvent {
  ev_latlng : LatLng num;
  ev_containerPoint : Point num
}.

(** The map surface and Leaflet, as the editor calls them. *)
Record MapSurface : Type := mkMapSurface {
  latLngToContainerPoint : LatLng num -> Point num;
  getSize : Point num;
  point_distanceTo : Point num -> Point num -> num;     (* L.Point.distanceTo *)
  latlng_distanceTo : LatLng num -> LatLng num -> num;  (* L.LatLng.distanceTo *)
  destinationPoint : LatLng num -> num -> num -> LatLng num
}.
End DataModel.

Arguments ShapeIsNode {num} id.
Arguments GNull {num}.
Arguments GUndefined {num}.
Arguments statechange {num} st.
Arguments nodeadd {num} node.
Arguments noderemove {num} node.

(** ** The editor's operations *)

Section EditorOps.
Context {num : Type} `{JSNumber num} `{JSInfinity num}.

(** The map surface as it stands when a handler runs. *)
Variable surface : MapSurface num.

Local Open Scope js_scope.

(** *** Field updates *)

Definition set_options (v : Options num) (s : Editor num) : Editor num :=
  mkEditor v (shape s) (nodes s) (isDrawing s) (shapeType s) (tempLine s)
    (state s) (map_layers s) (map_dragging s) (map_panned s) (next_id s) (fired s).

Definition set_shape (v : option (Shape num)) (s : Editor num) : Editor num :=
  mkEditor (options s) v (nodes s) (isDrawing s) (shapeType s) (tempLine s)
    (state s) (map_layers s) (map_dragging s) (map_panned s) (next_id s) (fired s).

Definition set_nodes (v : list (Node num)) (s : Editor num) : Editor num :=
  mkEditor (options s) (shape s) v (isDrawing s) (shapeType s) (tempLine s)
    (state s) (map_layers s) (map_dragging s) (map_panned s) (next_id s) (fired s).

Definition set_isDrawing (v : bool) (s : Editor num) : Editor num :=
  mkEditor (options s) (shape s) (nodes s) v (shapeType s) (tempLine s)
    (state s) (map_layers s) (map_dragging s) (map_panned s) (next_id s) (fired s).

Definition set_shapeType (v : option string) (s : Editor num) : Editor num :=
  mkEditor (options s) (shape s) (nodes s) (isDrawing s) v (tempLine s)
    (state s) (map_layers s) (map_dragging s) (map_panned s) (next_id s) (fired s).

Definition set_tempLine (v : option (nat * list (LatLng num))) (s : Editor num) : Editor num :=
  mkEditor (options s) (shape s) (nodes s) (isDrawing s) (shapeType s) v
    (state s) (map_layers s) (map_dragging s) (map_panned s) (next_id s) (fired s).

Definition set_state (v : EditorState) (s : Editor num) : Editor num :=
  mkEditor (options s) (shape s) (nodes s) (isDrawing s) (shapeType s) (tempLine s)
    v (map_layers s) (map_dragging s) (map_panned s) (next_id s) (fired s).

Definition set_map_layers (v : list nat) (s : Editor num) : Editor num :=
  mkEditor (options s) (shape s) (nodes s) (isDrawing s) (shapeType s) (tempLine s)
    (state s) v (map_dragging s) (map_panned s) (next_id s) (fired s).

Definition set_map_dragging (v : bool) (s : Editor num) : Editor num :=
  mkEditor (options s) (shape s) (nodes s) (isDrawing s) (shapeType s) (tempLine s)
    (state s) (map_layers s) v (map_panned s) (next_id s) (fired s).

Definition set_map_panned (v : list (num * num)) (s : Editor num) : Editor num :=
  mkEditor (options s) (shape s) (nodes s) (isDrawing s) (shapeType s) (tempLine s)
    (state s) (map_layers s) (map_dragging s) v (next_id s) (fired s).

Definition set_next_id (v : nat) (s : Editor num) : Editor num :=
  mkEditor (options s) (shape s) (nodes s) (isDrawing s) (shapeType s) (tempLine s)
    (state s) (map_layers s) (map_dragging s) (map_panned s) v (fired s).

Definition set_fired (v : list (Event num)) (s : Editor num) : Editor num :=
  mkEditor (options s) (shape s) (nodes s) (isDrawing s) (shapeType s) (tempLine s)
    (state s) (map_layers s) (map_dragging s) (map_panned s) (next_id s) v.

(** *** The map and the notifications *)

(** [this.fire(...)]: with no listener that acts back on the editor. *)
Definition fire (ev : Event num) (s : Editor num) : Editor num :=
  set_fired (fired s ++ [ev]) s.

(** [this.map.removeLayer(layer)] *)
Definition removeLayer (id : nat) (s : Editor num) : Editor num :=
  set_map_layers (filter (fun l => negb (Nat.eqb l id)) (map_layers s)) s.

(** [layer.addTo(this.map)], for a layer just created. *)
Definition addNewLayer (s : Editor num) : nat * Editor num :=
  let id := next_id s in
  (id, set_map_layers (map_layers s ++ [id]) (set_next_id (S id) s)).

(** [this.map.panBy([x, y])] *)
Definition panBy (xy : num * num) (s : Editor num) : Editor num :=
  set_map_panned (map_panned s ++ [xy]) s.

(** [this.shapeType === ty] *)
Definition shapeType_is (s : Editor num) (ty : string) : bool :=
  match shapeType s with
  | Some t => String.eqb t ty
  | None => false
  end.

(** *** [initialize], [startDrawing], [clear] *)

(** The defaults of [options], then [initialize(map, options)]. *)
Definition default_options : Options num :=
  mkOptions #6 #10 (#50, #50).

Definition setOptions (o : Options num) (p : OptionsPatch num) : Options num :=
  mkOptions
    (match patch_nodeRadius p with Some v => v | None => nodeRadius o end)
    (match patch_autoPanSpeed p with Some v => v | None => autoPanSpeed o end)
    (match patch_autoPanPadding p with Some v => v | None => autoPanPadding o end).

Definition initialize (opts : option (OptionsPatch num)) : Editor num :=
  mkEditor
    (match opts with Some p => setOptions default_options p | None => default_options end)
    None [] false None None Idle [] true [] 0 [].

(** [clear()] *)
Definition clear (s : Editor num) : Editor num :=
  let s := match shape s with
           | Some sh => removeLayer (shape_id sh) s
           | None => s
           end in
  let s := match tempLine s with
           | Some (id, _) => set_tempLine None (removeLayer id s)
           | None => s
           end in
  let s := fold_left
             (fun s node => removeLayer (node_background node) (removeLayer (node_id node) s))
             (nodes s) s in
  let s := set_shape None s in
  let s := set_nodes [] s in
  let s := set_isDrawing true s in
  let s := set_state Idle s in
  fire (statechange Idle) s.

(** [startDrawing(type)] *)
Definition startDrawing (type : string) (s : Editor num) : Editor num :=
  let s := clear s in
  let s := set_shapeType (Some type) s in
  let s := set_isDrawing true s in
  let s := set_state Drawing s in
  let s := fire (statechange Drawing) s in
  set_map_dragging false s.

(** *** [_updateShape] *)

(** [this.shape === this.nodes[0]] *)
Definition is_first_node (sh : Shape num) (ns : list (Node num)) : bool :=
  match sh, ns with
  | ShapeIsNode id, n :: _ => Nat.eqb id (node_id n)
  | _, _ => false
  end.

(** [this.shape = L.<primitive>(...).addTo(this.map)] *)
Definition draw (p : Primitive num) (s : Editor num) : Editor num :=
  let '(id, s) := addNewLayer s in
  set_shape (Some (ShapeLayer id p)) s.

(** [_updateShape()]; raising the nodes above the shape changes no layer
    and no field, and is left out. *)
Definition _updateShape (s : Editor num) : Editor num :=
  let s := match shape s with
           | Some sh => if is_first_node sh (nodes s) then s else removeLayer (shape_id sh) s
           | None => s
           end in
  let latlngs := map (@node_latlng num) (nodes s) in
  let n := List.length latlngs in
  if shapeType_is s "point" && (n =? 1)%nat then
    match nodes s with
    | n0 :: _ => set_shape (Some (ShapeIsNode (node_id n0))) s
    | [] => s
    end
  else if shapeType_is s "line" && (2 <=? n)%nat then
    draw (Polyline latlngs) s
  else if shapeType_is s "polygon" && (3 <=? n)%nat then
    match latlngs with
    | l0 :: _ => draw (Polygon (latlngs ++ [l0])) s
    | [] => s
    end
  else if shapeType_is s "rectangle" && (2 <=? n)%nat then
    draw (Rectangle latlngs) s
  else if shapeType_is s "circle" && (2 <=? n)%nat then
    match latlngs with
    | center :: p1 :: _ => draw (Circle center (latlng_distanceTo surface center p1)) s
    | _ => s
    end
  else s.

(** *** [_createNode] and the node's context menu *)

(** [_createNode(latlng)]: the white background first, then the node. *)
Definition _createNode (latlng : LatLng num) (s : Editor num) : Node num * Editor num :=
  let s := fire (beforenodecreate latlng) s in
  let '(background, s) := addNewLayer s in
  let '(id, s) := addNewLayer s in
  (mkNode id latlng background, s).

(** [this.nodes.indexOf(node)]: by identity, -1 when absent. *)
Fixpoint indexOf_from (i : Z) (node : Node num) (ns : list (Node num)) : Z :=
  match ns with
  | [] => (-1)%Z
  | n :: ns' => if Nat.eqb (node_id n) (node_id node) then i
                else indexOf_from (i + 1)%Z node ns'
  end.

Definition indexOf (node : Node num) (ns : list (Node num)) : Z :=
  indexOf_from 0%Z node ns.

(** The [minNodes] of the context-menu handler. *)
Definition minNodes (s : Editor num) : nat :=
  if shapeType_is s "polygon" then 3
  else if shapeType_is s "rectangle" || shapeType_is s "circle" then 2
  else 2.

(** The ['contextmenu'] handler [_createNode] installs on [node]. *)
Definition node_contextmenu (node : Node num) (s : Editor num) : Editor num :=
  if (List.length (nodes s) =? minNodes s)%nat then clear s
  else if (minNodes s <? List.length (nodes s))%nat then
    let idx := indexOf node (nodes s) in
    let s := set_nodes (splice_remove1 idx (nodes s)) s in
    let s := removeLayer (node_id node) s in
    let s := removeLayer (node_background node) s in
    let s := _updateShape s in
    fire (noderemove (node_id node)) s
  else s.
(** *** [_onMapClick] *)

(** The position of a node in container pixels. *)
Definition node_point (node : Node num) : Point num :=
  latLngToContainerPoint surface (node_latlng node).

(** [nodeRadius * 2], the click tolerance in pixels. *)
Definition tolerance (s : Editor num) : num :=
  nodeRadius (options s) * #2.

(** The first loop of the insertion path: [canAdd] stays true when no node
    is within the tolerance of the click. *)
Definition canAdd (clickPoint : Point num) (s : Editor num) : bool :=
  negb (existsb
          (fun node => point_distanceTo surface clickPoint (node_point node) <=? tolerance s)
          (nodes s)).

(** One turn of the second loop, at index [i]: the segment from [nodes[i]]
    to [nodes[(i + 1) % nodes.length]]. *)
Definition segment_step (clickPoint : Point num) (ns : list (Node num))
    (acc : num * Z) (i : nat) : num * Z :=
  let '(minDist, insertIdx) := acc in
  match nth_error ns i, nth_error ns ((i + 1) mod List.length ns) with
  | Some n1, Some n2 =>
      let dist := _pointToLineDistance clickPoint (node_point n1) (node_point n2) in
      if dist <? minDist then (dist, Z.of_nat (i + 1)) else (minDist, insertIdx)
  | _, _ => (minDist, insertIdx)
  end.

(** The second loop: [minDist] and [insertIdx] after all indices. *)
Definition nearestSegment (clickPoint : Point num) (ns : list (Node num)) : num * Z :=
  fold_left (segment_step clickPoint ns) (seq 0 (List.length ns)) (Infinity, (-1)%Z).

(** The guard of the insertion path. *)
Definition insertion_applies (s : Editor num) : bool :=
  negb (isDrawing s)
  && (shapeType_is s "polygon" || shapeType_is s "line")
  && ((if shapeType_is s "polygon" then 3 else 2) <=? List.length (nodes s))%nat.

(** The body of the insertion path: a node at the click, spliced in at
    [insertIdx]. *)
Definition insert_node (insertIdx : Z) (e : MouseEvent num) (s : Editor num) : Editor num :=
  let '(node, s) := _createNode (ev_latlng e) s in
  let s := set_nodes (splice_insert insertIdx node (nodes s)) s in
  let s := _updateShape s in
  fire (nodeadd (node_id node)) s.

(** The insertion path: [Some] the editor it returns with, [None] when the
    click falls through to the rest of the handler. *)
Definition idle_insertion (e : MouseEvent num) (s : Editor num) : option (Editor num) :=
  if insertion_applies s then
    let clickPoint := latLngToContainerPoint surface (ev_latlng e) in
    if canAdd clickPoint s then
      let '(minDist, insertIdx) := nearestSegment clickPoint (nodes s) in
      if minDist <=? tolerance s then Some (insert_node insertIdx e s)
      else None
    else None
  else None.

(** Leaving the drawing state: [isDrawing = false; state = 'idle'], the
    notification, and the preview line removed. *)
Definition finish_drawing (s : Editor num) : Editor num :=
  let s := set_isDrawing false s in
  let s := set_state Idle s in
  let s := fire (statechange Idle) s in
  match tempLine s with
  | Some (id, _) => set_tempLine None (removeLayer id s)
  | None => s
  end.

(** The "finish line" test: more than one node, and the click within the
    tolerance of the last one. *)
Definition closes_line (e : MouseEvent num) (s : Editor num) : bool :=
  shapeType_is s "line"
  && (1 <? List.length (nodes s))%nat
  && match nth_error (nodes s) (List.length (nodes s) - 1) with
     | Some lastNode =>
         point_distanceTo surface (node_point lastNode)
           (latLngToContainerPoint surface (ev_latlng e)) <=? tolerance s
     | None => false
     end.

(** The branch of a point with no shape yet: the node is the shape. *)
Definition place_point (e : MouseEvent num) (s : Editor num) : Editor num :=
  let '(node, s) := _createNode (ev_latlng e) s in
  let s := set_nodes (nodes s ++ [node]) s in
  let s := set_shape (Some (ShapeIsNode (node_id node))) s in
  let s := set_isDrawing false s in
  let s := set_state Idle s in
  let s := fire (statechange Idle) s in
  fire (nodeadd (node_id node)) s.

(** The count test that ends the drawing of a polygon, rectangle or circle. *)
Definition reached_count (s : Editor num) : bool :=
  (shapeType_is s "polygon" || shapeType_is s "rectangle" || shapeType_is s "circle")
  && ((if shapeType_is s "polygon" then 3 else 2) <=? List.length (nodes s))%nat.

(** The last branch: a node appended at the click. *)
Definition append_node (e : MouseEvent num) (s : Editor num) : Editor num :=
  let '(node, s) := _createNode (ev_latlng e) s in
  let s := set_nodes (nodes s ++ [node]) s in
  let s := _updateShape s in
  let s := fire (nodeadd (node_id node)) s in
  if reached_count s then finish_drawing s else s.

(** [_onMapClick(e)] *)
Definition _onMapClick (e : MouseEvent num) (s : Editor num) : Editor num :=
  match idle_insertion e s with
  | Some s' => s'
  | None =>
    if negb (isDrawing s) then s
    else if shapeType_is s "point" && (match shape s with None => true | Some _ => false end)
    then place_point e s
    else if closes_line e s then finish_drawing s
    else append_node e s
  end.

(** *** [_autoPan] and [_onMouseMove] *)

(** The [x] and [y] that [_autoPan] computes. *)
Definition autoPan_offset (containerPoint : Point num) (s : Editor num) : num * num :=
  let mapSize := getSize surface in
  let padding := autoPanPadding (options s) in
  let x := #0 in
  let y := #0 in
  let x := if px containerPoint <? fst padding then - autoPanSpeed (options s) else x in
  let x := if px containerPoint >? px mapSize - fst padding then autoPanSpeed (options s) else x in
  let y := if py containerPoint <? snd padding then - autoPanSpeed (options s) else y in
  let y := if py containerPoint >? py mapSize - snd padding then autoPanSpeed (options s) else y in
  (x, y).

(** [_autoPan(containerPoint)] *)
Definition _autoPan (containerPoint : Point num) (s : Editor num) : Editor num :=
  let '(x, y) := autoPan_offset containerPoint s in
  if (x !== #0) || (y !== #0) then panBy (x, y) s else s.

(** [_onMouseMove(e)] *)
Definition _onMouseMove (e : MouseEvent num) (s : Editor num) : Editor num :=
  if negb (isDrawing s) || (List.length (nodes s) =? 0)%nat || shapeType_is s "point" then s
  else if shapeType_is s "polygon" && (3 <=? List.length (nodes s))%nat then s
  else if (shapeType_is s "rectangle" || shapeType_is s "circle")
          && (2 <=? List.length (nodes s))%nat then s
  else
    let s := _autoPan (ev_containerPoint e) s in
    let s := match tempLine s with
             | Some (id, _) => removeLayer id s
             | None => s
             end in
    let latlngs := map (@node_latlng num) (nodes s) ++ [ev_latlng e] in
    let latlngs :=
      if shapeType_is s "polygon" && (2 <=? List.length (nodes s))%nat then
        match nodes s with
        | n0 :: _ => latlngs ++ [node_latlng n0]
        | [] => latlngs
        end
      else latlngs in
    let '(id, s) := addNewLayer s in
    set_tempLine (Some (id, latlngs)) s.
(** *** The GeoJSON codec *)

(** [[latlng.lng, latlng.lat]] *)
Definition coordinate_of (node : Node num) : JSValue num :=
  JArray [JNumber (lng (node_latlng node)); JNumber (lat (node_latlng node))].

(** [getGeoJSON()] *)
Definition getGeoJSON (s : Editor num) : Completion (GeoJSONValue num) :=
  match shape s with
  | None => Returns GNull
  | Some _ =>
    let coordinates := map coordinate_of (nodes s) in
    if shapeType_is s "point" then
      Returns (GObject (mkGeoJSON (Some "Point"%string) (js_nth coordinates 0) None))
    else if shapeType_is s "line" then
      Returns (GObject (mkGeoJSON (Some "LineString"%string) (JArray coordinates) None))
    else if shapeType_is s "polygon" then
      let coordinates := coordinates ++ [js_nth coordinates 0] in
      Returns (GObject (mkGeoJSON (Some "Polygon"%string) (JArray [JArray coordinates]) None))
    else if shapeType_is s "rectangle" && (List.length coordinates =? 2)%nat then
      c10 <- js_index (js_nth coordinates 1) 0 ;;
      c01 <- js_index (js_nth coordinates 0) 1 ;;
      c00 <- js_index (js_nth coordinates 0) 0 ;;
      c11 <- js_index (js_nth coordinates 1) 1 ;;
      Returns (GObject (mkGeoJSON (Some "Polygon"%string)
        (JArray [JArray [js_nth coordinates 0; JArray [c10; c01]; js_nth coordinates 1;
                         JArray [c00; c11]; js_nth coordinates 0]])
        None))
    else if shapeType_is s "circle" && (List.length coordinates =? 2)%nat then
      radius <- plain_distanceTo (js_nth coordinates 0) (js_nth coordinates 1) ;;
      Returns (GObject (mkGeoJSON (Some "Point"%string) (js_nth coordinates 0) (Some radius)))
    else Returns GUndefined
  end.

(** [isNaN(x)] on a number: NaN is the one number that differs from itself. *)
Definition isNaN (x : num) : bool := x !== x.

(** [L.latLng(a, b)] on two numbers: the constructor of [L.LatLng] throws
    when a component is NaN. Other arguments are not modelled. *)
Definition L_latLng (a b : JSValue num) : Completion (LatLng num) :=
  match a, b with
  | JNumber la, JNumber ln =>
      if isNaN la || isNaN ln then Throws InvalidLatLng else Returns (mkLatLng la ln)
  | _, _ => Unmodelled
  end.

(** [coord => L.latLng(coord[1], coord[0])] *)
Definition coord_latLng (coord : JSValue num) : Completion (LatLng num) :=
  c1 <- js_index coord 1 ;;
  c0 <- js_index coord 0 ;;
  L_latLng c1 c0.

(** Whether a number is truthy: neither zero nor NaN. *)
Definition truthy (x : num) : bool := (x !== #0) && (x === x).

(** The [switch] of [drawFromGeoJSON]: [None] is the [default: return];
    otherwise the shape type assigned inside the switch, if any (assigned
    before the coordinates are read), and the coordinates. *)
Definition import_switch (ty : string) (g : GeoJSON num)
    : option (option string * Completion (list (LatLng num))) :=
  if String.eqb ty "Point" then
    Some (None, c1 <- js_index (g_coordinates g) 1 ;;
                c0 <- js_index (g_coordinates g) 0 ;;
                ll <- L_latLng c1 c0 ;;
                Returns [ll])
  else if String.eqb ty "LineString" then
    Some (None, match g_coordinates g with
                | JArray items => mapM coord_latLng items
                | _ => Throws TypeError
                end)
  else if String.eqb ty "Polygon" then
    match js_index (g_coordinates g) 0 with
    | Returns (JArray ring) =>
        if (List.length ring =? 5)%nat then
          Some (Some "rectangle"%string,
                a <- coord_latLng (js_nth ring 0) ;;
                b <- coord_latLng (js_nth ring 2) ;;
                Returns [a; b])
        else
          Some (None, mapM coord_latLng (removelast ring))
    | Returns _ => Some (None, Throws TypeError)
    | Throws e => Some (None, Throws e)
    | Unmodelled => Some (None, Unmodelled)
    end
  else None.

(** The [forEach] that creates a node per coordinate. *)
Definition create_nodes (coordinates : list (LatLng num)) (s : Editor num) : Editor num :=
  fold_left
    (fun s coord => let '(node, s) := _createNode coord s in
                    set_nodes (nodes s ++ [node]) s)
    coordinates s.

(** [drawFromGeoJSON(geojson, options)]: the editor afterwards, and how the
    call ended. *)
Definition drawFromGeoJSON (geojson : GeoJSONValue num) (opts : option (OptionsPatch num))
    (s : Editor num) : Editor num * Completion unit :=
  let s := clear s in
  match geojson with
  | GObject g =>
    match g_type g with
    | Some ty =>
      if String.eqb ty "" then (s, Returns tt)
      else
        let s := match opts with
                 | Some p => set_options (setOptions (options s) p) s
                 | None => s
                 end in
        let s := set_shapeType (Some (toLowerCase ty)) s in
        match import_switch ty g with
        | None => (s, Returns tt)
        | Some (assigned, read) =>
          let s := match assigned with
                   | Some t => set_shapeType (Some t) s
                   | None => s
                   end in
          match read with
          | Returns coordinates =>
            let circle := String.eqb ty "Point"
                          && match g_radius g with Some r => truthy r | None => false end in
            let resolved : Editor num * Completion (list (LatLng num)) :=
              if circle then
                let s := set_shapeType (Some "circle"%string) s in
                (s, c1 <- js_index (g_coordinates g) 1 ;;
                    c0 <- js_index (g_coordinates g) 0 ;;
                    center <- L_latLng c1 c0 ;;
                    match g_radius g with
                    | Some r => Returns [center; destinationPoint surface center r #90]
                    | None => Returns [center]
                    end)
              else (s, Returns coordinates) in
            match resolved with
            | (s, Returns coordinates) => (_updateShape (create_nodes coordinates s), Returns tt)
            | (s, Throws e) => (s, Throws e)
            | (s, Unmodelled) => (s, Unmodelled)
            end
          | Throws e => (s, Throws e)
          | Unmodelled => (s, Unmodelled)
          end
        end
    | None => (s, Returns tt)
    end
  | GNull => (s, Returns tt)
  | GUndefined => (s, Returns tt)
  end.

(** [drawFromGeoJSON(getGeoJSON())] *)
Definition roundtrip (s : Editor num) : Editor num * Completion unit :=
  match getGeoJSON s with
  | Returns v => drawFromGeoJSON v None s
  | Throws e => (s, Throws e)
  | Unmodelled => (s, Unmodelled)
  end.
End EditorOps.

Arguments shapeType_is {num} s ty%_string.

(** What the properties below need of a carrier, beyond its operations. *)
Class JSNumberLaws (num : Type) {N : JSNumber num} : Prop := {
  zero_eq_zero : (#0 === #0)%js = true
}.

Arguments JSNumberLaws num {N}.

#[export] Instance float_laws : JSNumberLaws float.
Proof. constructor. reflexivity. Qed.

#[export] Instance real_laws : JSNumberLaws R.
Proof.
  constructor. cbn. unfold Reqb.
  destruct (Req_dec_T 0 0) as [_ | ne]; [reflexivity | exfalso; apply ne; reflexivity].
Qed.

(** ** The geometry the distance helper is specified against *)

Module Geometry.
Local Open Scope R_scope.

(** Euclidean distance in the pixel plane. *)
Definition euclidean (p q : Point R) : R :=
  R_sqrt.sqrt ((px p - px q) * (px p - px q) + (py p - py q) * (py p - py q)).

(** The parameter of the projection of [p] onto the line through [a] and [b]. *)
Definition projection_parameter (p a b : Point R) : R :=
  ((px p - px a) * (px b - px a) + (py p - py a) * (py b - py a))
  / ((px b - px a) * (px b - px a) + (py b - py a) * (py b - py a)).

(** The parameter clamped to [0, 1]. *)
Definition clamp01 (t : R) : R := Rmax 0 (Rmin 1 t).

(** The point of the line through [a] and [b] at parameter [t]. *)
Definition along (a b : Point R) (t : R) : Point R :=
  mkPoint (px a + t * (px b - px a)) (py a + t * (py b - py a)).

Definition coincide (a b : Point R) : bool :=
  Reqb (px a) (px b) && Reqb (py a) (py b).

(** The point the distance is taken to: the clamped projection, and the
    first endpoint when the endpoints coincide. *)
Definition nearest_on_segment (p a b : Point R) : Point R :=
  if coincide a b then a
  else along a b (clamp01 (projection_parameter p a b)).

(** The distance from [p] to the segment from [a] to [b]. *)
Definition segment_distance (p a b : Point R) : R :=
  euclidean p (nearest_on_segment p a b).
End Geometry.

(** ** A flat test surface

    One pixel per degree, longitude along x and latitude along y, 800 by 600
    pixels. [L.Point.distanceTo] is Leaflet's; the two geodesic operations are
    stood in for by their planar counterparts (the properties below are
    proved for every surface; the worked scenarios compute on this one). *)

Module Flat.
Local Open Scope float_scope.

Definition hypot (dx dy : float) : float := PrimFloat.sqrt (dx * dx + dy * dy).

Definition surface_of (size : Point float) : MapSurface float :=
  mkMapSurface
    (fun ll => mkPoint (lng ll) (lat ll))
    size
    (fun p q => hypot (px q - px p) (py q - py p))
    (fun a b => hypot (lng b - lng a) (lat b - lat a))
    (fun c r _ => mkLatLng (lat c) (lng c + r)).

Definition surface : MapSurface float := surface_of (mkPoint 800 600).

(** A click (or mouse move) at a geographic position of this surface. *)
Definition at_latlng (la ln : float) : MouseEvent float :=
  mkMouseEvent (mkLatLng la ln) (mkPoint ln la).

(** A new editor with the default options. *)
Definition editor : Editor float := initialize None.

(** The handlers on this surface, in the order the events arrive. *)
Definition clicks (es : list (MouseEvent float)) (s : Editor float) : Editor float :=
  fold_left (fun s e => _onMapClick surface e s) es s.

(** [startDrawing('rectangle')], clicks at (10, 10) and (20, 20). *)
Definition rectangle_10_20 : Editor float :=
  clicks [at_latlng 10 10; at_latlng 20 20] (startDrawing "rectangle" editor).

(** [startDrawing('circle')], clicks at (0, 0) and (0, 1). *)
Definition circle_0_1 : Editor float :=
  clicks [at_latlng 0 0; at_latlng 0 1] (startDrawing "circle" editor).

(** [startDrawing('point')], one click. *)
Definition point_5_7 : Editor float :=
  clicks [at_latlng 5 7] (startDrawing "point" editor).

(** [startDrawing('polygon')] and three clicks complete a triangle; a
    fourth click on its first edge inserts a node there. *)
Definition triangle : Editor float :=
  clicks [at_latlng 0 0; at_latlng 0 100; at_latlng 100 100] (startDrawing "polygon" editor).

Definition quadrilateral : Editor float :=
  clicks [at_latlng 0 50] triangle.

(** [startDrawing('line')], three clicks, and a click on the last node to
    finish the line. *)
Definition line3 : Editor float :=
  clicks [at_latlng 0 0; at_latlng 0 100; at_latlng 100 100; at_latlng 100 100]
    (startDrawing "line" editor).

(** [startDrawing('line')], two clicks, and the finishing click. *)
Definition line2 : Editor float :=
  clicks [at_latlng 0 0; at_latlng 0 100; at_latlng 0 100] (startDrawing "line" editor).
End Flat.

(** ** The vocabulary of the specification *)

(** The five shape types of the data model. *)
Inductive ShapeType : Type := TPoint | TLine | TPolygon | TRectangle | TCircle.

(** The value of [shapeType] that stands for each. *)
Definition type_name (ty : ShapeType) : string :=
  match ty with
  | TPoint => "point"
  | TLine => "line"
  | TPolygon => "polygon"
  | TRectangle => "rectangle"
  | TCircle => "circle"
  end.

(** The minimum node count the specification gives each type. *)
Definition minimum_nodes (ty : ShapeType) : nat :=
  match ty with
  | TPoint => 1
  | TLine => 2
  | TPolygon => 3
  | TRectangle => 2
  | TCircle => 2
  end.

Section Vocabulary.
Context {num : Type} `{JSNumber num}.
Variable surface : MapSurface num.
Local Open Scope js_scope.

(** The coordinates of the nodes, in order. *)
Definition coordinates_of (s : Editor num) : list (LatLng num) :=
  map (@node_latlng num) (nodes s).

(** A position an [L.LatLng] object can hold: its constructor refuses NaN,
    so every position Leaflet hands out (of an event, of a marker) is one. *)
Definition is_position (ll : LatLng num) : bool :=
  negb (isNaN (lat ll)) && negb (isNaN (lng ll)).

(** The nodes are at such positions. *)
Definition positioned (s : Editor num) : bool :=
  forallb is_position (coordinates_of s).

(** A completed shape of type [ty]: a shape exists and the node count is the
    one the data model requires of the type. *)
Definition completed (ty : ShapeType) (s : Editor num) : bool :=
  match shape s with
  | None => false
  | Some _ =>
    shapeType_is s (type_name ty)
    && match ty with
       | TPoint => (List.length (nodes s) =? 1)%nat
       | TLine => (2 <=? List.length (nodes s))%nat
       | TPolygon => (3 <=? List.length (nodes s))%nat
       | TRectangle => (List.length (nodes s) =? 2)%nat
       | TCircle => (List.length (nodes s) =? 2)%nat
       end
  end.

(** [drawFromGeoJSON(getGeoJSON())] returns, with the coordinates (in order)
    and the shape type it started from. *)
Definition roundtrip_preserves (s : Editor num) : Prop :=
  snd (roundtrip surface s) = Returns tt
  /\ coordinates_of (fst (roundtrip surface s)) = coordinates_of s
  /\ shapeType (fst (roundtrip surface s)) = shapeType s.

(** The pointer is within the padding of the left (top) edge. *)
Definition near_band (c pad : num) : bool := c <? pad.

(** The pointer is within the padding of the right (bottom) edge. *)
Definition far_band (c size pad : num) : bool := c >? size - pad.

(** The pan on one axis: the right (bottom) band decides where the two
    bands overlap. *)
Definition axis_pan (c size pad speed : num) : num :=
  if far_band c size pad then speed
  else if near_band c pad then - speed
  else #0.

(** The pointer is in none of the four bands. *)
Definition in_no_band (cp : Point num) (s : Editor num) : bool :=
  let pad := autoPanPadding (options s) in
  negb (near_band (px cp) (fst pad) || far_band (px cp) (px (getSize surface)) (fst pad)
        || near_band (py cp) (snd pad) || far_band (py cp) (py (getSize surface)) (snd pad)).

(** The layers of the nodes were handed out by the editor's counter. *)
Definition allocated (s : Editor num) : Prop :=
  forall n, In n (nodes s) -> node_id n < next_id s /\ node_background n < next_id s.

(** The primitive [_updateShape] builds for a type from enough coordinates. *)
Definition built_primitive (ty : ShapeType) (latlngs : list (LatLng num))
    : option (Primitive num) :=
  match ty, latlngs with
  | TLine, _ => Some (Polyline latlngs)
  | TPolygon, l0 :: _ => Some (Polygon (latlngs ++ [l0]))
  | TRectangle, _ => Some (Rectangle latlngs)
  | TCircle, center :: p1 :: _ => Some (Circle center (latlng_distanceTo surface center p1))
  | _, _ => None
  end.
End Vocabulary.

(** ** The values of the worked scenarios *)

Module Expected.
Local Open Scope float_scope.

(** A coordinate pair. *)
Definition pair (a b : float) : JSValue float := JArray [JNumber a; JNumber b].

(** A GeoJSON polygon of one ring. *)
Definition polygon (ring : list (JSValue float)) : GeoJSONValue float :=
  GObject (mkGeoJSON (Some "Polygon"%string) (JArray [JArray ring]) None).

(** The ring of the rectangle scenario as the specification lists it, each
    pair read as [[lng, lat]]. *)
Definition rectangle_ring_listed : list (JSValue float) :=
  [pair 10 10; pair 10 20; pair 20 20; pair 20 10; pair 10 10].

(** The ring [getGeoJSON] builds: corner 0, then corner 1's longitude with
    corner 0's latitude, corner 1, corner 0's longitude with corner 1's
    latitude, corner 0. *)
Definition rectangle_ring : list (JSValue float) :=
  [pair 10 10; pair 20 10; pair 20 20; pair 10 20; pair 10 10].
End Expected.

(** ** The round trip through GeoJSON *)

Section RoundTripVocabulary.
Context {num : Type} `{JSNumber num} `{JSInfinity num}.
Variable surface : MapSurface num.

(** The completed shapes the round trip gives back as they were: a point, a
    rectangle, a polygon of other than four nodes. *)
Definition roundtrip_faithful (s : Editor num) : bool :=
  completed TPoint s
  || completed TRectangle s
  || (completed TPolygon s && negb (List.length (nodes s) =? 4)%nat).

(** A completed polygon of four nodes: its ring has five positions. *)
Definition polygon_of_four (s : Editor num) : bool :=
  completed TPolygon s && (List.length (nodes s) =? 4)%nat.

(** The round trip returns a rectangle on nodes 0 and 2. *)
Definition reimported_as_rectangle (s : Editor num) : Prop :=
  snd (roundtrip surface s) = Returns tt
  /\ shapeType (fst (roundtrip surface s)) = Some "rectangle"%string
  /\ coordinates_of (fst (roundtrip surface s))
     = match coordinates_of s with
       | [a; _; c; _] => [a; c]
       | _ => []
       end.
End RoundTripVocabulary.

(** ** The two conditions of the insertion path, as the specification has them *)

Section InsertionVocabulary.
Context {num : Type} `{JSNumber num} `{JSInfinity num}.
Variable surface : MapSurface num.
Local Open Scope js_scope.

(** The candidate segments the specification lists, in pixels: the
    consecutive node pairs, with the pair from the last node back to the
    first for a polygon only. *)
Definition listed_segments (s : Editor num) : list (Point num * Point num) :=
  let points := map (node_point surface) (nodes s) in
  combine points (tl points)
  ++ (if shapeType_is s "polygon"
      then match points with
           | first :: _ => [(last points first, first)]
           | [] => []
           end
      else []).

(** The distance of a click from each of them. *)
Definition distances_to_segments (click : Point num) (s : Editor num) : list num :=
  map (fun ab => _pointToLineDistance click (fst ab) (snd ab)) (listed_segments s).

(** The distance of a click from each node. *)
Definition distances_to_nodes (click : Point num) (s : Editor num) : list num :=
  map (fun node => point_distanceTo surface click (node_point surface node)) (nodes s).
End InsertionVocabulary.

(** ** More values of the worked scenarios *)

Module Imports.
(** An object whose [type] is the empty string. *)
Definition empty_type : GeoJSONValue float :=
  GObject (mkGeoJSON (Some ""%string) JUndefined None).

(** An object of a type the import does not know. *)
Definition multipolygon : GeoJSON float :=
  mkGeoJSON (Some "MultiPolygon"%string) (JArray []) None.
End Imports.

(** ** The layers a rebuild keeps *)

Section RebuildVocabulary.
Context {num : Type}.

(** The layers [_updateShape] leaves on the map before it draws: all but the
    previous shape's, unless the shape is the first node. *)
Definition kept_layers (s : Editor num) : list nat :=
  match shape s with
  | Some sh =>
      if is_first_node sh (nodes s) then map_layers s
      else filter (fun l => negb (Nat.eqb l (shape_id sh))) (map_layers s)
  | None => map_layers s
  end.
End RebuildVocabulary.

(** The node of the point scenario, the node inserted into the
    quadrilateral, and the first node of the triangle. *)
Module Nodes.
Local Open Scope float_scope.

Definition of_point : Node float := mkNode 1 (mkLatLng 5 7) 0.

Definition inserted : Node float := mkNode 8 (mkLatLng 0 50) 7.

Definition first_of_triangle : Node float := mkNode 1 (mkLatLng 0 0) 0.
End Nodes.

(** [allocated], decided. *)
Definition allocatedb {num : Type} (s : Editor num) : bool :=
  forallb (fun n => (node_id n <? next_id s)%nat && (node_background n <? next_id s)%nat)
          (nodes s).

(** ** Node lists *)

Section NodeLists.
Context {num : Type}.

(** Identities below [k], no two nodes alike. *)
Definition distinct (k : nat) (l : list (Node num)) : Prop :=
  (forall n, In n l -> node_id n < k /\ node_background n < k)
  /\ NoDup (map (@node_id num) l).
End NodeLists.

(** ** Dragging a node *)

Section NodeDragging.
Context {num : Type} `{JSNumber num} `{JSInfinity num}.
Variable surface : MapSurface num.

(** [map.containerPointToLatLng], as the map stands when the handler runs. *)
Variable containerPointToLatLng : Point num -> LatLng num.

(** [node.setLatLng(newPos)]: the node is the object the node list holds,
    so its entry there (found by identity) takes the new position; its white
    background follows it and has no entry of its own. *)
Definition setLatLng (node : Node num) (newPos : LatLng num) (s : Editor num) : Editor num :=
  set_nodes
    (map (fun n => if Nat.eqb (node_id n) (node_id node)
                   then mkNode (node_id n) newPos (node_background n)
                   else n)
         (nodes s))
    s.

(** [onMouseDown] of [_createNode]: the map's own dragging is disabled (the
    handler also raises the node's [isDragging] flag and registers the two
    listeners below; its notification is not logged). *)
Definition node_onMouseDown (s : Editor num) : Editor num :=
  set_map_dragging false s.

(** [onMouseMove] of [_createNode], given the node's [isDragging] flag. *)
Definition node_onMouseMove (isDragging : bool) (node : Node num) (e : MouseEvent num)
    (s : Editor num) : Editor num :=
  if negb isDragging then s
  else
    let newPos := containerPointToLatLng (ev_containerPoint e) in
    let s := setLatLng node newPos s in
    _updateShape surface s.

(** [onMouseUp] of [_createNode]. *)
Definition node_onMouseUp (s : Editor num) : Editor num :=
  set_map_dragging true s.
End NodeDragging.

(** ** Sessions: every way the editor is driven *)

Section Sessions.
Context {num : Type} `{JSNumber num} `{JSInfinity num}.

(** The calls and events an editor receives. The handlers of a node may run
    for any node value (a superset of the nodes the editor created), and a
    drag move with the node's flag raised or not. *)
Inductive Action : Type :=
| CallStartDrawing (type : string)
| CallClear
| CallDrawFromGeoJSON (geojson : GeoJSONValue num) (opts : option (OptionsPatch num))
| MapClick (e : MouseEvent num)
| MapMouseMove (e : MouseEvent num)
| NodeContextMenu (node : Node num)
| NodeMouseDown
| NodeMouseMove (isDragging : bool) (node : Node num) (e : MouseEvent num)
| NodeMouseUp.

(** One action, on the map surface as it stands when it happens. A call of
    [drawFromGeoJSON] that throws leaves the editor as it was when it threw. *)
Definition step (surface : MapSurface num) (toLatLng : Point num -> LatLng num)
    (a : Action) (s : Editor num) : Editor num :=
  match a with
  | CallStartDrawing type => startDrawing type s
  | CallClear => clear s
  | CallDrawFromGeoJSON geojson opts => fst (drawFromGeoJSON surface geojson opts s)
  | MapClick e => _onMapClick surface e s
  | MapMouseMove e => _onMouseMove surface e s
  | NodeContextMenu node => node_contextmenu surface node s
  | NodeMouseDown => node_onMouseDown s
  | NodeMouseMove isDragging node e => node_onMouseMove surface toLatLng isDragging node e s
  | NodeMouseUp => node_onMouseUp s
  end.

(** The editors a session can reach from a new one. *)
Inductive reachable : Editor num -> Prop :=
| reachable_new (opts : option (OptionsPatch num)) : reachable (initialize opts)
| reachable_step (surface : MapSurface num) (toLatLng : Point num -> LatLng num)
    (a : Action) (s : Editor num) :
    reachable s -> reachable (step surface toLatLng a s).

(** Every identity the node list uses was handed out by the counter, and no
    two nodes share one. *)
Definition distinct_nodes (s : Editor num) : Prop :=
  allocated s /\ NoDup (map (@node_id num) (nodes s)).

(** The flag and the state agree when the state is "drawing". *)
Definition drawing_state_flagged (s : Editor num) : Prop :=
  state s = Drawing -> isDrawing s = true.

(** No preview line outside drawing, nor for a point. *)
Definition preview_only_while_drawing (s : Editor num) : Prop :=
  isDrawing s = false \/ shapeType_is s "point" = true -> tempLine s = None.

(** A shape drawn as a layer of its own is the primitive of the current
    type built from the current coordinates, with the radius of a circle the
    distance [surface] measures from its centre to its second node. *)
Definition shape_follows_nodes (surface : MapSurface num) (s : Editor num) : Prop :=
  forall id p, shape s = Some (ShapeLayer id p) ->
    exists ty,
      ty <> TPoint
      /\ shapeType s = Some (type_name ty)
      /\ minimum_nodes ty <= List.length (nodes s)
      /\ built_primitive surface ty (coordinates_of s) = Some p.

(** A view of the map measures the distance between two positions as
    [surface] does: [L.LatLng.distanceTo] is the distance on the globe, the
    same however the map is panned, zoomed or resized. *)
Definition same_measure (surface view : MapSurface num) : Prop :=
  forall a b, latlng_distanceTo view a b = latlng_distanceTo surface a b.

(** The editors a session can reach from a new one, on views of the map
    that measure distances as [surface] does. *)
Inductive reachable_on (surface : MapSurface num) : Editor num -> Prop :=
| reachable_on_new (opts : option (OptionsPatch num)) :
    reachable_on surface (initialize opts)
| reachable_on_step (view : MapSurface num) (toLatLng : Point num -> LatLng num)
    (a : Action) (s : Editor num) :
    same_measure surface view -> reachable_on surface s ->
    reachable_on surface (step view toLatLng a s).
End Sessions.

(** ** The vocabulary of the properties of sessions *)

Section SessionVocabulary.
Context {num : Type} `{JSNumber num} `{JSInfinity num}.

(** *** What a handler leaves alone *)

(** The fields the properties of a session read. *)
Definition same_session_fields (s s' : Editor num) : Prop :=
  nodes s' = nodes s /\ shape s' = shape s /\ shapeType s' = shapeType s
  /\ isDrawing s' = isDrawing s /\ state s' = state s.

(** The editor right after the [clear()] an import starts with, and after
    the assignments that precede the creation of nodes. *)
Definition cleared (s x : Editor num) : Prop :=
  nodes x = [] /\ shape x = None /\ isDrawing x = true /\ state x = Idle
  /\ tempLine x = None /\ next_id x = next_id s.

(** A layer shape has a type that builds one and enough nodes for it. *)
Definition shape_has_nodes (s : Editor num) : Prop :=
  forall id p, shape s = Some (ShapeLayer id p) ->
    exists ty, ty <> TPoint /\ shapeType s = Some (type_name ty)
               /\ minimum_nodes ty <= List.length (nodes s).

(** *** Runs of clicks, and GeoJSON values *)

(** A run of map clicks, in the order they arrive. *)
Definition click_all (surface : MapSurface num) (es : list (MouseEvent num))
    (s : Editor num) : Editor num :=
  fold_left (fun s e => _onMapClick surface e s) es s.

(** A GeoJSON position, [[lng, lat]]. *)
Definition position (ll : LatLng num) : JSValue num :=
  JArray [JNumber (lng ll); JNumber (lat ll)].

(** A GeoJSON object of one of the three types an import reads. *)
Definition geojson_point (ll : LatLng num) (radius : option num) : GeoJSONValue num :=
  GObject (mkGeoJSON (Some "Point"%string) (position ll) radius).

Definition geojson_linestring (cs : list (LatLng num)) : GeoJSONValue num :=
  GObject (mkGeoJSON (Some "LineString"%string) (JArray (map position cs)) None).

Definition geojson_polygon (ring : list (LatLng num)) : GeoJSONValue num :=
  GObject (mkGeoJSON (Some "Polygon"%string) (JArray [JArray (map position ring)]) None).

(** The shape type is none of the five the editor draws. *)
Definition unknown_type (s : Editor num) : Prop :=
  forall ty, shapeType s <> Some (type_name ty).

(** *** The layers of the figure *)

(** The layers of the figure: the shape's, the preview line's, and each
    node's with its background. *)
Definition figure_layers (s : Editor num) : list nat :=
  match shape s with Some sh => [shape_id sh] | None => [] end
  ++ match tempLine s with Some (id, _) => [id] | None => [] end
  ++ flat_map (fun n => [node_id n; node_background n]) (nodes s).

(** *** The map's dragging switch and the options *)

(** A run of actions on one surface. *)
Definition run (surface : MapSurface num) (toLatLng : Point num -> LatLng num)
    (actions : list Action) (s : Editor num) : Editor num :=
  fold_left (fun s a => step surface toLatLng a s) actions s.

(** The options after an import: the ones given are merged in once the
    object is seen to have a type. *)
Definition imported_options (geojson : GeoJSONValue num) (opts : option (OptionsPatch num))
    (o : Options num) : Options num :=
  match geojson, opts with
  | GObject g, Some p =>
      match g_type g with
      | Some ty => if String.eqb ty "" then o else setOptions o p
      | None => o
      end
  | _, _ => o
  end.

(** The map's dragging switch and the options are as they were. *)
Definition same_switches (s s' : Editor num) : Prop :=
  map_dragging s' = map_dragging s /\ options s' = options s.

(** *** The notifications *)

(** The state the last [statechange] notification carried, if there was one. *)
Definition last_statechange (evs : list (Event num)) : option EditorState :=
  fold_left (fun last ev => match ev with
                            | statechange st => Some st
                            | _ => last
                            end) evs None.

(** A listener that follows the [statechange] notifications knows the state
    of the editor: the last notification carries it, and before the first
    one the state is ["idle"]. *)
Definition state_announced (s : Editor num) : Prop :=
  state s = match last_statechange (fired s) with
            | Some st => st
            | None => Idle
            end.

(** Neither the state nor what was last announced changed. *)
Definition quiet (s s' : Editor num) : Prop :=
  state s' = state s /\ last_statechange (fired s') = last_statechange (fired s).

(** *** The order of the layers *)

(** The layers of a list of nodes: each node's and its background's. *)
Definition node_layers (ns : list (Node num)) : list nat :=
  flat_map (fun n => [node_id n; node_background n]) ns.

(** The events of a node reach a node that is on the map, which is a node
    of the figure: the secondary action is taken on one of the nodes. *)
Definition delivered (a : @Action num) (s : Editor num) : Prop :=
  match a with
  | NodeContextMenu node => In node (nodes s)
  | _ => True
  end.

(** The editors a session reaches when the events of the nodes are
    delivered to nodes of the figure. *)
Inductive displayed_session : Editor num -> Prop :=
| displayed_new (opts : option (OptionsPatch num)) : displayed_session (initialize opts)
| displayed_step (surface : MapSurface num) (toLatLng : Point num -> LatLng num)
    (a : Action) (s : Editor num) :
    displayed_session s -> delivered a s ->
    displayed_session (step surface toLatLng a s).

(** The shape, when there is one, is a layer apart from the nodes', or the
    node of a point: the first node, or a node that was removed. *)
Definition shape_apart (s : Editor num) : Prop :=
  match shape s with
  | Some (ShapeLayer id _) => id < next_id s /\ ~ In id (node_layers (nodes s))
  | Some (ShapeIsNode id) =>
      id < next_id s /\ shapeType_is s "point" = true
      /\ (is_first_node (ShapeIsNode id) (nodes s) = true
          \/ ~ In id (node_layers (nodes s)))
  | None => True
  end.

(** The preview line is a layer apart from the nodes'. *)
Definition preview_apart (s : Editor num) : Prop :=
  forall id ls, tempLine s = Some (id, ls) ->
    id < next_id s /\ ~ In id (node_layers (nodes s)).

(** The layers are in order: the nodes and their backgrounds are pairwise
    different layers, all on the map; the shape and the preview line are
    apart from them; and the map shows no layer that is not of the figure. *)
Definition layers_in_order (s : Editor num) : Prop :=
  NoDup (node_layers (nodes s))
  /\ (forall l, In l (node_layers (nodes s)) -> l < next_id s /\ In l (map_layers s))
  /\ shape_apart s
  /\ preview_apart s
  /\ (forall l, In l (map_layers s) -> In l (figure_layers s)).

(** A point that has no shape yet has no node. *)
Definition point_not_started (s : Editor num) : Prop :=
  shape s = None -> shapeType_is s "point" = true -> nodes s = [].

(** The six fields the order of the layers reads. *)
Definition same_layer_fields (s s' : Editor num) : Prop :=
  nodes s' = nodes s /\ shape s' = shape s /\ tempLine s' = tempLine s
  /\ map_layers s' = map_layers s /\ next_id s' = next_id s
  /\ shapeType s' = shapeType s.

(** The editor [_updateShape] works on once the old shape is off the map. *)
Definition without_old_shape (x : Editor num) : Editor num :=
  match shape x with
  | Some sh => if is_first_node sh (nodes x) then x else removeLayer (shape_id sh) x
  | None => x
  end.

(** The shape that is a layer of its own and the preview line are on the
    map, and they are different layers. *)
Definition shown (s : Editor num) : Prop :=
  (forall id p, shape s = Some (ShapeLayer id p) -> In id (map_layers s))
  /\ (forall id ls, tempLine s = Some (id, ls) -> In id (map_layers s))
  /\ (forall sh id ls, shape s = Some sh -> tempLine s = Some (id, ls) -> shape_id sh <> id).

(** What every handler keeps of the layers and the shape. *)
Definition well_kept (s : Editor num) : Prop :=
  (layers_in_order s /\ point_not_started s) /\ shape_has_nodes s /\ shown s.

(** *** The pans of the map *)

(** The map was not panned in between. *)
Definition same_pans (s s' : Editor num) : Prop := map_panned s' = map_panned s.

(** *** The positions Leaflet brings *)

(** The positions an action brings are [L.LatLng] objects, which hold no
    NaN: the position of a click, the position the map gives for the pointer
    of a drag, and the point [destinationPoint] returns to the import of an
    object with a radius, for the centre [L.latLng] built. *)
Definition brings_positions (surface : MapSurface num) (toLatLng : Point num -> LatLng num)
    (a : @Action num) : Prop :=
  match a with
  | MapClick e => is_position (ev_latlng e) = true
  | NodeMouseMove _ _ e => is_position (toLatLng (ev_containerPoint e)) = true
  | CallDrawFromGeoJSON (GObject g) _ =>
      forall center radius,
        g_radius g = Some radius -> is_position center = true ->
        is_position (destinationPoint surface center radius (num_of_Z 90)) = true
  | _ => True
  end.

(** The editors a session reaches when Leaflet brings such positions. *)
Inductive leaflet_session : Editor num -> Prop :=
| leaflet_new (opts : option (OptionsPatch num)) : leaflet_session (initialize opts)
| leaflet_step (surface : MapSurface num) (toLatLng : Point num -> LatLng num)
    (a : Action) (s : Editor num) :
    leaflet_session s -> brings_positions surface toLatLng a ->
    leaflet_session (step surface toLatLng a s).
End SessionVocabulary.
(** * Properties *)

Unset Implicit Arguments.

(** ** Comparisons on the reals *)

Lemma Rltb_true (x y : R) : Rltb x y = true <-> (x < y)%R.
Proof. unfold Rltb. destruct (Rlt_dec x y); split; intros; try easy. Qed.

Lemma Rltb_false (x y : R) : Rltb x y = false <-> (y <= x)%R.
Proof. unfold Rltb. destruct (Rlt_dec x y); split; intros; try easy; lra. Qed.

Lemma Rleb_true (x y : R) : Rleb x y = true <-> (x <= y)%R.
Proof. unfold Rleb. destruct (Rle_dec x y); split; intros; try easy. Qed.

Lemma Rleb_false (x y : R) : Rleb x y = false <-> (y < x)%R.
Proof. unfold Rleb. destruct (Rle_dec x y); split; intros; try easy; lra. Qed.

Lemma Reqb_true (x y : R) : Reqb x y = true <-> x = y.
Proof. unfold Reqb. destruct (Req_dec_T x y); split; intros; try easy. Qed.

Lemma Reqb_false (x y : R) : Reqb x y = false <-> x <> y.
Proof. unfold Reqb. destruct (Req_dec_T x y); split; intros; try easy. Qed.

(** ** The distance helper *)

Section DistanceOnReals.
Import Geometry.
Local Open Scope R_scope.

Lemma sum_squares_zero (c d : R) : c * c + d * d = 0 -> c = 0 /\ d = 0.
Proof. intros E. split; nra. Qed.

(** On the reals the helper computes the distance to the clamped projection. *)
Lemma pointToLineDistance_real (p a b : Point R) :
  _pointToLineDistance p a b = segment_distance p a b.
Proof.
  destruct p as [x y], a as [x1 y1], b as [x2 y2].
  unfold _pointToLineDistance, segment_distance, nearest_on_segment, coincide,
    euclidean, projection_parameter, along, clamp01.
  cbn [px py num_sub num_add num_mul num_div num_lt num_eq num_sqrt num_of_Z
       real_number negb].
  set (C := x2 - x1). set (D := y2 - y1).
  set (L := C * C + D * D).
  set (dot := (x - x1) * C + (y - y1) * D).
  destruct (Reqb L 0) eqn:EL; cbn [negb].
  - apply Reqb_true in EL. apply sum_squares_zero in EL as [EC ED].
    assert (Ex : Reqb x1 x2 = true) by (apply Reqb_true; unfold C in EC; lra).
    assert (Ey : Reqb y1 y2 = true) by (apply Reqb_true; unfold D in ED; lra).
    rewrite Ex, Ey. cbn [andb].
    assert (Hn : Rltb (-1) 0 = true) by (apply Rltb_true; lra).
    rewrite Hn. reflexivity.
  - apply Reqb_false in EL.
    assert (Hc : (Reqb x1 x2 && Reqb y1 y2)%bool = false).
    { destruct (Reqb x1 x2) eqn:Ex; [|reflexivity].
      destruct (Reqb y1 y2) eqn:Ey; [|reflexivity].
      apply Reqb_true in Ex, Ey. exfalso. apply EL. unfold L, C, D. subst. ring. }
    rewrite Hc. cbn [px py].
    destruct (Rltb (dot / L) 0) eqn:E0.
    + apply Rltb_true in E0.
      rewrite (Rmin_right 1 (dot / L)) by lra.
      rewrite (Rmax_left 0 (dot / L)) by lra.
      apply (f_equal R_sqrt.sqrt). ring.
    + apply Rltb_false in E0.
      destruct (Rltb 1 (dot / L)) eqn:E1.
      * apply Rltb_true in E1.
        rewrite (Rmin_left 1 (dot / L)) by lra.
        rewrite (Rmax_right 0 1) by lra.
        apply (f_equal R_sqrt.sqrt). unfold C, D. ring.
      * apply Rltb_false in E1.
        rewrite (Rmin_right 1 (dot / L)) by lra.
        rewrite (Rmax_right 0 (dot / L)) by lra.
        reflexivity.
Qed.

(** With coincident endpoints the nearest point is the first endpoint. *)
Lemma nearest_on_point (p a : Point R) : nearest_on_segment p a a = a.
Proof.
  unfold nearest_on_segment, coincide.
  assert (Ex : Reqb (px a) (px a) = true) by (apply Reqb_true; reflexivity).
  assert (Ey : Reqb (py a) (py a) = true) by (apply Reqb_true; reflexivity).
  rewrite Ex, Ey. reflexivity.
Qed.

(** The clamped projection is the nearest point of the segment: no point
    of the segment is closer to [p]. *)
Lemma segment_distance_least (p a b : Point R) (t : R) :
  0 <= t <= 1 -> segment_distance p a b <= euclidean p (along a b t).
Proof.
  intros Ht. unfold segment_distance, euclidean.
  apply sqrt_le_1_alt.
  destruct p as [x y], a as [x1 y1], b as [x2 y2].
  unfold nearest_on_segment, coincide, along, projection_parameter, clamp01.
  cbn [px py].
  set (C := x2 - x1). set (D := y2 - y1).
  set (L := C * C + D * D).
  set (dot := (x - x1) * C + (y - y1) * D).
  destruct (Reqb x1 x2 && Reqb y1 y2)%bool eqn:Hc.
  - apply andb_prop in Hc as [Ex Ey]. apply Reqb_true in Ex, Ey.
    cbn [px py]. unfold C, D. subst.
    replace (x2 + t * (x2 - x2)) with x2 by ring.
    replace (y2 + t * (y2 - y2)) with y2 by ring. lra.
  - cbn [px py].
    assert (HL : 0 < L).
    { assert (L <> 0).
      { intros E. apply sum_squares_zero in E as [EC ED].
        assert (Ex : Reqb x1 x2 = true) by (apply Reqb_true; unfold C in EC; lra).
        assert (Ey : Reqb y1 y2 = true) by (apply Reqb_true; unfold D in ED; lra).
        rewrite Ex, Ey in Hc. discriminate. }
      unfold L in *. nra. }
    set (u := Rmax 0 (Rmin 1 (dot / L))).
    assert (Hd : dot = (dot / L) * L) by (field; lra).
    set (q := dot / L) in *.
    assert (key : (t - u) * ((t + u) * L - 2 * dot) >= 0).
    { rewrite Hd. unfold u. destruct (Rle_dec q 0) as [Hle|Hgt].
      - rewrite (Rmin_right 1 q) by lra. rewrite (Rmax_left 0 q) by lra.
        assert (0 <= t * L) by nra.
        assert (0 <= t * L * t) by nra.
        assert (0 <= t * L * (- q)) by nra.
        nra.
      - destruct (Rle_dec 1 q) as [H1|H1].
        + rewrite (Rmin_left 1 q) by lra. rewrite (Rmax_right 0 1) by lra.
          assert (0 <= (1 - t) * L) by nra.
          assert (0 <= (1 - t) * L * (q - 1)) by nra.
          assert (0 <= (1 - t) * L * (1 - t)) by nra.
          nra.
        + rewrite (Rmin_right 1 q) by lra. rewrite (Rmax_right 0 q) by lra.
          replace ((t - q) * ((t + q) * L - 2 * (q * L)))
            with ((t - q) * (t - q) * L) by ring.
          pose proof (Rle_0_sqr (t - q)) as Hsq. unfold Rsqr in Hsq.
          apply Rle_ge. apply Rmult_le_pos; lra. }
    clearbody u. clear Hd. clearbody q.
    unfold L in key. unfold dot in key. nra.
Qed.

Lemma sqrt_25 : R_sqrt.sqrt 25 = 5.
Proof. replace 25 with (5 * 5) by ring. apply sqrt_square. lra. Qed.
End DistanceOnReals.

(** C8, amended. In exact arithmetic (over the reals), for every point and
    segment, [_pointToLineDistance] returns the Euclidean distance from the
    point to its projection onto the line through the endpoints, clamped to
    the segment (an endpoint when the parameter falls outside [0, 1]); with
    coincident endpoints it returns the distance to the first endpoint. The
    two worked cases (point (0,5), then point (-5,0), against the segment
    (0,0)-(10,0)) give 5 in binary64 as over the reals. *)
Theorem pointToLineDistance_spec :
  (forall p a b : Point R,
      _pointToLineDistance p a b = Geometry.segment_distance p a b)
  /\ (forall p a : Point R, _pointToLineDistance p a a = Geometry.euclidean p a)
  /\ (_pointToLineDistance (mkPoint 0 5) (mkPoint 0 0) (mkPoint 10 0) = 5)%float
  /\ (_pointToLineDistance (mkPoint (-5) 0) (mkPoint 0 0) (mkPoint 10 0) = 5)%float
  /\ (_pointToLineDistance (mkPoint 0 5) (mkPoint 0 0) (mkPoint 10 0) = 5)%R
  /\ (_pointToLineDistance (mkPoint (-5) 0) (mkPoint 0 0) (mkPoint 10 0) = 5)%R.
Proof.
  split; [exact pointToLineDistance_real|].
  split.
  { intros p a. rewrite pointToLineDistance_real.
    unfold Geometry.segment_distance. rewrite nearest_on_point. reflexivity. }
  split; [vm_compute; reflexivity|].
  split; [vm_compute; reflexivity|].
  split.
  - rewrite pointToLineDistance_real.
    unfold Geometry.segment_distance, Geometry.nearest_on_segment, Geometry.coincide.
    cbn [px py].
    assert (E : Reqb 0 10 = false) by (apply Reqb_false; lra).
    rewrite E. cbn [andb].
    unfold Geometry.projection_parameter, Geometry.along, Geometry.euclidean. cbn [px py].
    replace (((0 - 0) * (10 - 0) + (5 - 0) * (0 - 0)) / ((10 - 0) * (10 - 0) + (0 - 0) * (0 - 0)))%R
      with 0%R by (field; lra).
    unfold Geometry.clamp01.
    rewrite (Rmin_right 1 0) by lra. rewrite (Rmax_left 0 0) by lra.
    transitivity (R_sqrt.sqrt 25); [apply (f_equal R_sqrt.sqrt); ring | apply sqrt_25].
  - rewrite pointToLineDistance_real.
    unfold Geometry.segment_distance, Geometry.nearest_on_segment, Geometry.coincide.
    cbn [px py].
    assert (E : Reqb 0 10 = false) by (apply Reqb_false; lra).
    rewrite E. cbn [andb].
    unfold Geometry.projection_parameter, Geometry.along, Geometry.euclidean. cbn [px py].
    replace (((-5 - 0) * (10 - 0) + (0 - 0) * (0 - 0)) / ((10 - 0) * (10 - 0) + (0 - 0) * (0 - 0)))%R
      with (- (1 / 2))%R by (field; lra).
    unfold Geometry.clamp01.
    rewrite (Rmin_right 1 (- (1 / 2))) by lra. rewrite (Rmax_left 0 (- (1 / 2))) by lra.
    transitivity (R_sqrt.sqrt 25); [apply (f_equal R_sqrt.sqrt); ring | apply sqrt_25].
Qed.

Lemma sqrt_100 : R_sqrt.sqrt 100 = 10%R.
Proof. replace 100%R with (10 * 10)%R by ring. apply sqrt_square. lra. Qed.

(** C8, as stated for every point and segment, fails in binary64, where the
    helper rounds: the point (53, 54) is at distance 10 from the segment
    (0,0)-(78,104) (its projection is (45, 60), inside the segment), and the
    helper returns 10.000000000000002, the next number above 10. *)
Lemma pointToLineDistance_rounds :
  (Geometry.segment_distance (mkPoint 53 54) (mkPoint 0 0) (mkPoint 78 104) = 10)%R
  /\ (_pointToLineDistance (mkPoint 53 54) (mkPoint 0 0) (mkPoint 78 104)
      = 0x1.4000000000001p+3)%float
  /\ (_pointToLineDistance (mkPoint 53 54) (mkPoint 0 0) (mkPoint 78 104) <> 10)%float.
Proof.
  split; [|split].
  - unfold Geometry.segment_distance, Geometry.nearest_on_segment, Geometry.coincide.
    cbn [px py].
    assert (E : Reqb 0 78 = false) by (apply Reqb_false; lra).
    rewrite E. cbn [andb].
    unfold Geometry.projection_parameter, Geometry.along, Geometry.euclidean. cbn [px py].
    replace (((53 - 0) * (78 - 0) + (54 - 0) * (104 - 0))
             / ((78 - 0) * (78 - 0) + (104 - 0) * (104 - 0)))%R
      with (15 / 26)%R by (field; lra).
    unfold Geometry.clamp01.
    rewrite (Rmin_right 1 (15 / 26)) by lra. rewrite (Rmax_right 0 (15 / 26)) by lra.
    transitivity (R_sqrt.sqrt 100); [apply (f_equal R_sqrt.sqrt); field | apply sqrt_100].
  - vm_compute. reflexivity.
  - intros E.
    assert (B : PrimFloat.eqb
                  (_pointToLineDistance (mkPoint 53 54) (mkPoint 0 0) (mkPoint 78 104))%float
                  10%float = false) by (vm_compute; reflexivity).
    rewrite E in B. vm_compute in B. discriminate B.
Qed.

(** ** Reading a field after an update

    One equation per field and update, each by computation on a variable
    editor; the proofs below rewrite with them. *)

Section Fields.
Context {num : Type}.
Implicit Types (s : Editor num) (ev : Event num) (id : nat).

Lemma shape_set_options v s : shape (set_options v s) = shape s. Proof. reflexivity. Qed.
Lemma shape_set_shape v s : shape (set_shape v s) = v. Proof. reflexivity. Qed.
Lemma shape_set_nodes v s : shape (set_nodes v s) = shape s. Proof. reflexivity. Qed.
Lemma shape_set_isDrawing v s : shape (set_isDrawing v s) = shape s. Proof. reflexivity. Qed.
Lemma shape_set_shapeType v s : shape (set_shapeType v s) = shape s. Proof. reflexivity. Qed.
Lemma shape_set_tempLine v s : shape (set_tempLine v s) = shape s. Proof. reflexivity. Qed.
Lemma shape_set_state v s : shape (set_state v s) = shape s. Proof. reflexivity. Qed.
Lemma shape_set_map_layers v s : shape (set_map_layers v s) = shape s. Proof. reflexivity. Qed.
Lemma shape_set_map_dragging v s : shape (set_map_dragging v s) = shape s. Proof. reflexivity. Qed.
Lemma shape_set_map_panned v s : shape (set_map_panned v s) = shape s. Proof. reflexivity. Qed.
Lemma shape_set_next_id v s : shape (set_next_id v s) = shape s. Proof. reflexivity. Qed.
Lemma shape_set_fired v s : shape (set_fired v s) = shape s. Proof. reflexivity. Qed.
Lemma shape_fire ev s : shape (fire ev s) = shape s. Proof. reflexivity. Qed.
Lemma shape_removeLayer id s : shape (removeLayer id s) = shape s. Proof. reflexivity. Qed.

Lemma nodes_set_options v s : nodes (set_options v s) = nodes s. Proof. reflexivity. Qed.
Lemma nodes_set_shape v s : nodes (set_shape v s) = nodes s. Proof. reflexivity. Qed.
Lemma nodes_set_nodes v s : nodes (set_nodes v s) = v. Proof. reflexivity. Qed.
Lemma nodes_set_isDrawing v s : nodes (set_isDrawing v s) = nodes s. Proof. reflexivity. Qed.
Lemma nodes_set_shapeType v s : nodes (set_shapeType v s) = nodes s. Proof. reflexivity. Qed.
Lemma nodes_set_tempLine v s : nodes (set_tempLine v s) = nodes s. Proof. reflexivity. Qed.
Lemma nodes_set_state v s : nodes (set_state v s) = nodes s. Proof. reflexivity. Qed.
Lemma nodes_set_map_layers v s : nodes (set_map_layers v s) = nodes s. Proof. reflexivity. Qed.
Lemma nodes_set_map_dragging v s : nodes (set_map_dragging v s) = nodes s. Proof. reflexivity. Qed.
Lemma nodes_set_map_panned v s : nodes (set_map_panned v s) = nodes s. Proof. reflexivity. Qed.
Lemma nodes_set_next_id v s : nodes (set_next_id v s) = nodes s. Proof. reflexivity. Qed.
Lemma nodes_set_fired v s : nodes (set_fired v s) = nodes s. Proof. reflexivity. Qed.
Lemma nodes_fire ev s : nodes (fire ev s) = nodes s. Proof. reflexivity. Qed.
Lemma nodes_removeLayer id s : nodes (removeLayer id s) = nodes s. Proof. reflexivity. Qed.

Lemma isDrawing_set_options v s : isDrawing (set_options v s) = isDrawing s. Proof. reflexivity. Qed.
Lemma isDrawing_set_shape v s : isDrawing (set_shape v s) = isDrawing s. Proof. reflexivity. Qed.
Lemma isDrawing_set_nodes v s : isDrawing (set_nodes v s) = isDrawing s. Proof. reflexivity. Qed.
Lemma isDrawing_set_isDrawing v s : isDrawing (set_isDrawing v s) = v. Proof. reflexivity. Qed.
Lemma isDrawing_set_shapeType v s : isDrawing (set_shapeType v s) = isDrawing s. Proof. reflexivity. Qed.
Lemma isDrawing_set_tempLine v s : isDrawing (set_tempLine v s) = isDrawing s. Proof. reflexivity. Qed.
Lemma isDrawing_set_state v s : isDrawing (set_state v s) = isDrawing s. Proof. reflexivity. Qed.
Lemma isDrawing_set_map_layers v s : isDrawing (set_map_layers v s) = isDrawing s. Proof. reflexivity. Qed.
Lemma isDrawing_set_map_dragging v s : isDrawing (set_map_dragging v s) = isDrawing s. Proof. reflexivity. Qed.
Lemma isDrawing_set_map_panned v s : isDrawing (set_map_panned v s) = isDrawing s. Proof. reflexivity. Qed.
Lemma isDrawing_set_next_id v s : isDrawing (set_next_id v s) = isDrawing s. Proof. reflexivity. Qed.
Lemma isDrawing_set_fired v s : isDrawing (set_fired v s) = isDrawing s. Proof. reflexivity. Qed.
Lemma isDrawing_fire ev s : isDrawing (fire ev s) = isDrawing s. Proof. reflexivity. Qed.
Lemma isDrawing_removeLayer id s : isDrawing (removeLayer id s) = isDrawing s. Proof. reflexivity. Qed.

Lemma shapeType_set_options v s : shapeType (set_options v s) = shapeType s. Proof. reflexivity. Qed.
Lemma shapeType_set_shape v s : shapeType (set_shape v s) = shapeType s. Proof. reflexivity. Qed.
Lemma shapeType_set_nodes v s : shapeType (set_nodes v s) = shapeType s. Proof. reflexivity. Qed.
Lemma shapeType_set_isDrawing v s : shapeType (set_isDrawing v s) = shapeType s. Proof. reflexivity. Qed.
Lemma shapeType_set_shapeType v s : shapeType (set_shapeType v s) = v. Proof. reflexivity. Qed.
Lemma shapeType_set_tempLine v s : shapeType (set_tempLine v s) = shapeType s. Proof. reflexivity. Qed.
Lemma shapeType_set_state v s : shapeType (set_state v s) = shapeType s. Proof. reflexivity. Qed.
Lemma shapeType_set_map_layers v s : shapeType (set_map_layers v s) = shapeType s. Proof. reflexivity. Qed.
Lemma shapeType_set_map_dragging v s : shapeType (set_map_dragging v s) = shapeType s. Proof. reflexivity. Qed.
Lemma shapeType_set_map_panned v s : shapeType (set_map_panned v s) = shapeType s. Proof. reflexivity. Qed.
Lemma shapeType_set_next_id v s : shapeType (set_next_id v s) = shapeType s. Proof. reflexivity. Qed.
Lemma shapeType_set_fired v s : shapeType (set_fired v s) = shapeType s. Proof. reflexivity. Qed.
Lemma shapeType_fire ev s : shapeType (fire ev s) = shapeType s. Proof. reflexivity. Qed.
Lemma shapeType_removeLayer id s : shapeType (removeLayer id s) = shapeType s. Proof. reflexivity. Qed.

Lemma tempLine_set_options v s : tempLine (set_options v s) = tempLine s. Proof. reflexivity. Qed.
Lemma tempLine_set_shape v s : tempLine (set_shape v s) = tempLine s. Proof. reflexivity. Qed.
Lemma tempLine_set_nodes v s : tempLine (set_nodes v s) = tempLine s. Proof. reflexivity. Qed.
Lemma tempLine_set_isDrawing v s : tempLine (set_isDrawing v s) = tempLine s. Proof. reflexivity. Qed.
Lemma tempLine_set_shapeType v s : tempLine (set_shapeType v s) = tempLine s. Proof. reflexivity. Qed.
Lemma tempLine_set_tempLine v s : tempLine (set_tempLine v s) = v. Proof. reflexivity. Qed.
Lemma tempLine_set_state v s : tempLine (set_state v s) = tempLine s. Proof. reflexivity. Qed.
Lemma tempLine_set_map_layers v s : tempLine (set_map_layers v s) = tempLine s. Proof. reflexivity. Qed.
Lemma tempLine_set_map_dragging v s : tempLine (set_map_dragging v s) = tempLine s. Proof. reflexivity. Qed.
Lemma tempLine_set_map_panned v s : tempLine (set_map_panned v s) = tempLine s. Proof. reflexivity. Qed.
Lemma tempLine_set_next_id v s : tempLine (set_next_id v s) = tempLine s. Proof. reflexivity. Qed.
Lemma tempLine_set_fired v s : tempLine (set_fired v s) = tempLine s. Proof. reflexivity. Qed.
Lemma tempLine_fire ev s : tempLine (fire ev s) = tempLine s. Proof. reflexivity. Qed.
Lemma tempLine_removeLayer id s : tempLine (removeLayer id s) = tempLine s. Proof. reflexivity. Qed.

Lemma map_layers_set_options v s : map_layers (set_options v s) = map_layers s. Proof. reflexivity. Qed.
Lemma map_layers_set_shape v s : map_layers (set_shape v s) = map_layers s. Proof. reflexivity. Qed.
Lemma map_layers_set_nodes v s : map_layers (set_nodes v s) = map_layers s. Proof. reflexivity. Qed.
Lemma map_layers_set_isDrawing v s : map_layers (set_isDrawing v s) = map_layers s. Proof. reflexivity. Qed.
Lemma map_layers_set_shapeType v s : map_layers (set_shapeType v s) = map_layers s. Proof. reflexivity. Qed.
Lemma map_layers_set_tempLine v s : map_layers (set_tempLine v s) = map_layers s. Proof. reflexivity. Qed.
Lemma map_layers_set_state v s : map_layers (set_state v s) = map_layers s. Proof. reflexivity. Qed.
Lemma map_layers_set_map_layers v s : map_layers (set_map_layers v s) = v. Proof. reflexivity. Qed.
Lemma map_layers_set_map_dragging v s : map_layers (set_map_dragging v s) = map_layers s. Proof. reflexivity. Qed.
Lemma map_layers_set_map_panned v s : map_layers (set_map_panned v s) = map_layers s. Proof. reflexivity. Qed.
Lemma map_layers_set_next_id v s : map_layers (set_next_id v s) = map_layers s. Proof. reflexivity. Qed.
Lemma map_layers_set_fired v s : map_layers (set_fired v s) = map_layers s. Proof. reflexivity. Qed.
Lemma map_layers_fire ev s : map_layers (fire ev s) = map_layers s. Proof. reflexivity. Qed.
Lemma map_layers_removeLayer id s : map_layers (removeLayer id s) = filter (fun l => negb (Nat.eqb l id)) (map_layers s). Proof. reflexivity. Qed.

Lemma next_id_set_options v s : next_id (set_options v s) = next_id s. Proof. reflexivity. Qed.
Lemma next_id_set_shape v s : next_id (set_shape v s) = next_id s. Proof. reflexivity. Qed.
Lemma next_id_set_nodes v s : next_id (set_nodes v s) = next_id s. Proof. reflexivity. Qed.
Lemma next_id_set_isDrawing v s : next_id (set_isDrawing v s) = next_id s. Proof. reflexivity. Qed.
Lemma next_id_set_shapeType v s : next_id (set_shapeType v s) = next_id s. Proof. reflexivity. Qed.
Lemma next_id_set_tempLine v s : next_id (set_tempLine v s) = next_id s. Proof. reflexivity. Qed.
Lemma next_id_set_state v s : next_id (set_state v s) = next_id s. Proof. reflexivity. Qed.
Lemma next_id_set_map_layers v s : next_id (set_map_layers v s) = next_id s. Proof. reflexivity. Qed.
Lemma next_id_set_map_dragging v s : next_id (set_map_dragging v s) = next_id s. Proof. reflexivity. Qed.
Lemma next_id_set_map_panned v s : next_id (set_map_panned v s) = next_id s. Proof. reflexivity. Qed.
Lemma next_id_set_next_id v s : next_id (set_next_id v s) = v. Proof. reflexivity. Qed.
Lemma next_id_set_fired v s : next_id (set_fired v s) = next_id s. Proof. reflexivity. Qed.
Lemma next_id_fire ev s : next_id (fire ev s) = next_id s. Proof. reflexivity. Qed.
Lemma next_id_removeLayer id s : next_id (removeLayer id s) = next_id s. Proof. reflexivity. Qed.

Lemma state_set_options v s : state (set_options v s) = state s. Proof. reflexivity. Qed.
Lemma state_set_shape v s : state (set_shape v s) = state s. Proof. reflexivity. Qed.
Lemma state_set_nodes v s : state (set_nodes v s) = state s. Proof. reflexivity. Qed.
Lemma state_set_isDrawing v s : state (set_isDrawing v s) = state s. Proof. reflexivity. Qed.
Lemma state_set_shapeType v s : state (set_shapeType v s) = state s. Proof. reflexivity. Qed.
Lemma state_set_tempLine v s : state (set_tempLine v s) = state s. Proof. reflexivity. Qed.
Lemma state_set_state v s : state (set_state v s) = v. Proof. reflexivity. Qed.
Lemma state_set_map_layers v s : state (set_map_layers v s) = state s. Proof. reflexivity. Qed.
Lemma state_set_map_dragging v s : state (set_map_dragging v s) = state s. Proof. reflexivity. Qed.
Lemma state_set_map_panned v s : state (set_map_panned v s) = state s. Proof. reflexivity. Qed.
Lemma state_set_next_id v s : state (set_next_id v s) = state s. Proof. reflexivity. Qed.
Lemma state_set_fired v s : state (set_fired v s) = state s. Proof. reflexivity. Qed.
Lemma state_fire ev s : state (fire ev s) = state s. Proof. reflexivity. Qed.
Lemma state_removeLayer id s : state (removeLayer id s) = state s. Proof. reflexivity. Qed.

Lemma map_dragging_set_options v s : map_dragging (set_options v s) = map_dragging s. Proof. reflexivity. Qed.
Lemma map_dragging_set_shape v s : map_dragging (set_shape v s) = map_dragging s. Proof. reflexivity. Qed.
Lemma map_dragging_set_nodes v s : map_dragging (set_nodes v s) = map_dragging s. Proof. reflexivity. Qed.
Lemma map_dragging_set_isDrawing v s : map_dragging (set_isDrawing v s) = map_dragging s. Proof. reflexivity. Qed.
Lemma map_dragging_set_shapeType v s : map_dragging (set_shapeType v s) = map_dragging s. Proof. reflexivity. Qed.
Lemma map_dragging_set_tempLine v s : map_dragging (set_tempLine v s) = map_dragging s. Proof. reflexivity. Qed.
Lemma map_dragging_set_state v s : map_dragging (set_state v s) = map_dragging s. Proof. reflexivity. Qed.
Lemma map_dragging_set_map_layers v s : map_dragging (set_map_layers v s) = map_dragging s. Proof. reflexivity. Qed.
Lemma map_dragging_set_map_dragging v s : map_dragging (set_map_dragging v s) = v. Proof. reflexivity. Qed.
Lemma map_dragging_set_map_panned v s : map_dragging (set_map_panned v s) = map_dragging s. Proof. reflexivity. Qed.
Lemma map_dragging_set_next_id v s : map_dragging (set_next_id v s) = map_dragging s. Proof. reflexivity. Qed.
Lemma map_dragging_set_fired v s : map_dragging (set_fired v s) = map_dragging s. Proof. reflexivity. Qed.
Lemma map_dragging_fire ev s : map_dragging (fire ev s) = map_dragging s. Proof. reflexivity. Qed.
Lemma map_dragging_removeLayer id s : map_dragging (removeLayer id s) = map_dragging s. Proof. reflexivity. Qed.

End Fields.

Create Rewrite HintDb editor_fields.

#[export] Hint Rewrite
  @shape_set_options @shape_set_shape @shape_set_nodes @shape_set_isDrawing
  @shape_set_shapeType @shape_set_tempLine @shape_set_state @shape_set_map_layers
  @shape_set_map_dragging @shape_set_map_panned @shape_set_next_id @shape_set_fired
  @shape_fire @shape_removeLayer @nodes_set_options @nodes_set_shape @nodes_set_nodes
  @nodes_set_isDrawing @nodes_set_shapeType @nodes_set_tempLine @nodes_set_state
  @nodes_set_map_layers @nodes_set_map_dragging @nodes_set_map_panned @nodes_set_next_id
  @nodes_set_fired @nodes_fire @nodes_removeLayer @isDrawing_set_options
  @isDrawing_set_shape @isDrawing_set_nodes @isDrawing_set_isDrawing
  @isDrawing_set_shapeType @isDrawing_set_tempLine @isDrawing_set_state
  @isDrawing_set_map_layers @isDrawing_set_map_dragging @isDrawing_set_map_panned
  @isDrawing_set_next_id @isDrawing_set_fired @isDrawing_fire @isDrawing_removeLayer
  @shapeType_set_options @shapeType_set_shape @shapeType_set_nodes
  @shapeType_set_isDrawing @shapeType_set_shapeType @shapeType_set_tempLine
  @shapeType_set_state @shapeType_set_map_layers @shapeType_set_map_dragging
  @shapeType_set_map_panned @shapeType_set_next_id @shapeType_set_fired @shapeType_fire
  @shapeType_removeLayer @tempLine_set_options @tempLine_set_shape @tempLine_set_nodes
  @tempLine_set_isDrawing @tempLine_set_shapeType @tempLine_set_tempLine
  @tempLine_set_state @tempLine_set_map_layers @tempLine_set_map_dragging
  @tempLine_set_map_panned @tempLine_set_next_id @tempLine_set_fired @tempLine_fire
  @tempLine_removeLayer @map_layers_set_options @map_layers_set_shape
  @map_layers_set_nodes @map_layers_set_isDrawing @map_layers_set_shapeType
  @map_layers_set_tempLine @map_layers_set_state @map_layers_set_map_layers
  @map_layers_set_map_dragging @map_layers_set_map_panned @map_layers_set_next_id
  @map_layers_set_fired @map_layers_fire @map_layers_removeLayer @next_id_set_options
  @next_id_set_shape @next_id_set_nodes @next_id_set_isDrawing @next_id_set_shapeType
  @next_id_set_tempLine @next_id_set_state @next_id_set_map_layers
  @next_id_set_map_dragging @next_id_set_map_panned @next_id_set_next_id
  @next_id_set_fired @next_id_fire @next_id_removeLayer
  @state_set_options @state_set_shape @state_set_nodes @state_set_isDrawing @state_set_shapeType @state_set_tempLine @state_set_state
  @state_set_map_layers @state_set_map_dragging @state_set_map_panned @state_set_next_id @state_set_fired @state_fire @state_removeLayer
  @map_dragging_set_options @map_dragging_set_shape @map_dragging_set_nodes @map_dragging_set_isDrawing @map_dragging_set_shapeType @map_dragging_set_tempLine @map_dragging_set_state
  @map_dragging_set_map_layers @map_dragging_set_map_dragging @map_dragging_set_map_panned @map_dragging_set_next_id @map_dragging_set_fired @map_dragging_fire @map_dragging_removeLayer
  : editor_fields.

(** ** What the operations leave alone *)

Section Frames.
Context {num : Type} `{JSNumber num} `{JSInfinity num}.
Variable surface : MapSurface num.

(** Removing the layers of a list of nodes touches the map's layers only. *)
Lemma remove_nodes_frame (l : list (Node num)) (s : Editor num) :
  let s' := fold_left
              (fun s node => removeLayer (node_background node) (removeLayer (node_id node) s))
              l s in
  options s' = options s /\ shapeType s' = shapeType s /\ next_id s' = next_id s
  /\ fired s' = fired s /\ tempLine s' = tempLine s /\ map_dragging s' = map_dragging s
  /\ map_panned s' = map_panned s.
Proof.
  revert s. induction l as [|n l IH]; intros s; cbn.
  - repeat split.
  - specialize (IH (removeLayer (node_background n) (removeLayer (node_id n) s))).
    cbn in IH. exact IH.
Qed.

Lemma clear_shape (s : Editor num) : shape (clear s) = None.
Proof. reflexivity. Qed.

Lemma clear_nodes (s : Editor num) : nodes (clear s) = [].
Proof. reflexivity. Qed.

Lemma clear_isDrawing (s : Editor num) : isDrawing (clear s) = true.
Proof. reflexivity. Qed.

Lemma clear_state (s : Editor num) : state (clear s) = Idle.
Proof. reflexivity. Qed.

Lemma clear_frame (s : Editor num) :
  options (clear s) = options s /\ shapeType (clear s) = shapeType s
  /\ next_id (clear s) = next_id s /\ tempLine (clear s) = None
  /\ map_dragging (clear s) = map_dragging s /\ map_panned (clear s) = map_panned s.
Proof.
  unfold clear.
  destruct (shape s) as [sh|]; destruct (tempLine s) as [[t ls]|] eqn:Et;
    cbn; rewrite ?Et; cbn;
    match goal with |- context [fold_left ?f ?l ?s0] =>
      destruct (remove_nodes_frame l s0) as (E1 & E2 & E3 & _ & E5 & E6 & E7) end;
    cbn in *; rewrite E1, E2, E3, E5, E6, E7; repeat split; assumption.
Qed.

Lemma clear_shapeType (s : Editor num) : shapeType (clear s) = shapeType s.
Proof. apply clear_frame. Qed.

Lemma clear_next_id (s : Editor num) : next_id (clear s) = next_id s.
Proof. apply clear_frame. Qed.

Lemma updateShape_nodes (s : Editor num) : nodes (_updateShape surface s) = nodes s.
Proof.
  unfold _updateShape.
  repeat match goal with
  | |- context [match ?x with _ => _ end] => destruct x; cbn
  end; reflexivity.
Qed.

Lemma updateShape_shapeType (s : Editor num) :
  shapeType (_updateShape surface s) = shapeType s.
Proof.
  unfold _updateShape.
  repeat match goal with
  | |- context [match ?x with _ => _ end] => destruct x; cbn
  end; reflexivity.
Qed.

Lemma finish_drawing_nodes (s : Editor num) : nodes (finish_drawing s) = nodes s.
Proof. unfold finish_drawing. cbn. destruct (tempLine s) as [[t ls]|]; reflexivity. Qed.

(** The node [_createNode] makes, and the editor it leaves. *)
Lemma createNode_node (latlng : LatLng num) (s : Editor num) :
  fst (_createNode latlng s) = mkNode (S (next_id s)) latlng (next_id s).
Proof. reflexivity. Qed.

Lemma createNode_nodes (latlng : LatLng num) (s : Editor num) :
  nodes (snd (_createNode latlng s)) = nodes s.
Proof. reflexivity. Qed.

Lemma createNode_shapeType (latlng : LatLng num) (s : Editor num) :
  shapeType (snd (_createNode latlng s)) = shapeType s.
Proof. reflexivity. Qed.

Lemma createNode_next_id (latlng : LatLng num) (s : Editor num) :
  next_id (snd (_createNode latlng s)) = S (S (next_id s)).
Proof. reflexivity. Qed.

(** The three branches of the click handler that create a node, on the
    node list. *)
Lemma place_point_nodes (e : MouseEvent num) (s : Editor num) :
  nodes (place_point e s) = nodes s ++ [fst (_createNode (ev_latlng e) s)].
Proof. reflexivity. Qed.

Lemma append_node_nodes (e : MouseEvent num) (s : Editor num) :
  nodes (append_node surface e s) = nodes s ++ [fst (_createNode (ev_latlng e) s)].
Proof.
  unfold append_node.
  rewrite (surjective_pairing (_createNode (ev_latlng e) s)).
  set (node := fst (_createNode (ev_latlng e) s)).
  pose proof (createNode_nodes (ev_latlng e) s) as En.
  set (s1 := snd (_createNode (ev_latlng e) s)) in *. clearbody s1 node.
  match goal with |- context [if ?b then _ else _] => destruct b end;
    rewrite ?finish_drawing_nodes, nodes_fire, updateShape_nodes, nodes_set_nodes, En;
    reflexivity.
Qed.

Lemma insert_node_nodes (insertIdx : Z) (e : MouseEvent num) (s : Editor num) :
  nodes (insert_node surface insertIdx e s)
  = splice_insert insertIdx (fst (_createNode (ev_latlng e) s)) (nodes s).
Proof.
  unfold insert_node.
  rewrite (surjective_pairing (_createNode (ev_latlng e) s)).
  set (node := fst (_createNode (ev_latlng e) s)).
  pose proof (createNode_nodes (ev_latlng e) s) as En.
  set (s1 := snd (_createNode (ev_latlng e) s)) in *. clearbody s1 node.
  rewrite nodes_fire, updateShape_nodes, nodes_set_nodes, En. reflexivity.
Qed.
End Frames.

(** ** [clear] and the clicks after it *)

Section AfterClear.
Context {num : Type} `{JSNumber num} `{JSInfinity num}.
Variable surface : MapSurface num.

(** While drawing, the insertion path does not apply and the click goes to
    the rest of the handler. *)
Lemma onMapClick_while_drawing (e : MouseEvent num) (s : Editor num) :
  isDrawing s = true ->
  _onMapClick surface e s
  = if shapeType_is s "point" && (match shape s with None => true | Some _ => false end)
    then place_point e s
    else if closes_line surface e s then finish_drawing s
    else append_node surface e s.
Proof.
  intros Hd. unfold _onMapClick, idle_insertion, insertion_applies. rewrite Hd.
  reflexivity.
Qed.

Lemma closes_line_no_nodes (e : MouseEvent num) (s : Editor num) :
  nodes s = [] -> closes_line surface e s = false.
Proof.
  intros En. unfold closes_line. rewrite En.
  destruct (shapeType_is s "line"); reflexivity.
Qed.

(** C3 (the code departs from it). [clear()] empties the editor and sets
    [state] to idle, but it sets [isDrawing] to true: the click that follows,
    whatever the editor was and wherever the click is, goes through the
    drawing path and creates a node. *)
Theorem clear_then_click_adds_node (e : MouseEvent num) (s : Editor num) :
  state (clear s) = Idle /\ shape (clear s) = None /\ nodes (clear s) = []
  /\ isDrawing (clear s) = true
  /\ List.length (nodes (_onMapClick surface e (clear s))) = 1.
Proof.
  split; [apply clear_state|]. split; [apply clear_shape|].
  split; [apply clear_nodes|]. split; [apply clear_isDrawing|].
  pose proof (clear_nodes s) as En. pose proof (clear_isDrawing s) as Ed.
  set (c := clear s) in *. clearbody c.
  rewrite (onMapClick_while_drawing e c Ed).
  destruct (shapeType_is c "point" && _).
  - rewrite place_point_nodes, En. reflexivity.
  - rewrite (closes_line_no_nodes e c En), append_node_nodes, En. reflexivity.
Qed.
End AfterClear.

(** The same on a new editor: [clear()], one click at (10, 10), one node. *)
Example clear_then_click_on_new_editor :
  coordinates_of (Flat.clicks [Flat.at_latlng 10 10] (clear Flat.editor))
  = [mkLatLng 10%float 10%float].
Proof. vm_compute. reflexivity. Qed.

(** ** The export of a circle *)

Section CircleExport.
Context {num : Type} `{JSNumber num}.

(** C2 (the code departs from it). For a completed circle [getGeoJSON] does
    not return: the radius is asked of [coordinates[0]], a plain array of two
    numbers, which has no [distanceTo], and the call throws a TypeError. *)
Theorem getGeoJSON_circle_throws (s : Editor num) :
  completed TCircle s = true -> getGeoJSON s = Throws TypeError.
Proof.
  unfold completed, getGeoJSON, shapeType_is. intros Hc.
  destruct (shape s) as [sh|]; [|discriminate].
  apply andb_prop in Hc as [Ht Hn].
  destruct (shapeType s) as [t|]; [|discriminate].
  apply String.eqb_eq in Ht. subst t. cbn.
  rewrite length_map, Hn.
  destruct (nodes s) as [|n0 [|n1 [|]]]; try discriminate. reflexivity.
Qed.
End CircleExport.

(** [startDrawing('circle')], centre (0, 0), second node (0, 1): completed,
    and [getGeoJSON()] throws. *)
Lemma getGeoJSON_circle_throws_witness :
  completed TCircle Flat.circle_0_1 = true
  /\ getGeoJSON Flat.circle_0_1 = Throws TypeError.
Proof.
  split; [vm_compute; reflexivity|].
  apply (getGeoJSON_circle_throws Flat.circle_0_1). vm_compute. reflexivity.
Defined.

(** ** The rectangle scenario *)

(** C4, as stated, fails: the ring is not the listed sequence read as
    [[lng, lat]] pairs (its second pair is [[20, 10]], not [[10, 20]]). *)
Lemma rectangle_ring_not_as_listed :
  getGeoJSON Flat.rectangle_10_20
  <> Returns (Expected.polygon Expected.rectangle_ring_listed).
Proof.
  assert (A : getGeoJSON Flat.rectangle_10_20
              = Returns (Expected.polygon Expected.rectangle_ring))
    by (vm_compute; reflexivity).
  rewrite A. intros E.
  apply (f_equal (fun c =>
           match c with
           | Returns (GObject g) =>
               match g_coordinates g with
               | JArray [JArray (_ :: JArray (JNumber x :: _) :: _)] => PrimFloat.eqb x 20
               | _ => false
               end
           | _ => false
           end)) in E.
  vm_compute in E. discriminate E.
Qed.

(** C4, amended. After [startDrawing('rectangle')] and clicks at (lat 10,
    lng 10) and (lat 20, lng 20) the editor is idle, and [getGeoJSON] returns
    a Polygon whose single ring is, in [[lng, lat]] order, [10,10], [20,10],
    [20,20], [10,20], [10,10]. *)
Theorem rectangle_scenario :
  state Flat.rectangle_10_20 = Idle
  /\ isDrawing Flat.rectangle_10_20 = false
  /\ getGeoJSON Flat.rectangle_10_20 = Returns (Expected.polygon Expected.rectangle_ring).
Proof. repeat split; vm_compute; reflexivity. Qed.

(** ** Auto-pan *)

Section AutoPan.
Context {num : Type} `{JSNumber num} `{!JSNumberLaws num}.
Variable surface : MapSurface num.
Local Open Scope js_scope.

(** C9, amended. On each axis, independently, [_autoPan] pans by [+speed]
    when the pointer is within the padding of the right (bottom) edge, by
    [-speed] when it is within the padding of the left (top) edge and not of
    the right (bottom) one, and by nothing otherwise; it calls [panBy] with
    the two amounts unless both are zero, and not at all when the pointer is
    in no band. *)
Theorem autoPan_by_bands (cp : Point num) (s : Editor num) :
  let pad := autoPanPadding (options s) in
  let speed := autoPanSpeed (options s) in
  let x := axis_pan (px cp) (px (getSize surface)) (fst pad) speed in
  let y := axis_pan (py cp) (py (getSize surface)) (snd pad) speed in
  autoPan_offset surface cp s = (x, y)
  /\ _autoPan surface cp s =
       (if in_no_band surface cp s then s
        else if (x !== #0) || (y !== #0) then panBy (x, y) s else s).
Proof.
  cbv zeta.
  assert (E : autoPan_offset surface cp s =
    (axis_pan (px cp) (px (getSize surface)) (fst (autoPanPadding (options s)))
       (autoPanSpeed (options s)),
     axis_pan (py cp) (py (getSize surface)) (snd (autoPanPadding (options s)))
       (autoPanSpeed (options s)))).
  { unfold autoPan_offset, axis_pan, near_band, far_band.
    destruct (px cp <? _), (_ <? px cp), (py cp <? _), (_ <? py cp); reflexivity. }
  split; [exact E|].
  unfold _autoPan. rewrite E.
  unfold in_no_band, axis_pan.
  destruct (near_band (px cp) _), (far_band (px cp) _ _),
           (near_band (py cp) _), (far_band (py cp) _ _);
    cbn [negb orb]; try reflexivity.
  rewrite zero_eq_zero. reflexivity.
Qed.
End AutoPan.

(** C9, as stated, fails where the bands overlap: in a viewport 60 pixels
    wide with the default padding of 50, a pointer at x = 30 is within the
    padding of the left edge, and the map is panned by [+10], not [-10]. *)
Lemma autoPan_right_band_wins :
  let narrow := Flat.surface_of (mkPoint 60 600)%float in
  let pointer := (mkPoint 30 300)%float in
  near_band (px pointer) (fst (autoPanPadding (options Flat.editor))) = true
  /\ autoPan_offset narrow pointer Flat.editor = (10, 0)%float
  /\ map_panned (_autoPan narrow pointer Flat.editor) = [(10, 0)%float]
  /\ fst (autoPan_offset narrow pointer Flat.editor)
     <> (- autoPanSpeed (options Flat.editor))%js.
Proof.
  cbv zeta.
  assert (A : autoPan_offset (Flat.surface_of (mkPoint 60 600)%float) (mkPoint 30 300)%float
                Flat.editor = (10, 0)%float) by (vm_compute; reflexivity).
  split; [vm_compute; reflexivity|]. split; [exact A|].
  split; [vm_compute; reflexivity|].
  rewrite A.
  assert (B : (- autoPanSpeed (options Flat.editor))%js = (-10)%float)
    by (vm_compute; reflexivity).
  rewrite B. cbn [fst]. intros E.
  apply (f_equal (fun x => PrimFloat.eqb x 10)) in E.
  vm_compute in E. discriminate E.
Qed.

(** The same pointer and viewport, through the theorem: the offsets are
    (10, 0) and [panBy] is called with them. *)
Lemma autoPan_by_bands_witness :
  autoPan_offset (Flat.surface_of (mkPoint 60 600)%float) (mkPoint 30 300)%float Flat.editor
  = (10, 0)%float
  /\ _autoPan (Flat.surface_of (mkPoint 60 600)%float) (mkPoint 30 300)%float Flat.editor
     = panBy (10, 0)%float Flat.editor.
Proof.
  destruct (autoPan_by_bands (Flat.surface_of (mkPoint 60 600)%float)
              (mkPoint 30 300)%float Flat.editor) as [A B].
  split.
  - rewrite A. vm_compute. reflexivity.
  - rewrite B. vm_compute. reflexivity.
Defined.

(** ** The GeoJSON codec *)

Section Codec.
Context {num : Type} `{JSNumber num} `{JSInfinity num}.
Variable surface : MapSurface num.

Lemma latlng_eta (ll : LatLng num) : mkLatLng (lat ll) (lng ll) = ll.
Proof. destruct ll; reflexivity. Qed.

(** [L.latLng] on the two components of a position gives the position. *)
Lemma L_latLng_numbers (la ln : num) :
  is_position (mkLatLng la ln) = true ->
  L_latLng (JNumber la) (JNumber ln) = Returns (mkLatLng la ln).
Proof.
  unfold is_position, L_latLng. cbn [lat lng]. intros V.
  apply andb_prop in V as [V1 V2]. apply negb_true_iff in V1, V2.
  rewrite V1, V2. reflexivity.
Qed.

(** [L.latLng] throws when a component is NaN. *)
Lemma L_latLng_NaN (la ln : num) :
  is_position (mkLatLng la ln) = false ->
  L_latLng (JNumber la) (JNumber ln) = Throws InvalidLatLng.
Proof.
  unfold is_position, L_latLng. cbn [lat lng]. intros V.
  destruct (isNaN la); [reflexivity|]. destruct (isNaN ln); [reflexivity|].
  discriminate V.
Qed.

Lemma coord_latLng_coordinate_of (n : Node num) :
  is_position (node_latlng n) = true ->
  coord_latLng (coordinate_of n) = Returns (node_latlng n).
Proof.
  intros V. unfold coord_latLng, coordinate_of. cbn [js_index nth bind].
  rewrite <- (latlng_eta (node_latlng n)) in V.
  rewrite (L_latLng_numbers _ _ V). rewrite latlng_eta. reflexivity.
Qed.

Lemma mapM_coordinates (ns : list (Node num)) :
  forallb is_position (map (@node_latlng num) ns) = true ->
  mapM coord_latLng (map (@coordinate_of num) ns) = Returns (map (@node_latlng num) ns).
Proof.
  induction ns as [|n ns IH]; cbn [map mapM forallb]; [reflexivity|].
  intros V. apply andb_prop in V as [V1 V2].
  rewrite (coord_latLng_coordinate_of n V1). cbn [bind]. rewrite (IH V2). reflexivity.
Qed.

Lemma create_nodes_frame (cs : list (LatLng num)) (s : Editor num) :
  coordinates_of (create_nodes cs s) = coordinates_of s ++ cs
  /\ shapeType (create_nodes cs s) = shapeType s
  /\ next_id (create_nodes cs s) = next_id s + 2 * List.length cs.
Proof.
  revert s. induction cs as [|c cs IH]; intros s.
  - cbn. rewrite app_nil_r. repeat split. lia.
  - unfold create_nodes in *. cbn [fold_left].
    match goal with |- context [fold_left ?f cs ?s0] =>
      destruct (IH s0) as (E1 & E2 & E3) end.
    rewrite E1, E2, E3. unfold coordinates_of. cbn.
    rewrite map_app, <- app_assoc. cbn. repeat split. lia.
Qed.

(** The node list and the shape type after an import that resolved [cs]. *)
Lemma imported_frame (cs : list (LatLng num)) (s0 : Editor num) :
  nodes s0 = [] ->
  coordinates_of (_updateShape surface (create_nodes cs s0)) = cs
  /\ shapeType (_updateShape surface (create_nodes cs s0)) = shapeType s0.
Proof.
  intros En. unfold coordinates_of. rewrite updateShape_nodes, updateShape_shapeType.
  destruct (create_nodes_frame cs s0) as (E1 & E2 & _).
  unfold coordinates_of in E1. rewrite E1, E2, En. split; reflexivity.
Qed.

Lemma drawFromGeoJSON_point (c0 c1 : num) (s : Editor num) :
  is_position (mkLatLng c1 c0) = true ->
  drawFromGeoJSON surface
    (GObject (mkGeoJSON (Some "Point"%string) (JArray [JNumber c0; JNumber c1]) None)) None s
  = (_updateShape surface
       (create_nodes [mkLatLng c1 c0] (set_shapeType (Some "point"%string) (clear s))),
     Returns tt).
Proof.
  intros V. unfold drawFromGeoJSON, import_switch.
  cbn [g_type g_coordinates g_radius String.eqb Ascii.eqb Bool.eqb js_index nth toLowerCase
       bind andb].
  rewrite (L_latLng_numbers _ _ V). reflexivity.
Qed.

Lemma drawFromGeoJSON_polygon (ring : list (JSValue num)) (cs : list (LatLng num))
    (s : Editor num) :
  List.length ring <> 5 ->
  mapM coord_latLng (removelast ring) = Returns cs ->
  drawFromGeoJSON surface
    (GObject (mkGeoJSON (Some "Polygon"%string) (JArray [JArray ring]) None)) None s
  = (_updateShape surface
       (create_nodes cs (set_shapeType (Some "polygon"%string) (clear s))),
     Returns tt).
Proof.
  intros Hn Hm. unfold drawFromGeoJSON, import_switch.
  cbn [g_type g_coordinates g_radius String.eqb Ascii.eqb Bool.eqb js_index nth toLowerCase].
  apply Nat.eqb_neq in Hn. rewrite Hn. rewrite Hm. reflexivity.
Qed.

Lemma drawFromGeoJSON_rectangle (r0 r1 r2 r3 r4 : JSValue num) (a b : LatLng num)
    (s : Editor num) :
  coord_latLng r0 = Returns a -> coord_latLng r2 = Returns b ->
  drawFromGeoJSON surface
    (GObject (mkGeoJSON (Some "Polygon"%string) (JArray [JArray [r0; r1; r2; r3; r4]]) None))
    None s
  = (_updateShape surface
       (create_nodes [a; b]
          (set_shapeType (Some "rectangle"%string)
             (set_shapeType (Some "polygon"%string) (clear s)))),
     Returns tt).
Proof.
  intros Ha Hb. unfold drawFromGeoJSON, import_switch.
  cbn [g_type g_coordinates g_radius String.eqb Ascii.eqb Bool.eqb js_index nth toLowerCase
       List.length Nat.eqb js_nth].
  rewrite Ha, Hb. reflexivity.
Qed.

Lemma drawFromGeoJSON_linestring (items : list (JSValue num)) (cs : list (LatLng num))
    (s : Editor num) :
  mapM coord_latLng items = Returns cs ->
  drawFromGeoJSON surface
    (GObject (mkGeoJSON (Some "LineString"%string) (JArray items) None)) None s
  = (_updateShape surface
       (create_nodes cs (set_shapeType (Some "linestring"%string) (clear s))),
     Returns tt).
Proof.
  intros Hm. unfold drawFromGeoJSON, import_switch.
  cbn [g_type g_coordinates g_radius String.eqb Ascii.eqb Bool.eqb js_index nth toLowerCase].
  rewrite Hm. reflexivity.
Qed.

Lemma drawFromGeoJSON_linestring_throws (items : list (JSValue num)) (e : JSError)
    (s : Editor num) :
  mapM coord_latLng items = Throws e ->
  drawFromGeoJSON surface
    (GObject (mkGeoJSON (Some "LineString"%string) (JArray items) None)) None s
  = (set_shapeType (Some "linestring"%string) (clear s), Throws e).
Proof.
  intros Hm. unfold drawFromGeoJSON, import_switch.
  cbn [g_type g_coordinates g_radius String.eqb Ascii.eqb Bool.eqb js_index nth toLowerCase].
  rewrite Hm. reflexivity.
Qed.

Lemma shapeType_is_true (s : Editor num) (t : string) :
  shapeType_is s t = true -> shapeType s = Some t.
Proof.
  unfold shapeType_is. destruct (shapeType s) as [t'|]; [|discriminate].
  intros E. apply String.eqb_eq in E. subst. reflexivity.
Qed.

Lemma completed_inv (ty : ShapeType) (s : Editor num) :
  completed ty s = true ->
  shape s <> None /\ shapeType s = Some (type_name ty).
Proof.
  unfold completed. destruct (shape s); [|discriminate].
  intros E. apply andb_prop in E as [E _]. apply shapeType_is_true in E.
  split; [discriminate | exact E].
Qed.

Lemma getGeoJSON_point (s : Editor num) (n0 : Node num) :
  shape s <> None -> shapeType s = Some "point"%string -> nodes s = [n0] ->
  getGeoJSON s = Returns (GObject (mkGeoJSON (Some "Point"%string)
    (JArray [JNumber (lng (node_latlng n0)); JNumber (lat (node_latlng n0))]) None)).
Proof.
  intros Hs Ht En. unfold getGeoJSON, shapeType_is.
  destruct (shape s); [|contradiction]. rewrite Ht, En. cbn. reflexivity.
Qed.

Lemma getGeoJSON_rectangle (s : Editor num) (n0 n1 : Node num) :
  shape s <> None -> shapeType s = Some "rectangle"%string -> nodes s = [n0; n1] ->
  getGeoJSON s = Returns (GObject (mkGeoJSON (Some "Polygon"%string)
    (JArray [JArray [coordinate_of n0;
                     JArray [JNumber (lng (node_latlng n1)); JNumber (lat (node_latlng n0))];
                     coordinate_of n1;
                     JArray [JNumber (lng (node_latlng n0)); JNumber (lat (node_latlng n1))];
                     coordinate_of n0]]) None)).
Proof.
  intros Hs Ht En. unfold getGeoJSON, shapeType_is.
  destruct (shape s); [|contradiction]. rewrite Ht, En. cbn. reflexivity.
Qed.

Lemma positioned_nodes (s : Editor num) (n : Node num) :
  positioned s = true -> In n (nodes s) -> is_position (node_latlng n) = true.
Proof.
  unfold positioned, coordinates_of. intros V Hin.
  rewrite forallb_forall in V. apply V. apply in_map. exact Hin.
Qed.

Lemma roundtrip_point (s : Editor num) :
  completed TPoint s = true -> positioned s = true -> roundtrip_preserves surface s.
Proof.
  intros Hc Hv. destruct (completed_inv _ _ Hc) as [Hs Ht].
  unfold completed in Hc. destruct (shape s) as [sh|] eqn:Es; [|discriminate].
  apply andb_prop in Hc as [_ Hn]. apply Nat.eqb_eq in Hn.
  destruct (nodes s) as [|n0 [|]] eqn:En; try discriminate.
  assert (R : roundtrip surface s =
    (_updateShape surface
       (create_nodes [node_latlng n0] (set_shapeType (Some "point"%string) (clear s))),
     Returns tt)).
  { unfold roundtrip. rewrite (getGeoJSON_point s n0) by (rewrite ?Es; (discriminate || assumption)).
    rewrite drawFromGeoJSON_point; rewrite latlng_eta; [reflexivity|].
    apply (positioned_nodes s n0 Hv). rewrite En. left. reflexivity. }
  unfold roundtrip_preserves. rewrite R. cbn [fst snd].
  destruct (imported_frame [node_latlng n0]
              (set_shapeType (Some "point"%string) (clear s)) eq_refl) as [E1 E2].
  rewrite E1, E2, Ht. unfold coordinates_of. rewrite En.
  split; [reflexivity|]. split; reflexivity.
Qed.

Lemma roundtrip_rectangle (s : Editor num) :
  completed TRectangle s = true -> positioned s = true -> roundtrip_preserves surface s.
Proof.
  intros Hc Hv. destruct (completed_inv _ _ Hc) as [Hs Ht].
  unfold completed in Hc. destruct (shape s) as [sh|] eqn:Es; [|discriminate].
  apply andb_prop in Hc as [_ Hn]. apply Nat.eqb_eq in Hn.
  destruct (nodes s) as [|n0 [|n1 [|]]] eqn:En; try discriminate.
  assert (V0 : is_position (node_latlng n0) = true)
    by (apply (positioned_nodes s n0 Hv); rewrite En; cbn; tauto).
  assert (V1 : is_position (node_latlng n1) = true)
    by (apply (positioned_nodes s n1 Hv); rewrite En; cbn; tauto).
  assert (R : roundtrip surface s =
    (_updateShape surface
       (create_nodes [node_latlng n0; node_latlng n1]
          (set_shapeType (Some "rectangle"%string)
             (set_shapeType (Some "polygon"%string) (clear s)))),
     Returns tt)).
  { unfold roundtrip. rewrite (getGeoJSON_rectangle s n0 n1) by (rewrite ?Es; (discriminate || assumption)).
    exact (drawFromGeoJSON_rectangle (coordinate_of n0) _ (coordinate_of n1) _ _ _ _ s
             (coord_latLng_coordinate_of n0 V0) (coord_latLng_coordinate_of n1 V1)). }
  unfold roundtrip_preserves. rewrite R. cbn [fst snd].
  destruct (imported_frame [node_latlng n0; node_latlng n1]
              (set_shapeType (Some "rectangle"%string)
                 (set_shapeType (Some "polygon"%string) (clear s))) eq_refl) as [E1 E2].
  rewrite E1, E2, Ht. unfold coordinates_of. rewrite En.
  split; [reflexivity|]. split; reflexivity.
Qed.

Lemma getGeoJSON_polygon (s : Editor num) :
  completed TPolygon s = true ->
  getGeoJSON s = Returns (GObject (mkGeoJSON (Some "Polygon"%string)
    (JArray [JArray (map (@coordinate_of num) (nodes s)
                     ++ [js_nth (map (@coordinate_of num) (nodes s)) 0])]) None)).
Proof.
  intros Hc. destruct (completed_inv _ _ Hc) as [Hs Ht].
  unfold getGeoJSON, shapeType_is. destruct (shape s); [|contradiction].
  rewrite Ht. reflexivity.
Qed.

Lemma roundtrip_polygon (s : Editor num) :
  completed TPolygon s = true -> List.length (nodes s) <> 4 -> positioned s = true ->
  roundtrip_preserves surface s.
Proof.
  intros Hc Hn Hv. destruct (completed_inv _ _ Hc) as [Hs Ht].
  assert (R : roundtrip surface s =
    (_updateShape surface
       (create_nodes (coordinates_of s) (set_shapeType (Some "polygon"%string) (clear s))),
     Returns tt)).
  { unfold roundtrip. rewrite (getGeoJSON_polygon _ Hc).
    apply drawFromGeoJSON_polygon.
    - rewrite length_app, length_map. cbn. lia.
    - rewrite removelast_last. apply mapM_coordinates. exact Hv. }
  unfold roundtrip_preserves. rewrite R. cbn [fst snd].
  destruct (imported_frame (coordinates_of s)
              (set_shapeType (Some "polygon"%string) (clear s)) eq_refl) as [E1 E2].
  rewrite E1, E2, Ht.
  split; [reflexivity|]. split; reflexivity.
Qed.

Lemma roundtrip_polygon_of_four (s : Editor num) :
  polygon_of_four s = true -> positioned s = true -> reimported_as_rectangle surface s.
Proof.
  unfold polygon_of_four. intros Hc Hv. apply andb_prop in Hc as [Hc Hn].
  apply Nat.eqb_eq in Hn.
  destruct (nodes s) as [|n0 [|n1 [|n2 [|n3 [|]]]]] eqn:En; try discriminate.
  assert (V0 : is_position (node_latlng n0) = true)
    by (apply (positioned_nodes s n0 Hv); rewrite En; cbn; tauto).
  assert (V2 : is_position (node_latlng n2) = true)
    by (apply (positioned_nodes s n2 Hv); rewrite En; cbn; tauto).
  assert (R : roundtrip surface s =
    (_updateShape surface
       (create_nodes [node_latlng n0; node_latlng n2]
          (set_shapeType (Some "rectangle"%string)
             (set_shapeType (Some "polygon"%string) (clear s)))),
     Returns tt)).
  { unfold roundtrip. rewrite (getGeoJSON_polygon _ Hc). rewrite En. cbn [map app js_nth nth].
    exact (drawFromGeoJSON_rectangle (coordinate_of n0) _ (coordinate_of n2) _ _ _ _ s
             (coord_latLng_coordinate_of n0 V0) (coord_latLng_coordinate_of n2 V2)). }
  unfold reimported_as_rectangle. rewrite R. cbn [fst snd].
  destruct (imported_frame [node_latlng n0; node_latlng n2]
              (set_shapeType (Some "rectangle"%string)
                 (set_shapeType (Some "polygon"%string) (clear s))) eq_refl) as [E1 E2].
  rewrite E1, E2. unfold coordinates_of. rewrite En.
  split; [reflexivity|]. split; reflexivity.
Qed.

(** C1, amended. For every completed point, every completed rectangle and
    every completed polygon of other than four nodes,
    [drawFromGeoJSON(getGeoJSON())] returns with the same coordinates, in
    order, and the same shape type. A completed polygon of four nodes has a
    ring of five positions and comes back as a rectangle on its nodes 0 and
    2. (Lines and circles are left out.) The nodes are at positions an
    [L.LatLng] holds: no coordinate of a node is NaN. *)
Theorem geojson_roundtrip (s : Editor num) :
  positioned s = true ->
  (roundtrip_faithful s = true -> roundtrip_preserves surface s)
  /\ (polygon_of_four s = true -> reimported_as_rectangle surface s).
Proof.
  intros Hv.
  split; [|intros Hf; apply roundtrip_polygon_of_four; assumption].
  unfold roundtrip_faithful. intros Hf.
  apply orb_prop in Hf as [Hf|Hf]; [apply orb_prop in Hf as [Hf|Hf]|].
  - apply roundtrip_point; assumption.
  - apply roundtrip_rectangle; assumption.
  - apply andb_prop in Hf as [Hc Hn]. apply roundtrip_polygon; [exact Hc| |exact Hv].
    apply negb_true_iff in Hn. apply Nat.eqb_neq in Hn. exact Hn.
Qed.

(** An import whose [type] the switch does not know: the editor after it. *)
Lemma drawFromGeoJSON_default (g : GeoJSON num) (opts : option (OptionsPatch num))
    (s : Editor num) (ty : string) :
  g_type g = Some ty -> ty <> ""%string ->
  ty <> "Point"%string -> ty <> "LineString"%string -> ty <> "Polygon"%string ->
  drawFromGeoJSON surface (GObject g) opts s
  = (set_shapeType (Some (toLowerCase ty))
       match opts with
       | Some p => set_options (setOptions (options (clear s)) p) (clear s)
       | None => clear s
       end,
     Returns tt).
Proof.
  intros Hty He Hp Hl Hg. unfold drawFromGeoJSON, import_switch. rewrite Hty.
  apply String.eqb_neq in He, Hp, Hl, Hg. rewrite He, Hp, Hl, Hg. reflexivity.
Qed.

(** C10, amended. For every GeoJSON object whose [type] is a non-empty
    string other than "Point", "LineString" and "Polygon", [drawFromGeoJSON]
    returns leaving no node and no shape, creates no layer, and leaves
    [shapeType] set to the lower-cased [type]. The [type] is a string of
    ASCII characters, on which [toLowerCase] is the engine's. *)
Theorem drawFromGeoJSON_unrecognised (g : GeoJSON num) (opts : option (OptionsPatch num))
    (s : Editor num) (ty : string) :
  g_type g = Some ty -> ascii_only ty = true -> ty <> ""%string ->
  ty <> "Point"%string -> ty <> "LineString"%string -> ty <> "Polygon"%string ->
  snd (drawFromGeoJSON surface (GObject g) opts s) = Returns tt
  /\ nodes (fst (drawFromGeoJSON surface (GObject g) opts s)) = []
  /\ shape (fst (drawFromGeoJSON surface (GObject g) opts s)) = None
  /\ shapeType (fst (drawFromGeoJSON surface (GObject g) opts s)) = Some (toLowerCase ty)
  /\ next_id (fst (drawFromGeoJSON surface (GObject g) opts s)) = next_id s
  /\ map_layers (fst (drawFromGeoJSON surface (GObject g) opts s)) = map_layers (clear s).
Proof.
  intros Hty _ He Hp Hl Hg.
  rewrite (drawFromGeoJSON_default g opts s ty Hty He Hp Hl Hg). cbn [fst snd].
  split; [reflexivity|].
  destruct opts as [p|]; autorewrite with editor_fields;
    rewrite clear_nodes, clear_shape, clear_next_id;
    repeat (split; [reflexivity|]); reflexivity.
Qed.
End Codec.

(** ** The insertion path of the click handler *)

Section Insertion.
Context {num : Type} `{JSNumber num} `{JSInfinity num}.
Variable surface : MapSurface num.
Local Open Scope js_scope.

Lemma splice_insert_length {A : Type} (k : Z) (x : A) (l : list A) :
  List.length (splice_insert k x l) = S (List.length l).
Proof.
  unfold splice_insert. rewrite length_app. cbn [List.length].
  rewrite Nat.add_succ_r. f_equal.
  rewrite <- length_app, firstn_skipn. reflexivity.
Qed.
End Insertion.

(** ** The context menu of a node *)

Section ContextMenu.
Context {num : Type} `{JSNumber num} `{JSInfinity num}.
Variable surface : MapSurface num.

Lemma updateShape_builds (ty : ShapeType) (s : Editor num) :
  shapeType s = Some (type_name ty) -> ty <> TPoint ->
  minimum_nodes ty <= List.length (nodes s) ->
  exists p,
    built_primitive surface ty (coordinates_of s) = Some p
    /\ shape (_updateShape surface s) = Some (ShapeLayer (next_id s) p)
    /\ map_layers (_updateShape surface s) = kept_layers s ++ [next_id s].
Proof.
  intros Ht Hty Hmin. unfold _updateShape, kept_layers, coordinates_of.
  set (s1 := match shape s with
             | Some sh => if is_first_node sh (nodes s) then s else removeLayer (shape_id sh) s
             | None => s
             end).
  assert (E1 : shapeType s1 = shapeType s /\ nodes s1 = nodes s /\ next_id s1 = next_id s
               /\ map_layers s1 = match shape s with
                                  | Some sh =>
                                      if is_first_node sh (nodes s) then map_layers s
                                      else filter (fun l => negb (Nat.eqb l (shape_id sh)))
                                             (map_layers s)
                                  | None => map_layers s
                                  end).
  { unfold s1. destruct (shape s) as [sh|]; [destruct (is_first_node sh (nodes s))|];
      repeat split. }
  destruct E1 as (Et & En & Ei & El). clearbody s1.
  unfold shapeType_is. rewrite Et, Ht, En, <- El, <- Ei.
  rewrite length_map.
  destruct ty; try contradiction; cbn [type_name minimum_nodes] in *.
  - (* line *)
    apply Nat.leb_le in Hmin. rewrite Hmin. cbn.
    eexists. split; [reflexivity|]. split; reflexivity.
  - (* polygon *)
    apply Nat.leb_le in Hmin as Hb. rewrite Hb. cbn.
    destruct (nodes s) as [|n0 ns] eqn:Ens; [cbn in Hmin; lia|].
    cbn [map].
    eexists. split; [reflexivity|]. split; reflexivity.
  - (* rectangle *)
    apply Nat.leb_le in Hmin. rewrite Hmin. cbn.
    eexists. split; [reflexivity|]. split; reflexivity.
  - (* circle *)
    apply Nat.leb_le in Hmin as Hb. rewrite Hb. cbn.
    destruct (nodes s) as [|n0 [|n1 ns]] eqn:Ens; [cbn in Hmin; lia | cbn in Hmin; lia |].
    cbn [map].
    eexists. split; [reflexivity|]. split; reflexivity.
Qed.

Lemma indexOf_from_split (node : Node num) (ns : list (Node num)) (i : Z) :
  In node ns ->
  exists l1 n l2,
    ns = l1 ++ n :: l2
    /\ node_id n = node_id node
    /\ (forall m, In m l1 -> node_id m <> node_id node)
    /\ indexOf_from i node ns = (i + Z.of_nat (List.length l1))%Z.
Proof.
  revert i. induction ns as [|n ns IH]; intros i Hin; [contradiction|].
  cbn [indexOf_from].
  destruct (Nat.eqb (node_id n) (node_id node)) eqn:E.
  - apply Nat.eqb_eq in E. exists [], n, ns. cbn.
    repeat split; [exact E | intros m [] | lia].
  - apply Nat.eqb_neq in E.
    destruct Hin as [Hin|Hin]; [subst n; contradiction|].
    destruct (IH (i + 1)%Z Hin) as (l1 & n' & l2 & E1 & E2 & E3 & E4).
    exists (n :: l1), n', l2. cbn [List.length app].
    repeat split.
    + rewrite E1. reflexivity.
    + exact E2.
    + intros m [Hm|Hm]; [subst m; exact E | apply E3; exact Hm].
    + rewrite E4. lia.
Qed.

Lemma splice_remove1_at {A : Type} (l1 : list A) (x : A) (l2 : list A) :
  splice_remove1 (Z.of_nat (List.length l1)) (l1 ++ x :: l2) = l1 ++ l2.
Proof.
  unfold splice_remove1, splice_start.
  assert (E : Z.to_nat
                (if (Z.of_nat (List.length l1) <? 0)%Z
                 then Z.max (Z.of_nat (List.length (l1 ++ x :: l2)) + Z.of_nat (List.length l1)) 0
                 else Z.min (Z.of_nat (List.length l1)) (Z.of_nat (List.length (l1 ++ x :: l2))))
              = List.length l1).
  { destruct (Z.ltb_spec (Z.of_nat (List.length l1)) 0); [lia|].
    rewrite length_app. cbn [List.length]. lia. }
  rewrite E.
  rewrite firstn_app, Nat.sub_diag, firstn_all. cbn [firstn]. rewrite app_nil_r.
  replace (S (List.length l1)) with (List.length l1 + 1) by lia.
  rewrite skipn_app.
  replace (List.length l1 + 1 - List.length l1) with 1 by lia.
  rewrite skipn_all2 by lia. reflexivity.
Qed.

Lemma minNodes_of_type (ty : ShapeType) (s : Editor num) :
  shapeType s = Some (type_name ty) ->
  minNodes s = match ty with TPolygon => 3 | _ => 2 end.
Proof.
  intros Ht. unfold minNodes, shapeType_is. rewrite Ht. destruct ty; reflexivity.
Qed.

Lemma not_in_filter_out (x : nat) (l : list nat) :
  ~ In x (filter (fun y => negb (Nat.eqb y x)) l).
Proof.
  intros Hin. apply filter_In in Hin as [_ E].
  rewrite Nat.eqb_refl in E. discriminate E.
Qed.

Lemma not_in_filter (x : nat) (f : nat -> bool) (l : list nat) :
  ~ In x l -> ~ In x (filter f l).
Proof. intros Hn Hin. apply filter_In in Hin as [Hin _]. exact (Hn Hin). Qed.

Lemma not_in_kept_layers (x : nat) (s : Editor num) :
  ~ In x (map_layers s) -> ~ In x (kept_layers s).
Proof.
  unfold kept_layers. intros Hn.
  destruct (shape s) as [sh|]; [destruct (is_first_node sh (nodes s))|];
    try exact Hn. apply not_in_filter. exact Hn.
Qed.

(** C5, amended. For a line, a polygon, a rectangle or a circle (minimum 2,
    3, 2, 2) and a node of it, the secondary action on the node removes the
    whole shape as [clear()] does when the node count equals the minimum;
    above the minimum it removes that one node, keeping the others in their
    order, takes the node's layer and its background's off the map, and
    rebuilds the shape from the remaining coordinates. For a point the
    handler's minimum is 2: the secondary action on the single node of a
    point changes nothing. *)
Theorem node_contextmenu_spec (ty : ShapeType) (node : Node num) (s : Editor num) :
  shapeType s = Some (type_name ty) -> In node (nodes s) -> allocated s ->
  (ty <> TPoint -> List.length (nodes s) = minimum_nodes ty ->
   node_contextmenu surface node s = clear s)
  /\ (ty <> TPoint -> minimum_nodes ty < List.length (nodes s) ->
      exists l1 n l2 p,
        nodes s = l1 ++ n :: l2
        /\ node_id n = node_id node
        /\ (forall m, In m l1 -> node_id m <> node_id node)
        /\ nodes (node_contextmenu surface node s) = l1 ++ l2
        /\ ~ In (node_id node) (map_layers (node_contextmenu surface node s))
        /\ ~ In (node_background node) (map_layers (node_contextmenu surface node s))
        /\ built_primitive surface ty (map (@node_latlng num) (l1 ++ l2)) = Some p
        /\ shape (node_contextmenu surface node s) = Some (ShapeLayer (next_id s) p))
  /\ (ty = TPoint -> List.length (nodes s) = 1 ->
      node_contextmenu surface node s = s).
Proof.
  intros Ht Hin Hal.
  pose proof (minNodes_of_type ty s Ht) as Hm.
  split; [|split].
  - intros Hty Hn. unfold node_contextmenu. rewrite Hm, Hn.
    destruct ty; try contradiction; reflexivity.
  - intros Hty Hn.
    assert (Hmin : minNodes s = minimum_nodes ty)
      by (rewrite Hm; destruct ty; try contradiction; reflexivity).
    destruct (indexOf_from_split node (nodes s) 0%Z Hin) as (l1 & n & l2 & E1 & E2 & E3 & E4).
    exists l1, n, l2.
    set (x := removeLayer (node_background node)
                (removeLayer (node_id node) (set_nodes (l1 ++ l2) s))).
    assert (Ex : node_contextmenu surface node s
                 = fire (noderemove (node_id node)) (_updateShape surface x)).
    { unfold node_contextmenu. rewrite Hmin.
      assert (F : (List.length (nodes s) =? minimum_nodes ty)%nat = false)
        by (apply Nat.eqb_neq; lia).
      assert (G : (minimum_nodes ty <? List.length (nodes s))%nat = true)
        by (apply Nat.ltb_lt; lia).
      rewrite F, G. unfold indexOf. rewrite E4. cbn [Z.add].
      rewrite E1 at 1. rewrite splice_remove1_at. reflexivity. }
    assert (Hx : shapeType x = Some (type_name ty)) by exact Ht.
    assert (Hlen : minimum_nodes ty <= List.length (nodes x)).
    { change (nodes x) with (l1 ++ l2). rewrite E1 in Hn.
      rewrite length_app in *. cbn [List.length] in Hn. lia. }
    destruct (updateShape_builds ty x Hx Hty Hlen) as (p & P1 & P2 & P3).
    exists p. rewrite Ex.
    split; [exact E1|]. split; [exact E2|]. split; [exact E3|].
    split; [cbn [nodes fire set_fired]; rewrite updateShape_nodes; reflexivity|].
    destruct (Hal node Hin) as [Hid Hbg].
    split; [|split; [|split]].
    + cbn [map_layers fire set_fired]. rewrite P3. intros Hi.
      apply in_app_or in Hi as [Hi|Hi].
      * revert Hi. apply not_in_kept_layers. unfold x.
        cbn [map_layers removeLayer set_map_layers set_nodes].
        apply not_in_filter. apply not_in_filter_out.
      * cbn in Hi. destruct Hi as [Hi|[]]. change (next_id x) with (next_id s) in Hi. lia.
    + cbn [map_layers fire set_fired]. rewrite P3. intros Hi.
      apply in_app_or in Hi as [Hi|Hi].
      * revert Hi. apply not_in_kept_layers. unfold x.
        cbn [map_layers removeLayer set_map_layers set_nodes].
        apply not_in_filter_out.
      * cbn in Hi. destruct Hi as [Hi|[]]. change (next_id x) with (next_id s) in Hi. lia.
    + exact P1.
    + cbn [shape fire set_fired]. exact P2.
  - intros Hty Hn. subst ty. unfold node_contextmenu. rewrite Hm, Hn. reflexivity.
Qed.
Lemma allocatedb_sound (s : Editor num) : allocatedb s = true -> allocated s.
Proof.
  unfold allocatedb, allocated. intros Hb n Hin.
  rewrite forallb_forall in Hb. specialize (Hb n Hin).
  apply andb_prop in Hb as [Hi Hg].
  apply Nat.ltb_lt in Hi, Hg. split; assumption.
Qed.
End ContextMenu.

(** C5, as stated, fails for a point: with one node, the minimum the
    specification gives, the secondary action leaves the point as it is, and
    does not clear it. *)
Lemma point_contextmenu_changes_nothing :
  completed TPoint Flat.point_5_7 = true
  /\ List.length (nodes Flat.point_5_7) = minimum_nodes TPoint
  /\ In Nodes.of_point (nodes Flat.point_5_7)
  /\ node_contextmenu Flat.surface Nodes.of_point Flat.point_5_7 = Flat.point_5_7
  /\ node_contextmenu Flat.surface Nodes.of_point Flat.point_5_7 <> clear Flat.point_5_7.
Proof.
  assert (A : node_contextmenu Flat.surface Nodes.of_point Flat.point_5_7 = Flat.point_5_7)
    by (vm_compute; reflexivity).
  assert (L : nodes Flat.point_5_7 = [Nodes.of_point]) by (vm_compute; reflexivity).
  split; [vm_compute; reflexivity|]. split; [vm_compute; reflexivity|].
  split; [rewrite L; left; reflexivity|]. split; [exact A|].
  rewrite A. intros E. apply (f_equal (@nodes float)) in E.
  rewrite L, clear_nodes in E. discriminate E.
Qed.

Lemma allocated_quadrilateral : allocated Flat.quadrilateral.
Proof. apply allocatedb_sound. vm_compute. reflexivity. Qed.

Lemma allocated_triangle : allocated Flat.triangle.
Proof. apply allocatedb_sound. vm_compute. reflexivity. Qed.

Lemma triangle_is_polygon : shapeType Flat.triangle = Some (type_name TPolygon).
Proof. vm_compute. reflexivity. Qed.

Lemma quadrilateral_is_polygon : shapeType Flat.quadrilateral = Some (type_name TPolygon).
Proof. vm_compute. reflexivity. Qed.

Lemma first_in_triangle : In Nodes.first_of_triangle (nodes Flat.triangle).
Proof. vm_compute. left. reflexivity. Qed.

Lemma inserted_in_quadrilateral : In Nodes.inserted (nodes Flat.quadrilateral).
Proof. vm_compute. right. left. reflexivity. Qed.

(** On the triangle (three nodes, the minimum) the secondary action clears;
    on the quadrilateral it removes the node it is taken on. *)
Lemma node_contextmenu_spec_witness :
  node_contextmenu Flat.surface Nodes.first_of_triangle Flat.triangle = clear Flat.triangle
  /\ exists l1 n l2 p,
       nodes Flat.quadrilateral = l1 ++ n :: l2
       /\ node_id n = node_id Nodes.inserted
       /\ (forall m, In m l1 -> node_id m <> node_id Nodes.inserted)
       /\ nodes (node_contextmenu Flat.surface Nodes.inserted Flat.quadrilateral) = l1 ++ l2
       /\ ~ In (node_id Nodes.inserted)
            (map_layers (node_contextmenu Flat.surface Nodes.inserted Flat.quadrilateral))
       /\ ~ In (node_background Nodes.inserted)
            (map_layers (node_contextmenu Flat.surface Nodes.inserted Flat.quadrilateral))
       /\ built_primitive Flat.surface TPolygon (map (@node_latlng float) (l1 ++ l2)) = Some p
       /\ shape (node_contextmenu Flat.surface Nodes.inserted Flat.quadrilateral)
          = Some (ShapeLayer (next_id Flat.quadrilateral) p).
Proof.
  split.
  - apply (proj1 (node_contextmenu_spec Flat.surface TPolygon Nodes.first_of_triangle
                    Flat.triangle triangle_is_polygon first_in_triangle
                    allocated_triangle)).
    + discriminate.
    + vm_compute. reflexivity.
  - apply (proj1 (proj2 (node_contextmenu_spec Flat.surface TPolygon Nodes.inserted
                           Flat.quadrilateral quadrilateral_is_polygon
                           inserted_in_quadrilateral allocated_quadrilateral))).
    + discriminate.
    + vm_compute. lia.
Defined.

(** The same removal, computed: the quadrilateral is the triangle again. *)
Example remove_inserted_node :
  coordinates_of (node_contextmenu Flat.surface Nodes.inserted Flat.quadrilateral)
  = coordinates_of Flat.triangle.
Proof. vm_compute. reflexivity. Qed.

(** ** The worked scenarios *)

(** C1, as stated, fails three ways. A completed polygon of four nodes comes
    back as a rectangle of two; a completed line comes back with the shape
    type "linestring"; for a completed circle the export throws. *)
Lemma roundtrip_not_preserved :
  (completed TPolygon Flat.quadrilateral = true
   /\ ~ roundtrip_preserves Flat.surface Flat.quadrilateral)
  /\ (completed TLine Flat.line2 = true
      /\ ~ roundtrip_preserves Flat.surface Flat.line2)
  /\ (completed TCircle Flat.circle_0_1 = true
      /\ ~ roundtrip_preserves Flat.surface Flat.circle_0_1).
Proof.
  unfold roundtrip_preserves. split; [|split].
  - split; [vm_compute; reflexivity|].
    assert (L : shapeType (fst (roundtrip Flat.surface Flat.quadrilateral))
                = Some "rectangle"%string) by (vm_compute; reflexivity).
    rewrite L, quadrilateral_is_polygon. intros (_ & _ & E). discriminate E.
  - split; [vm_compute; reflexivity|].
    assert (L : shapeType (fst (roundtrip Flat.surface Flat.line2))
                = Some "linestring"%string) by (vm_compute; reflexivity).
    assert (R : shapeType Flat.line2 = Some "line"%string) by (vm_compute; reflexivity).
    rewrite L, R. intros (_ & _ & E). discriminate E.
  - split; [vm_compute; reflexivity|].
    assert (L : snd (roundtrip Flat.surface Flat.circle_0_1) = Throws TypeError)
      by (vm_compute; reflexivity).
    rewrite L. intros (E & _). discriminate E.
Qed.

(** The round trip of the rectangle of the scenario, and of the
    quadrilateral. *)
Lemma geojson_roundtrip_witness :
  (roundtrip_faithful Flat.rectangle_10_20 = true
   /\ roundtrip_preserves Flat.surface Flat.rectangle_10_20)
  /\ (polygon_of_four Flat.quadrilateral = true
      /\ reimported_as_rectangle Flat.surface Flat.quadrilateral).
Proof.
  split; (split; [vm_compute; reflexivity|]).
  - refine (proj1 (geojson_roundtrip Flat.surface Flat.rectangle_10_20 _) _);
      vm_compute; reflexivity.
  - refine (proj2 (geojson_roundtrip Flat.surface Flat.quadrilateral _) _);
      vm_compute; reflexivity.
Defined.

(** What becomes of the line and of the circle, for the record: the line
    comes back with its coordinates under a shape type no part of the editor
    knows, and with no shape drawn. *)
Example roundtrip_line :
  snd (roundtrip Flat.surface Flat.line2) = Returns tt
  /\ coordinates_of (fst (roundtrip Flat.surface Flat.line2)) = coordinates_of Flat.line2
  /\ shapeType (fst (roundtrip Flat.surface Flat.line2)) = Some "linestring"%string
  /\ shape (fst (roundtrip Flat.surface Flat.line2)) = None.
Proof. repeat split; vm_compute; reflexivity. Qed.

(** C10, as stated, fails for the empty string: the [type] field is there,
    the import is ignored, and [shapeType] keeps its value. *)
Lemma empty_type_keeps_shapeType :
  shapeType Flat.triangle = Some "polygon"%string
  /\ shapeType (fst (drawFromGeoJSON Flat.surface Imports.empty_type None Flat.triangle))
     = Some "polygon"%string
  /\ shapeType (fst (drawFromGeoJSON Flat.surface Imports.empty_type None Flat.triangle))
     <> Some (toLowerCase "").
Proof.
  assert (A : shapeType (fst (drawFromGeoJSON Flat.surface Imports.empty_type None
                                 Flat.triangle))
              = Some "polygon"%string) by (vm_compute; reflexivity).
  split; [vm_compute; reflexivity|]. split; [exact A|].
  rewrite A. intros E. discriminate E.
Qed.

(** A "MultiPolygon" imported over the triangle: nothing left, nothing
    created, and the shape type "multipolygon". *)
Lemma drawFromGeoJSON_unrecognised_witness :
  let r := drawFromGeoJSON Flat.surface (GObject Imports.multipolygon) None Flat.triangle in
  snd r = Returns tt
  /\ nodes (fst r) = []
  /\ shape (fst r) = None
  /\ shapeType (fst r) = Some "multipolygon"%string
  /\ next_id (fst r) = next_id Flat.triangle
  /\ map_layers (fst r) = map_layers (clear Flat.triangle).
Proof.
  apply (drawFromGeoJSON_unrecognised Flat.surface Imports.multipolygon None Flat.triangle
           "MultiPolygon" eq_refl eq_refl);
    intros E; discriminate E.
Defined.

(** A click on the first edge of the triangle: the node goes in at index 1. *)
Example click_on_edge_of_triangle :
  insertion_applies Flat.triangle = true
  /\ nth 0 (distances_to_segments Flat.surface (mkPoint 50 0)%float Flat.triangle) 1%float
     = 0%float
  /\ coordinates_of (Flat.clicks [Flat.at_latlng 0 50] Flat.triangle)
     = [mkLatLng 0 0; mkLatLng 0 50; mkLatLng 0 100; mkLatLng 100 100]%float.
Proof. repeat split; vm_compute; reflexivity. Qed.

(** C7 (the code departs from it). The completed line (0,0), (0,100),
    (100,100) is idle and not being drawn; the tolerance is 12 pixels. A
    click at (50, 50) is 50 pixels from each of the two segments of the
    line, so it is not within the tolerance of the nearest candidate
    segment (and it is more than 12 pixels from each of the three nodes);
    yet the insertion path inserts a node, the fourth. (The second loop also
    measures the segment from the last node back to the first, which a line
    does not have: see C6.) *)
Theorem line_insertion_beyond_tolerance :
  let e := Flat.at_latlng 50 50 in
  let click := latLngToContainerPoint Flat.surface (ev_latlng e) in
  state Flat.line3 = Idle
  /\ isDrawing Flat.line3 = false
  /\ completed TLine Flat.line3 = true
  /\ List.length (nodes Flat.line3) = 3
  /\ tolerance Flat.line3 = 12%float
  /\ distances_to_segments Flat.surface click Flat.line3 = [50; 50]%float
  /\ forallb (fun d => PrimFloat.ltb 12 d) (distances_to_nodes Flat.surface click Flat.line3)
     = true
  /\ exists s',
       idle_insertion Flat.surface e Flat.line3 = Some s'
       /\ _onMapClick Flat.surface e Flat.line3 = s'
       /\ coordinates_of s'
          = [mkLatLng 0 0; mkLatLng 0 100; mkLatLng 100 100; mkLatLng 50 50]%float.
Proof.
  cbv zeta.
  do 7 (split; [vm_compute; reflexivity|]).
  assert (E : idle_insertion Flat.surface (Flat.at_latlng 50 50) Flat.line3
              = Some (_onMapClick Flat.surface (Flat.at_latlng 50 50) Flat.line3))
    by (vm_compute; reflexivity).
  exists (_onMapClick Flat.surface (Flat.at_latlng 50 50) Flat.line3).
  split; [exact E|]. split; [reflexivity|].
  vm_compute. reflexivity.
Qed.

(** A click far from every edge of the triangle changes nothing. *)
Example click_away_from_triangle :
  Flat.clicks [Flat.at_latlng 80 20] Flat.triangle = Flat.triangle.
Proof. vm_compute. reflexivity. Qed.

(** C6 (the code departs from it). The second loop of the insertion path
    takes the segment from the last node back to the first for a line as it
    does for a polygon. On the completed line (0,0), (0,100), (100,100) a
    click at (50, 50) is 50 pixels from both segments of the line and on the
    segment that would close it: a node is inserted, after the last node. *)
Theorem line_insertion_wraps_around :
  let click := (mkPoint 50 50)%float in
  let a := (mkPoint 0 0)%float in
  let b := (mkPoint 100 0)%float in
  let c := (mkPoint 100 100)%float in
  completed TLine Flat.line3 = true
  /\ insertion_applies Flat.line3 = true
  /\ map (node_point Flat.surface) (nodes Flat.line3) = [a; b; c]
  /\ tolerance Flat.line3 = 12%float
  /\ _pointToLineDistance click a b = 50%float
  /\ _pointToLineDistance click b c = 50%float
  /\ _pointToLineDistance click c a = 0%float
  /\ nearestSegment Flat.surface click (nodes Flat.line3) = (0%float, 3%Z)
  /\ coordinates_of (_onMapClick Flat.surface (Flat.at_latlng 50 50) Flat.line3)
     = [mkLatLng 0 0; mkLatLng 0 100; mkLatLng 100 100; mkLatLng 50 50]%float.
Proof. cbv zeta. repeat split; vm_compute; reflexivity. Qed.
(** ** The options, the notifications and the pans after an update *)

Section MoreFields.
Context {num : Type}.
Implicit Types (s : Editor num) (ev : Event num) (id : nat).

Lemma options_set_options v s : options (set_options v s) = v. Proof. reflexivity. Qed.
Lemma options_set_shape v s : options (set_shape v s) = options s. Proof. reflexivity. Qed.
Lemma options_set_nodes v s : options (set_nodes v s) = options s. Proof. reflexivity. Qed.
Lemma options_set_isDrawing v s : options (set_isDrawing v s) = options s. Proof. reflexivity. Qed.
Lemma options_set_shapeType v s : options (set_shapeType v s) = options s. Proof. reflexivity. Qed.
Lemma options_set_tempLine v s : options (set_tempLine v s) = options s. Proof. reflexivity. Qed.
Lemma options_set_state v s : options (set_state v s) = options s. Proof. reflexivity. Qed.
Lemma options_set_map_layers v s : options (set_map_layers v s) = options s. Proof. reflexivity. Qed.
Lemma options_set_map_dragging v s : options (set_map_dragging v s) = options s. Proof. reflexivity. Qed.
Lemma options_set_map_panned v s : options (set_map_panned v s) = options s. Proof. reflexivity. Qed.
Lemma options_set_next_id v s : options (set_next_id v s) = options s. Proof. reflexivity. Qed.
Lemma options_set_fired v s : options (set_fired v s) = options s. Proof. reflexivity. Qed.
Lemma options_fire ev s : options (fire ev s) = options s. Proof. reflexivity. Qed.
Lemma options_removeLayer id s : options (removeLayer id s) = options s. Proof. reflexivity. Qed.
Lemma fired_set_options v s : fired (set_options v s) = fired s. Proof. reflexivity. Qed.
Lemma fired_set_shape v s : fired (set_shape v s) = fired s. Proof. reflexivity. Qed.
Lemma fired_set_nodes v s : fired (set_nodes v s) = fired s. Proof. reflexivity. Qed.
Lemma fired_set_isDrawing v s : fired (set_isDrawing v s) = fired s. Proof. reflexivity. Qed.
Lemma fired_set_shapeType v s : fired (set_shapeType v s) = fired s. Proof. reflexivity. Qed.
Lemma fired_set_tempLine v s : fired (set_tempLine v s) = fired s. Proof. reflexivity. Qed.
Lemma fired_set_state v s : fired (set_state v s) = fired s. Proof. reflexivity. Qed.
Lemma fired_set_map_layers v s : fired (set_map_layers v s) = fired s. Proof. reflexivity. Qed.
Lemma fired_set_map_dragging v s : fired (set_map_dragging v s) = fired s. Proof. reflexivity. Qed.
Lemma fired_set_map_panned v s : fired (set_map_panned v s) = fired s. Proof. reflexivity. Qed.
Lemma fired_set_next_id v s : fired (set_next_id v s) = fired s. Proof. reflexivity. Qed.
Lemma fired_set_fired v s : fired (set_fired v s) = v. Proof. reflexivity. Qed.
Lemma fired_fire ev s : fired (fire ev s) = fired s ++ [ev]. Proof. reflexivity. Qed.
Lemma fired_removeLayer id s : fired (removeLayer id s) = fired s. Proof. reflexivity. Qed.
Lemma map_panned_set_options v s : map_panned (set_options v s) = map_panned s. Proof. reflexivity. Qed.
Lemma map_panned_set_shape v s : map_panned (set_shape v s) = map_panned s. Proof. reflexivity. Qed.
Lemma map_panned_set_nodes v s : map_panned (set_nodes v s) = map_panned s. Proof. reflexivity. Qed.
Lemma map_panned_set_isDrawing v s : map_panned (set_isDrawing v s) = map_panned s. Proof. reflexivity. Qed.
Lemma map_panned_set_shapeType v s : map_panned (set_shapeType v s) = map_panned s. Proof. reflexivity. Qed.
Lemma map_panned_set_tempLine v s : map_panned (set_tempLine v s) = map_panned s. Proof. reflexivity. Qed.
Lemma map_panned_set_state v s : map_panned (set_state v s) = map_panned s. Proof. reflexivity. Qed.
Lemma map_panned_set_map_layers v s : map_panned (set_map_layers v s) = map_panned s. Proof. reflexivity. Qed.
Lemma map_panned_set_map_dragging v s : map_panned (set_map_dragging v s) = map_panned s. Proof. reflexivity. Qed.
Lemma map_panned_set_map_panned v s : map_panned (set_map_panned v s) = v. Proof. reflexivity. Qed.
Lemma map_panned_set_next_id v s : map_panned (set_next_id v s) = map_panned s. Proof. reflexivity. Qed.
Lemma map_panned_set_fired v s : map_panned (set_fired v s) = map_panned s. Proof. reflexivity. Qed.
Lemma map_panned_fire ev s : map_panned (fire ev s) = map_panned s. Proof. reflexivity. Qed.
Lemma map_panned_removeLayer id s : map_panned (removeLayer id s) = map_panned s. Proof. reflexivity. Qed.
End MoreFields.

#[export] Hint Rewrite
  @options_set_options @options_set_shape @options_set_nodes @options_set_isDrawing
  @options_set_shapeType @options_set_tempLine @options_set_state @options_set_map_layers
  @options_set_map_dragging @options_set_map_panned @options_set_next_id
  @options_set_fired @options_fire @options_removeLayer @fired_set_options
  @fired_set_shape @fired_set_nodes @fired_set_isDrawing @fired_set_shapeType
  @fired_set_tempLine @fired_set_state @fired_set_map_layers @fired_set_map_dragging
  @fired_set_map_panned @fired_set_next_id @fired_set_fired @fired_fire
  @fired_removeLayer @map_panned_set_options @map_panned_set_shape @map_panned_set_nodes
  @map_panned_set_isDrawing @map_panned_set_shapeType @map_panned_set_tempLine
  @map_panned_set_state @map_panned_set_map_layers @map_panned_set_map_dragging
  @map_panned_set_map_panned @map_panned_set_next_id @map_panned_set_fired
  @map_panned_fire @map_panned_removeLayer
  : editor_fields.
(** ** The effect of each handler, field by field *)

Section Effects.
Context {num : Type} `{JSNumber num} `{JSInfinity num}.
Variable surface : MapSurface num.

Ltac through_updateShape :=
  unfold _updateShape;
  repeat match goal with
  | |- context [match ?x with _ => _ end] => destruct x; cbn
  end.


(** The editor [_updateShape] works on once the old shape is off the map. *)
Lemma old_shape_frame (s : Editor num) :
  let x := match shape s with
           | Some sh => if is_first_node sh (nodes s) then s
                        else removeLayer (shape_id sh) s
           | None => s
           end in
  shapeType x = shapeType s /\ nodes x = nodes s /\ shape x = shape s.
Proof.
  destruct (shape s) as [sh|] eqn:Es; [destruct (is_first_node sh (nodes s))|];
    cbn; rewrite ?Es; repeat split.
Qed.

Ltac enter_updateShape s x :=
  unfold _updateShape;
  let Ex := fresh "Ex" in
  pose proof (old_shape_frame s) as Ex; cbv zeta in Ex;
  set (x := match shape s with
            | Some sh => if is_first_node sh (nodes s) then s
                         else removeLayer (shape_id sh) s
            | None => s
            end) in *;
  destruct Ex as (?Ext & ?Exn & ?Exs); clearbody x;
  unfold shapeType_is; rewrite Ext, Exn.

(** [_updateShape] touches the shape, the map's layers and the counter only. *)
Lemma updateShape_frame (s : Editor num) :
  isDrawing (_updateShape surface s) = isDrawing s
  /\ state (_updateShape surface s) = state s
  /\ tempLine (_updateShape surface s) = tempLine s
  /\ options (_updateShape surface s) = options s
  /\ map_dragging (_updateShape surface s) = map_dragging s
  /\ next_id s <= next_id (_updateShape surface s).
Proof. through_updateShape; repeat split; lia. Qed.

Lemma finish_drawing_frame (s : Editor num) :
  isDrawing (finish_drawing s) = false
  /\ state (finish_drawing s) = Idle
  /\ tempLine (finish_drawing s) = None
  /\ shape (finish_drawing s) = shape s
  /\ shapeType (finish_drawing s) = shapeType s
  /\ next_id (finish_drawing s) = next_id s.
Proof.
  unfold finish_drawing. cbn. destruct (tempLine s) as [[t ls]|] eqn:Et; cbn; rewrite ?Et; repeat split.
Qed.

Lemma createNode_frame (latlng : LatLng num) (s : Editor num) :
  shape (snd (_createNode latlng s)) = shape s
  /\ isDrawing (snd (_createNode latlng s)) = isDrawing s
  /\ state (snd (_createNode latlng s)) = state s
  /\ tempLine (snd (_createNode latlng s)) = tempLine s.
Proof. repeat split. Qed.

Lemma type_of_name (t : string) :
  (exists ty, t = type_name ty) \/ (forall ty, t <> type_name ty).
Proof.
  destruct (String.eqb t "point") eqn:E1; [left; exists TPoint; apply String.eqb_eq; exact E1|].
  destruct (String.eqb t "line") eqn:E2; [left; exists TLine; apply String.eqb_eq; exact E2|].
  destruct (String.eqb t "polygon") eqn:E3;
    [left; exists TPolygon; apply String.eqb_eq; exact E3|].
  destruct (String.eqb t "rectangle") eqn:E4;
    [left; exists TRectangle; apply String.eqb_eq; exact E4|].
  destruct (String.eqb t "circle") eqn:E5;
    [left; exists TCircle; apply String.eqb_eq; exact E5|].
  right. intros ty E. subst t.
  destruct ty; cbn in *; discriminate.
Qed.

Lemma type_name_inj (a b : ShapeType) : type_name a = type_name b -> a = b.
Proof. destruct a, b; cbn; intros E; try discriminate E; reflexivity. Qed.

(** What [_updateShape] does to the shape: it builds the primitive of the
    type, or makes the single node of a point the shape, or leaves the
    shape as it was. *)
Lemma updateShape_cases (s : Editor num) :
  (exists ty p,
      ty <> TPoint
      /\ shapeType s = Some (type_name ty)
      /\ minimum_nodes ty <= List.length (nodes s)
      /\ built_primitive surface ty (coordinates_of s) = Some p
      /\ shape (_updateShape surface s) = Some (ShapeLayer (next_id s) p))
  \/ (exists n0, shape (_updateShape surface s) = Some (ShapeIsNode n0))
  \/ ((forall ty, ty <> TPoint -> shapeType s = Some (type_name ty) ->
        List.length (nodes s) < minimum_nodes ty)
      /\ shape (_updateShape surface s) = shape s).
Proof.
  destruct (shapeType s) as [t|] eqn:Et.
  2:{ right. right. split; [intros ty _ E; discriminate E|].
      enter_updateShape s x. rewrite Et. cbn. exact Exs. }
  destruct (type_of_name t) as [[ty ->]|Hno].
  - destruct (Nat.leb (minimum_nodes ty) (List.length (nodes s))) eqn:Emin.
    + apply Nat.leb_le in Emin.
      destruct ty.
      * (* a point with at least one node *)
        destruct (Nat.eqb (List.length (nodes s)) 1) eqn:E1.
        -- right. left. enter_updateShape s x. rewrite Et, length_map, E1. cbn.
           destruct (nodes s) as [|n0 ns]; [discriminate E1|].
           exists (node_id n0). reflexivity.
        -- right. right. split.
           ++ intros ty Hty E. injection E as E. apply (type_name_inj TPoint ty) in E.
              subst ty. contradiction.
           ++ enter_updateShape s x. rewrite Et, length_map, E1. cbn. exact Exs.
      * left. destruct (updateShape_builds surface TLine s Et) as (p & P1 & P2 & _);
          [discriminate | exact Emin |].
        exists TLine, p. repeat split; try assumption. discriminate.
      * left. destruct (updateShape_builds surface TPolygon s Et) as (p & P1 & P2 & _);
          [discriminate | exact Emin |].
        exists TPolygon, p. repeat split; try assumption. discriminate.
      * left. destruct (updateShape_builds surface TRectangle s Et) as (p & P1 & P2 & _);
          [discriminate | exact Emin |].
        exists TRectangle, p. repeat split; try assumption. discriminate.
      * left. destruct (updateShape_builds surface TCircle s Et) as (p & P1 & P2 & _);
          [discriminate | exact Emin |].
        exists TCircle, p. repeat split; try assumption. discriminate.
    + apply Nat.leb_gt in Emin. right. right. split.
      * intros ty' Hty E. injection E as E. apply (type_name_inj ty ty') in E. subst ty'.
        exact Emin.
      * enter_updateShape s x. rewrite Et, length_map.
        destruct ty; cbn [type_name minimum_nodes] in *.
        -- assert (E0 : (List.length (nodes s) =? 1) = false) by (apply Nat.eqb_neq; lia).
           rewrite E0. cbn. exact Exs.
        -- assert (E0 : (2 <=? List.length (nodes s)) = false) by (apply Nat.leb_gt; lia).
           rewrite E0. cbn. exact Exs.
        -- assert (E0 : (3 <=? List.length (nodes s)) = false) by (apply Nat.leb_gt; lia).
           rewrite E0. cbn. exact Exs.
        -- assert (E0 : (2 <=? List.length (nodes s)) = false) by (apply Nat.leb_gt; lia).
           rewrite E0. cbn. exact Exs.
        -- assert (E0 : (2 <=? List.length (nodes s)) = false) by (apply Nat.leb_gt; lia).
           rewrite E0. cbn. exact Exs.
  - right. right. split.
    + intros ty _ E. injection E as E. exfalso. exact (Hno ty E).
    + enter_updateShape s x. rewrite Et.
      assert (N1 : String.eqb t "point" = false) by (apply String.eqb_neq; exact (Hno TPoint)).
      assert (N2 : String.eqb t "line" = false) by (apply String.eqb_neq; exact (Hno TLine)).
      assert (N3 : String.eqb t "polygon" = false)
        by (apply String.eqb_neq; exact (Hno TPolygon)).
      assert (N4 : String.eqb t "rectangle" = false)
        by (apply String.eqb_neq; exact (Hno TRectangle)).
      assert (N5 : String.eqb t "circle" = false)
        by (apply String.eqb_neq; exact (Hno TCircle)).
      rewrite N1, N2, N3, N4, N5. cbn. exact Exs.
Qed.
End Effects.

Section Lists.
Context {num : Type}.

Lemma distinct_mono (k k' : nat) (l : list (Node num)) :
  distinct k l -> k <= k' -> distinct k' l.
Proof.
  intros [Ha Hn] Hk. split; [|exact Hn].
  intros n Hin. destruct (Ha n Hin). split; lia.
Qed.

Lemma distinct_nil (k : nat) : distinct k (@nil (Node num)).
Proof. split; [intros n []|constructor]. Qed.

Lemma distinct_insert (k : nat) (latlng : LatLng num) (l1 l2 : list (Node num)) :
  distinct k (l1 ++ l2) -> distinct (S (S k)) (l1 ++ mkNode (S k) latlng k :: l2).
Proof.
  intros [Ha Hn]. split.
  - intros n Hin. apply in_app_or in Hin as [Hin|[Hin|Hin]].
    + destruct (Ha n (in_or_app _ _ _ (or_introl Hin))). split; lia.
    + subst n. cbn. split; lia.
    + destruct (Ha n (in_or_app _ _ _ (or_intror Hin))). split; lia.
  - rewrite map_app. cbn [map node_id].
    apply (NoDup_Add (a := S k) (l := map (@node_id num) (l1 ++ l2))).
    + rewrite map_app. apply Add_app.
    + split; [exact Hn|].
      intros Hin. apply in_map_iff in Hin as (n & E & Hin).
      destruct (Ha n Hin). lia.
Qed.

Lemma distinct_remove (k : nat) (x : Node num) (l1 l2 : list (Node num)) :
  distinct k (l1 ++ x :: l2) -> distinct k (l1 ++ l2).
Proof.
  intros [Ha Hn]. split.
  - intros n Hin. apply Ha. apply in_app_or in Hin as [Hin|Hin];
      apply in_or_app; [left|right; right]; exact Hin.
  - rewrite map_app in *. cbn [map] in Hn. apply NoDup_remove_1 in Hn. exact Hn.
Qed.

Lemma distinct_moved (k : nat) (id : nat) (p : LatLng num) (l : list (Node num)) :
  distinct k l ->
  distinct k (map (fun n => if Nat.eqb (node_id n) id
                            then mkNode (node_id n) p (node_background n) else n) l).
Proof.
  intros [Ha Hn]. split.
  - intros n Hin. apply in_map_iff in Hin as (m & E & Hin).
    destruct (Ha m Hin). destruct (Nat.eqb (node_id m) id); subst n; cbn; split; assumption.
  - rewrite map_map.
    replace (map (fun x => node_id (if Nat.eqb (node_id x) id
                                    then mkNode (node_id x) p (node_background x) else x)) l)
      with (map (@node_id num) l); [exact Hn|].
    apply map_ext. intros a. destruct (Nat.eqb (node_id a) id); reflexivity.
Qed.

(** [splice(start, 0, x)] and [splice(start, 1)] as list surgery. *)
Lemma splice_insert_split {A : Type} (start : Z) (x : A) (l : list A) :
  exists l1 l2, l = l1 ++ l2 /\ splice_insert start x l = l1 ++ x :: l2.
Proof.
  unfold splice_insert. exists (firstn (splice_start start l) l), (skipn (splice_start start l) l).
  split; [symmetry; apply firstn_skipn | reflexivity].
Qed.

Lemma splice_remove1_split {A : Type} (start : Z) (l : list A) :
  splice_remove1 start l = l
  \/ exists l1 x l2, l = l1 ++ x :: l2 /\ splice_remove1 start l = l1 ++ l2.
Proof.
  unfold splice_remove1. set (k := splice_start start l).
  destruct (skipn k l) as [|x l2] eqn:Es.
  - left. assert (El : List.length l <= k).
    { destruct (Nat.le_gt_cases (List.length l) k) as [Hle|Hgt]; [exact Hle|].
      exfalso. apply (f_equal (@List.length A)) in Es. rewrite length_skipn in Es.
      cbn in Es. lia. }
    rewrite firstn_all2 by exact El. rewrite skipn_all2 by lia. apply app_nil_r.
  - right. exists (firstn k l), x, l2. split.
    + rewrite <- Es. symmetry. apply firstn_skipn.
    + f_equal. change (S k) with (1 + k). rewrite <- skipn_skipn, Es. reflexivity.
Qed.
End Lists.

Section Handlers.
Context {num : Type} `{JSNumber num} `{JSInfinity num}.
Variable surface : MapSurface num.

(** The editor a node-creating branch hands to [_updateShape]. *)
Lemma insert_node_eq (insertIdx : Z) (e : MouseEvent num) (s : Editor num) :
  insert_node surface insertIdx e s
  = fire (nodeadd (S (next_id s)))
      (_updateShape surface
         (set_nodes (splice_insert insertIdx (mkNode (S (next_id s)) (ev_latlng e) (next_id s))
                       (nodes s))
            (snd (_createNode (ev_latlng e) s)))).
Proof. reflexivity. Qed.

Lemma append_node_eq (e : MouseEvent num) (s : Editor num) :
  let x := fire (nodeadd (S (next_id s)))
             (_updateShape surface
                (set_nodes (nodes s ++ [mkNode (S (next_id s)) (ev_latlng e) (next_id s)])
                   (snd (_createNode (ev_latlng e) s)))) in
  append_node surface e s = if reached_count x then finish_drawing x else x.
Proof. reflexivity. Qed.

(** The branches of the click handler. *)
Lemma onMapClick_cases (e : MouseEvent num) (s : Editor num) :
  _onMapClick surface e s = s
  \/ (isDrawing s = false
      /\ exists insertIdx, _onMapClick surface e s = insert_node surface insertIdx e s)
  \/ (isDrawing s = true /\ shapeType_is s "point" = true /\ shape s = None
      /\ _onMapClick surface e s = place_point e s)
  \/ (isDrawing s = true /\ _onMapClick surface e s = finish_drawing s)
  \/ (isDrawing s = true /\ _onMapClick surface e s = append_node surface e s).
Proof.
  destruct (isDrawing s) eqn:Ed.
  - rewrite (onMapClick_while_drawing surface e s Ed).
    destruct (shapeType_is s "point") eqn:Ep; cbn [andb].
    + destruct (shape s) as [sh|] eqn:Es.
      * destruct (closes_line surface e s); [right; right; right; left | right; right; right; right];
          split; reflexivity.
      * right. right. left. repeat split.
    + destruct (closes_line surface e s); [right; right; right; left | right; right; right; right];
        split; reflexivity.
  - unfold _onMapClick, idle_insertion.
    destruct (insertion_applies s); [|left; rewrite Ed; reflexivity].
    destruct (canAdd surface _ s); [|left; rewrite Ed; reflexivity].
    destruct (nearestSegment surface _ (nodes s)) as [minDist insertIdx].
    destruct (num_le minDist (tolerance s)); [|left; rewrite Ed; reflexivity].
    right. left. split; [reflexivity|]. exists insertIdx. reflexivity.
Qed.
End Handlers.

Section Effects2.
Context {num : Type} `{JSNumber num} `{JSInfinity num}.
Variable surface : MapSurface num.

Lemma rebuild_effect (l : list (Node num)) (x : Editor num) :
  nodes (_updateShape surface (set_nodes l x)) = l
  /\ shapeType (_updateShape surface (set_nodes l x)) = shapeType x
  /\ isDrawing (_updateShape surface (set_nodes l x)) = isDrawing x
  /\ state (_updateShape surface (set_nodes l x)) = state x
  /\ tempLine (_updateShape surface (set_nodes l x)) = tempLine x
  /\ next_id x <= next_id (_updateShape surface (set_nodes l x)).
Proof.
  destruct (updateShape_frame surface (set_nodes l x)) as (E1 & E2 & E3 & _ & _ & E6).
  rewrite updateShape_nodes, updateShape_shapeType, E1, E2, E3.
  autorewrite with editor_fields in *. repeat split. exact E6.
Qed.

Lemma createNode_effect (latlng : LatLng num) (s : Editor num) :
  shape (snd (_createNode latlng s)) = shape s
  /\ shapeType (snd (_createNode latlng s)) = shapeType s
  /\ isDrawing (snd (_createNode latlng s)) = isDrawing s
  /\ state (snd (_createNode latlng s)) = state s
  /\ tempLine (snd (_createNode latlng s)) = tempLine s
  /\ next_id (snd (_createNode latlng s)) = S (S (next_id s))
  /\ nodes (snd (_createNode latlng s)) = nodes s.
Proof. repeat split. Qed.

Lemma place_point_effect (e : MouseEvent num) (s : Editor num) :
  nodes (place_point e s) = nodes s ++ [mkNode (S (next_id s)) (ev_latlng e) (next_id s)]
  /\ shape (place_point e s) = Some (ShapeIsNode (S (next_id s)))
  /\ shapeType (place_point e s) = shapeType s
  /\ isDrawing (place_point e s) = false
  /\ state (place_point e s) = Idle
  /\ tempLine (place_point e s) = tempLine s
  /\ next_id (place_point e s) = S (S (next_id s)).
Proof. repeat split. Qed.

Lemma startDrawing_effect (type : string) (s : Editor num) :
  nodes (startDrawing type s) = []
  /\ shape (startDrawing type s) = None
  /\ shapeType (startDrawing type s) = Some type
  /\ isDrawing (startDrawing type s) = true
  /\ state (startDrawing type s) = Drawing
  /\ tempLine (startDrawing type s) = None
  /\ next_id (startDrawing type s) = next_id s.
Proof.
  unfold startDrawing. autorewrite with editor_fields.
  destruct (clear_frame s) as (_ & _ & E3 & E4 & _).
  rewrite clear_nodes, clear_shape, E3, E4. repeat split.
Qed.

Lemma onMouseMove_effect (e : MouseEvent num) (s : Editor num) :
  same_session_fields s (_onMouseMove surface e s)
  /\ next_id s <= next_id (_onMouseMove surface e s)
  /\ (tempLine (_onMouseMove surface e s) = tempLine s
      \/ (isDrawing s = true /\ shapeType_is s "point" = false)).
Proof.
  unfold _onMouseMove, same_session_fields.
  destruct (isDrawing s) eqn:Ed; cbn [negb orb].
  2:{ repeat split; try lia; try assumption; try (left; reflexivity). }
  destruct (List.length (nodes s) =? 0)%nat; cbn [orb].
  { repeat split; try lia; try assumption; try (left; reflexivity). }
  destruct (shapeType_is s "point") eqn:Ep.
  { repeat split; try lia; try assumption; try (left; reflexivity). }
  destruct (shapeType_is s "polygon" && _).
  { repeat split; try lia; try assumption; try (left; reflexivity). }
  destruct ((shapeType_is s "rectangle" || shapeType_is s "circle") && _).
  { repeat split; try lia; try assumption; try (left; reflexivity). }
  assert (P : nodes (_autoPan surface (ev_containerPoint e) s) = nodes s
              /\ shape (_autoPan surface (ev_containerPoint e) s) = shape s
              /\ shapeType (_autoPan surface (ev_containerPoint e) s) = shapeType s
              /\ isDrawing (_autoPan surface (ev_containerPoint e) s) = isDrawing s
              /\ state (_autoPan surface (ev_containerPoint e) s) = state s
              /\ next_id (_autoPan surface (ev_containerPoint e) s) = next_id s).
  { unfold _autoPan. destruct (autoPan_offset surface (ev_containerPoint e) s) as [x y].
    destruct (_ || _); repeat split. }
  destruct P as (P1 & P2 & P3 & P4 & P5 & P6).
  set (a := _autoPan surface (ev_containerPoint e) s) in *. clearbody a.
  set (b := match tempLine a with
            | Some (id, _) => removeLayer id a
            | None => a
            end).
  assert (Q : nodes b = nodes a /\ shape b = shape a /\ shapeType b = shapeType a
              /\ isDrawing b = isDrawing a /\ state b = state a /\ next_id b = next_id a).
  { unfold b. destruct (tempLine a) as [[t ls]|]; repeat split. }
  destruct Q as (Q1 & Q2 & Q3 & Q4 & Q5 & Q6). clearbody b.
  unfold addNewLayer. cbv beta iota zeta.
  autorewrite with editor_fields.
  rewrite Q1, Q2, Q3, Q4, Q5, Q6, P1, P2, P3, P4, P5, P6.
  repeat split; try lia; try assumption; try (right; split; reflexivity).
Qed.
End Effects2.

Section Effects3.
Context {num : Type} `{JSNumber num} `{JSInfinity num}.
Variable surface : MapSurface num.

Lemma cleared_clear (s : Editor num) : cleared s (clear s).
Proof.
  destruct (clear_frame s) as (_ & _ & E3 & E4 & _).
  unfold cleared. rewrite E3, E4. repeat split.
Qed.

Lemma cleared_set_shapeType (s x : Editor num) (v : option string) :
  cleared s x -> cleared s (set_shapeType v x).
Proof. unfold cleared. autorewrite with editor_fields. exact (fun c => c). Qed.

Lemma cleared_set_options (s x : Editor num) (v : Options num) :
  cleared s x -> cleared s (set_options v x).
Proof. unfold cleared. autorewrite with editor_fields. exact (fun c => c). Qed.

Lemma create_nodes_cons (c : LatLng num) (cs : list (LatLng num)) (x : Editor num) :
  create_nodes (c :: cs) x
  = create_nodes cs (set_nodes (nodes x ++ [mkNode (S (next_id x)) c (next_id x)])
                       (snd (_createNode c x))).
Proof. reflexivity. Qed.

Lemma create_nodes_effect (cs : list (LatLng num)) (x : Editor num) :
  shape (create_nodes cs x) = shape x
  /\ isDrawing (create_nodes cs x) = isDrawing x
  /\ state (create_nodes cs x) = state x
  /\ tempLine (create_nodes cs x) = tempLine x
  /\ (distinct (next_id x) (nodes x)
      -> distinct (next_id (create_nodes cs x)) (nodes (create_nodes cs x))).
Proof.
  revert x. induction cs as [|c cs IH]; intros x.
  - do 4 (split; [reflexivity|]). exact (fun d => d).
  - rewrite create_nodes_cons.
    set (x1 := set_nodes (nodes x ++ [mkNode (S (next_id x)) c (next_id x)])
                 (snd (_createNode c x))).
    destruct (IH x1) as (E1 & E2 & E3 & E4 & E5).
    rewrite E1, E2, E3, E4. unfold x1 at 1 2 3 4. autorewrite with editor_fields.
    destruct (createNode_effect c x) as (C1 & C2 & C3 & C4 & C5 & C6 & C7).
    rewrite C1, C3, C4, C5. do 4 (split; [reflexivity|]).
    intros D. apply E5. unfold x1. autorewrite with editor_fields. rewrite C6.
    rewrite <- (app_nil_r (nodes x)) in D.
    apply (distinct_insert (next_id x) c (nodes x) []) in D. exact D.
Qed.

(** The branches of the context-menu handler. *)
Lemma node_contextmenu_cases (node : Node num) (s : Editor num) :
  node_contextmenu surface node s = clear s
  \/ node_contextmenu surface node s = s
  \/ (minNodes s < List.length (nodes s)
      /\ node_contextmenu surface node s
         = fire (noderemove (node_id node))
             (_updateShape surface
                (removeLayer (node_background node)
                   (removeLayer (node_id node)
                      (set_nodes (splice_remove1 (indexOf node (nodes s)) (nodes s)) s))))).
Proof.
  unfold node_contextmenu.
  destruct (List.length (nodes s) =? minNodes s)%nat; [left; reflexivity|].
  destruct (minNodes s <? List.length (nodes s))%nat eqn:E; [|right; left; reflexivity].
  right. right. apply Nat.ltb_lt in E. split; [exact E | reflexivity].
Qed.

(** The branches of an import. *)
Lemma drawFromGeoJSON_cases (geojson : GeoJSONValue num) (opts : option (OptionsPatch num))
    (s : Editor num) :
  exists x, cleared s x
    /\ (fst (drawFromGeoJSON surface geojson opts s) = x
        \/ exists cs, fst (drawFromGeoJSON surface geojson opts s)
                      = _updateShape surface (create_nodes cs x)).
Proof.
  unfold drawFromGeoJSON.
  pose proof (cleared_clear s) as Hc.
  set (c := clear s) in *. clearbody c.
  destruct geojson as [| |g]; try (exists c; split; [exact Hc | left; reflexivity]).
  destruct (g_type g) as [ty|]; [|exists c; split; [exact Hc | left; reflexivity]].
  destruct (String.eqb ty ""); [exists c; split; [exact Hc | left; reflexivity]|].
  set (c1 := match opts with
             | Some p => set_options (setOptions (options c) p) c
             | None => c
             end).
  assert (H1 : cleared s c1).
  { unfold c1. destruct opts; [apply cleared_set_options|]; exact Hc. }
  clearbody c1.
  set (c2 := set_shapeType (Some (toLowerCase ty)) c1).
  assert (H2 : cleared s c2) by (apply cleared_set_shapeType; exact H1).
  clearbody c2.
  destruct (import_switch ty g) as [[assigned read]|];
    [|exists c2; split; [exact H2 | left; reflexivity]].
  set (c3 := match assigned with
             | Some t => set_shapeType (Some t) c2
             | None => c2
             end).
  assert (H3 : cleared s c3).
  { unfold c3. destruct assigned; [apply cleared_set_shapeType|]; exact H2. }
  clearbody c3.
  destruct read as [coordinates|err|];
    try (exists c3; split; [exact H3 | left; reflexivity]).
  destruct (String.eqb ty "Point" && _).
  - set (c4 := set_shapeType (Some "circle"%string) c3).
    assert (H4 : cleared s c4) by (apply cleared_set_shapeType; exact H3).
    clearbody c4.
    destruct (bind _ _) as [cs|err|];
      exists c4; (split; [exact H4|]);
      [right; exists cs; reflexivity | left; reflexivity | left; reflexivity].
  - exists c3. split; [exact H3|]. right. exists coordinates. reflexivity.
Qed.
End Effects3.
(** ** What holds throughout a session *)

Section Invariant1.
Context {num : Type} `{JSNumber num} `{JSInfinity num}.

Lemma distinct_after_updateShape (surface : MapSurface num) (x : Editor num) (k : nat) :
  k <= next_id x -> distinct k (nodes x) ->
  distinct (next_id (_updateShape surface x)) (nodes (_updateShape surface x)).
Proof.
  intros Hk D. rewrite updateShape_nodes.
  destruct (updateShape_frame surface x) as (_ & _ & _ & _ & _ & E).
  apply (distinct_mono k); [exact D | lia].
Qed.

Lemma distinct_after_finish (x : Editor num) :
  distinct (next_id x) (nodes x) ->
  distinct (next_id (finish_drawing x)) (nodes (finish_drawing x)).
Proof.
  destruct (finish_drawing_frame x) as (_ & _ & _ & _ & _ & E).
  rewrite finish_drawing_nodes, E. exact (fun d => d).
Qed.

Lemma distinct_after_click (surface : MapSurface num) (e : MouseEvent num) (s : Editor num) :
  distinct (next_id s) (nodes s) ->
  distinct (next_id (_onMapClick surface e s)) (nodes (_onMapClick surface e s)).
Proof.
  intros D.
  destruct (createNode_effect (ev_latlng e) s) as (_ & _ & _ & _ & _ & C6 & _).
  destruct (onMapClick_cases surface e s)
    as [E | [(_ & idx & E) | [(_ & _ & _ & E) | [(_ & E) | (_ & E)]]]]; rewrite E.
  - exact D.
  - rewrite insert_node_eq. rewrite nodes_fire, next_id_fire.
    apply (distinct_after_updateShape surface _ (S (S (next_id s)))).
    + rewrite next_id_set_nodes, C6. lia.
    + rewrite nodes_set_nodes.
      destruct (splice_insert_split idx (mkNode (S (next_id s)) (ev_latlng e) (next_id s))
                  (nodes s)) as (l1 & l2 & E1 & E2).
      rewrite E2. apply distinct_insert. rewrite <- E1. exact D.
  - destruct (place_point_effect e s) as (P1 & _ & _ & _ & _ & _ & P7).
    rewrite P1, P7. apply distinct_insert. rewrite app_nil_r. exact D.
  - apply distinct_after_finish. exact D.
  - rewrite append_node_eq. cbv zeta.
    set (x := fire _ _).
    assert (Dx : distinct (next_id x) (nodes x)).
    { unfold x. rewrite nodes_fire, next_id_fire.
      apply (distinct_after_updateShape surface _ (S (S (next_id s)))).
      - rewrite next_id_set_nodes, C6. lia.
      - rewrite nodes_set_nodes. apply distinct_insert. rewrite app_nil_r. exact D. }
    clearbody x. destruct (reached_count x); [apply distinct_after_finish|]; exact Dx.
Qed.

Lemma distinct_after_contextmenu (surface : MapSurface num) (node : Node num)
    (s : Editor num) :
  distinct (next_id s) (nodes s) ->
  distinct (next_id (node_contextmenu surface node s))
           (nodes (node_contextmenu surface node s)).
Proof.
  intros D.
  destruct (node_contextmenu_cases surface node s) as [E | [E | (_ & E)]]; rewrite E.
  - rewrite clear_nodes. apply distinct_nil.
  - exact D.
  - rewrite nodes_fire, next_id_fire.
    apply (distinct_after_updateShape surface _ (next_id s)).
    + autorewrite with editor_fields. lia.
    + autorewrite with editor_fields.
      destruct (splice_remove1_split (indexOf node (nodes s)) (nodes s))
        as [E1 | (l1 & x & l2 & E1 & E2)].
      * rewrite E1. exact D.
      * rewrite E2. apply (distinct_remove (next_id s) x). rewrite <- E1. exact D.
Qed.

Lemma distinct_after_import (surface : MapSurface num) (geojson : GeoJSONValue num)
    (opts : option (OptionsPatch num)) (s : Editor num) :
  distinct (next_id (fst (drawFromGeoJSON surface geojson opts s)))
           (nodes (fst (drawFromGeoJSON surface geojson opts s))).
Proof.
  destruct (drawFromGeoJSON_cases surface geojson opts s)
    as (x & (Xn & _) & [E | (cs & E)]); rewrite E.
  - rewrite Xn. apply distinct_nil.
  - destruct (create_nodes_effect cs x) as (_ & _ & _ & _ & D).
    apply (distinct_after_updateShape surface _ (next_id (create_nodes cs x))); [lia|].
    apply D. rewrite Xn. apply distinct_nil.
Qed.

Lemma distinct_after_drag (surface : MapSurface num) (toLatLng : Point num -> LatLng num)
    (isDragging : bool) (node : Node num) (e : MouseEvent num) (s : Editor num) :
  distinct (next_id s) (nodes s) ->
  distinct (next_id (node_onMouseMove surface toLatLng isDragging node e s))
           (nodes (node_onMouseMove surface toLatLng isDragging node e s)).
Proof.
  intros D. unfold node_onMouseMove. destruct (negb isDragging); [exact D|].
  cbv zeta. unfold setLatLng.
  apply (distinct_after_updateShape surface _ (next_id s)).
  - rewrite next_id_set_nodes. lia.
  - rewrite nodes_set_nodes. apply distinct_moved. exact D.
Qed.

(** Whatever the calls and events, the nodes of the editor carry identities
    the counter handed out and no two of them share one: [_createNode] is the
    only source of nodes, and neither an insertion, a removal nor a drag
    duplicates one. *)
Theorem nodes_stay_distinct (s : Editor num) : reachable s -> distinct_nodes s.
Proof.
  intros R. change (distinct (next_id s) (nodes s)).
  induction R as [opts | surface toLatLng a s R IH].
  - apply distinct_nil.
  - destruct a as [type | | geojson opts | e | e | node | | isDragging node e | ];
      cbn [step].
    + destruct (startDrawing_effect type s) as (E & _). rewrite E. apply distinct_nil.
    + rewrite clear_nodes. apply distinct_nil.
    + apply distinct_after_import.
    + apply distinct_after_click. exact IH.
    + destruct (onMouseMove_effect surface e s) as ((E & _) & L & _).
      rewrite E. apply (distinct_mono (next_id s)); assumption.
    + apply distinct_after_contextmenu. exact IH.
    + exact IH.
    + apply distinct_after_drag. exact IH.
    + exact IH.
Qed.
End Invariant1.

Section Invariant2.
Context {num : Type} `{JSNumber num} `{JSInfinity num}.

Lemma insert_node_effect (surface : MapSurface num) (idx : Z) (e : MouseEvent num)
    (s : Editor num) :
  shapeType (insert_node surface idx e s) = shapeType s
  /\ isDrawing (insert_node surface idx e s) = isDrawing s
  /\ state (insert_node surface idx e s) = state s
  /\ tempLine (insert_node surface idx e s) = tempLine s.
Proof.
  rewrite insert_node_eq. autorewrite with editor_fields.
  destruct (rebuild_effect surface
              (splice_insert idx (mkNode (S (next_id s)) (ev_latlng e) (next_id s)) (nodes s))
              (snd (_createNode (ev_latlng e) s))) as (_ & E2 & E3 & E4 & E5 & _).
  rewrite E2, E3, E4, E5. repeat split.
Qed.

(** The editor of the appending branch before the count is tested. *)
Lemma appended_effect (surface : MapSurface num) (e : MouseEvent num) (s : Editor num) :
  let x := fire (nodeadd (S (next_id s)))
             (_updateShape surface
                (set_nodes (nodes s ++ [mkNode (S (next_id s)) (ev_latlng e) (next_id s)])
                   (snd (_createNode (ev_latlng e) s)))) in
  shapeType x = shapeType s /\ isDrawing x = isDrawing s /\ state x = state s
  /\ tempLine x = tempLine s.
Proof.
  cbv zeta. autorewrite with editor_fields.
  destruct (rebuild_effect surface
              (nodes s ++ [mkNode (S (next_id s)) (ev_latlng e) (next_id s)])
              (snd (_createNode (ev_latlng e) s))) as (_ & E2 & E3 & E4 & E5 & _).
  rewrite E2, E3, E4, E5. repeat split.
Qed.

Lemma removal_effect (surface : MapSurface num) (node : Node num) (s : Editor num) :
  let x := fire (noderemove (node_id node))
             (_updateShape surface
                (removeLayer (node_background node)
                   (removeLayer (node_id node)
                      (set_nodes (splice_remove1 (indexOf node (nodes s)) (nodes s)) s)))) in
  shapeType x = shapeType s /\ isDrawing x = isDrawing s /\ state x = state s
  /\ tempLine x = tempLine s.
Proof.
  cbv zeta. autorewrite with editor_fields.
  set (y := removeLayer _ _).
  destruct (updateShape_frame surface y) as (E1 & E2 & E3 & _).
  rewrite updateShape_shapeType, E1, E2, E3. unfold y.
  autorewrite with editor_fields. repeat split.
Qed.

Lemma drag_effect (surface : MapSurface num) (toLatLng : Point num -> LatLng num)
    (isDragging : bool) (node : Node num) (e : MouseEvent num) (s : Editor num) :
  shapeType (node_onMouseMove surface toLatLng isDragging node e s) = shapeType s
  /\ isDrawing (node_onMouseMove surface toLatLng isDragging node e s) = isDrawing s
  /\ state (node_onMouseMove surface toLatLng isDragging node e s) = state s
  /\ tempLine (node_onMouseMove surface toLatLng isDragging node e s) = tempLine s.
Proof.
  unfold node_onMouseMove. destruct (negb isDragging); [repeat split|].
  cbv zeta. unfold setLatLng.
  destruct (rebuild_effect surface
              (map (fun n => if Nat.eqb (node_id n) (node_id node)
                             then mkNode (node_id n) (toLatLng (ev_containerPoint e))
                                    (node_background n)
                             else n) (nodes s)) s) as (_ & E2 & E3 & E4 & E5 & _).
  rewrite E2, E3, E4, E5. repeat split.
Qed.

Lemma import_effect (surface : MapSurface num) (geojson : GeoJSONValue num)
    (opts : option (OptionsPatch num)) (s : Editor num) :
  isDrawing (fst (drawFromGeoJSON surface geojson opts s)) = true
  /\ state (fst (drawFromGeoJSON surface geojson opts s)) = Idle
  /\ tempLine (fst (drawFromGeoJSON surface geojson opts s)) = None.
Proof.
  destruct (drawFromGeoJSON_cases surface geojson opts s)
    as (x & (_ & _ & X3 & X4 & X5 & _) & [E | (cs & E)]); rewrite E.
  - repeat split; assumption.
  - destruct (updateShape_frame surface (create_nodes cs x)) as (E1 & E2 & E3 & _).
    destruct (create_nodes_effect cs x) as (_ & C2 & C3 & C4 & _).
    rewrite E1, E2, E3, C2, C3, C4. repeat split; assumption.
Qed.

(** Whatever the calls and events, the state ["drawing"] is only ever seen with
    the [isDrawing] flag raised: every branch that lowers the flag also sets
    the state to ["idle"]. *)
Theorem drawing_state_has_flag (s : Editor num) : reachable s -> drawing_state_flagged s.
Proof.
  intros R. unfold drawing_state_flagged.
  induction R as [opts | surface toLatLng a s R IH].
  - intros E. discriminate E.
  - destruct a as [type | | geojson opts | e | e | node | | isDragging node e | ];
      cbn [step].
    + destruct (startDrawing_effect type s) as (_ & _ & _ & E & _). intros _. exact E.
    + intros _. apply clear_isDrawing.
    + destruct (import_effect surface geojson opts s) as (E & _). intros _. exact E.
    + destruct (onMapClick_cases surface e s)
        as [E | [(_ & idx & E) | [(_ & _ & _ & E) | [(_ & E) | (_ & E)]]]]; rewrite E.
      * exact IH.
      * destruct (insert_node_effect surface idx e s) as (_ & E2 & E3 & _).
        rewrite E2, E3. exact IH.
      * destruct (place_point_effect e s) as (_ & _ & _ & _ & P5 & _).
        rewrite P5. intros D. discriminate D.
      * destruct (finish_drawing_frame s) as (_ & F2 & _). rewrite F2.
        intros D. discriminate D.
      * rewrite append_node_eq. cbv zeta.
        destruct (appended_effect surface e s) as (_ & A2 & A3 & _). cbv zeta in A2, A3.
        set (x := fire _ _) in *. clearbody x.
        destruct (reached_count x).
        -- destruct (finish_drawing_frame x) as (_ & F2 & _). rewrite F2.
           intros D. discriminate D.
        -- rewrite A2, A3. exact IH.
    + destruct (onMouseMove_effect surface e s) as ((_ & _ & _ & E4 & E5) & _).
      rewrite E4, E5. exact IH.
    + destruct (node_contextmenu_cases surface node s) as [E | [E | (_ & E)]]; rewrite E.
      * intros _. apply clear_isDrawing.
      * exact IH.
      * destruct (removal_effect surface node s) as (_ & A2 & A3 & _). cbv zeta in A2, A3.
        rewrite A2, A3. exact IH.
    + exact IH.
    + destruct (drag_effect surface toLatLng isDragging node e s) as (_ & A2 & A3 & _).
      rewrite A2, A3. exact IH.
    + exact IH.
Qed.

(** Whatever the calls and events, an editor that is not drawing, or whose
    type is ["point"], has no preview line: the branches that end a drawing
    remove it, and [_onMouseMove] draws none outside a drawing. *)
Theorem preview_line_only_while_drawing (s : Editor num) :
  reachable s -> preview_only_while_drawing s.
Proof.
  intros R. unfold preview_only_while_drawing.
  induction R as [opts | surface toLatLng a s R IH].
  - intros _. reflexivity.
  - destruct a as [type | | geojson opts | e | e | node | | isDragging node e | ];
      cbn [step].
    + destruct (startDrawing_effect type s) as (_ & _ & _ & _ & _ & E & _). intros _. exact E.
    + destruct (cleared_clear s) as (_ & _ & _ & _ & E & _). intros _. exact E.
    + destruct (import_effect surface geojson opts s) as (_ & _ & E). intros _. exact E.
    + destruct (onMapClick_cases surface e s)
        as [E | [(_ & idx & E) | [(_ & Ep & _ & E) | [(_ & E) | (_ & E)]]]]; rewrite E.
      * exact IH.
      * destruct (insert_node_effect surface idx e s) as (E1 & E2 & _ & E4).
        unfold shapeType_is in *. rewrite E1, E2, E4. exact IH.
      * destruct (place_point_effect e s) as (_ & _ & _ & _ & _ & P6 & _).
        rewrite P6. intros _. apply IH. right. exact Ep.
      * destruct (finish_drawing_frame s) as (_ & _ & F3 & _). intros _. exact F3.
      * rewrite append_node_eq. cbv zeta.
        destruct (appended_effect surface e s) as (A1 & A2 & _ & A4). cbv zeta in A1, A2, A4.
        set (x := fire _ _) in *. clearbody x.
        destruct (reached_count x).
        -- destruct (finish_drawing_frame x) as (_ & _ & F3 & _). intros _. exact F3.
        -- unfold shapeType_is in *. rewrite A1, A2, A4. exact IH.
    + destruct (onMouseMove_effect surface e s) as ((_ & _ & E3 & E4 & _) & _ & [Et | (Ed & Ep)]).
      * unfold shapeType_is in *. rewrite E3, E4, Et. exact IH.
      * unfold shapeType_is in *. rewrite E3, E4, Ed, Ep.
        intros [D | D]; discriminate D.
    + destruct (node_contextmenu_cases surface node s) as [E | [E | (_ & E)]]; rewrite E.
      * destruct (cleared_clear s) as (_ & _ & _ & _ & Ec & _). intros _. exact Ec.
      * exact IH.
      * destruct (removal_effect surface node s) as (A1 & A2 & _ & A4).
        cbv zeta in A1, A2, A4. unfold shapeType_is in *. rewrite A1, A2, A4. exact IH.
    + exact IH.
    + destruct (drag_effect surface toLatLng isDragging node e s) as (A1 & A2 & _ & A4).
      unfold shapeType_is in *. rewrite A1, A2, A4. exact IH.
    + exact IH.
Qed.
End Invariant2.

(** *** The shape through the handlers

    Every handler leaves the shape, the type and the nodes alone, or leaves
    no shape that is a layer, or ends by rebuilding the shape from nodes
    enough for it. A property of the shape with these three ways in is kept
    by every action. *)
Section ShapeThroughHandlers.
Context {num : Type} `{JSNumber num} `{JSInfinity num}.
Variable view : MapSurface num.
Variable inv : Editor num -> Prop.
Hypothesis inv_has_nodes : forall s, inv s -> shape_has_nodes s.
Hypothesis inv_rebuilt : forall x, shape_has_nodes x -> inv (_updateShape view x).
Hypothesis inv_same : forall s x,
  shape x = shape s -> shapeType x = shapeType s -> nodes x = nodes s -> inv s -> inv x.
Hypothesis inv_no_layer : forall x, (forall id p, shape x <> Some (ShapeLayer id p)) -> inv x.

Lemma has_nodes_transfer (s x : Editor num) :
  shape x = shape s -> shapeType x = shapeType s ->
  List.length (nodes s) <= List.length (nodes x) ->
  shape_has_nodes s -> shape_has_nodes x.
Proof.
  intros E1 E2 L Hs id p E. rewrite E1 in E.
  destruct (Hs id p E) as (ty & X1 & X2 & X3).
  exists ty. rewrite E2. repeat split; try assumption. lia.
Qed.

Lemma inv_fire (ev : Event num) (x : Editor num) : inv x -> inv (fire ev x).
Proof.
  apply inv_same; [apply shape_fire | apply shapeType_fire | apply nodes_fire].
Qed.

Lemma inv_after_finish (x : Editor num) : inv x -> inv (finish_drawing x).
Proof.
  destruct (finish_drawing_frame x) as (_ & _ & _ & F4 & F5 & _).
  apply inv_same; [exact F4 | exact F5 | apply finish_drawing_nodes].
Qed.

Lemma inv_after_click (e : MouseEvent num) (s : Editor num) :
  inv s -> inv (_onMapClick view e s).
Proof.
  intros F.
  destruct (createNode_effect (ev_latlng e) s) as (C1 & C2 & _).
  destruct (onMapClick_cases view e s)
    as [E | [(_ & idx & E) | [(_ & _ & _ & E) | [(_ & E) | (_ & E)]]]]; rewrite E.
  - exact F.
  - rewrite insert_node_eq.
    apply inv_fire.
    apply inv_rebuilt.
    apply (has_nodes_transfer s);
      [rewrite shape_set_nodes; exact C1 | rewrite shapeType_set_nodes; exact C2 |
      | apply inv_has_nodes; exact F].
    rewrite nodes_set_nodes, splice_insert_length. lia.
  - apply inv_no_layer. intros id p.
    destruct (place_point_effect e s) as (_ & P2 & _). rewrite P2. discriminate.
  - apply inv_after_finish. exact F.
  - rewrite append_node_eq. cbv zeta.
    set (x := fire _ _).
    assert (Fx : inv x).
    { unfold x.
      apply inv_fire.
      apply inv_rebuilt.
      apply (has_nodes_transfer s);
        [rewrite shape_set_nodes; exact C1 | rewrite shapeType_set_nodes; exact C2 |
        | apply inv_has_nodes; exact F].
      rewrite nodes_set_nodes, length_app. lia. }
    clearbody x. destruct (reached_count x); [apply inv_after_finish|]; exact Fx.
Qed.

Lemma inv_after_contextmenu (node : Node num) (s : Editor num) :
  inv s -> inv (node_contextmenu view node s).
Proof.
  intros F.
  destruct (node_contextmenu_cases view node s) as [E | [E | (L & E)]]; rewrite E.
  - apply inv_no_layer. intros id p. rewrite clear_shape. discriminate.
  - exact F.
  - apply inv_fire. set (y := removeLayer _ _).
    apply inv_rebuilt.
    intros id p Es. unfold y in Es |- *. autorewrite with editor_fields in Es |- *.
    destruct (inv_has_nodes s F id p Es) as (ty & X1 & X2 & _).
    exists ty. repeat split; [exact X1 | exact X2 |].
    pose proof (minNodes_of_type ty s X2) as M.
    assert (Hm : minimum_nodes ty <= minNodes s).
    { rewrite M. destruct ty; cbn; lia. }
    destruct (splice_remove1_split (indexOf node (nodes s)) (nodes s))
      as [E1 | (l1 & a & l2 & E1 & E2)].
    + rewrite E1. lia.
    + rewrite E2. rewrite E1 in L. rewrite length_app in *. cbn in L. lia.
Qed.

Lemma inv_after_import (geojson : GeoJSONValue num) (opts : option (OptionsPatch num))
    (s : Editor num) :
  inv (fst (drawFromGeoJSON view geojson opts s)).
Proof.
  destruct (drawFromGeoJSON_cases view geojson opts s)
    as (x & (_ & X2 & _) & [E | (cs & E)]); rewrite E.
  - apply inv_no_layer. intros id p. rewrite X2. discriminate.
  - apply inv_rebuilt. intros id p Es.
    destruct (create_nodes_effect cs x) as (C1 & _).
    rewrite C1, X2 in Es. discriminate Es.
Qed.

Lemma inv_after_drag (toLatLng : Point num -> LatLng num)
    (isDragging : bool) (node : Node num) (e : MouseEvent num) (s : Editor num) :
  inv s -> inv (node_onMouseMove view toLatLng isDragging node e s).
Proof.
  intros F. unfold node_onMouseMove. destruct (negb isDragging); [exact F|].
  cbv zeta. unfold setLatLng. apply inv_rebuilt.
  apply (has_nodes_transfer s);
    [apply shape_set_nodes | apply shapeType_set_nodes | | apply inv_has_nodes; exact F].
  rewrite nodes_set_nodes, length_map. lia.
Qed.

Lemma inv_step (toLatLng : Point num -> LatLng num) (a : Action) (s : Editor num) :
  inv s -> inv (step view toLatLng a s).
Proof.
  intros F.
  destruct a as [type | | geojson opts | e | e | node | | isDragging node e | ];
    cbn [step].
  - apply inv_no_layer. intros id p.
    destruct (startDrawing_effect type s) as (_ & E & _). rewrite E. discriminate.
  - apply inv_no_layer. intros id p. rewrite clear_shape. discriminate.
  - apply inv_after_import.
  - apply inv_after_click. exact F.
  - destruct (onMouseMove_effect view e s) as ((E1 & E2 & E3 & _) & _).
    apply (inv_same s); assumption.
  - apply inv_after_contextmenu. exact F.
  - apply (inv_same s); [reflexivity | reflexivity | reflexivity | exact F].
  - apply inv_after_drag. exact F.
  - apply (inv_same s); [reflexivity | reflexivity | reflexivity | exact F].
Qed.
End ShapeThroughHandlers.

Section Invariant4.
Context {num : Type} `{JSNumber num} `{JSInfinity num}.

Lemma has_nodes_no_layer (x : Editor num) :
  (forall id p, shape x <> Some (ShapeLayer id p)) -> shape_has_nodes x.
Proof. intros N id p E. destruct (N id p E). Qed.

Lemma has_nodes_rebuilt (view : MapSurface num) (x : Editor num) :
  shape_has_nodes x -> shape_has_nodes (_updateShape view x).
Proof.
  intros Hx id p E.
  destruct (updateShape_cases view x)
    as [(ty & q & C1 & C2 & C3 & C4 & C5) | [(n0 & C) | (C1 & C2)]].
  - exists ty. rewrite updateShape_shapeType, updateShape_nodes.
    repeat split; assumption.
  - rewrite C in E. discriminate E.
  - rewrite C2 in E. destruct (Hx id p E) as (ty & X1 & X2 & X3).
    specialize (C1 ty X1 X2). lia.
Qed.

(** Every action keeps a layer shape on a type that builds one, with nodes
    enough for it. *)
Lemma has_nodes_step (view : MapSurface num) (toLatLng : Point num -> LatLng num)
    (a : Action) (s : Editor num) :
  shape_has_nodes s -> shape_has_nodes (step view toLatLng a s).
Proof.
  apply (inv_step view shape_has_nodes).
  - intros x Hx. exact Hx.
  - apply has_nodes_rebuilt.
  - intros x y E1 E2 E3. apply has_nodes_transfer; [exact E1 | exact E2 |].
    rewrite E3. apply Nat.le_refl.
  - apply has_nodes_no_layer.
Qed.

(** The surface the shapes are measured on. *)
Variable surface : MapSurface num.

Lemma built_primitive_measure (view : MapSurface num) (ty : ShapeType)
    (cs : list (LatLng num)) :
  same_measure surface view ->
  built_primitive view ty cs = built_primitive surface ty cs.
Proof.
  intros M. destruct ty; try reflexivity.
  destruct cs as [|c [|p1 cs]]; try reflexivity.
  cbn [built_primitive]. rewrite M. reflexivity.
Qed.

Lemma follows_has_nodes (s : Editor num) :
  shape_follows_nodes surface s -> shape_has_nodes s.
Proof.
  intros F id p E. destruct (F id p E) as (ty & F1 & F2 & F3 & _).
  exists ty. repeat split; assumption.
Qed.

Lemma rebuild_follows (view : MapSurface num) (x : Editor num) :
  same_measure surface view ->
  shape_has_nodes x -> shape_follows_nodes surface (_updateShape view x).
Proof.
  intros M Hx id p E.
  destruct (updateShape_cases view x)
    as [(ty & q & C1 & C2 & C3 & C4 & C5) | [(n0 & C) | (C1 & C2)]].
  - rewrite C5 in E. injection E as _ Ep. subst q.
    exists ty. rewrite updateShape_shapeType. unfold coordinates_of.
    rewrite updateShape_nodes. rewrite <- (built_primitive_measure view ty _ M).
    repeat split; assumption.
  - rewrite C in E. discriminate E.
  - rewrite C2 in E. destruct (Hx id p E) as (ty & X1 & X2 & X3).
    specialize (C1 ty X1 X2). lia.
Qed.

Lemma follows_transfer (s x : Editor num) :
  shape x = shape s -> shapeType x = shapeType s -> nodes x = nodes s ->
  shape_follows_nodes surface s -> shape_follows_nodes surface x.
Proof.
  intros E1 E2 E3 Hs id p E. rewrite E1 in E.
  destruct (Hs id p E) as (ty & X1 & X2 & X3 & X4).
  exists ty. unfold coordinates_of in *. rewrite E2, E3. repeat split; assumption.
Qed.

Lemma follows_no_layer (x : Editor num) :
  (forall id p, shape x <> Some (ShapeLayer id p)) -> shape_follows_nodes surface x.
Proof. intros N id p E. destruct (N id p E). Qed.

(** Whatever the calls and events, on views of the map that measure
    distances as [surface] does, a shape held as a layer of its own is the
    primitive [_updateShape] builds for the current type from the current
    coordinates of the nodes, of which there are enough for the type; the
    radius of a circle is the distance from its first node to its second.
    The shape is never stale. *)
Theorem shape_is_built_from_nodes (s : Editor num) :
  reachable_on surface s -> shape_follows_nodes surface s.
Proof.
  intros R.
  induction R as [opts | view toLatLng a s M R IH].
  - apply follows_no_layer. intros id p. discriminate.
  - apply (inv_step view (shape_follows_nodes surface)).
    + apply follows_has_nodes.
    + intros x Hx. apply rebuild_follows; assumption.
    + apply follows_transfer.
    + apply follows_no_layer.
    + exact IH.
Qed.
End Invariant4.

(** ** Sessions on the flat surface *)

Lemma reachable_clicks (es : list (MouseEvent float)) (s : Editor float) :
  reachable s -> reachable (Flat.clicks es s).
Proof.
  revert s. induction es as [|e es IH]; intros s R; [exact R|].
  apply (IH (_onMapClick Flat.surface e s)).
  exact (reachable_step Flat.surface (fun p => mkLatLng (py p) (px p)) (MapClick e) R).
Qed.

Lemma reachable_startDrawing (type : string) (s : Editor float) :
  reachable s -> reachable (startDrawing type s).
Proof.
  intros R.
  exact (reachable_step Flat.surface (fun p => mkLatLng (py p) (px p))
           (CallStartDrawing type) R).
Qed.

Lemma reachable_quadrilateral : reachable Flat.quadrilateral.
Proof.
  unfold Flat.quadrilateral, Flat.triangle, Flat.editor.
  do 2 apply reachable_clicks. apply reachable_startDrawing. apply reachable_new.
Qed.

Lemma reachable_line3 : reachable Flat.line3.
Proof.
  unfold Flat.line3, Flat.editor.
  apply reachable_clicks. apply reachable_startDrawing. apply reachable_new.
Qed.

Lemma nodes_stay_distinct_witness : distinct_nodes Flat.quadrilateral.
Proof. apply nodes_stay_distinct. exact reachable_quadrilateral. Defined.

Lemma drawing_state_has_flag_witness : drawing_state_flagged Flat.line3.
Proof. apply drawing_state_has_flag. exact reachable_line3. Defined.

Lemma preview_line_only_while_drawing_witness : preview_only_while_drawing Flat.line3.
Proof. apply preview_line_only_while_drawing. exact reachable_line3. Defined.

Lemma reachable_on_clicks (es : list (MouseEvent float)) (s : Editor float) :
  reachable_on Flat.surface s -> reachable_on Flat.surface (Flat.clicks es s).
Proof.
  revert s. induction es as [|e es IH]; intros s R; [exact R|].
  apply (IH (_onMapClick Flat.surface e s)).
  refine (@reachable_on_step _ _ _ Flat.surface Flat.surface
            (fun p => mkLatLng (py p) (px p)) (MapClick e) s _ R).
  intros a b. reflexivity.
Qed.

Lemma reachable_on_circle : reachable_on Flat.surface Flat.circle_0_1.
Proof.
  unfold Flat.circle_0_1, Flat.editor. apply reachable_on_clicks.
  refine (@reachable_on_step _ _ _ Flat.surface Flat.surface
            (fun p => mkLatLng (py p) (px p)) (CallStartDrawing "circle") _ _
            (reachable_on_new _ None)).
  intros a b. reflexivity.
Qed.

Lemma shape_is_built_from_nodes_witness : shape_follows_nodes Flat.surface Flat.circle_0_1.
Proof. apply shape_is_built_from_nodes. exact reachable_on_circle. Defined.
(** ** What the export returns *)

Section ExportedValue.
Context {num : Type} `{JSNumber num} `{JSInfinity num}.

Lemma not_a_type_name (t : string) (ty : ShapeType) :
  (forall ty', t <> type_name ty') -> String.eqb t (type_name ty) = false.
Proof. intros N. apply String.eqb_neq. apply N. Qed.

Lemma shapeType_is_name (s : Editor num) (a b : ShapeType) :
  shapeType s = Some (type_name a) ->
  shapeType_is s (type_name b) = String.eqb (type_name a) (type_name b).
Proof. intros E. unfold shapeType_is. rewrite E. reflexivity. Qed.

(** [getGeoJSON] on an editor that has a shape. *)
Lemma getGeoJSON_cases (s : Editor num) :
  shape s <> None ->
  (completed TCircle s = true /\ getGeoJSON s = Throws TypeError)
  \/ (completed TCircle s = false
      /\ exists v, getGeoJSON s = Returns v /\ v <> GNull).
Proof.
  intros Hs. unfold getGeoJSON, completed.
  destruct (shape s) as [sh|]; [clear Hs | destruct (Hs eq_refl)].
  rewrite length_map.
  destruct (shapeType s) as [t|] eqn:Et.
  2:{ right. unfold shapeType_is. rewrite Et. cbn. split; [reflexivity|].
      eexists. split; [reflexivity | discriminate]. }
  destruct (type_of_name t) as [[ty ->]|Hno].
  - rewrite (shapeType_is_name s ty TCircle Et).
    change "point"%string with (type_name TPoint).
    change "line"%string with (type_name TLine).
    change "polygon"%string with (type_name TPolygon).
    change "rectangle"%string with (type_name TRectangle).
    change "circle"%string with (type_name TCircle).
    rewrite (shapeType_is_name s ty TPoint Et), (shapeType_is_name s ty TLine Et),
      (shapeType_is_name s ty TPolygon Et), (shapeType_is_name s ty TRectangle Et),
      (shapeType_is_name s ty TCircle Et).
    destruct ty; cbn [type_name]; rewrite ?String.eqb_refl;
      repeat match goal with |- context [String.eqb ?a ?b] =>
        let v := eval vm_compute in (String.eqb a b) in
        change (String.eqb a b) with v end; cbn [andb].
    + right. split; [reflexivity|]. eexists. split; [reflexivity | discriminate].
    + right. split; [reflexivity|]. eexists. split; [reflexivity | discriminate].
    + right. split; [reflexivity|]. eexists. split; [reflexivity | discriminate].
    + right. split; [reflexivity|].
      destruct (nodes s) as [|n0 [|n1 [|n2 ns]]]; cbn;
        eexists; (split; [reflexivity | discriminate]).
    + destruct (List.length (nodes s) =? 2)%nat.
      * left. split; [reflexivity|].
        unfold plain_distanceTo, js_nth.
        destruct (nth 0 (map (@coordinate_of num) (nodes s)) (@JUndefined num)); reflexivity.
      * right. split; [reflexivity|]. eexists. split; [reflexivity | discriminate].
  - right. unfold shapeType_is. rewrite Et.
    pose proof (not_a_type_name t TPoint Hno) as N1.
    pose proof (not_a_type_name t TLine Hno) as N2.
    pose proof (not_a_type_name t TPolygon Hno) as N3.
    pose proof (not_a_type_name t TRectangle Hno) as N4.
    pose proof (not_a_type_name t TCircle Hno) as N5.
    cbn [type_name] in N1, N2, N3, N4, N5 |- *. rewrite N1, N2, N3, N4, !N5.
    cbn. split; [reflexivity|]. eexists. split; [reflexivity | discriminate].
Qed.

(** [getGeoJSON] throws for a complete circle and for nothing else, always
    ends within what is modelled, and returns [null] exactly when the editor
    has no shape. *)
Theorem getGeoJSON_throws_for_circle_only (s : Editor num) :
  (getGeoJSON s = Throws TypeError <-> completed TCircle s = true)
  /\ getGeoJSON s <> Unmodelled
  /\ (getGeoJSON s = Returns GNull <-> shape s = None).
Proof.
  destruct (shape s) as [sh|] eqn:Es.
  - assert (Hs : shape s <> None) by (rewrite Es; discriminate).
    destruct (getGeoJSON_cases s Hs) as [(C & G) | (C & v & G & Hv)]; rewrite G, C.
    + repeat split; try discriminate; try reflexivity.
    + repeat split; try discriminate.
      intros E. injection E as E. contradiction.
  - unfold getGeoJSON, completed. rewrite Es.
    repeat split; try discriminate; try reflexivity.
Qed.
End ExportedValue.
(** ** Imports, and shape types the editor does not draw *)

Section Imports2.
Context {num : Type} `{JSNumber num} `{JSInfinity num}.
Variable surface : MapSurface num.

(** Every import, whatever it is given and however it ends, leaves the
    editor with the [isDrawing] flag that [clear()] raised, in the state
    ["idle"] and with no preview line: the click that follows an import takes
    the drawing branches, never the insertion of a node on a segment. *)
Theorem import_leaves_editor_drawing (geojson : GeoJSONValue num)
    (opts : option (OptionsPatch num)) (s : Editor num) :
  let s' := fst (drawFromGeoJSON surface geojson opts s) in
  isDrawing s' = true /\ state s' = Idle /\ tempLine s' = None
  /\ insertion_applies s' = false.
Proof.
  cbv zeta. destruct (import_effect surface geojson opts s) as (E1 & E2 & E3).
  unfold insertion_applies. rewrite E1, E2, E3. repeat split.
Qed.

Lemma shapeType_is_unknown (s : Editor num) (ty : ShapeType) :
  unknown_type s -> shapeType_is s (type_name ty) = false.
Proof.
  intros N. unfold shapeType_is. destruct (shapeType s) as [t|] eqn:Et; [|reflexivity].
  apply String.eqb_neq. intros ->. apply (N ty). exact Et.
Qed.

Lemma unknown_type_tests (s : Editor num) :
  unknown_type s ->
  shapeType_is s "point" = false /\ shapeType_is s "line" = false
  /\ shapeType_is s "polygon" = false /\ shapeType_is s "rectangle" = false
  /\ shapeType_is s "circle" = false.
Proof.
  intros N.
  pose proof (shapeType_is_unknown s TPoint N) as N1.
  pose proof (shapeType_is_unknown s TLine N) as N2.
  pose proof (shapeType_is_unknown s TPolygon N) as N3.
  pose proof (shapeType_is_unknown s TRectangle N) as N4.
  pose proof (shapeType_is_unknown s TCircle N) as N5.
  repeat split; assumption.
Qed.

Lemma updateShape_unknown (s : Editor num) :
  unknown_type s -> shape s = None -> _updateShape surface s = s.
Proof.
  intros N Es. destruct (unknown_type_tests s N) as (N1 & N2 & N3 & N4 & N5).
  unfold _updateShape. rewrite Es. cbv beta iota zeta.
  rewrite N1, N2, N3, N4, N5. reflexivity.
Qed.

Lemma click_unknown (e : MouseEvent num) (s : Editor num) :
  unknown_type s -> isDrawing s = true -> shape s = None ->
  unknown_type (_onMapClick surface e s)
  /\ isDrawing (_onMapClick surface e s) = true
  /\ shape (_onMapClick surface e s) = None
  /\ shapeType (_onMapClick surface e s) = shapeType s
  /\ nodes (_onMapClick surface e s)
     = nodes s ++ [mkNode (S (next_id s)) (ev_latlng e) (next_id s)].
Proof.
  intros N Ed Es. destruct (unknown_type_tests s N) as (N1 & N2 & N3 & N4 & N5).
  rewrite (onMapClick_while_drawing surface e s Ed), N1. cbn [andb].
  assert (Ec : closes_line surface e s = false) by (unfold closes_line; rewrite N2; reflexivity).
  rewrite Ec, append_node_eq. cbv zeta.
  destruct (createNode_effect (ev_latlng e) s) as (C1 & C2 & C3 & _).
  set (y := set_nodes (nodes s ++ [mkNode (S (next_id s)) (ev_latlng e) (next_id s)])
              (snd (_createNode (ev_latlng e) s))).
  assert (Y : shapeType y = shapeType s /\ shape y = None /\ isDrawing y = true
              /\ nodes y = nodes s ++ [mkNode (S (next_id s)) (ev_latlng e) (next_id s)]).
  { unfold y. autorewrite with editor_fields. rewrite C1, C2, C3, Es, Ed. repeat split. }
  destruct Y as (Y1 & Y2 & Y3 & Y4). clearbody y.
  assert (Ny : unknown_type y) by (intros ty; rewrite Y1; apply N).
  rewrite (updateShape_unknown y Ny Y2).
  assert (Nx : unknown_type (fire (nodeadd (S (next_id s))) y))
    by (intros ty; rewrite shapeType_fire, Y1; apply N).
  destruct (unknown_type_tests _ Nx) as (X1 & X2 & X3 & X4 & X5).
  unfold reached_count. rewrite X3, X4, X5. cbn [orb andb].
  autorewrite with editor_fields. rewrite Y1, Y2, Y3, Y4.
  split; [exact Nx | repeat split].
Qed.

(** With a shape type that is none of ["point"], ["line"], ["polygon"],
    ["rectangle"] and ["circle"] (the comparison is exact: ["Polygon"] or
    ["linestring"] are such types), a drawing never ends and never shows a
    shape: every click appends a node, and the editor exports [null]. *)
Theorem unknown_type_never_draws (es : list (MouseEvent num)) (s : Editor num) :
  unknown_type s -> isDrawing s = true -> shape s = None ->
  isDrawing (click_all surface es s) = true
  /\ shape (click_all surface es s) = None
  /\ shapeType (click_all surface es s) = shapeType s
  /\ coordinates_of (click_all surface es s)
     = coordinates_of s ++ map (@ev_latlng num) es
  /\ getGeoJSON (click_all surface es s) = Returns GNull.
Proof.
  revert s. induction es as [|e es IH]; intros s N Ed Es.
  - unfold click_all, getGeoJSON. cbn [fold_left map]. rewrite Es, app_nil_r.
    repeat split; assumption.
  - destruct (click_unknown e s N Ed Es) as (N' & Ed' & Es' & Et' & En').
    destruct (IH (_onMapClick surface e s) N' Ed' Es') as (I1 & I2 & I3 & I4 & I5).
    change (click_all surface (e :: es) s)
      with (click_all surface es (_onMapClick surface e s)).
    rewrite I1, I2, I3, I4, I5, Et'. unfold coordinates_of. rewrite En', map_app.
    cbn [map node_latlng]. rewrite <- app_assoc. repeat split.
Qed.

Lemma coordinate_of_position (n : Node num) : coordinate_of n = position (node_latlng n).
Proof. reflexivity. Qed.

Lemma coord_latLng_position (ll : LatLng num) :
  is_position ll = true -> coord_latLng (position ll) = Returns ll.
Proof.
  intros V. unfold coord_latLng, position. cbn [js_index nth bind].
  rewrite <- (latlng_eta ll) in V. rewrite (L_latLng_numbers _ _ V).
  rewrite latlng_eta. reflexivity.
Qed.

Lemma coord_latLng_no_position (ll : LatLng num) :
  is_position ll = false -> coord_latLng (position ll) = Throws InvalidLatLng.
Proof.
  intros V. unfold coord_latLng, position. cbn [js_index nth bind].
  rewrite <- (latlng_eta ll) in V. exact (L_latLng_NaN _ _ V).
Qed.

Lemma mapM_positions (cs : list (LatLng num)) :
  forallb is_position cs = true ->
  mapM coord_latLng (map (@position num) cs) = Returns cs.
Proof.
  induction cs as [|c cs IH]; cbn [map mapM forallb]; [reflexivity|].
  intros V. apply andb_prop in V as [V1 V2].
  rewrite (coord_latLng_position c V1). cbn [bind]. rewrite (IH V2). reflexivity.
Qed.

(** The positions are read in order, and the first that has a NaN stops
    the reading. *)
Lemma mapM_positions_throws (cs : list (LatLng num)) :
  forallb is_position cs = false ->
  mapM coord_latLng (map (@position num) cs) = Throws InvalidLatLng.
Proof.
  induction cs as [|c cs IH]; cbn [map mapM forallb]; [intros V; discriminate V|].
  destruct (is_position c) eqn:Vc; cbn [andb]; intros V.
  - rewrite (coord_latLng_position c Vc). cbn [bind]. rewrite (IH V). reflexivity.
  - rewrite (coord_latLng_no_position c Vc). reflexivity.
Qed.

Lemma cleared_typed (t : string) (s : Editor num) :
  nodes (set_shapeType (Some t) (clear s)) = []
  /\ shape (set_shapeType (Some t) (clear s)) = None
  /\ shapeType (set_shapeType (Some t) (clear s)) = Some t.
Proof.
  autorewrite with editor_fields. rewrite clear_nodes, clear_shape. repeat split.
Qed.

(** A [LineString] is imported under the shape type ["linestring"], which
    [_updateShape] does not draw. When no component of its positions is NaN
    the nodes are created at the positions given, in order, but no line is
    shown and the editor exports [null]. When a component is NaN, [L.latLng]
    throws before any node is created: the editor is left cleared, under the
    shape type ["linestring"]. *)
Theorem linestring_import_draws_no_shape (cs : list (LatLng num)) (s : Editor num) :
  let r := drawFromGeoJSON surface (geojson_linestring cs) None s in
  (forallb is_position cs = true ->
   snd r = Returns tt
   /\ coordinates_of (fst r) = cs
   /\ shapeType (fst r) = Some "linestring"%string
   /\ shape (fst r) = None
   /\ getGeoJSON (fst r) = Returns GNull)
  /\ (forallb is_position cs = false ->
      snd r = Throws InvalidLatLng
      /\ nodes (fst r) = []
      /\ shapeType (fst r) = Some "linestring"%string
      /\ shape (fst r) = None).
Proof.
  cbv zeta. unfold geojson_linestring.
  destruct (cleared_typed "linestring" s) as (T1 & T2 & T3).
  split; intros V.
  2:{ rewrite (drawFromGeoJSON_linestring_throws surface (map (@position num) cs)
                 InvalidLatLng s (mapM_positions_throws cs V)).
      cbn [fst snd]. repeat split; assumption. }
  rewrite (drawFromGeoJSON_linestring surface (map (@position num) cs) cs s
             (mapM_positions cs V)).
  cbn [fst snd].
  set (x := set_shapeType (Some "linestring"%string) (clear s)) in *. clearbody x.
  destruct (imported_frame surface cs x T1) as (F1 & F2).
  destruct (create_nodes_effect cs x) as (C1 & _).
  destruct (create_nodes_frame cs x) as (_ & C2 & _).
  assert (Ny : unknown_type (create_nodes cs x)).
  { intros ty. rewrite C2, T3. destruct ty; discriminate. }
  assert (Ey : shape (create_nodes cs x) = None) by (rewrite C1; exact T2).
  rewrite F1, F2, T3.
  rewrite (updateShape_unknown _ Ny Ey). unfold getGeoJSON. rewrite Ey.
  repeat split.
Qed.
End Imports2.

Lemma linestring_import_draws_no_shape_witness :
  (forallb is_position [mkLatLng 0 0; mkLatLng 0 100]%float = true
   /\ coordinates_of
        (fst (drawFromGeoJSON Flat.surface
                (geojson_linestring [mkLatLng 0 0; mkLatLng 0 100]%float) None Flat.triangle))
      = [mkLatLng 0 0; mkLatLng 0 100]%float)
  /\ (forallb is_position [mkLatLng 0 0; mkLatLng PrimFloat.nan 100]%float = false
      /\ snd (drawFromGeoJSON Flat.surface
                (geojson_linestring [mkLatLng 0 0; mkLatLng PrimFloat.nan 100]%float) None
                Flat.triangle)
         = Throws InvalidLatLng).
Proof.
  split; (split; [vm_compute; reflexivity|]).
  - refine (proj1 (proj2 (proj1 (linestring_import_draws_no_shape Flat.surface
                                   [mkLatLng 0 0; mkLatLng 0 100]%float Flat.triangle) _))).
    vm_compute. reflexivity.
  - refine (proj1 (proj2 (linestring_import_draws_no_shape Flat.surface
                            [mkLatLng 0 0; mkLatLng PrimFloat.nan 100]%float Flat.triangle) _)).
    vm_compute. reflexivity.
Defined.

Lemma unknown_type_never_draws_witness :
  isDrawing (click_all Flat.surface [Flat.at_latlng 0 0; Flat.at_latlng 0 100]
               (startDrawing "Polygon" Flat.editor)) = true
  /\ shape (click_all Flat.surface [Flat.at_latlng 0 0; Flat.at_latlng 0 100]
              (startDrawing "Polygon" Flat.editor)) = None
  /\ shapeType (click_all Flat.surface [Flat.at_latlng 0 0; Flat.at_latlng 0 100]
                  (startDrawing "Polygon" Flat.editor))
     = shapeType (startDrawing "Polygon" Flat.editor)
  /\ coordinates_of (click_all Flat.surface [Flat.at_latlng 0 0; Flat.at_latlng 0 100]
                       (startDrawing "Polygon" Flat.editor))
     = coordinates_of (startDrawing "Polygon" Flat.editor)
       ++ map (@ev_latlng float) [Flat.at_latlng 0 0; Flat.at_latlng 0 100]
  /\ getGeoJSON (click_all Flat.surface [Flat.at_latlng 0 0; Flat.at_latlng 0 100]
                   (startDrawing "Polygon" Flat.editor)) = Returns GNull.
Proof.
  apply unknown_type_never_draws.
  - intros ty.
    assert (A : shapeType (startDrawing "Polygon" Flat.editor) = Some "Polygon"%string)
      by (vm_compute; reflexivity).
    rewrite A. destruct ty; discriminate.
  - vm_compute. reflexivity.
  - vm_compute. reflexivity.
Defined.
(** ** Import, then export *)

Section RoundTrips.
Context {num : Type} `{JSNumber num} `{JSInfinity num}.
Variable surface : MapSurface num.

Lemma updateShape_point (s : Editor num) (n0 : Node num) :
  shapeType s = Some "point"%string -> nodes s = [n0] ->
  shape (_updateShape surface s) = Some (ShapeIsNode (node_id n0)).
Proof.
  intros Et En. unfold _updateShape.
  pose proof (old_shape_frame s) as Ex. cbv zeta in Ex.
  set (x := match shape s with
            | Some sh => if is_first_node sh (nodes s) then s
                         else removeLayer (shape_id sh) s
            | None => s
            end) in *.
  destruct Ex as (Ext & Exn & _). clearbody x.
  unfold shapeType_is. rewrite Ext, Exn, Et, En. reflexivity.
Qed.

Lemma drawFromGeoJSON_point_falsy (ll : LatLng num) (r : option num) (s : Editor num) :
  match r with Some v => truthy v = false | None => True end ->
  is_position ll = true ->
  drawFromGeoJSON surface (geojson_point ll r) None s
  = (_updateShape surface
       (create_nodes [ll] (set_shapeType (Some "point"%string) (clear s))),
     Returns tt).
Proof.
  intros Hr V. unfold drawFromGeoJSON, import_switch, geojson_point, position.
  cbn [g_type g_coordinates g_radius String.eqb Ascii.eqb Bool.eqb js_index nth toLowerCase
       bind andb].
  rewrite <- (latlng_eta ll) in V. rewrite (L_latLng_numbers _ _ V).
  cbn [bind]. rewrite latlng_eta.
  destruct r as [v|]; [rewrite Hr|]; reflexivity.
Qed.

Lemma drawFromGeoJSON_point_throws (ll : LatLng num) (r : option num) (s : Editor num) :
  is_position ll = false ->
  drawFromGeoJSON surface (geojson_point ll r) None s
  = (set_shapeType (Some "point"%string) (clear s), Throws InvalidLatLng).
Proof.
  intros V. unfold drawFromGeoJSON, import_switch, geojson_point, position.
  cbn [g_type g_coordinates g_radius String.eqb Ascii.eqb Bool.eqb js_index nth toLowerCase
       bind andb].
  rewrite <- (latlng_eta ll) in V. rewrite (L_latLng_NaN _ _ V). reflexivity.
Qed.

(** A [Point] whose [radius] is absent, zero or NaN, at a position with no
    NaN component, is imported as a point: one node at the position, which
    is itself the shape; exporting it gives the point back, with no radius.
    At a position with a NaN component [L.latLng] throws: no node is
    created, and the editor is left cleared under the shape type
    ["point"]. *)
Theorem point_import_then_export (ll : LatLng num) (r : option num) (s : Editor num) :
  match r with Some v => truthy v = false | None => True end ->
  (is_position ll = true ->
   snd (drawFromGeoJSON surface (geojson_point ll r) None s) = Returns tt
   /\ shapeType (fst (drawFromGeoJSON surface (geojson_point ll r) None s))
      = Some "point"%string
   /\ nodes (fst (drawFromGeoJSON surface (geojson_point ll r) None s))
      = [mkNode (S (next_id s)) ll (next_id s)]
   /\ shape (fst (drawFromGeoJSON surface (geojson_point ll r) None s))
      = Some (ShapeIsNode (S (next_id s)))
   /\ getGeoJSON (fst (drawFromGeoJSON surface (geojson_point ll r) None s))
      = Returns (geojson_point ll None))
  /\ (is_position ll = false ->
      snd (drawFromGeoJSON surface (geojson_point ll r) None s) = Throws InvalidLatLng
      /\ shapeType (fst (drawFromGeoJSON surface (geojson_point ll r) None s))
         = Some "point"%string
      /\ nodes (fst (drawFromGeoJSON surface (geojson_point ll r) None s)) = []
      /\ shape (fst (drawFromGeoJSON surface (geojson_point ll r) None s)) = None).
Proof.
  intros Hr.
  destruct (cleared_typed "point" s) as (T1 & T2 & T3).
  split; intros V.
  2:{ rewrite (drawFromGeoJSON_point_throws ll r s V). cbn [fst snd].
      repeat split; assumption. }
  rewrite (drawFromGeoJSON_point_falsy ll r s Hr V). cbn [fst snd].
  assert (T4 : next_id (set_shapeType (Some "point"%string) (clear s)) = next_id s).
  { autorewrite with editor_fields. apply clear_next_id. }
  set (x := set_shapeType (Some "point"%string) (clear s)) in *. clearbody x.
  assert (En : nodes (create_nodes [ll] x) = [mkNode (S (next_id s)) ll (next_id s)]).
  { rewrite create_nodes_cons. cbn [create_nodes fold_left].
    autorewrite with editor_fields. rewrite T1, T4. reflexivity. }
  assert (Et : shapeType (create_nodes [ll] x) = Some "point"%string).
  { destruct (create_nodes_frame [ll] x) as (_ & C2 & _). rewrite C2. exact T3. }
  set (y := create_nodes [ll] x) in *. clearbody y.
  pose proof (updateShape_point y _ Et En) as Es. cbn [node_id] in Es.
  assert (En' : nodes (_updateShape surface y) = [mkNode (S (next_id s)) ll (next_id s)])
    by (rewrite updateShape_nodes; exact En).
  assert (Et' : shapeType (_updateShape surface y) = Some "point"%string)
    by (rewrite updateShape_shapeType; exact Et).
  split; [reflexivity|]. split; [exact Et'|]. split; [exact En'|]. split; [exact Es|].
  rewrite (getGeoJSON_point (_updateShape surface y) _
             ltac:(rewrite Es; discriminate) Et' En').
  reflexivity.
Qed.

Lemma removelast_positions (cs : list (LatLng num)) (c : LatLng num) :
  removelast (map (@position num) (cs ++ [c])) = map (@position num) cs.
Proof. rewrite map_app. cbn [map]. apply removelast_last. Qed.

(** A [Polygon] whose ring is closed (its last position repeats the first)
    and has at least three corners, but not four, none with a NaN
    component, is imported as a polygon with a node per corner, in order;
    exporting it gives the same object back. (A ring of five positions is
    imported as a rectangle instead.) *)
Theorem polygon_import_then_export (c : LatLng num) (rest : list (LatLng num))
    (s : Editor num) :
  2 <= List.length rest -> List.length rest <> 3 ->
  forallb is_position (c :: rest) = true ->
  snd (drawFromGeoJSON surface (geojson_polygon ((c :: rest) ++ [c])) None s) = Returns tt
  /\ shapeType (fst (drawFromGeoJSON surface (geojson_polygon ((c :: rest) ++ [c])) None s))
     = Some "polygon"%string
  /\ coordinates_of (fst (drawFromGeoJSON surface (geojson_polygon ((c :: rest) ++ [c])) None s))
     = c :: rest
  /\ getGeoJSON (fst (drawFromGeoJSON surface (geojson_polygon ((c :: rest) ++ [c])) None s))
     = Returns (geojson_polygon ((c :: rest) ++ [c])).
Proof.
  intros H2 H3 V. unfold geojson_polygon.
  assert (Hl : List.length (map (@position num) ((c :: rest) ++ [c])) <> 5).
  { rewrite length_map, length_app. cbn [List.length]. lia. }
  assert (Hm : mapM coord_latLng (removelast (map (@position num) ((c :: rest) ++ [c])))
               = Returns (c :: rest)).
  { rewrite removelast_positions. apply mapM_positions. exact V. }
  rewrite (drawFromGeoJSON_polygon surface _ (c :: rest) s Hl Hm). cbn [fst snd].
  destruct (cleared_typed "polygon" s) as (T1 & T2 & T3).
  set (x := set_shapeType (Some "polygon"%string) (clear s)) in *. clearbody x.
  destruct (imported_frame surface (c :: rest) x T1) as (F1 & F2).
  rewrite T3 in F2.
  set (y := create_nodes (c :: rest) x) in *.
  assert (Ety : shapeType y = Some (type_name TPolygon)).
  { unfold y. destruct (create_nodes_frame (c :: rest) x) as (_ & C2 & _).
    rewrite C2. exact T3. }
  assert (Eny : List.length (nodes y) = S (List.length rest)).
  { unfold coordinates_of in F1. rewrite updateShape_nodes in F1.
    rewrite <- (length_map (@node_latlng num)), F1. reflexivity. }
  clearbody y.
  destruct (updateShape_builds surface TPolygon y Ety) as (p & _ & Es & _);
    [discriminate | cbn [minimum_nodes]; lia |].
  assert (Hc : completed TPolygon (_updateShape surface y) = true).
  { unfold completed, shapeType_is. rewrite Es, F2, updateShape_nodes, Eny.
    cbn [type_name]. rewrite String.eqb_refl. cbn [andb].
    apply Nat.leb_le. lia. }
  split; [reflexivity|]. split; [exact F2|]. split; [exact F1|].
  rewrite (getGeoJSON_polygon _ Hc).
  assert (Em : map (@coordinate_of num) (nodes (_updateShape surface y))
               = map (@position num) (c :: rest)).
  { rewrite <- F1. unfold coordinates_of. rewrite map_map. reflexivity. }
  rewrite Em, map_app. reflexivity.
Qed.
End RoundTrips.

Lemma point_import_then_export_witness :
  snd (drawFromGeoJSON Flat.surface (geojson_point (mkLatLng 7 5)%float (Some 0%float)) None
         Flat.triangle) = Returns tt
  /\ shapeType (fst (drawFromGeoJSON Flat.surface (geojson_point (mkLatLng 7 5)%float (Some 0%float))
                      None Flat.triangle)) = Some "point"%string
  /\ nodes (fst (drawFromGeoJSON Flat.surface (geojson_point (mkLatLng 7 5)%float (Some 0%float))
                  None Flat.triangle))
     = [mkNode (S (next_id Flat.triangle)) (mkLatLng 7 5)%float (next_id Flat.triangle)]
  /\ shape (fst (drawFromGeoJSON Flat.surface (geojson_point (mkLatLng 7 5)%float (Some 0%float))
                  None Flat.triangle))
     = Some (ShapeIsNode (S (next_id Flat.triangle)))
  /\ getGeoJSON (fst (drawFromGeoJSON Flat.surface (geojson_point (mkLatLng 7 5)%float (Some 0%float))
                       None Flat.triangle))
     = Returns (geojson_point (mkLatLng 7 5)%float None).
Proof.
  apply (point_import_then_export Flat.surface (mkLatLng 7 5)%float (Some 0%float) Flat.triangle);
    vm_compute; reflexivity.
Defined.

Lemma polygon_import_then_export_witness :
  snd (drawFromGeoJSON Flat.surface
         (geojson_polygon ((mkLatLng 0 0 :: [mkLatLng 0 100; mkLatLng 100 100])
                           ++ [mkLatLng 0 0]))%float None Flat.editor) = Returns tt
  /\ shapeType (fst (drawFromGeoJSON Flat.surface
         (geojson_polygon ((mkLatLng 0 0 :: [mkLatLng 0 100; mkLatLng 100 100])
                           ++ [mkLatLng 0 0]))%float None Flat.editor))
     = Some "polygon"%string
  /\ coordinates_of (fst (drawFromGeoJSON Flat.surface
         (geojson_polygon ((mkLatLng 0 0 :: [mkLatLng 0 100; mkLatLng 100 100])
                           ++ [mkLatLng 0 0]))%float None Flat.editor))
     = (mkLatLng 0 0 :: [mkLatLng 0 100; mkLatLng 100 100])%float
  /\ getGeoJSON (fst (drawFromGeoJSON Flat.surface
         (geojson_polygon ((mkLatLng 0 0 :: [mkLatLng 0 100; mkLatLng 100 100])
                           ++ [mkLatLng 0 0]))%float None Flat.editor))
     = Returns (geojson_polygon ((mkLatLng 0 0 :: [mkLatLng 0 100; mkLatLng 100 100])
                                 ++ [mkLatLng 0 0]))%float.
Proof.
  apply (polygon_import_then_export Flat.surface (mkLatLng 0 0)
           [mkLatLng 0 100; mkLatLng 100 100] Flat.editor)%float;
    [cbn; lia | cbn; lia | vm_compute; reflexivity].
Defined.
(** ** How a drawing ends *)

Section Drawing.
Context {num : Type} `{JSNumber num} `{JSInfinity num}.
Variable surface : MapSurface num.

Lemma shapeType_is_of (s : Editor num) (a b : ShapeType) :
  shapeType s = Some (type_name a) ->
  shapeType_is s (type_name b) = String.eqb (type_name a) (type_name b).
Proof. intros E. unfold shapeType_is. rewrite E. reflexivity. Qed.

(** The five comparisons of the shape type, for a type the editor draws. *)
Lemma known_type_tests (s : Editor num) (ty : ShapeType) :
  shapeType s = Some (type_name ty) ->
  shapeType_is s "point" = (match ty with TPoint => true | _ => false end)
  /\ shapeType_is s "line" = (match ty with TLine => true | _ => false end)
  /\ shapeType_is s "polygon" = (match ty with TPolygon => true | _ => false end)
  /\ shapeType_is s "rectangle" = (match ty with TRectangle => true | _ => false end)
  /\ shapeType_is s "circle" = (match ty with TCircle => true | _ => false end).
Proof.
  intros E. unfold shapeType_is. rewrite E. destruct ty; repeat split.
Qed.

Lemma updateShape_too_few (s : Editor num) (ty : ShapeType) :
  shapeType s = Some (type_name ty) -> ty <> TPoint ->
  List.length (nodes s) < minimum_nodes ty ->
  shape (_updateShape surface s) = shape s.
Proof.
  intros Et Hty Hn. unfold _updateShape.
  pose proof (old_shape_frame s) as Ex. cbv zeta in Ex.
  set (x := match shape s with
            | Some sh => if is_first_node sh (nodes s) then s
                         else removeLayer (shape_id sh) s
            | None => s
            end) in *.
  destruct Ex as (Ext & Exn & Exs). clearbody x.
  assert (Etx : shapeType x = Some (type_name ty)) by (rewrite Ext; exact Et).
  destruct (known_type_tests x ty Etx) as (K1 & K2 & K3 & K4 & K5).
  cbv zeta. rewrite K1, K2, K3, K4, K5, length_map, Exn.
  destruct ty; cbn [minimum_nodes andb] in *; try contradiction.
  - assert (E0 : (2 <=? List.length (nodes s)) = false) by (apply Nat.leb_gt; lia).
    rewrite E0. exact Exs.
  - assert (E0 : (3 <=? List.length (nodes s)) = false) by (apply Nat.leb_gt; lia).
    rewrite E0. exact Exs.
  - assert (E0 : (2 <=? List.length (nodes s)) = false) by (apply Nat.leb_gt; lia).
    rewrite E0. exact Exs.
  - assert (E0 : (2 <=? List.length (nodes s)) = false) by (apply Nat.leb_gt; lia).
    rewrite E0. exact Exs.
Qed.

(** The editor of the appending branch before the count is tested. *)
Lemma appended_fields (e : MouseEvent num) (s : Editor num) :
  let y := set_nodes (nodes s ++ [mkNode (S (next_id s)) (ev_latlng e) (next_id s)])
             (snd (_createNode (ev_latlng e) s)) in
  let x := fire (nodeadd (S (next_id s))) (_updateShape surface y) in
  nodes x = nodes s ++ [mkNode (S (next_id s)) (ev_latlng e) (next_id s)]
  /\ shapeType x = shapeType s /\ isDrawing x = isDrawing s /\ state x = state s
  /\ tempLine x = tempLine s /\ shape x = shape (_updateShape surface y)
  /\ shapeType y = shapeType s /\ shape y = shape s
  /\ nodes y = nodes s ++ [mkNode (S (next_id s)) (ev_latlng e) (next_id s)]
  /\ next_id y = S (S (next_id s)).
Proof.
  cbv zeta. autorewrite with editor_fields.
  destruct (rebuild_effect surface
              (nodes s ++ [mkNode (S (next_id s)) (ev_latlng e) (next_id s)])
              (snd (_createNode (ev_latlng e) s))) as (E1 & E2 & E3 & E4 & E5 & _).
  destruct (createNode_effect (ev_latlng e) s) as (C1 & C2 & C3 & C4 & C5 & C6 & _).
  rewrite E1, E2, E3, E4, E5, C1, C2, C3, C4, C5, C6. repeat split.
Qed.

(** A click while a polygon, rectangle or circle is drawn, by the count of
    the nodes. *)
Lemma click_by_count (ty : ShapeType) (e : MouseEvent num) (s : Editor num) :
  isDrawing s = true -> shapeType s = Some (type_name ty) ->
  ty <> TPoint -> ty <> TLine ->
  nodes (_onMapClick surface e s)
  = nodes s ++ [mkNode (S (next_id s)) (ev_latlng e) (next_id s)]
  /\ shapeType (_onMapClick surface e s) = shapeType s
  /\ (S (List.length (nodes s)) < minimum_nodes ty ->
      isDrawing (_onMapClick surface e s) = true
      /\ state (_onMapClick surface e s) = state s
      /\ shape (_onMapClick surface e s) = shape s)
  /\ (minimum_nodes ty <= S (List.length (nodes s)) ->
      isDrawing (_onMapClick surface e s) = false
      /\ state (_onMapClick surface e s) = Idle
      /\ tempLine (_onMapClick surface e s) = None
      /\ exists p,
           built_primitive surface ty (coordinates_of s ++ [ev_latlng e]) = Some p
           /\ shape (_onMapClick surface e s) = Some (ShapeLayer (S (S (next_id s))) p)).
Proof.
  intros Ed Et Hp Hl.
  destruct (known_type_tests s ty Et) as (K1 & K2 & _).
  rewrite (onMapClick_while_drawing surface e s Ed), K1.
  assert (Ec : closes_line surface e s = false).
  { unfold closes_line. rewrite K2. destruct ty; try reflexivity; contradiction. }
  assert (E1 : (match ty with TPoint => true | _ => false end) = false)
    by (destruct ty; try reflexivity; contradiction).
  rewrite E1, Ec. cbn [andb]. rewrite append_node_eq. cbv zeta.
  destruct (appended_fields e s) as (X1 & X2 & X3 & X4 & X5 & X6 & Y1 & Y2 & Y3 & Y4).
  cbv zeta in X1, X2, X3, X4, X5, X6, Y1, Y2, Y3, Y4.
  set (y := set_nodes _ _) in *. clearbody y.
  assert (Ety : shapeType y = Some (type_name ty)) by (rewrite Y1; exact Et).
  assert (Lny : List.length (nodes y) = S (List.length (nodes s))).
  { rewrite Y3, length_app. cbn [List.length]. lia. }
  assert (Ecy : coordinates_of y = coordinates_of s ++ [ev_latlng e]).
  { unfold coordinates_of. rewrite Y3, map_app. reflexivity. }
  pose proof (updateShape_too_few y ty Ety Hp) as Few.
  pose proof (updateShape_builds surface ty y Ety Hp) as Built.
  set (u := _updateShape surface y) in *. clearbody u.
  set (x := fire _ u) in *.
  assert (Etx : shapeType x = Some (type_name ty)) by (rewrite X2; exact Et).
  destruct (known_type_tests x ty Etx) as (_ & _ & R3 & R4 & R5).
  assert (Er : reached_count x = (minimum_nodes ty <=? S (List.length (nodes s)))%nat).
  { unfold reached_count. rewrite R3, R4, R5, X1, length_app. cbn [List.length].
    rewrite Nat.add_1_r. destruct ty; try reflexivity; contradiction. }
  clearbody x. rewrite Er.
  destruct (minimum_nodes ty <=? S (List.length (nodes s)))%nat eqn:Em.
  - apply Nat.leb_le in Em.
    destruct (finish_drawing_frame x) as (F1 & F2 & F3 & F4 & F5 & _).
    split; [rewrite finish_drawing_nodes; exact X1|].
    split; [rewrite F5; exact X2|]. split.
    + intros Hlt. lia.
    + intros _. rewrite F1, F2, F3, F4, X6.
      destruct Built as (p & B1 & B2 & _); [lia|].
      do 3 (split; [reflexivity|]). exists p. rewrite <- Ecy, B2, Y4.
      split; [exact B1|reflexivity].
  - apply Nat.leb_gt in Em.
    split; [exact X1|]. split; [exact X2|]. split.
    + intros _. rewrite X3, X4, X6, Few, Y2; [repeat split; assumption | lia].
    + intros Hge. lia.
Qed.

(** While a polygon, rectangle or circle is drawn, every click appends a
    node at the click; the drawing goes on while the nodes are fewer than the
    type needs (three, two, two) and the shape stays what it was, and it ends
    with the click that reaches the count: the flag lowered, the state
    ["idle"], the preview line removed and the shape built from the nodes. *)
Theorem drawing_ends_by_count (ty : ShapeType) (e : MouseEvent num) (s : Editor num) :
  isDrawing s = true -> shapeType s = Some (type_name ty) ->
  ty <> TPoint -> ty <> TLine ->
  coordinates_of (_onMapClick surface e s) = coordinates_of s ++ [ev_latlng e]
  /\ (S (List.length (nodes s)) < minimum_nodes ty ->
      isDrawing (_onMapClick surface e s) = true
      /\ state (_onMapClick surface e s) = state s
      /\ shape (_onMapClick surface e s) = shape s)
  /\ (minimum_nodes ty <= S (List.length (nodes s)) ->
      isDrawing (_onMapClick surface e s) = false
      /\ state (_onMapClick surface e s) = Idle
      /\ tempLine (_onMapClick surface e s) = None
      /\ exists p,
           built_primitive surface ty (coordinates_of s ++ [ev_latlng e]) = Some p
           /\ shape (_onMapClick surface e s) = Some (ShapeLayer (S (S (next_id s))) p)).
Proof.
  intros Ed Et Hp Hl.
  destruct (click_by_count ty e s Ed Et Hp Hl) as (C1 & _ & C3 & C4).
  split; [|split; [exact C3 | exact C4]].
  unfold coordinates_of. rewrite C1, map_app. reflexivity.
Qed.

Lemma closes_line_spec (e : MouseEvent num) (s : Editor num) :
  shapeType s = Some "line"%string ->
  (closes_line surface e s = true
   <-> 2 <= List.length (nodes s)
       /\ exists l last,
            nodes s = l ++ [last]
            /\ num_le (point_distanceTo surface (node_point surface last)
                         (latLngToContainerPoint surface (ev_latlng e)))
                      (tolerance s) = true).
Proof.
  intros Et. destruct (known_type_tests s TLine Et) as (_ & K2 & _).
  unfold closes_line. rewrite K2. cbn [andb].
  destruct (nodes s) as [|n ns] eqn:En.
  - cbn. split; [discriminate|]. intros [Hl _]. cbn in Hl. lia.
  - destruct (@exists_last _ (n :: ns)) as (l & a & El); [discriminate|].
    rewrite El, length_app. cbn [List.length].
    replace (List.length l + 1 - 1) with (List.length l + 0) by lia.
    rewrite nth_error_app2 by lia.
    replace (List.length l + 0 - List.length l) with 0 by lia. cbn [nth_error].
    split.
    + intros E. apply andb_prop in E as [E1 E2]. apply Nat.ltb_lt in E1.
      split; [lia|]. exists l, a. split; [reflexivity | exact E2].
    + intros [Hl (l' & a' & E1 & E2)]. apply app_inj_tail in E1 as [-> ->].
      apply andb_true_intro. split; [apply Nat.ltb_lt; lia | exact E2].
Qed.

(** While a line is drawn, a click within the tolerance of the last node,
    once there are two nodes or more, ends the drawing and adds no node; any
    other click appends a node and the drawing goes on, however many nodes
    there are. *)
Theorem line_ends_on_last_node (e : MouseEvent num) (s : Editor num) :
  isDrawing s = true -> shapeType s = Some "line"%string ->
  (closes_line surface e s = true
   <-> 2 <= List.length (nodes s)
       /\ exists l last,
            nodes s = l ++ [last]
            /\ num_le (point_distanceTo surface (node_point surface last)
                         (latLngToContainerPoint surface (ev_latlng e)))
                      (tolerance s) = true)
  /\ (closes_line surface e s = true ->
      nodes (_onMapClick surface e s) = nodes s
      /\ shape (_onMapClick surface e s) = shape s
      /\ isDrawing (_onMapClick surface e s) = false
      /\ state (_onMapClick surface e s) = Idle
      /\ tempLine (_onMapClick surface e s) = None)
  /\ (closes_line surface e s = false ->
      coordinates_of (_onMapClick surface e s) = coordinates_of s ++ [ev_latlng e]
      /\ isDrawing (_onMapClick surface e s) = true
      /\ state (_onMapClick surface e s) = state s).
Proof.
  intros Ed Et. split; [exact (closes_line_spec e s Et)|].
  destruct (known_type_tests s TLine Et) as (K1 & _).
  rewrite (onMapClick_while_drawing surface e s Ed), K1. cbn [andb].
  split; intros Ec; rewrite Ec.
  - destruct (finish_drawing_frame s) as (F1 & F2 & F3 & F4 & _).
    rewrite finish_drawing_nodes, F1, F2, F3, F4. repeat split.
  - rewrite append_node_eq. cbv zeta.
    destruct (appended_fields e s) as (X1 & X2 & X3 & X4 & _).
    cbv zeta in X1, X2, X3, X4.
    set (x := fire _ _) in *.
    assert (Etx : shapeType x = Some (type_name TLine)) by (rewrite X2; exact Et).
    destruct (known_type_tests x TLine Etx) as (_ & _ & R3 & R4 & R5).
    assert (Er : reached_count x = false).
    { unfold reached_count. rewrite R3, R4, R5. reflexivity. }
    clearbody x. rewrite Er. unfold coordinates_of. rewrite X1, X3, X4, map_app.
    repeat split. exact Ed.
Qed.
End Drawing.

Lemma drawing_ends_by_count_witness :
  isDrawing (_onMapClick Flat.surface (Flat.at_latlng 100 100)
               (Flat.clicks [Flat.at_latlng 0 0; Flat.at_latlng 0 100]
                  (startDrawing "polygon" Flat.editor))) = false.
Proof.
  refine (proj1 (proj2 (proj2 (drawing_ends_by_count Flat.surface TPolygon _ _ _ _ _ _)) _)).
  - vm_compute. reflexivity.
  - vm_compute. reflexivity.
  - discriminate.
  - discriminate.
  - assert (A : List.length (nodes (Flat.clicks [Flat.at_latlng 0 0; Flat.at_latlng 0 100]
                                      (startDrawing "polygon" Flat.editor))) = 2)
      by (vm_compute; reflexivity).
    rewrite A. cbn. lia.
Defined.

Lemma line_ends_on_last_node_witness :
  isDrawing (_onMapClick Flat.surface (Flat.at_latlng 0 100)
               (Flat.clicks [Flat.at_latlng 0 0; Flat.at_latlng 0 100]
                  (startDrawing "line" Flat.editor))) = false.
Proof.
  refine (proj1 (proj2 (proj2
            (proj1 (proj2 (line_ends_on_last_node Flat.surface _ _ _ _)) _))));
    vm_compute; reflexivity.
Defined.
(** ** Layers, the preview line and the drag of a node *)

Section Layers.
Context {num : Type} `{JSNumber num} `{JSInfinity num}.
Variable surface : MapSurface num.

Lemma in_removeLayer (l id : nat) (s : Editor num) :
  In l (map_layers (removeLayer id s)) <-> In l (map_layers s) /\ l <> id.
Proof.
  unfold removeLayer. rewrite map_layers_set_map_layers, filter_In.
  split; intros [H1 H2]; (split; [exact H1|]).
  - intros ->. rewrite Nat.eqb_refl in H2. discriminate H2.
  - apply negb_true_iff. apply Nat.eqb_neq. exact H2.
Qed.

Lemma in_remove_nodes (l : nat) (ns : list (Node num)) (s : Editor num) :
  In l (map_layers
          (fold_left
             (fun s node => removeLayer (node_background node) (removeLayer (node_id node) s))
             ns s))
  <-> In l (map_layers s)
      /\ ~ In l (flat_map (fun n => [node_id n; node_background n]) ns).
Proof.
  revert s. induction ns as [|n ns IH]; intros s; cbn [fold_left flat_map].
  - split; [intros Hin; split; [exact Hin | intros []] | intros [Hin _]; exact Hin].
  - rewrite IH, !in_removeLayer. cbn [app In]. split.
    + intros [[[H1 H2] H3] H4]. split; [exact H1|].
      intros [E | [E | Hin]]; [apply H2 | apply H3 | apply H4]; auto.
    + intros [H1 H2]. repeat split; auto.
Qed.

(** The layers [clear()] leaves on the map, part by part. *)
Lemma clear_layers_parts (s : Editor num) (l : nat) :
  In l (map_layers (clear s))
  <-> ((In l (map_layers s)
        /\ ~ In l (match shape s with Some sh => [shape_id sh] | None => [] end))
       /\ ~ In l (match tempLine s with Some (id, _) => [id] | None => [] end))
      /\ ~ In l (flat_map (fun n => [node_id n; node_background n]) (nodes s)).
Proof.
  unfold clear. cbv zeta.
  autorewrite with editor_fields.
  set (s1 := match shape s with
             | Some sh => removeLayer (shape_id sh) s
             | None => s
             end).
  assert (E1 : nodes s1 = nodes s /\ tempLine s1 = tempLine s
               /\ (In l (map_layers s1)
                   <-> In l (map_layers s)
                       /\ ~ In l (match shape s with Some sh => [shape_id sh] | None => [] end))).
  { unfold s1. destruct (shape s) as [sh|].
    - rewrite in_removeLayer. do 2 (split; [reflexivity|]).
      split; intros [A B]; (split; [exact A|]).
      + intros [E|[]]. apply B. symmetry. exact E.
      + intros ->. apply B. left. reflexivity.
    - do 2 (split; [reflexivity|]).
      split; [intros A; split; [exact A | intros []] | intros [A _]; exact A]. }
  destruct E1 as (N1 & T1 & L1). clearbody s1.
  set (s2 := match tempLine s1 with
             | Some (id, _) => set_tempLine None (removeLayer id s1)
             | None => s1
             end).
  assert (E2 : nodes s2 = nodes s1
               /\ (In l (map_layers s2)
                   <-> In l (map_layers s1)
                       /\ ~ In l (match tempLine s1 with Some (id, _) => [id] | None => [] end))).
  { unfold s2. destruct (tempLine s1) as [[id ls]|].
    - rewrite map_layers_set_tempLine, in_removeLayer. split; [reflexivity|].
      split; intros [A B]; (split; [exact A|]).
      + intros [E|[]]. apply B. symmetry. exact E.
      + intros ->. apply B. left. reflexivity.
    - split; [reflexivity|].
      split; [intros A; split; [exact A | intros []] | intros [A _]; exact A]. }
  destruct E2 as (N2 & L2). clearbody s2.
  rewrite in_remove_nodes, L2, L1, N2, N1, T1. reflexivity.
Qed.

(** [clear()] takes the layers of the figure off the map, all of them and
    nothing else. *)
Theorem clear_takes_figure_off_map (s : Editor num) (l : nat) :
  In l (map_layers (clear s)) <-> In l (map_layers s) /\ ~ In l (figure_layers s).
Proof.
  unfold figure_layers. rewrite clear_layers_parts, !in_app_iff. tauto.
Qed.

Lemma autoPan_frame (cp : Point num) (s : Editor num) :
  nodes (_autoPan surface cp s) = nodes s
  /\ shape (_autoPan surface cp s) = shape s
  /\ shapeType (_autoPan surface cp s) = shapeType s
  /\ isDrawing (_autoPan surface cp s) = isDrawing s
  /\ state (_autoPan surface cp s) = state s
  /\ tempLine (_autoPan surface cp s) = tempLine s
  /\ next_id (_autoPan surface cp s) = next_id s
  /\ map_layers (_autoPan surface cp s) = map_layers s.
Proof.
  unfold _autoPan. destruct (autoPan_offset surface cp s) as [x y].
  destruct (_ || _); repeat split.
Qed.

(** While a line is drawn, or a polygon, rectangle or circle that still
    lacks nodes, a mouse move replaces the preview line: the new one runs
    through the nodes to the pointer, and back to the first node for a
    polygon that has two nodes; the old one is taken off the map, and nothing
    else of the figure changes. *)
Theorem preview_line_follows_pointer (ty : ShapeType) (e : MouseEvent num)
    (s : Editor num) :
  isDrawing s = true -> shapeType s = Some (type_name ty) -> ty <> TPoint ->
  0 < List.length (nodes s) ->
  ty = TLine \/ List.length (nodes s) < minimum_nodes ty ->
  tempLine (_onMouseMove surface e s)
  = Some (next_id s,
          (coordinates_of s ++ [ev_latlng e])
          ++ match ty with
             | TPolygon => match coordinates_of s with
                           | c0 :: _ :: _ => [c0]
                           | _ => []
                           end
             | _ => []
             end)
  /\ (forall l, In l (map_layers (_onMouseMove surface e s))
                <-> l = next_id s
                    \/ (In l (map_layers s)
                        /\ forall id ls, tempLine s = Some (id, ls) -> l <> id))
  /\ same_session_fields s (_onMouseMove surface e s).
Proof.
  intros Ed Et Hp Hn Hc.
  destruct (known_type_tests s ty Et) as (K1 & K2 & K3 & K4 & K5).
  unfold _onMouseMove. rewrite Ed, K1, K3, K4, K5.
  assert (G0 : (List.length (nodes s) =? 0)%nat = false) by (apply Nat.eqb_neq; lia).
  assert (G1 : (match ty with TPolygon => true | _ => false end
                && (3 <=? List.length (nodes s))%nat) = false).
  { destruct ty; try reflexivity. cbn [andb]. apply Nat.leb_gt.
    destruct Hc as [Hc|Hc]; [discriminate Hc | exact Hc]. }
  assert (G2 : ((match ty with TRectangle => true | _ => false end
                 || match ty with TCircle => true | _ => false end)
                && (2 <=? List.length (nodes s))%nat) = false).
  { destruct ty; try reflexivity; cbn [andb orb]; apply Nat.leb_gt;
      (destruct Hc as [Hc|Hc]; [discriminate Hc | exact Hc]). }
  assert (G3 : (match ty with TPoint => true | _ => false end) = false)
    by (destruct ty; try reflexivity; contradiction).
  rewrite G0, G1, G2, G3. cbn [negb orb]. cbv zeta.
  destruct (autoPan_frame (ev_containerPoint e) s) as (A1 & A2 & A3 & A4 & A5 & A6 & A7 & A8).
  set (a := _autoPan surface (ev_containerPoint e) s) in *. clearbody a.
  set (b := match tempLine a with
            | Some (id, _) => removeLayer id a
            | None => a
            end).
  assert (B : nodes b = nodes s /\ shape b = shape s /\ shapeType b = shapeType s
              /\ isDrawing b = isDrawing s /\ state b = state s /\ next_id b = next_id s
              /\ (forall l, In l (map_layers b)
                            <-> In l (map_layers s)
                                /\ forall id ls, tempLine s = Some (id, ls) -> l <> id)).
  { unfold b. rewrite A6. destruct (tempLine s) as [[t ls]|].
    - do 6 (split; [assumption|]). intros l. rewrite in_removeLayer, A8.
      split; intros [P Q]; (split; [exact P|]).
      + intros id ls' E. injection E as -> _. exact Q.
      + exact (Q t ls eq_refl).
    - do 6 (split; [assumption|]). intros l. rewrite A8.
      split; [intros P; split; [exact P | intros id ls E; discriminate E] | intros [P _]; exact P]. }
  destruct B as (B1 & B2 & B3 & B4 & B5 & B6 & B7). clearbody b.
  assert (Etb : shapeType b = Some (type_name ty)) by (rewrite B3; exact Et).
  destruct (known_type_tests b ty Etb) as (_ & _ & P3 & _).
  rewrite P3, B1. unfold addNewLayer. cbv beta iota zeta.
  unfold same_session_fields. autorewrite with editor_fields.
  rewrite B1, B2, B3, B4, B5, B6.
  split; [|split; [|repeat split]].
  - f_equal. f_equal. unfold coordinates_of.
    destruct ty; cbn [andb]; rewrite ?app_nil_r; try reflexivity.
    destruct (nodes s) as [|n0 [|n1 ns]]; cbn; rewrite ?app_nil_r; reflexivity.
  - intros l. rewrite in_app_iff, B7. cbn [In]. split.
    + intros [P | [P | []]]; [right; exact P | left; symmetry; exact P].
    + intros [P | P]; [right; left; symmetry; exact P | left; exact P].
Qed.

Lemma is_first_node_map (f : Node num -> Node num) (sh : Shape num) (ns : list (Node num)) :
  (forall n, node_id (f n) = node_id n) ->
  is_first_node sh (map f ns) = is_first_node sh ns.
Proof.
  intros Hf. destruct sh as [id|id p], ns as [|n ns]; cbn [is_first_node map];
    try reflexivity.
  rewrite Hf. reflexivity.
Qed.

(** A drag of a node of a line, polygon, rectangle or circle that has the
    nodes its type needs moves that node (with its background) to where the
    pointer is and no other: the nodes keep their identities, order and
    number, and the shape is drawn again, as a new layer, from the
    coordinates after the move (the radius of a circle is measured again);
    the layer of the old shape leaves the map. A move that arrives while the
    node is not being dragged changes nothing. *)
Theorem drag_moves_one_node (toLatLng : Point num -> LatLng num) (node : Node num)
    (e : MouseEvent num) (l1 l2 : list (Node num)) (ty : ShapeType) (s : Editor num) :
  distinct_nodes s -> nodes s = l1 ++ node :: l2 ->
  shapeType s = Some (type_name ty) -> ty <> TPoint ->
  minimum_nodes ty <= List.length (nodes s) ->
  nodes (node_onMouseMove surface toLatLng true node e s)
  = l1 ++ mkNode (node_id node) (toLatLng (ev_containerPoint e)) (node_background node) :: l2
  /\ (exists p,
        built_primitive surface ty
          (map (@node_latlng num) l1
           ++ toLatLng (ev_containerPoint e) :: map (@node_latlng num) l2) = Some p
        /\ shape (node_onMouseMove surface toLatLng true node e s)
           = Some (ShapeLayer (next_id s) p))
  /\ map_layers (node_onMouseMove surface toLatLng true node e s)
     = kept_layers s ++ [next_id s]
  /\ map_dragging (node_onMouseMove surface toLatLng true node e s) = map_dragging s
  /\ node_onMouseMove surface toLatLng false node e s = s.
Proof.
  intros [_ Hd] En Et Hty Hmin.
  set (f := fun n : Node num =>
              if Nat.eqb (node_id n) (node_id node)
              then mkNode (node_id n) (toLatLng (ev_containerPoint e)) (node_background n)
              else n).
  assert (Ef : forall l, (forall n, In n l -> node_id n <> node_id node) -> map f l = l).
  { intros l Hl. rewrite <- (map_id l) at 2. apply map_ext_in. intros n Hin. unfold f.
    destruct (Nat.eqb (node_id n) (node_id node)) eqn:E; [|reflexivity].
    apply Nat.eqb_eq in E. destruct (Hl n Hin E). }
  rewrite En, map_app in Hd. cbn [map] in Hd.
  apply NoDup_remove_2 in Hd.
  assert (H1 : forall n, In n l1 -> node_id n <> node_id node).
  { intros n Hin E. apply Hd. apply in_or_app. left. rewrite <- E. apply in_map. exact Hin. }
  assert (H2 : forall n, In n l2 -> node_id n <> node_id node).
  { intros n Hin E. apply Hd. apply in_or_app. right. rewrite <- E. apply in_map. exact Hin. }
  assert (Em : map f (nodes s)
               = l1 ++ mkNode (node_id node) (toLatLng (ev_containerPoint e))
                         (node_background node) :: l2).
  { rewrite En, map_app. cbn [map].
    rewrite (Ef l1 H1), (Ef l2 H2). unfold f at 1. rewrite Nat.eqb_refl. reflexivity. }
  unfold node_onMouseMove. cbn [negb]. cbv zeta. unfold setLatLng. fold f.
  assert (Y1 : shapeType (set_nodes (map f (nodes s)) s) = Some (type_name ty))
    by (rewrite shapeType_set_nodes; exact Et).
  assert (Y2 : minimum_nodes ty <= List.length (nodes (set_nodes (map f (nodes s)) s)))
    by (rewrite nodes_set_nodes, length_map; exact Hmin).
  assert (Y3 : coordinates_of (set_nodes (map f (nodes s)) s)
               = map (@node_latlng num) l1
                 ++ toLatLng (ev_containerPoint e) :: map (@node_latlng num) l2).
  { unfold coordinates_of. rewrite nodes_set_nodes, Em, map_app. reflexivity. }
  assert (Y4 : kept_layers (set_nodes (map f (nodes s)) s) = kept_layers s).
  { unfold kept_layers. rewrite shape_set_nodes, nodes_set_nodes, map_layers_set_nodes.
    destruct (shape s) as [sh|]; [|reflexivity].
    rewrite is_first_node_map; [reflexivity|].
    intros n. unfold f. destruct (Nat.eqb (node_id n) (node_id node)); reflexivity. }
  assert (Y5 : next_id (set_nodes (map f (nodes s)) s) = next_id s)
    by apply next_id_set_nodes.
  destruct (updateShape_frame surface (set_nodes (map f (nodes s)) s))
    as (_ & _ & _ & _ & U5 & _).
  destruct (updateShape_builds surface ty (set_nodes (map f (nodes s)) s) Y1 Hty Y2)
    as (p & B1 & B2 & B3).
  rewrite Y3 in B1. rewrite Y5 in B2. rewrite Y4, Y5 in B3.
  split; [rewrite updateShape_nodes, nodes_set_nodes; exact Em|].
  split; [exists p; split; [exact B1 | exact B2]|].
  split; [exact B3|].
  split; [rewrite U5; apply map_dragging_set_nodes | reflexivity].
Qed.
End Layers.

Lemma preview_line_follows_pointer_witness :
  exists ls,
    tempLine (_onMouseMove Flat.surface (Flat.at_latlng 50 50)
                (Flat.clicks [Flat.at_latlng 0 0; Flat.at_latlng 0 100]
                   (startDrawing "polygon" Flat.editor)))
    = Some (next_id (Flat.clicks [Flat.at_latlng 0 0; Flat.at_latlng 0 100]
                       (startDrawing "polygon" Flat.editor)), ls).
Proof.
  assert (A : List.length (nodes (Flat.clicks [Flat.at_latlng 0 0; Flat.at_latlng 0 100]
                                    (startDrawing "polygon" Flat.editor))) = 2)
    by (vm_compute; reflexivity).
  eexists.
  refine (proj1 (preview_line_follows_pointer Flat.surface TPolygon _ _ _ _ _ _ _)).
  - vm_compute. reflexivity.
  - vm_compute. reflexivity.
  - discriminate.
  - rewrite A. lia.
  - right. rewrite A. cbn. lia.
Defined.

Lemma distinct_circle : distinct_nodes Flat.circle_0_1.
Proof.
  assert (A : nodes Flat.circle_0_1
              = [mkNode 1 (mkLatLng 0 0) 0; mkNode 3 (mkLatLng 0 1) 2]%float)
    by (vm_compute; reflexivity).
  assert (B : next_id Flat.circle_0_1 = 5) by (vm_compute; reflexivity).
  split.
  - intros n Hin. rewrite A in Hin. rewrite B.
    destruct Hin as [<- | [<- | []]]; cbn; lia.
  - rewrite A. cbn [map node_id].
    repeat (constructor; [cbn; intuition discriminate|]). constructor.
Qed.

(** The second node of the circle of the scenario dragged to (0, 5): the
    circle is drawn again on the same centre, with radius 5. *)
Lemma drag_moves_one_node_witness :
  nodes (node_onMouseMove Flat.surface (fun p => mkLatLng (py p) (px p)) true
           (mkNode 3 (mkLatLng 0 1)%float 2) (Flat.at_latlng 0 5) Flat.circle_0_1)
  = [mkNode 1 (mkLatLng 0 0) 0; mkNode 3 (mkLatLng 0 5) 2]%float
  /\ shape (node_onMouseMove Flat.surface (fun p => mkLatLng (py p) (px p)) true
              (mkNode 3 (mkLatLng 0 1)%float 2) (Flat.at_latlng 0 5) Flat.circle_0_1)
     = Some (ShapeLayer 5 (Circle (mkLatLng 0 0) 5)%float).
Proof.
  assert (L : List.length (nodes Flat.circle_0_1) = 2) by (vm_compute; reflexivity).
  destruct (drag_moves_one_node Flat.surface (fun p => mkLatLng (py p) (px p))
              (mkNode 3 (mkLatLng 0 1)%float 2) (Flat.at_latlng 0 5)
              [mkNode 1 (mkLatLng 0 0)%float 0] [] TCircle Flat.circle_0_1)
    as (N & (p & B & S) & _).
  - exact distinct_circle.
  - vm_compute. reflexivity.
  - vm_compute. reflexivity.
  - discriminate.
  - rewrite L. cbn. lia.
  - split; [exact N|].
    rewrite S. vm_compute in B. injection B as <-. vm_compute. reflexivity.
Defined.
(** ** The distance helper is the least distance *)

Section LeastDistance.
Import Geometry.
Local Open Scope R_scope.

Lemma along_start (a b : Point R) : along a b 0 = a.
Proof. destruct a as [x y]. unfold along. cbn. f_equal; ring. Qed.

Lemma along_reversed (a b : Point R) (t : R) : along b a t = along a b (1 - t).
Proof. unfold along. f_equal; ring. Qed.

Lemma clamp01_bounds (t : R) : 0 <= clamp01 t <= 1.
Proof.
  unfold clamp01. split; [apply Rmax_l|].
  apply Rmax_lub; [lra | apply Rmin_l].
Qed.

(** The nearest point is a point of the segment. *)
Lemma nearest_on_segment_along (p a b : Point R) :
  exists t, 0 <= t <= 1 /\ nearest_on_segment p a b = along a b t.
Proof.
  unfold nearest_on_segment. destruct (coincide a b).
  - exists 0. split; [lra | symmetry; apply along_start].
  - exists (clamp01 (projection_parameter p a b)). split; [apply clamp01_bounds | reflexivity].
Qed.

Lemma segment_distance_order (p a b : Point R) :
  segment_distance p a b <= segment_distance p b a.
Proof.
  destruct (nearest_on_segment_along p b a) as (t & Ht & Et).
  unfold segment_distance at 2. rewrite Et, along_reversed.
  apply segment_distance_least. lra.
Qed.

(** Over the reals, [_pointToLineDistance] is the least distance from the
    point to the points of the segment, it is the distance to one of them,
    it is not negative, and it does not depend on the order of the two
    end points. *)
Theorem pointToLineDistance_is_least (p a b : Point R) :
  (forall t, 0 <= t <= 1 -> _pointToLineDistance p a b <= euclidean p (along a b t))
  /\ (exists t, 0 <= t <= 1 /\ _pointToLineDistance p a b = euclidean p (along a b t))
  /\ 0 <= _pointToLineDistance p a b
  /\ _pointToLineDistance p a b = _pointToLineDistance p b a.
Proof.
  rewrite !pointToLineDistance_real. split; [|split; [|split]].
  - intros t Ht. apply segment_distance_least. exact Ht.
  - destruct (nearest_on_segment_along p a b) as (t & Ht & Et).
    exists t. split; [exact Ht|]. unfold segment_distance. rewrite Et. reflexivity.
  - unfold segment_distance, euclidean. apply sqrt_pos.
  - apply Rle_antisym; apply segment_distance_order.
Qed.

Lemma pointToLineDistance_is_least_witness :
  _pointToLineDistance (mkPoint 3 4) (mkPoint 0 0) (mkPoint 10 0)
  <= euclidean (mkPoint 3 4) (along (mkPoint 0 0) (mkPoint 10 0) (1 / 2)).
Proof.
  apply (proj1 (pointToLineDistance_is_least (mkPoint 3 4) (mkPoint 0 0) (mkPoint 10 0))).
  lra.
Defined.
End LeastDistance.
(** ** The map's dragging switch and the options *)

Section Switches.
Context {num : Type} `{JSNumber num} `{JSInfinity num}.

Lemma same_switches_refl (s : Editor num) : same_switches s s.
Proof. split; reflexivity. Qed.

Lemma same_switches_trans (a b c : Editor num) :
  same_switches a b -> same_switches b c -> same_switches a c.
Proof. intros [A1 A2] [B1 B2]. split; congruence. Qed.

Variable surface : MapSurface num.

Lemma switches_updateShape (s : Editor num) : same_switches s (_updateShape surface s).
Proof.
  destruct (updateShape_frame surface s) as (_ & _ & _ & U4 & U5 & _).
  split; assumption.
Qed.

Lemma switches_clear (s : Editor num) : same_switches s (clear s).
Proof. destruct (clear_frame s) as (C1 & _ & _ & _ & C5 & _). split; assumption. Qed.

Lemma switches_finish (s : Editor num) : same_switches s (finish_drawing s).
Proof.
  unfold finish_drawing. cbv zeta. autorewrite with editor_fields.
  destruct (tempLine s) as [[t ls]|]; split; reflexivity.
Qed.

Lemma switches_rebuilt (ev : Event num) (l : list (Node num)) (latlng : LatLng num)
    (s : Editor num) :
  same_switches s
    (fire ev (_updateShape surface (set_nodes l (snd (_createNode latlng s))))).
Proof.
  destruct (switches_updateShape (set_nodes l (snd (_createNode latlng s)))) as [U1 U2].
  split; autorewrite with editor_fields; [rewrite U1 | rewrite U2];
    autorewrite with editor_fields; reflexivity.
Qed.

Lemma switches_click (e : MouseEvent num) (s : Editor num) :
  same_switches s (_onMapClick surface e s).
Proof.
  destruct (onMapClick_cases surface e s)
    as [E | [(_ & idx & E) | [(_ & _ & _ & E) | [(_ & E) | (_ & E)]]]]; rewrite E.
  - apply same_switches_refl.
  - rewrite insert_node_eq. apply switches_rebuilt.
  - split; reflexivity.
  - apply switches_finish.
  - rewrite append_node_eq. cbv zeta.
    pose proof (switches_rebuilt (nodeadd (S (next_id s)))
                  (nodes s ++ [mkNode (S (next_id s)) (ev_latlng e) (next_id s)])
                  (ev_latlng e) s) as X.
    set (x := fire _ _) in *. clearbody x.
    destruct (reached_count x); [|exact X].
    apply (same_switches_trans s x); [exact X | apply switches_finish].
Qed.

Lemma switches_mouseMove (e : MouseEvent num) (s : Editor num) :
  same_switches s (_onMouseMove surface e s).
Proof.
  unfold _onMouseMove.
  destruct (negb (isDrawing s) || _ || _); [apply same_switches_refl|].
  destruct (shapeType_is s "polygon" && _); [apply same_switches_refl|].
  destruct ((shapeType_is s "rectangle" || shapeType_is s "circle") && _);
    [apply same_switches_refl|].
  cbv zeta.
  assert (A : same_switches s (_autoPan surface (ev_containerPoint e) s)).
  { unfold _autoPan. destruct (autoPan_offset surface (ev_containerPoint e) s) as [x y].
    destruct (_ || _); split; reflexivity. }
  set (a := _autoPan surface (ev_containerPoint e) s) in *. clearbody a.
  set (b := match tempLine a with
            | Some (id, _) => removeLayer id a
            | None => a
            end).
  assert (B : same_switches a b).
  { unfold b. destruct (tempLine a) as [[t ls]|]; split; reflexivity. }
  clearbody b. apply (same_switches_trans s a); [exact A|].
  apply (same_switches_trans a b); [exact B|].
  unfold addNewLayer. cbv beta iota zeta. split; autorewrite with editor_fields; reflexivity.
Qed.

Lemma switches_contextmenu (node : Node num) (s : Editor num) :
  same_switches s (node_contextmenu surface node s).
Proof.
  destruct (node_contextmenu_cases surface node s) as [E | [E | (_ & E)]]; rewrite E.
  - apply switches_clear.
  - apply same_switches_refl.
  - set (y := removeLayer _ _).
    destruct (switches_updateShape y) as [U1 U2].
    split; autorewrite with editor_fields; [rewrite U1 | rewrite U2]; unfold y;
      autorewrite with editor_fields; reflexivity.
Qed.

Lemma switches_create_nodes (cs : list (LatLng num)) (x : Editor num) :
  same_switches x (create_nodes cs x).
Proof.
  revert x. induction cs as [|c cs IH]; intros x; [apply same_switches_refl|].
  rewrite create_nodes_cons.
  apply (same_switches_trans x
           (set_nodes (nodes x ++ [mkNode (S (next_id x)) c (next_id x)])
              (snd (_createNode c x)))); [split; reflexivity | apply IH].
Qed.

(** Through an import the map's dragging switch is untouched and the
    options are the ones merged in, if any. *)
Lemma drawFromGeoJSON_switches (geojson : GeoJSONValue num) (opts : option (OptionsPatch num))
    (s : Editor num) :
  map_dragging (fst (drawFromGeoJSON surface geojson opts s)) = map_dragging s
  /\ options (fst (drawFromGeoJSON surface geojson opts s))
     = imported_options geojson opts (options s).
Proof.
  unfold drawFromGeoJSON, imported_options.
  destruct (switches_clear s) as [Hd Ho].
  set (c := clear s) in *. clearbody c.
  destruct geojson as [| |g]; try (destruct opts; split; assumption).
  destruct (g_type g) as [ty|]; [|destruct opts; split; assumption].
  destruct (String.eqb ty ""); [destruct opts; split; assumption|].
  set (c1 := match opts with
             | Some p => set_options (setOptions (options c) p) c
             | None => c
             end).
  assert (H1 : map_dragging c1 = map_dragging s
               /\ options c1 = match opts with
                               | Some p => setOptions (options s) p
                               | None => options s
                               end).
  { unfold c1. destruct opts; autorewrite with editor_fields; rewrite <- ?Ho;
      split; try assumption; reflexivity. }
  clearbody c1. destruct H1 as [D1 O1]. rewrite <- O1. clear O1 Ho.
  set (c2 := set_shapeType (Some (toLowerCase ty)) c1).
  assert (H2 : same_switches c1 c2) by (split; reflexivity). clearbody c2.
  assert (Done : forall x, same_switches c1 x ->
                 map_dragging x = map_dragging s /\ options x = options c1).
  { intros x [A B]. split; congruence. }
  destruct (import_switch ty g) as [[assigned read]|]; [|apply Done; exact H2].
  set (c3 := match assigned with
             | Some t => set_shapeType (Some t) c2
             | None => c2
             end).
  assert (H3 : same_switches c1 c3).
  { apply (same_switches_trans c1 c2); [exact H2|].
    unfold c3. destruct assigned; split; reflexivity. }
  clearbody c3. clear H2 c2.
  destruct read as [coordinates|err|]; try (apply Done; exact H3).
  destruct (String.eqb ty "Point" && _).
  - set (c4 := set_shapeType (Some "circle"%string) c3).
    assert (H4 : same_switches c1 c4).
    { apply (same_switches_trans c1 c3); [exact H3 | split; reflexivity]. }
    clearbody c4.
    destruct (bind _ _) as [cs|err|]; cbn [fst]; try (apply Done; exact H4).
    apply Done. apply (same_switches_trans c1 c4); [exact H4|].
    apply (same_switches_trans c4 (create_nodes cs c4));
      [apply switches_create_nodes | apply switches_updateShape].
  - cbn [fst]. apply Done. apply (same_switches_trans c1 c3); [exact H3|].
    apply (same_switches_trans c3 (create_nodes coordinates c3));
      [apply switches_create_nodes | apply switches_updateShape].
Qed.

Variable toLatLng : Point num -> LatLng num.

Lemma switches_drag (isDragging : bool) (node : Node num) (e : MouseEvent num)
    (s : Editor num) :
  same_switches s (node_onMouseMove surface toLatLng isDragging node e s).
Proof.
  unfold node_onMouseMove. destruct (negb isDragging); [apply same_switches_refl|].
  cbv zeta. unfold setLatLng.
  apply (same_switches_trans s (set_nodes
           (map (fun n => if Nat.eqb (node_id n) (node_id node)
                          then mkNode (node_id n) (toLatLng (ev_containerPoint e))
                                 (node_background n)
                          else n) (nodes s)) s));
    [split; reflexivity | apply switches_updateShape].
Qed.

Lemma step_map_dragging (a : Action) (s : Editor num) :
  map_dragging (step surface toLatLng a s)
  = match a with
    | CallStartDrawing _ => false
    | NodeMouseDown => false
    | NodeMouseUp => true
    | _ => map_dragging s
    end.
Proof.
  destruct a as [type | | geojson opts | e | e | node | | isDragging node e | ];
    cbn [step].
  - reflexivity.
  - apply switches_clear.
  - apply drawFromGeoJSON_switches.
  - apply switches_click.
  - apply switches_mouseMove.
  - apply switches_contextmenu.
  - reflexivity.
  - apply switches_drag.
  - reflexivity.
Qed.

(** [startDrawing] disables the dragging of the map, and nothing enables it
    again but the end of a node's drag: neither the end of the drawing, nor
    [clear()], nor an import. Through any run of calls and events in which no
    node's drag ends, the map stays locked. *)
Theorem map_stays_locked_after_startDrawing (type : string) (actions : list Action)
    (s : Editor num) :
  (forall a, In a actions -> a <> NodeMouseUp) ->
  map_dragging (run surface toLatLng actions (startDrawing type s)) = false.
Proof.
  intros Hno.
  assert (G : forall s0, map_dragging s0 = false ->
              map_dragging (run surface toLatLng actions s0) = false).
  { induction actions as [|a l IH]; intros s0 E0; [exact E0|].
    unfold run. cbn [fold_left]. apply IH.
    - intros b Hb. apply Hno. right. exact Hb.
    - rewrite step_map_dragging.
      destruct a; try exact E0; try reflexivity.
      exfalso. apply (Hno NodeMouseUp); [left|]; reflexivity. }
  apply G. reflexivity.
Qed.

(** The options of the editor change only in an import that is given
    options and an object with a type: they are then merged into the current
    ones, for good. Nothing else, [clear()] and [startDrawing] included,
    changes or resets them. *)
Theorem options_change_only_on_import (a : Action) (s : Editor num) :
  options (step surface toLatLng a s)
  = match a with
    | CallDrawFromGeoJSON geojson opts => imported_options geojson opts (options s)
    | _ => options s
    end.
Proof.
  destruct a as [type | | geojson opts | e | e | node | | isDragging node e | ];
    cbn [step].
  - unfold startDrawing. cbv zeta. autorewrite with editor_fields. apply switches_clear.
  - apply switches_clear.
  - apply drawFromGeoJSON_switches.
  - apply switches_click.
  - apply switches_mouseMove.
  - apply switches_contextmenu.
  - reflexivity.
  - apply switches_drag.
  - reflexivity.
Qed.
End Switches.

Lemma map_stays_locked_after_startDrawing_witness :
  map_dragging
    (run Flat.surface (fun p => mkLatLng (py p) (px p))
       [MapClick (Flat.at_latlng 10 10); MapClick (Flat.at_latlng 20 20); CallClear]
       (startDrawing "rectangle" Flat.editor)) = false.
Proof.
  apply map_stays_locked_after_startDrawing.
  intros a [<-|[<-|[<-|[]]]]; discriminate.
Defined.
(** ** The statechange notifications *)

Section Notifications.
Context {num : Type} `{JSNumber num} `{JSInfinity num}.

Lemma last_statechange_snoc (evs : list (Event num)) (ev : Event num) :
  last_statechange (evs ++ [ev])
  = match ev with
    | statechange st => Some st
    | _ => last_statechange evs
    end.
Proof. unfold last_statechange. rewrite fold_left_app. reflexivity. Qed.

Lemma quiet_refl (s : Editor num) : quiet s s.
Proof. split; reflexivity. Qed.

Lemma quiet_trans (a b c : Editor num) : quiet a b -> quiet b c -> quiet a c.
Proof. intros [A1 A2] [B1 B2]. split; congruence. Qed.

Lemma quiet_by_fields (s s' : Editor num) :
  state s' = state s -> fired s' = fired s -> quiet s s'.
Proof. intros E1 E2. split; [exact E1 | rewrite E2; reflexivity]. Qed.

Lemma quiet_announced (s s' : Editor num) :
  quiet s s' -> state_announced s -> state_announced s'.
Proof. unfold state_announced. intros [Q1 Q2] A. rewrite Q1, Q2. exact A. Qed.

Lemma announced_fire (st : EditorState) (s : Editor num) :
  state s = st -> state_announced (fire (statechange st) s).
Proof.
  intros E. unfold state_announced.
  rewrite state_fire, fired_fire, last_statechange_snoc. exact E.
Qed.

Lemma quiet_fire (ev : Event num) (s : Editor num) :
  (forall st, ev <> statechange st) -> quiet s (fire ev s).
Proof.
  intros N. split; [apply state_fire|].
  rewrite fired_fire, last_statechange_snoc. destruct ev; try reflexivity.
  destruct (N st eq_refl).
Qed.

Variable surface : MapSurface num.

Lemma quiet_updateShape (s : Editor num) : quiet s (_updateShape surface s).
Proof.
  destruct (updateShape_frame surface s) as (_ & U2 & _).
  split; [exact U2|]. f_equal.
  unfold _updateShape.
  repeat match goal with
  | |- context [match ?x with _ => _ end] => destruct x; cbn
  end; reflexivity.
Qed.

Lemma announced_clear (s : Editor num) : state_announced (clear s).
Proof. unfold clear. cbv zeta. apply announced_fire. apply state_set_state. Qed.

Lemma announced_startDrawing (type : string) (s : Editor num) :
  state_announced (startDrawing type s).
Proof.
  unfold startDrawing. cbv zeta.
  apply (quiet_announced (fire (statechange Drawing)
           (set_state Drawing (set_isDrawing true (set_shapeType (Some type) (clear s)))))).
  - apply quiet_by_fields; [apply state_set_map_dragging | apply fired_set_map_dragging].
  - apply announced_fire. apply state_set_state.
Qed.

Lemma announced_finish (s : Editor num) : state_announced (finish_drawing s).
Proof.
  unfold finish_drawing. cbv zeta.
  set (x := fire (statechange Idle) (set_state Idle (set_isDrawing false s))).
  assert (A : state_announced x) by (apply announced_fire; apply state_set_state).
  clearbody x. destruct (tempLine x) as [[t ls]|]; [|exact A].
  apply (quiet_announced x); [|exact A].
  apply quiet_by_fields; autorewrite with editor_fields; reflexivity.
Qed.

Lemma quiet_createNode (latlng : LatLng num) (s : Editor num) :
  quiet s (snd (_createNode latlng s)).
Proof.
  apply (quiet_trans s (fire (beforenodecreate latlng) s)).
  - apply quiet_fire. intros st. discriminate.
  - split; reflexivity.
Qed.

Lemma quiet_rebuilt (id : nat) (l : list (Node num)) (latlng : LatLng num)
    (s : Editor num) :
  quiet s (fire (nodeadd id) (_updateShape surface (set_nodes l (snd (_createNode latlng s))))).
Proof.
  apply (quiet_trans s (snd (_createNode latlng s))); [apply quiet_createNode|].
  apply (quiet_trans _ (set_nodes l (snd (_createNode latlng s))));
    [apply quiet_by_fields; [apply state_set_nodes | apply fired_set_nodes]|].
  apply (quiet_trans _ (_updateShape surface (set_nodes l (snd (_createNode latlng s)))));
    [apply quiet_updateShape|].
  apply quiet_fire. intros st. discriminate.
Qed.

Lemma announced_place_point (e : MouseEvent num) (s : Editor num) :
  state_announced (place_point e s).
Proof.
  unfold place_point, state_announced. cbn [_createNode addNewLayer fst snd].
  cbv beta iota zeta. autorewrite with editor_fields.
  rewrite !last_statechange_snoc. reflexivity.
Qed.

Lemma announced_click (e : MouseEvent num) (s : Editor num) :
  state_announced s -> state_announced (_onMapClick surface e s).
Proof.
  intros A.
  destruct (onMapClick_cases surface e s)
    as [E | [(_ & idx & E) | [(_ & _ & _ & E) | [(_ & E) | (_ & E)]]]]; rewrite E.
  - exact A.
  - rewrite insert_node_eq. apply (quiet_announced s); [apply quiet_rebuilt | exact A].
  - apply announced_place_point.
  - apply announced_finish.
  - rewrite append_node_eq. cbv zeta.
    pose proof (quiet_rebuilt (S (next_id s))
                  (nodes s ++ [mkNode (S (next_id s)) (ev_latlng e) (next_id s)])
                  (ev_latlng e) s) as X.
    set (x := fire _ _) in *. clearbody x.
    destruct (reached_count x); [apply announced_finish|].
    apply (quiet_announced s); assumption.
Qed.

Lemma quiet_mouseMove (e : MouseEvent num) (s : Editor num) :
  quiet s (_onMouseMove surface e s).
Proof.
  unfold _onMouseMove.
  destruct (negb (isDrawing s) || _ || _); [apply quiet_refl|].
  destruct (shapeType_is s "polygon" && _); [apply quiet_refl|].
  destruct ((shapeType_is s "rectangle" || shapeType_is s "circle") && _);
    [apply quiet_refl|].
  cbv zeta.
  assert (A : quiet s (_autoPan surface (ev_containerPoint e) s)).
  { unfold _autoPan. destruct (autoPan_offset surface (ev_containerPoint e) s) as [x y].
    destruct (_ || _); split; reflexivity. }
  set (a := _autoPan surface (ev_containerPoint e) s) in *. clearbody a.
  set (b := match tempLine a with
            | Some (id, _) => removeLayer id a
            | None => a
            end).
  assert (B : quiet a b).
  { unfold b. destruct (tempLine a) as [[t ls]|]; split; reflexivity. }
  clearbody b. apply (quiet_trans s a); [exact A|].
  apply (quiet_trans a b); [exact B|].
  unfold addNewLayer. cbv beta iota zeta.
  apply quiet_by_fields; autorewrite with editor_fields; reflexivity.
Qed.

Lemma announced_contextmenu (node : Node num) (s : Editor num) :
  state_announced s -> state_announced (node_contextmenu surface node s).
Proof.
  intros A.
  destruct (node_contextmenu_cases surface node s) as [E | [E | (_ & E)]]; rewrite E.
  - apply announced_clear.
  - exact A.
  - set (y := removeLayer _ _).
    apply (quiet_announced s); [|exact A].
    apply (quiet_trans s y);
      [unfold y; apply quiet_by_fields; autorewrite with editor_fields; reflexivity|].
    apply (quiet_trans y (_updateShape surface y)); [apply quiet_updateShape|].
    apply quiet_fire. intros st. discriminate.
Qed.

Lemma quiet_create_nodes (cs : list (LatLng num)) (x : Editor num) :
  quiet x (create_nodes cs x).
Proof.
  revert x. induction cs as [|c cs IH]; intros x; [apply quiet_refl|].
  rewrite create_nodes_cons.
  apply (quiet_trans x (snd (_createNode c x))); [apply quiet_createNode|].
  apply (quiet_trans _ (set_nodes (nodes x ++ [mkNode (S (next_id x)) c (next_id x)])
                          (snd (_createNode c x))));
    [apply quiet_by_fields; [apply state_set_nodes | apply fired_set_nodes] | apply IH].
Qed.

Lemma announced_set_shapeType (v : option string) (x : Editor num) :
  state_announced x -> state_announced (set_shapeType v x).
Proof.
  apply quiet_announced.
  apply quiet_by_fields; [apply state_set_shapeType | apply fired_set_shapeType].
Qed.

Lemma announced_set_options (v : Options num) (x : Editor num) :
  state_announced x -> state_announced (set_options v x).
Proof.
  apply quiet_announced.
  apply quiet_by_fields; [apply state_set_options | apply fired_set_options].
Qed.

Lemma announced_import (geojson : GeoJSONValue num) (opts : option (OptionsPatch num))
    (s : Editor num) :
  state_announced (fst (drawFromGeoJSON surface geojson opts s)).
Proof.
  unfold drawFromGeoJSON.
  pose proof (announced_clear s) as Hc.
  set (c := clear s) in *. clearbody c.
  destruct geojson as [| |g]; try (cbn [fst]; exact Hc).
  destruct (g_type g) as [ty|]; [|cbn [fst]; exact Hc].
  destruct (String.eqb ty ""); [cbn [fst]; exact Hc|].
  set (c1 := match opts with
             | Some p => set_options (setOptions (options c) p) c
             | None => c
             end).
  assert (H1 : state_announced c1).
  { unfold c1. destruct opts; [apply announced_set_options|]; exact Hc. }
  clearbody c1.
  set (c2 := set_shapeType (Some (toLowerCase ty)) c1).
  assert (H2 : state_announced c2) by (apply announced_set_shapeType; exact H1).
  clearbody c2.
  destruct (import_switch ty g) as [[assigned read]|]; [|cbn [fst]; exact H2].
  set (c3 := match assigned with
             | Some t => set_shapeType (Some t) c2
             | None => c2
             end).
  assert (H3 : state_announced c3).
  { unfold c3. destruct assigned; [apply announced_set_shapeType|]; exact H2. }
  clearbody c3.
  destruct read as [coordinates|err|]; try (cbn [fst]; exact H3).
  destruct (String.eqb ty "Point" && _).
  - set (c4 := set_shapeType (Some "circle"%string) c3).
    assert (H4 : state_announced c4) by (apply announced_set_shapeType; exact H3).
    clearbody c4.
    destruct (bind _ _) as [cs|err|]; cbn [fst]; try exact H4.
    apply (quiet_announced c4); [|exact H4].
    apply (quiet_trans c4 (create_nodes cs c4));
      [apply quiet_create_nodes | apply quiet_updateShape].
  - cbn [fst]. apply (quiet_announced c3); [|exact H3].
    apply (quiet_trans c3 (create_nodes coordinates c3));
      [apply quiet_create_nodes | apply quiet_updateShape].
Qed.

Lemma announced_drag (toLatLng : Point num -> LatLng num) (isDragging : bool)
    (node : Node num) (e : MouseEvent num) (s : Editor num) :
  state_announced s ->
  state_announced (node_onMouseMove surface toLatLng isDragging node e s).
Proof.
  intros A. unfold node_onMouseMove. destruct (negb isDragging); [exact A|].
  cbv zeta. unfold setLatLng.
  apply (quiet_announced s); [|exact A].
  apply (quiet_trans s (set_nodes
           (map (fun n => if Nat.eqb (node_id n) (node_id node)
                          then mkNode (node_id n) (toLatLng (ev_containerPoint e))
                                 (node_background n)
                          else n) (nodes s)) s));
    [apply quiet_by_fields; [apply state_set_nodes | apply fired_set_nodes]
    | apply quiet_updateShape].
Qed.
End Notifications.

Section NotificationsOfSessions.
Context {num : Type} `{JSNumber num} `{JSInfinity num}.

(** Whatever the calls and events, the last [statechange] notification
    carries the state the editor is in (and the state is ["idle"] while none
    was sent): every assignment to the state is followed by its
    notification before anything else can change the state. *)
Theorem statechange_tells_the_state (s : Editor num) : reachable s -> state_announced s.
Proof.
  intros R. induction R as [opts | surface toLatLng a s R IH].
  - reflexivity.
  - destruct a as [type | | geojson opts | e | e | node | | isDragging node e | ];
      cbn [step].
    + apply announced_startDrawing.
    + apply announced_clear.
    + apply announced_import.
    + apply announced_click. exact IH.
    + apply (quiet_announced s); [apply quiet_mouseMove | exact IH].
    + apply announced_contextmenu. exact IH.
    + apply (quiet_announced s); [|exact IH].
      apply quiet_by_fields; [apply state_set_map_dragging | apply fired_set_map_dragging].
    + apply announced_drag. exact IH.
    + apply (quiet_announced s); [|exact IH].
      apply quiet_by_fields; [apply state_set_map_dragging | apply fired_set_map_dragging].
Qed.
End NotificationsOfSessions.

Lemma statechange_tells_the_state_witness : state_announced Flat.line3.
Proof. apply statechange_tells_the_state. exact reachable_line3. Defined.
(** ** The layers of the figure and the map *)

Section Tidy.
Context {num : Type} `{JSNumber num} `{JSInfinity num}.

Lemma node_layers_app (l1 l2 : list (Node num)) :
  node_layers (l1 ++ l2) = node_layers l1 ++ node_layers l2.
Proof. apply flat_map_app. Qed.

Lemma node_layers_cons (n : Node num) (l : list (Node num)) :
  node_layers (n :: l) = node_id n :: node_background n :: node_layers l.
Proof. reflexivity. Qed.

Lemma in_figure_layers (s : Editor num) (l : nat) :
  In l (figure_layers s)
  <-> (exists sh, shape s = Some sh /\ l = shape_id sh)
      \/ (exists ls, tempLine s = Some (l, ls))
      \/ In l (node_layers (nodes s)).
Proof.
  unfold figure_layers. fold (node_layers (nodes s)). rewrite !in_app_iff.
  destruct (shape s) as [sh|]; destruct (tempLine s) as [[t ls]|]; cbn [In]; split.
  - intros [[E|[]] | [[E|[]] | Hin]];
      [left; exists sh; split; [reflexivity | symmetry; exact E]
      | right; left; exists ls; rewrite E; reflexivity
      | right; right; exact Hin].
  - intros [(sh' & E & El) | [(ls' & E) | Hin]].
    + injection E as <-. left. left. symmetry. exact El.
    + injection E as <- _. right. left. left. reflexivity.
    + right. right. exact Hin.
  - intros [[E|[]] | [[] | Hin]];
      [left; exists sh; split; [reflexivity | symmetry; exact E] | right; right; exact Hin].
  - intros [(sh' & E & El) | [(ls' & E) | Hin]].
    + injection E as <-. left. left. symmetry. exact El.
    + discriminate E.
    + right. right. exact Hin.
  - intros [[] | [[E|[]] | Hin]];
      [right; left; exists ls; rewrite E; reflexivity | right; right; exact Hin].
  - intros [(sh' & E & El) | [(ls' & E) | Hin]].
    + discriminate E.
    + injection E as <- _. right. left. left. reflexivity.
    + right. right. exact Hin.
  - intros [[] | [[] | Hin]]. right. right. exact Hin.
  - intros [(sh' & E & El) | [(ls' & E) | Hin]]; try discriminate E.
    right. right. exact Hin.
Qed.

Lemma same_layer_fields_order (s s' : Editor num) :
  same_layer_fields s s' -> layers_in_order s -> layers_in_order s'.
Proof.
  intros (E1 & E2 & E3 & E4 & E5 & E6) (T1 & T2 & T3 & T4 & T5).
  unfold layers_in_order, shape_apart, preview_apart, shapeType_is in *.
  repeat split.
  - rewrite E1. exact T1.
  - rewrite E5. rewrite E1 in H1. apply (T2 l H1).
  - rewrite E4. rewrite E1 in H1. apply (T2 l H1).
  - rewrite E2, E5, E1, E6. exact T3.
  - rewrite E5. rewrite E3 in H1. apply (T4 id ls H1).
  - rewrite E1. rewrite E3 in H1. apply (T4 id ls H1).
  - intros l Hin. rewrite E4 in Hin. apply T5 in Hin.
    apply in_figure_layers. apply in_figure_layers in Hin.
    rewrite E1, E2, E3. exact Hin.
Qed.

Lemma clear_layers (s : Editor num) (l : nat) :
  In l (map_layers (clear s)) -> In l (map_layers s) /\ ~ In l (figure_layers s).
Proof.
  intros Hin. apply clear_layers_parts in Hin. unfold figure_layers.
  rewrite !in_app_iff. tauto.
Qed.

Lemma in_filter_other (l id : nat) (ls : list nat) :
  In l (filter (fun y => negb (Nat.eqb y id)) ls) <-> In l ls /\ l <> id.
Proof.
  rewrite filter_In. split; intros [H1 H2]; (split; [exact H1|]).
  - intros ->. rewrite Nat.eqb_refl in H2. discriminate H2.
  - apply negb_true_iff. apply Nat.eqb_neq. exact H2.
Qed.

Lemma nodup_insert2 (a b : list nat) (x y : nat) :
  NoDup (a ++ b) -> ~ In x (a ++ b) -> ~ In y (a ++ b) -> x <> y ->
  NoDup (a ++ x :: y :: b).
Proof.
  intros Hn Hx Hy Hxy. induction a as [|c a IH]; cbn [app] in *.
  - constructor; [intros [E|Hin]; [apply Hxy; symmetry; exact E | exact (Hx Hin)]|].
    constructor; assumption.
  - inversion Hn as [|c' l' Hc Hn']; subst. constructor.
    + rewrite in_app_iff in *. cbn [In] in *. intros [Hin|[E|[E|Hin]]].
      * apply Hc. left. exact Hin.
      * apply Hx. left. symmetry. exact E.
      * apply Hy. left. symmetry. exact E.
      * apply Hc. right. exact Hin.
    + apply IH; [exact Hn' | |]; intros Hin; [apply Hx | apply Hy]; right; exact Hin.
Qed.

Lemma nodup_remove2 (a b : list nat) (x y : nat) :
  NoDup (a ++ x :: y :: b) ->
  NoDup (a ++ b) /\ ~ In x (a ++ b) /\ ~ In y (a ++ b) /\ x <> y.
Proof.
  intros Hn.
  pose proof (NoDup_remove_1 _ _ _ Hn) as H1.
  pose proof (NoDup_remove_2 _ _ _ Hn) as H2.
  pose proof (NoDup_remove_1 _ _ _ H1) as H3.
  pose proof (NoDup_remove_2 _ _ _ H1) as H4.
  split; [exact H3|]. split; [|split; [exact H4|]].
  - intros Hin. apply H2. rewrite in_app_iff in *. cbn [In].
    destruct Hin as [Hin|Hin]; [left; exact Hin | right; right; exact Hin].
  - intros E. apply H2. rewrite in_app_iff. right. left. symmetry. exact E.
Qed.

Section OnSurface.
Variable surface : MapSurface num.

Lemma updateShape_whole (x : Editor num) :
  _updateShape surface x = without_old_shape x
  \/ (exists n0, nodes x = [n0] /\ shapeType_is x "point" = true
                 /\ _updateShape surface x
                    = set_shape (Some (ShapeIsNode (node_id n0))) (without_old_shape x))
  \/ (exists p, _updateShape surface x = draw p (without_old_shape x)).
Proof.
  unfold _updateShape. fold (without_old_shape x).
  pose proof (old_shape_frame x) as Ex. cbv zeta in Ex. fold (without_old_shape x) in Ex.
  destruct Ex as (Ext & Exn & _).
  set (x1 := without_old_shape x) in *. clearbody x1.
  assert (St : forall t, shapeType_is x1 t = shapeType_is x t)
    by (intros t; unfold shapeType_is; rewrite Ext; reflexivity).
  cbv zeta. rewrite !St, Exn, length_map.
  destruct (shapeType_is x "point" && (List.length (nodes x) =? 1)%nat) eqn:E1.
  { apply andb_prop in E1 as [Ep En]. apply Nat.eqb_eq in En.
    destruct (nodes x) as [|n0 [|n1 ns]]; try discriminate En.
    right. left. exists n0. repeat split. exact Ep. }
  destruct (shapeType_is x "line" && (2 <=? List.length (nodes x))%nat);
    [right; right; eexists; reflexivity|].
  destruct (shapeType_is x "polygon" && (3 <=? List.length (nodes x))%nat).
  { destruct (map _ (nodes x)); [left; reflexivity | right; right; eexists; reflexivity]. }
  destruct (shapeType_is x "rectangle" && (2 <=? List.length (nodes x))%nat);
    [right; right; eexists; reflexivity|].
  destruct (shapeType_is x "circle" && (2 <=? List.length (nodes x))%nat);
    [|left; reflexivity].
  destruct (map _ (nodes x)) as [|c [|c1 cs]];
    [left; reflexivity | left; reflexivity | right; right; eexists; reflexivity].
Qed.

(** With the old shape off the map, the nodes are still on it and the map
    shows the nodes and the preview line only. *)
Lemma without_old_shape_layers (x : Editor num) :
  layers_in_order x ->
  nodes (without_old_shape x) = nodes x
  /\ shape (without_old_shape x) = shape x
  /\ tempLine (without_old_shape x) = tempLine x
  /\ next_id (without_old_shape x) = next_id x
  /\ shapeType (without_old_shape x) = shapeType x
  /\ (forall l, In l (node_layers (nodes x)) -> In l (map_layers (without_old_shape x)))
  /\ (forall l, In l (map_layers (without_old_shape x)) ->
        (exists ls, tempLine x = Some (l, ls)) \/ In l (node_layers (nodes x))).
Proof.
  intros (T1 & T2 & T3 & T4 & T5). unfold without_old_shape, shape_apart in *.
  destruct (shape x) as [sh|] eqn:Es.
  - destruct (is_first_node sh (nodes x)) eqn:Ef.
    + rewrite Es. do 5 (split; [reflexivity|]). split; [intros l Hin; apply T2; exact Hin|].
      intros l Hin. apply T5 in Hin. apply in_figure_layers in Hin.
      destruct Hin as [(sh' & E & El) | [Hin | Hin]]; [|left; exact Hin | right; exact Hin].
      right. rewrite Es in E. injection E as <-. subst l.
      destruct sh as [id|id p]; [|discriminate Ef].
      destruct (nodes x) as [|n0 ns]; [discriminate Ef|].
      cbn in Ef. apply Nat.eqb_eq in Ef. cbn. left. symmetry. exact Ef.
    + autorewrite with editor_fields. rewrite Es. do 5 (split; [reflexivity|]).
      assert (Hs : ~ In (shape_id sh) (node_layers (nodes x))).
      { destruct sh as [id|id p]; cbn [shape_id].
        - destruct T3 as (_ & _ & [F | N]); [rewrite Ef in F; discriminate F | exact N].
        - apply T3. }
      split.
      * intros l Hin. apply in_removeLayer. split; [apply T2; exact Hin|].
        intros ->. exact (Hs Hin).
      * intros l Hin. apply in_removeLayer in Hin as [Hin Hne].
        apply T5 in Hin. apply in_figure_layers in Hin.
        destruct Hin as [(sh' & E & El) | [Hin | Hin]]; [|left; exact Hin | right; exact Hin].
        rewrite Es in E. injection E as <-. contradiction.
  - rewrite Es. do 5 (split; [reflexivity|]). split; [intros l Hin; apply T2; exact Hin|].
    intros l Hin. apply T5 in Hin. apply in_figure_layers in Hin.
    destruct Hin as [(sh' & E & El) | [Hin | Hin]]; [|left; exact Hin | right; exact Hin].
    rewrite Es in E. discriminate E.
Qed.

Lemma order_updateShape (x : Editor num) :
  layers_in_order x -> layers_in_order (_updateShape surface x).
Proof.
  intros T. destruct (without_old_shape_layers x T) as (W1 & W2 & W3 & W4 & W5 & W6 & W7).
  destruct T as (T1 & T2 & T3 & T4 & T5).
  set (x1 := without_old_shape x) in *.
  destruct (updateShape_whole x) as [E | [(n0 & En & Ep & E) | (p & E)]]; rewrite E;
    fold x1; clearbody x1.
  - unfold layers_in_order, shape_apart, preview_apart, shapeType_is.
    rewrite W1, W2, W3, W4, W5.
    split; [exact T1|]. split; [|split; [exact T3|split; [exact T4|]]].
    + intros l Hin. split; [apply T2; exact Hin | apply W6; exact Hin].
    + intros l Hin. apply in_figure_layers. rewrite W1, W3.
      destruct (W7 l Hin) as [Hl|Hl]; [right; left; exact Hl | right; right; exact Hl].
  - unfold layers_in_order, shape_apart, preview_apart, shapeType_is.
    autorewrite with editor_fields. rewrite W1, W3, W4, W5.
    split; [exact T1|]. split; [|split; [|split; [exact T4|]]].
    + intros l Hin. split; [apply T2; exact Hin | apply W6; exact Hin].
    + fold (shapeType_is x "point"). rewrite En. cbn [is_first_node].
      rewrite Nat.eqb_refl. split; [|split; [exact Ep | left; reflexivity]].
      apply T2. rewrite En. left. reflexivity.
    + intros l Hin. apply in_figure_layers. autorewrite with editor_fields. rewrite W1, W3.
      destruct (W7 l Hin) as [Hl|Hl]; [right; left; exact Hl | right; right; exact Hl].
  - unfold draw, addNewLayer. cbv beta iota zeta.
    unfold layers_in_order, shape_apart, preview_apart.
    autorewrite with editor_fields. rewrite W1, W3, W4.
    split; [exact T1|]. split; [|split; [|split]].
    + intros l Hin. split; [destruct (T2 l Hin); lia|].
      apply in_or_app. left. apply W6. exact Hin.
    + split; [lia|]. intros Hin. destruct (T2 _ Hin). lia.
    + intros id ls Et. destruct (T4 id ls Et). split; [lia | assumption].
    + intros l Hin. apply in_figure_layers. autorewrite with editor_fields. rewrite W1, W3.
      apply in_app_or in Hin as [Hin|[<-|[]]].
      * destruct (W7 l Hin) as [Hl|Hl]; [right; left; exact Hl | right; right; exact Hl].
      * left. eexists. split; reflexivity.
Qed.

(** A node created and put at a place of the node list. *)
Lemma order_node_added (latlng : LatLng num) (l1 l2 : list (Node num)) (s : Editor num) :
  layers_in_order s -> nodes s = l1 ++ l2 ->
  (forall id, shape s = Some (ShapeIsNode id) ->
     is_first_node (ShapeIsNode id) (l1 ++ l2) = true -> l1 <> []) ->
  layers_in_order
    (set_nodes (l1 ++ mkNode (S (next_id s)) latlng (next_id s) :: l2)
       (snd (_createNode latlng s))).
Proof.
  intros (T1 & T2 & T3 & T4 & T5) En Hf.
  assert (Em : map_layers (snd (_createNode latlng s))
               = (map_layers s ++ [next_id s]) ++ [S (next_id s)]) by reflexivity.
  destruct (createNode_effect latlng s) as (C1 & C2 & _ & _ & C5 & C6 & _).
  unfold layers_in_order, shape_apart, preview_apart, shapeType_is.
  autorewrite with editor_fields.
  unfold shape_apart, preview_apart, shapeType_is in T3, T4.
  rewrite En in T1, T2, T3, T4.
  rewrite node_layers_app in T1, T2, T3, T4.
  rewrite C1, C2, C5, C6, Em, node_layers_app, node_layers_cons. cbn [node_id node_background].
  assert (Fresh : forall l, In l (node_layers l1 ++ node_layers l2) -> l < next_id s)
    by (intros l Hin; apply T2; exact Hin).
  assert (Old : forall l, l < next_id s ->
                ~ In l (node_layers l1 ++ node_layers l2) ->
                ~ In l (node_layers l1 ++ S (next_id s) :: next_id s :: node_layers l2)).
  { intros l Hl Hn Hin. apply Hn. rewrite in_app_iff in *. cbn [In] in Hin.
    destruct Hin as [Hin|[E|[E|Hin]]]; [left; exact Hin | lia | lia | right; exact Hin]. }
  split; [|split; [|split; [|split]]].
  - apply nodup_insert2; [exact T1 | | | lia];
      intros Hin; apply Fresh in Hin; lia.
  - intros l Hin. rewrite !in_app_iff in *. cbn [In] in *.
    destruct Hin as [Hin|[E|[E|Hin]]].
    + destruct (T2 l) as [A B]; [rewrite in_app_iff; left; exact Hin|]. split; [lia | auto].
    + subst l. split; [lia | auto].
    + subst l. split; [lia | auto].
    + destruct (T2 l) as [A B]; [rewrite in_app_iff; right; exact Hin|]. split; [lia | auto].
  - fold (shapeType_is s "point"). destruct (shape s) as [[id|id p]|] eqn:Es; [| |exact I].
    + destruct T3 as (A & B & C). split; [lia|]. split; [exact B|].
      destruct C as [F|N].
      * left. specialize (Hf id eq_refl F).
        destruct l1 as [|n1 l1']; [destruct (Hf eq_refl) | exact F].
      * right. apply Old; assumption.
    + destruct T3 as (A & B). split; [lia|]. apply Old; assumption.
  - intros id ls Et. destruct (T4 id ls Et) as (A & B). split; [lia|]. apply Old; assumption.
  - intros l Hin. apply in_figure_layers. autorewrite with editor_fields.
    rewrite C1, C5, node_layers_app, node_layers_cons. cbn [node_id node_background].
    rewrite !in_app_iff in Hin. cbn [In] in Hin.
    destruct Hin as [[Hin|[E|[]]]|[E|[]]].
    + apply T5 in Hin. apply in_figure_layers in Hin. rewrite En, node_layers_app in Hin.
      destruct Hin as [Hs | [Ht | Hn]]; [left; exact Hs | right; left; exact Ht |].
      right. right. rewrite in_app_iff in *. cbn [In].
      destruct Hn as [Hn|Hn]; [left; exact Hn | right; right; right; exact Hn].
    + right. right. rewrite in_app_iff. cbn [In]. right. right. left. exact E.
    + right. right. rewrite in_app_iff. cbn [In]. right. left. exact E.
Qed.

(** A node taken out of the node list, its layers taken off the map. *)
Lemma order_node_removed (n : Node num) (l1 l2 : list (Node num)) (s : Editor num) :
  layers_in_order s -> nodes s = l1 ++ n :: l2 ->
  layers_in_order
    (removeLayer (node_background n) (removeLayer (node_id n) (set_nodes (l1 ++ l2) s))).
Proof.
  intros (T1 & T2 & T3 & T4 & T5) En.
  unfold layers_in_order, shape_apart, preview_apart, shapeType_is.
  autorewrite with editor_fields.
  unfold shape_apart, preview_apart, shapeType_is in T3, T4.
  rewrite En in T1, T2, T3, T4. rewrite node_layers_app, node_layers_cons in T1, T2, T3, T4.
  rewrite node_layers_app.
  destruct (nodup_remove2 _ _ _ _ T1) as (N1 & N2 & N3 & N4).
  assert (Sub : forall l, In l (node_layers l1 ++ node_layers l2) ->
                In l (node_layers l1 ++ node_id n :: node_background n :: node_layers l2)).
  { intros l Hin. rewrite in_app_iff in *. cbn [In].
    destruct Hin as [Hin|Hin]; [left; exact Hin | right; right; right; exact Hin]. }
  split; [exact N1|]. split; [|split; [|split]].
  - intros l Hin. destruct (T2 l (Sub l Hin)) as [A B]. split; [exact A|].
    apply in_filter_other. split; [apply in_filter_other; split|].
    + exact B.
    + intros ->. exact (N2 Hin).
    + intros ->. exact (N3 Hin).
  - fold (shapeType_is s "point"). destruct (shape s) as [[id|id p]|] eqn:Es; [| |exact I].
    + destruct T3 as (A & B & C). split; [exact A|]. split; [exact B|].
      destruct C as [F|N].
      * destruct l1 as [|n1 l1'].
        -- right. cbn in F. apply Nat.eqb_eq in F. subst id. exact N2.
        -- left. exact F.
      * right. intros Hin. apply N. apply Sub. exact Hin.
    + destruct T3 as (A & B). split; [exact A|]. intros Hin. apply B. apply Sub. exact Hin.
  - intros id ls Et. destruct (T4 id ls Et) as (A & B). split; [exact A|].
    intros Hin. apply B. apply Sub. exact Hin.
  - intros l Hin. apply in_filter_other in Hin as [Hin Hb].
    apply in_filter_other in Hin as [Hin Hi].
    apply T5 in Hin. apply in_figure_layers in Hin. apply in_figure_layers.
    autorewrite with editor_fields. rewrite node_layers_app.
    rewrite En, node_layers_app, node_layers_cons in Hin.
    destruct Hin as [Hs | [Ht | Hn]]; [left; exact Hs | right; left; exact Ht |].
    right. right. rewrite in_app_iff in *. cbn [In] in Hn.
    destruct Hn as [Hn|[E|[E|Hn]]];
      [left; exact Hn | destruct (Hi (eq_sym E)) | destruct (Hb (eq_sym E)) | right; exact Hn].
Qed.

(** The preview line taken off the map, if there is one. *)
Lemma order_preview_removed (x : Editor num) :
  layers_in_order x ->
  layers_in_order (match tempLine x with
                   | Some (id, _) => set_tempLine None (removeLayer id x)
                   | None => x
                   end).
Proof.
  intros T. destruct (tempLine x) as [[t ls]|] eqn:Et; [|exact T].
  destruct T as (T1 & T2 & T3 & T4 & T5).
  unfold layers_in_order, shape_apart, preview_apart, shapeType_is.
  autorewrite with editor_fields.
  split; [exact T1|]. split; [|split; [exact T3|split]].
  - intros l Hin. destruct (T2 l Hin) as [A B]. split; [exact A|].
    apply in_filter_other. split; [exact B|].
    intros ->. destruct (T4 t ls Et) as [_ N]. exact (N Hin).
  - intros id ls' E. discriminate E.
  - intros l Hin. apply in_filter_other in Hin as [Hin Hne].
    apply T5 in Hin. apply in_figure_layers in Hin. apply in_figure_layers.
    autorewrite with editor_fields.
    destruct Hin as [Hs | [(ls' & E) | Hn]];
      [left; exact Hs | | right; right; exact Hn].
    rewrite Et in E. injection E as E _. destruct (Hne (eq_sym E)).
Qed.

(** The preview line replaced by a new one. *)
Lemma order_preview_replaced (latlngs : list (LatLng num)) (x : Editor num) :
  layers_in_order x ->
  layers_in_order
    (let b := match tempLine x with
              | Some (id, _) => removeLayer id x
              | None => x
              end in
     set_tempLine (Some (next_id b, latlngs))
       (set_map_layers (map_layers b ++ [next_id b]) (set_next_id (S (next_id b)) b))).
Proof.
  intros (T1 & T2 & T3 & T4 & T5). cbv zeta.
  set (b := match tempLine x with
            | Some (id, _) => removeLayer id x
            | None => x
            end).
  assert (B : nodes b = nodes x /\ shape b = shape x /\ next_id b = next_id x
              /\ shapeType b = shapeType x
              /\ (forall l, In l (node_layers (nodes x)) -> In l (map_layers b))
              /\ (forall l, In l (map_layers b) ->
                    (exists sh, shape x = Some sh /\ l = shape_id sh)
                    \/ In l (node_layers (nodes x)))).
  { unfold b. destruct (tempLine x) as [[t ls]|] eqn:Et.
    - do 4 (split; [reflexivity|]). split.
      + intros l Hin. apply in_removeLayer. split; [apply T2; exact Hin|].
        intros ->. destruct (T4 t ls Et) as [_ N]. exact (N Hin).
      + intros l Hin. apply in_removeLayer in Hin as [Hin Hne].
        apply T5 in Hin. apply in_figure_layers in Hin.
        destruct Hin as [Hs | [(ls' & E) | Hn]]; [left; exact Hs | | right; exact Hn].
        rewrite Et in E. injection E as E _. destruct (Hne (eq_sym E)).
    - do 4 (split; [reflexivity|]). split; [intros l Hin; apply T2; exact Hin|].
      intros l Hin. apply T5 in Hin. apply in_figure_layers in Hin.
      destruct Hin as [Hs | [(ls' & E) | Hn]]; [left; exact Hs | | right; exact Hn].
      rewrite Et in E. discriminate E. }
  destruct B as (B1 & B2 & B3 & B4 & B5 & B6). clearbody b.
  unfold layers_in_order, shape_apart, preview_apart, shapeType_is.
  autorewrite with editor_fields. rewrite B1, B2, B3, B4.
  split; [exact T1|]. split; [|split; [|split]].
  - intros l Hin. destruct (T2 l Hin) as [A _]. split; [lia|].
    apply in_or_app. left. apply B5. exact Hin.
  - fold (shapeType_is x "point"). unfold shape_apart, shapeType_is in T3.
    fold (shapeType_is x "point") in T3.
    destruct (shape x) as [[id|id p]|]; [| |exact I].
    + destruct T3 as (A & R). split; [lia | exact R].
    + destruct T3 as (A & R). split; [lia | exact R].
  - intros id ls E. injection E as <- _. split; [lia|].
    intros Hin. destruct (T2 _ Hin). lia.
  - intros l Hin. apply in_figure_layers. autorewrite with editor_fields. rewrite B1, B2.
    apply in_app_or in Hin as [Hin|[<-|[]]].
    + destruct (B6 l Hin) as [Hs|Hn]; [left; exact Hs | right; right; exact Hn].
    + right. left. eexists. reflexivity.
Qed.

(** After [clear()] the figure and the map are empty of the editor's layers. *)
Lemma order_clear (s : Editor num) : layers_in_order s -> layers_in_order (clear s).
Proof.
  intros (T1 & T2 & T3 & T4 & T5).
  destruct (clear_frame s) as (_ & _ & _ & Ct & _).
  unfold layers_in_order, shape_apart, preview_apart.
  rewrite clear_nodes, clear_shape, Ct.
  split; [constructor|]. split; [intros l []|]. split; [exact I|].
  split; [intros id ls E; discriminate E|].
  intros l Hin. apply clear_layers in Hin as [Hin Hn]. destruct (Hn (T5 l Hin)).
Qed.

Lemma node_layers_map (f : Node num -> Node num) (ns : list (Node num)) :
  (forall n, node_id (f n) = node_id n /\ node_background (f n) = node_background n) ->
  node_layers (map f ns) = node_layers ns.
Proof.
  intros Hf. induction ns as [|n ns IH]; [reflexivity|].
  cbn [map]. rewrite !node_layers_cons, IH. destruct (Hf n) as [-> ->]. reflexivity.
Qed.

(** The nodes moved, their layers unchanged. *)
Lemma order_nodes_moved (f : Node num -> Node num) (s : Editor num) :
  (forall n, node_id (f n) = node_id n /\ node_background (f n) = node_background n) ->
  layers_in_order s -> layers_in_order (set_nodes (map f (nodes s)) s).
Proof.
  intros Hf (T1 & T2 & T3 & T4 & T5).
  pose proof (node_layers_map f (nodes s) Hf) as El.
  unfold layers_in_order, shape_apart, preview_apart, shapeType_is.
  autorewrite with editor_fields. rewrite El.
  split; [exact T1|]. split; [exact T2|]. split; [|split; [exact T4|]].
  - unfold shape_apart, shapeType_is in T3.
    destruct (shape s) as [[id|id p]|]; [|exact T3|exact I].
    destruct T3 as (A & B & C). split; [exact A|]. split; [exact B|].
    destruct C as [F|N]; [left | right; exact N].
    destruct (nodes s) as [|n ns]; [discriminate F|].
    cbn [map is_first_node] in *. destruct (Hf n) as [-> _]. exact F.
  - intros l Hin. apply T5 in Hin. apply in_figure_layers in Hin. apply in_figure_layers.
    autorewrite with editor_fields. rewrite El. exact Hin.
Qed.

(** Fields the order of the layers does not read. *)
Lemma order_same_fields (s s' : Editor num) :
  layers_in_order s -> same_layer_fields s s' -> layers_in_order s'.
Proof. intros T E. exact (same_layer_fields_order s s' E T). Qed.

Lemma order_fire (ev : Event num) (x : Editor num) :
  layers_in_order x -> layers_in_order (fire ev x).
Proof.
  intros T. apply (order_same_fields x); [exact T|].
  unfold same_layer_fields. autorewrite with editor_fields. repeat split.
Qed.

Lemma order_retyped (v : option string) (x : Editor num) :
  shape x = None -> layers_in_order x -> layers_in_order (set_shapeType v x).
Proof.
  intros Es (T1 & T2 & T3 & T4 & T5).
  unfold layers_in_order, shape_apart, preview_apart.
  autorewrite with editor_fields. rewrite Es.
  split; [exact T1|]. split; [exact T2|]. split; [exact I|]. split; [exact T4|].
  intros l Hin. apply T5 in Hin. apply in_figure_layers in Hin. apply in_figure_layers.
  autorewrite with editor_fields. exact Hin.
Qed.

Lemma updateShape_keeps_shape (x : Editor num) :
  shape (_updateShape surface x) = None -> shape x = None.
Proof.
  destruct (old_shape_frame x) as (_ & _ & Es). fold (without_old_shape x) in Es.
  destruct (updateShape_whole x) as [E | [(n0 & _ & _ & E) | (p & E)]]; rewrite E.
  - rewrite Es. exact (fun e => e).
  - rewrite shape_set_shape. intros D. discriminate D.
  - unfold draw, addNewLayer. cbv beta iota zeta. rewrite shape_set_shape.
    intros D. discriminate D.
Qed.

Lemma order_finish (x : Editor num) :
  layers_in_order x -> layers_in_order (finish_drawing x).
Proof.
  intros T. unfold finish_drawing. cbv zeta.
  apply order_preview_removed. apply order_fire.
  apply (order_same_fields x); [exact T|].
  unfold same_layer_fields. autorewrite with editor_fields. repeat split.
Qed.

Lemma finish_layer_fields (x : Editor num) :
  nodes (finish_drawing x) = nodes x /\ shape (finish_drawing x) = shape x
  /\ shapeType (finish_drawing x) = shapeType x.
Proof.
  destruct (finish_drawing_frame x) as (_ & _ & _ & F4 & F5 & _).
  rewrite finish_drawing_nodes. repeat split; assumption.
Qed.

Lemma place_point_eq (e : MouseEvent num) (s : Editor num) :
  place_point e s
  = fire (nodeadd (S (next_id s)))
      (fire (statechange Idle)
         (set_state Idle
            (set_isDrawing false
               (set_shape (Some (ShapeIsNode (S (next_id s))))
                  (set_nodes (nodes s ++ [mkNode (S (next_id s)) (ev_latlng e) (next_id s)])
                     (snd (_createNode (ev_latlng e) s))))))).
Proof. reflexivity. Qed.

(** The single node of a point made the shape. *)
Lemma order_point_placed (x : Editor num) (n0 : Node num) :
  layers_in_order x -> nodes x = [n0] -> shape x = None ->
  shapeType_is x "point" = true ->
  layers_in_order (set_shape (Some (ShapeIsNode (node_id n0))) x).
Proof.
  intros (T1 & T2 & T3 & T4 & T5) En Es Ep.
  unfold layers_in_order, shape_apart, preview_apart.
  autorewrite with editor_fields.
  split; [exact T1|]. split; [exact T2|]. split; [|split; [exact T4|]].
  - rewrite En. cbn [is_first_node]. rewrite Nat.eqb_refl.
    split; [|split; [|left; reflexivity]].
    + apply T2. rewrite En. left. reflexivity.
    + unfold shapeType_is in *. rewrite shapeType_set_shape. exact Ep.
  - intros l Hin. apply T5 in Hin. apply in_figure_layers in Hin. apply in_figure_layers.
    autorewrite with editor_fields.
    destruct Hin as [(sh & Hs & _) | [Ht | Hn]];
      [rewrite Es in Hs; discriminate Hs | right; left; exact Ht | right; right; exact Hn].
Qed.

(** The branches of the click handler, with what each knows of the type. *)
Lemma onMapClick_branches (e : MouseEvent num) (s : Editor num) :
  _onMapClick surface e s = s
  \/ (shapeType_is s "point" = false
      /\ exists insertIdx, _onMapClick surface e s = insert_node surface insertIdx e s)
  \/ (shapeType_is s "point" = true /\ shape s = None
      /\ _onMapClick surface e s = place_point e s)
  \/ _onMapClick surface e s = finish_drawing s
  \/ ((shapeType_is s "point" = true -> shape s <> None)
      /\ _onMapClick surface e s = append_node surface e s).
Proof.
  destruct (isDrawing s) eqn:Ed.
  - rewrite (onMapClick_while_drawing surface e s Ed).
    destruct (shapeType_is s "point") eqn:Ep; cbn [andb].
    + destruct (shape s) as [sh|] eqn:Es.
      * destruct (closes_line surface e s);
          [right; right; right; left; reflexivity | right; right; right; right].
        split; [intros _ D; discriminate D | reflexivity].
      * right. right. left. repeat split.
    + destruct (closes_line surface e s);
        [right; right; right; left; reflexivity | right; right; right; right].
      split; [intros D; discriminate D | reflexivity].
  - unfold _onMapClick, idle_insertion.
    destruct (insertion_applies s) eqn:Ei; [|left; rewrite Ed; reflexivity].
    destruct (canAdd surface _ s); [|left; rewrite Ed; reflexivity].
    destruct (nearestSegment surface _ (nodes s)) as [minDist insertIdx].
    destruct (num_le minDist (tolerance s)); [|left; rewrite Ed; reflexivity].
    right. left. split; [|exists insertIdx; reflexivity].
    unfold insertion_applies in Ei. apply andb_prop in Ei as [Ei _].
    apply andb_prop in Ei as [_ Ei]. unfold shapeType_is in *.
    destruct (shapeType s) as [t|]; [|reflexivity].
    apply orb_prop in Ei as [Ei|Ei]; apply String.eqb_eq in Ei; subst t; reflexivity.
Qed.

Lemma shapeType_is_same (x y : Editor num) (t : string) :
  shapeType x = shapeType y -> shapeType_is x t = shapeType_is y t.
Proof. intros E. unfold shapeType_is. rewrite E. reflexivity. Qed.

Lemma kept_inserted (idx : Z) (e : MouseEvent num) (s : Editor num) :
  layers_in_order s -> shapeType_is s "point" = false ->
  layers_in_order (insert_node surface idx e s)
  /\ point_not_started (insert_node surface idx e s).
Proof.
  intros T Ep. rewrite insert_node_eq.
  destruct (createNode_effect (ev_latlng e) s) as (C1 & C2 & _).
  destruct (splice_insert_split idx (mkNode (S (next_id s)) (ev_latlng e) (next_id s))
              (nodes s)) as (l1 & l2 & E1 & E2).
  rewrite E2.
  assert (Tx : layers_in_order
                 (fire (nodeadd (S (next_id s)))
                    (_updateShape surface
                       (set_nodes (l1 ++ mkNode (S (next_id s)) (ev_latlng e) (next_id s) :: l2)
                          (snd (_createNode (ev_latlng e) s)))))).
  { apply order_fire. apply order_updateShape.
    apply order_node_added; [exact T | exact E1|].
    intros id Hs _. destruct T as (_ & _ & T3 & _). unfold shape_apart in T3.
    rewrite Hs in T3. destruct T3 as (_ & B & _). rewrite Ep in B. discriminate B. }
  assert (Ex : shapeType
                 (fire (nodeadd (S (next_id s)))
                    (_updateShape surface
                       (set_nodes (l1 ++ mkNode (S (next_id s)) (ev_latlng e) (next_id s) :: l2)
                          (snd (_createNode (ev_latlng e) s)))))
               = shapeType s).
  { rewrite shapeType_fire, updateShape_shapeType, shapeType_set_nodes. exact C2. }
  set (x := fire _ _) in *. clearbody x.
  split; [exact Tx|].
  intros _ Hp. rewrite (shapeType_is_same x s "point" Ex), Ep in Hp. discriminate Hp.
Qed.

Lemma kept_placed (e : MouseEvent num) (s : Editor num) :
  layers_in_order s -> nodes s = [] -> shape s = None ->
  shapeType_is s "point" = true ->
  layers_in_order (place_point e s) /\ point_not_started (place_point e s).
Proof.
  intros T En Es Ep.
  destruct (createNode_effect (ev_latlng e) s) as (C1 & C2 & _).
  split.
  - rewrite place_point_eq. do 2 apply order_fire.
    apply (order_same_fields
             (set_shape (Some (ShapeIsNode (S (next_id s))))
                (set_nodes ([] ++ mkNode (S (next_id s)) (ev_latlng e) (next_id s) :: [])
                   (snd (_createNode (ev_latlng e) s))))).
    + apply (order_point_placed _ (mkNode (S (next_id s)) (ev_latlng e) (next_id s))).
      * apply order_node_added; [exact T | exact En|].
        intros id Hs. rewrite Es in Hs. discriminate Hs.
      * apply nodes_set_nodes.
      * rewrite shape_set_nodes, C1. exact Es.
      * unfold shapeType_is. rewrite shapeType_set_nodes, C2. exact Ep.
    + unfold same_layer_fields. autorewrite with editor_fields. rewrite En.
      repeat split.
  - intros Hs. destruct (place_point_effect e s) as (_ & P2 & _).
    rewrite P2 in Hs. discriminate Hs.
Qed.

Lemma kept_finished (x : Editor num) :
  layers_in_order x /\ point_not_started x ->
  layers_in_order (finish_drawing x) /\ point_not_started (finish_drawing x).
Proof.
  intros [T P]. destruct (finish_layer_fields x) as (F1 & F2 & F3).
  split; [apply order_finish; exact T|].
  unfold point_not_started, shapeType_is. rewrite F1, F2, F3. exact P.
Qed.

Lemma kept_appended (e : MouseEvent num) (s : Editor num) :
  layers_in_order s -> (shapeType_is s "point" = true -> shape s <> None) ->
  layers_in_order (append_node surface e s) /\ point_not_started (append_node surface e s).
Proof.
  intros T Ep.
  destruct (createNode_effect (ev_latlng e) s) as (C1 & C2 & _).
  rewrite append_node_eq. cbv zeta.
  set (y := set_nodes (nodes s ++ [mkNode (S (next_id s)) (ev_latlng e) (next_id s)])
              (snd (_createNode (ev_latlng e) s))).
  assert (Ty : layers_in_order y).
  { unfold y. apply order_node_added; [exact T | symmetry; apply app_nil_r|].
    intros id _ F. rewrite app_nil_r in F.
    destruct (nodes s); [discriminate F | discriminate]. }
  assert (Ey : shapeType y = shapeType s /\ shape y = shape s).
  { unfold y. rewrite shapeType_set_nodes, shape_set_nodes. split; assumption. }
  destruct Ey as [Ey1 Ey2]. clearbody y.
  assert (Tx : layers_in_order (fire (nodeadd (S (next_id s))) (_updateShape surface y)))
    by (apply order_fire, order_updateShape; exact Ty).
  assert (Ex : shapeType (fire (nodeadd (S (next_id s))) (_updateShape surface y))
               = shapeType s
               /\ (shape (fire (nodeadd (S (next_id s))) (_updateShape surface y)) = None
                   -> shape s = None)).
  { rewrite shapeType_fire, shape_fire, updateShape_shapeType. split; [exact Ey1|].
    intros Hs. apply updateShape_keeps_shape in Hs. rewrite <- Ey2. exact Hs. }
  destruct Ex as [Ex1 Ex2].
  set (x := fire _ _) in *. clearbody x.
  assert (Px : point_not_started x).
  { intros Hs Hp. rewrite (shapeType_is_same x s "point" Ex1) in Hp.
    destruct (Ep Hp (Ex2 Hs)). }
  destruct (reached_count x); [apply kept_finished|]; split; assumption.
Qed.

Lemma kept_click (e : MouseEvent num) (s : Editor num) :
  layers_in_order s /\ point_not_started s ->
  layers_in_order (_onMapClick surface e s) /\ point_not_started (_onMapClick surface e s).
Proof.
  intros [T P].
  destruct (onMapClick_branches e s)
    as [E | [(Ep & idx & E) | [(Ep & Es & E) | [E | (Ep & E)]]]]; rewrite E.
  - split; assumption.
  - apply kept_inserted; assumption.
  - apply kept_placed; try assumption. exact (P Es Ep).
  - apply kept_finished. split; assumption.
  - apply kept_appended; assumption.
Qed.

Lemma kept_same_fields (s s' : Editor num) :
  same_layer_fields s s' ->
  layers_in_order s /\ point_not_started s ->
  layers_in_order s' /\ point_not_started s'.
Proof.
  intros E [T P]. split; [exact (same_layer_fields_order s s' E T)|].
  destruct E as (E1 & E2 & _ & _ & _ & E6).
  intros Hs Hp. rewrite (shapeType_is_same s' s "point" E6) in Hp.
  rewrite E1. apply P; [rewrite <- E2; exact Hs | exact Hp].
Qed.

Lemma kept_clear (s : Editor num) :
  layers_in_order s -> layers_in_order (clear s) /\ point_not_started (clear s).
Proof.
  intros T. split; [apply order_clear; exact T|].
  intros _ _. apply clear_nodes.
Qed.

Lemma kept_startDrawing (type : string) (s : Editor num) :
  layers_in_order s ->
  layers_in_order (startDrawing type s) /\ point_not_started (startDrawing type s).
Proof.
  intros T. destruct (startDrawing_effect type s) as (E1 & _).
  split; [|intros _ _; exact E1].
  unfold startDrawing. cbv zeta.
  pose proof (order_retyped (Some type) (clear s) (clear_shape s) (order_clear s T)) as R.
  set (c := set_shapeType (Some type) (clear s)) in *. clearbody c.
  apply (order_same_fields c); [exact R|].
  unfold same_layer_fields. autorewrite with editor_fields. repeat split.
Qed.

Lemma kept_mouseMove (e : MouseEvent num) (s : Editor num) :
  layers_in_order s /\ point_not_started s ->
  layers_in_order (_onMouseMove surface e s) /\ point_not_started (_onMouseMove surface e s).
Proof.
  intros [T P]. split.
  2:{ destruct (onMouseMove_effect surface e s) as ((E1 & E2 & E3 & _) & _).
      intros Hs Hp. rewrite (shapeType_is_same _ s "point" E3) in Hp.
      rewrite E1. apply P; [rewrite <- E2; exact Hs | exact Hp]. }
  unfold _onMouseMove.
  destruct (negb (isDrawing s) || _ || _); [exact T|].
  destruct (shapeType_is s "polygon" && _); [exact T|].
  destruct ((shapeType_is s "rectangle" || shapeType_is s "circle") && _); [exact T|].
  cbv zeta.
  assert (A : layers_in_order (_autoPan surface (ev_containerPoint e) s)).
  { apply (order_same_fields s); [exact T|].
    destruct (autoPan_frame surface (ev_containerPoint e) s)
      as (A1 & A2 & A3 & _ & _ & A6 & A7 & A8).
    repeat split; assumption. }
  set (a := _autoPan surface (ev_containerPoint e) s) in *. clearbody a.
  unfold addNewLayer. cbv beta iota zeta.
  match goal with
  | |- layers_in_order (set_tempLine (Some (_, ?ls)) _) =>
      exact (order_preview_replaced ls a A)
  end.
Qed.

Lemma nodup_node_ids (ns : list (Node num)) :
  NoDup (node_layers ns) -> NoDup (map (@node_id num) ns).
Proof.
  induction ns as [|n ns IH]; intros Hn; [constructor|].
  rewrite node_layers_cons in Hn. inversion Hn as [|a l Ha Hn1]; subst.
  inversion Hn1 as [|a l Hb Hn2]; subst.
  cbn [map]. constructor; [|apply IH; exact Hn2].
  intros Hin. apply in_map_iff in Hin as (m & Em & Hm).
  apply Ha. right. clear -Em Hm. induction ns as [|k ns IH]; [destruct Hm|].
  rewrite node_layers_cons. destruct Hm as [->|Hm].
  - left. exact Em.
  - right. right. apply IH. exact Hm.
Qed.

(** The node the handler was installed on, where the list has it. *)
Lemma indexOf_of_member (node : Node num) (ns : list (Node num)) :
  NoDup (node_layers ns) -> In node ns ->
  exists l1 l2, ns = l1 ++ node :: l2
                /\ splice_remove1 (indexOf node ns) ns = l1 ++ l2.
Proof.
  intros Hn Hin.
  destruct (indexOf_from_split node ns 0 Hin) as (l1 & n & l2 & E & Eid & Hl1 & Ei).
  assert (En : n = node).
  { apply nodup_node_ids in Hn. rewrite E, map_app in Hn. cbn [map] in Hn.
    rewrite E in Hin. apply in_app_or in Hin as [Hin|[Hin|Hin]].
    - destruct (Hl1 node Hin eq_refl).
    - exact Hin.
    - apply NoDup_remove_2 in Hn. exfalso. apply Hn. apply in_or_app. right.
      rewrite Eid. apply in_map. exact Hin. }
  subst n. exists l1, l2. split; [exact E|].
  unfold indexOf. rewrite Ei, E. cbn [Z.add]. apply splice_remove1_at.
Qed.

Lemma kept_contextmenu (node : Node num) (s : Editor num) :
  In node (nodes s) ->
  layers_in_order s /\ point_not_started s ->
  layers_in_order (node_contextmenu surface node s)
  /\ point_not_started (node_contextmenu surface node s).
Proof.
  intros Hin [T P].
  destruct (node_contextmenu_cases surface node s) as [E | [E | (L & E)]]; rewrite E.
  - apply kept_clear. exact T.
  - split; assumption.
  - clear E.
    destruct (indexOf_of_member node (nodes s) (proj1 T) Hin) as (l1 & l2 & E1 & E2).
    rewrite E2.
    pose proof (order_node_removed node l1 l2 s T E1) as R.
    assert (F : shapeType (removeLayer (node_background node)
                             (removeLayer (node_id node) (set_nodes (l1 ++ l2) s)))
                = shapeType s
                /\ shape (removeLayer (node_background node)
                            (removeLayer (node_id node) (set_nodes (l1 ++ l2) s)))
                   = shape s).
    { autorewrite with editor_fields. split; reflexivity. }
    destruct F as [F1 F2].
    set (y := removeLayer (node_background node)
                (removeLayer (node_id node) (set_nodes (l1 ++ l2) s))) in *.
    clearbody y.
    assert (Tx : layers_in_order (fire (noderemove (node_id node)) (_updateShape surface y)))
      by (apply order_fire, order_updateShape; exact R).
    assert (Ex : shapeType (fire (noderemove (node_id node)) (_updateShape surface y))
                 = shapeType s
                 /\ (shape (fire (noderemove (node_id node)) (_updateShape surface y)) = None
                     -> shape s = None)).
    { rewrite shapeType_fire, shape_fire, updateShape_shapeType. split; [exact F1|].
      intros Hs. apply updateShape_keeps_shape in Hs. rewrite <- F2. exact Hs. }
    destruct Ex as [Ex1 Ex2].
    set (x := fire _ _) in *. clearbody x.
    split; [exact Tx|].
    intros Hs Hp. rewrite (shapeType_is_same x s "point" Ex1) in Hp.
    pose proof (P (Ex2 Hs) Hp) as En. rewrite En in L. cbn in L. lia.
Qed.

Lemma kept_drag (toLatLng : Point num -> LatLng num) (isDragging : bool)
    (node : Node num) (e : MouseEvent num) (s : Editor num) :
  layers_in_order s /\ point_not_started s ->
  layers_in_order (node_onMouseMove surface toLatLng isDragging node e s)
  /\ point_not_started (node_onMouseMove surface toLatLng isDragging node e s).
Proof.
  intros [T P]. unfold node_onMouseMove. destruct (negb isDragging); [split; assumption|].
  cbv zeta. unfold setLatLng.
  set (f := fun n : Node num =>
              if Nat.eqb (node_id n) (node_id node)
              then mkNode (node_id n) (toLatLng (ev_containerPoint e)) (node_background n)
              else n).
  assert (Hf : forall n, node_id (f n) = node_id n
                         /\ node_background (f n) = node_background n).
  { intros n. unfold f. destruct (Nat.eqb (node_id n) (node_id node)); split; reflexivity. }
  pose proof (order_nodes_moved f s Hf T) as R.
  assert (F : shapeType (set_nodes (map f (nodes s)) s) = shapeType s
              /\ shape (set_nodes (map f (nodes s)) s) = shape s
              /\ nodes (set_nodes (map f (nodes s)) s) = map f (nodes s)).
  { autorewrite with editor_fields. repeat split. }
  destruct F as (F1 & F2 & F3).
  set (y := set_nodes _ s) in *. clearbody y.
  split; [apply order_updateShape; exact R|].
  intros Hs Hp.
  rewrite (shapeType_is_same _ s "point"
             (eq_trans (updateShape_shapeType surface y) F1)) in Hp.
  apply updateShape_keeps_shape in Hs. rewrite F2 in Hs.
  rewrite updateShape_nodes, F3, (P Hs Hp). reflexivity.
Qed.

Lemma order_create_nodes (cs : list (LatLng num)) (x : Editor num) :
  layers_in_order x -> shape x = None -> layers_in_order (create_nodes cs x).
Proof.
  revert x. induction cs as [|c cs IH]; intros x T Es; [exact T|].
  rewrite create_nodes_cons. apply IH.
  - apply order_node_added; [exact T | symmetry; apply app_nil_r|].
    intros id Hs. rewrite Es in Hs. discriminate Hs.
  - rewrite shape_set_nodes. destruct (createNode_effect c x) as (C1 & _).
    rewrite C1. exact Es.
Qed.

Lemma kept_empty (x : Editor num) :
  layers_in_order x -> nodes x = [] -> layers_in_order x /\ point_not_started x.
Proof. intros T En. split; [exact T | intros _ _; exact En]. Qed.

Lemma kept_imported (cs : list (LatLng num)) (x : Editor num) :
  layers_in_order x -> nodes x = [] -> shape x = None ->
  (shapeType_is x "point" = true -> exists c, cs = [c]) ->
  layers_in_order (_updateShape surface (create_nodes cs x))
  /\ point_not_started (_updateShape surface (create_nodes cs x)).
Proof.
  intros T En Es Hc.
  split; [apply order_updateShape, order_create_nodes; assumption|].
  intros Hs Hp.
  destruct (create_nodes_frame cs x) as (_ & C2 & _).
  rewrite (shapeType_is_same _ x "point"
             (eq_trans (updateShape_shapeType surface (create_nodes cs x)) C2)) in Hp.
  destruct (Hc Hp) as (c & ->). exfalso.
  assert (N1 : nodes (create_nodes [c] x) = [mkNode (S (next_id x)) c (next_id x)]).
  { rewrite create_nodes_cons. cbn [create_nodes fold_left].
    rewrite nodes_set_nodes, En. reflexivity. }
  assert (T1 : shapeType (create_nodes [c] x) = Some "point"%string).
  { rewrite C2. apply shapeType_is_true. exact Hp. }
  rewrite (updateShape_point surface _ _ T1 N1) in Hs. discriminate Hs.
Qed.

Lemma kept_import (geojson : GeoJSONValue num) (opts : option (OptionsPatch num))
    (s : Editor num) :
  layers_in_order s ->
  layers_in_order (fst (drawFromGeoJSON surface geojson opts s))
  /\ point_not_started (fst (drawFromGeoJSON surface geojson opts s)).
Proof.
  intros T. unfold drawFromGeoJSON.
  assert (J : layers_in_order (clear s) /\ nodes (clear s) = [] /\ shape (clear s) = None)
    by (split; [apply order_clear; exact T | split; reflexivity]).
  set (c := clear s) in *. clearbody c. destruct J as (J1 & J2 & J3).
  destruct geojson as [| |g]; try (cbn [fst]; apply kept_empty; assumption).
  destruct (g_type g) as [ty|]; [|cbn [fst]; apply kept_empty; assumption].
  destruct (String.eqb ty ""); [cbn [fst]; apply kept_empty; assumption|].
  set (c1 := match opts with
             | Some p => set_options (setOptions (options c) p) c
             | None => c
             end).
  assert (K : layers_in_order c1 /\ nodes c1 = [] /\ shape c1 = None).
  { unfold c1. destruct opts as [p|]; [|split; [exact J1 | split; [exact J2 | exact J3]]].
    split; [|split; [rewrite nodes_set_options; exact J2
                    | rewrite shape_set_options; exact J3]].
    apply (order_same_fields c); [exact J1|].
    unfold same_layer_fields. autorewrite with editor_fields. repeat split. }
  clearbody c1. clear J1 J2 J3 c. destruct K as (K1 & K2 & K3).
  assert (L : forall v, layers_in_order (set_shapeType (Some v) c1)
                        /\ nodes (set_shapeType (Some v) c1) = []
                        /\ shape (set_shapeType (Some v) c1) = None
                        /\ shapeType (set_shapeType (Some v) c1) = Some v).
  { intros v. split; [apply order_retyped; assumption|].
    rewrite nodes_set_shapeType, shape_set_shapeType, shapeType_set_shapeType.
    repeat split; assumption. }
  assert (Again : forall v w, set_shapeType (Some w) (set_shapeType (Some v) c1)
                              = set_shapeType (Some w) c1) by reflexivity.
  unfold import_switch.
  destruct (String.eqb ty "Point") eqn:EP.
  { apply String.eqb_eq in EP. subst ty.
    change (toLowerCase "Point") with "point"%string.
    destruct (L "point"%string) as (L1 & L2 & L3 & L4).
    destruct (L "circle"%string) as (M1 & M2 & M3 & M4).
    rewrite Again.
    set (c2 := set_shapeType (Some "point"%string) c1) in *.
    set (c4 := set_shapeType (Some "circle"%string) c1) in *.
    clearbody c2 c4. cbv beta iota.
    destruct (js_index (g_coordinates g) 1) as [v1|err|]; cbn [bind fst];
      try (apply kept_empty; assumption).
    destruct (js_index (g_coordinates g) 0) as [v0|err|]; cbn [bind fst];
      try (apply kept_empty; assumption).
    destruct (L_latLng v1 v0) as [ll|err|]; cbn [bind fst];
      try (apply kept_empty; assumption).
    change (String.eqb "Point" "Point") with true. cbn [andb].
    destruct (g_radius g) as [r|]; [destruct (truthy r)|]; cbn [fst].
    - apply kept_imported; try assumption.
      intros Hp. unfold shapeType_is in Hp. rewrite M4 in Hp. discriminate Hp.
    - apply kept_imported; try assumption. intros _. eexists. reflexivity.
    - apply kept_imported; try assumption. intros _. eexists. reflexivity. }
  destruct (String.eqb ty "LineString") eqn:EL.
  { apply String.eqb_eq in EL. subst ty.
    change (toLowerCase "LineString") with "linestring"%string.
    destruct (L "linestring"%string) as (L1 & L2 & L3 & L4).
    set (c2 := set_shapeType (Some "linestring"%string) c1) in *. clearbody c2.
    cbv beta iota. change (String.eqb "LineString" "Point") with false. cbn [andb].
    destruct (g_coordinates g) as [|x|items]; cbn [fst];
      try (apply kept_empty; assumption).
    destruct (mapM coord_latLng items) as [cs|err|]; cbn [fst];
      try (apply kept_empty; assumption).
    apply kept_imported; try assumption.
    intros Hp. unfold shapeType_is in Hp. rewrite L4 in Hp. discriminate Hp. }
  destruct (String.eqb ty "Polygon") eqn:EG.
  { apply String.eqb_eq in EG. subst ty.
    change (toLowerCase "Polygon") with "polygon"%string.
    destruct (L "polygon"%string) as (L1 & L2 & L3 & L4).
    destruct (L "rectangle"%string) as (M1 & M2 & M3 & M4).
    change (String.eqb "Polygon" "Point") with false. cbn [andb].
    destruct (js_index (g_coordinates g) 0) as [[|x|ring]|err|];
      cbv beta iota; cbn [fst]; try (apply kept_empty; assumption).
    destruct (List.length ring =? 5)%nat; cbv beta iota.
    - rewrite Again.
      set (c4 := set_shapeType (Some "rectangle"%string) c1) in *. clearbody c4.
      destruct (coord_latLng (js_nth ring 0)) as [a|err|]; cbn [bind fst];
        try (apply kept_empty; assumption).
      destruct (coord_latLng (js_nth ring 2)) as [b|err|]; cbn [bind fst];
        try (apply kept_empty; assumption).
      apply kept_imported; try assumption.
      intros Hp. unfold shapeType_is in Hp. rewrite M4 in Hp. discriminate Hp.
    - set (c2 := set_shapeType (Some "polygon"%string) c1) in *. clearbody c2.
      destruct (mapM coord_latLng (removelast ring)) as [cs|err|]; cbn [fst];
        try (apply kept_empty; assumption).
      apply kept_imported; try assumption.
      intros Hp. unfold shapeType_is in Hp. rewrite L4 in Hp. discriminate Hp. }
  destruct (L (toLowerCase ty)) as (L1 & L2 & _).
  cbn [fst]. apply kept_empty; assumption.
Qed.
End OnSurface.

(** Through a session in which the events of the nodes are delivered to
    nodes of the figure, the layers stay in order. *)
Lemma session_layers (s : Editor num) :
  displayed_session s -> layers_in_order s /\ point_not_started s.
Proof.
  intros R. induction R as [opts | surface toLatLng a s R IH D].
  - split; [|intros _ _; reflexivity].
    unfold layers_in_order, shape_apart, preview_apart. cbn.
    split; [constructor|]. split; [intros l []|]. split; [exact I|].
    split; [intros id ls E; discriminate E | intros l []].
  - destruct a as [type | | geojson opts | e | e | node | | isDragging node e | ];
      cbn [step].
    + apply kept_startDrawing. apply IH.
    + apply kept_clear. apply IH.
    + apply kept_import. apply IH.
    + apply kept_click. exact IH.
    + apply kept_mouseMove. exact IH.
    + apply kept_contextmenu; [exact D | exact IH].
    + apply (kept_same_fields s); [|exact IH].
      unfold node_onMouseDown, same_layer_fields. autorewrite with editor_fields.
      repeat split.
    + apply kept_drag. exact IH.
    + apply (kept_same_fields s); [|exact IH].
      unfold node_onMouseUp, same_layer_fields. autorewrite with editor_fields.
      repeat split.
Qed.

(** Through a session in which the events of the nodes are delivered to
    nodes of the figure, every node of the figure is on the map with its
    background, and no two of these layers are the same. *)
Theorem nodes_are_on_the_map (s : Editor num) :
  displayed_session s ->
  NoDup (node_layers (nodes s))
  /\ forall n, In n (nodes s) ->
               In (node_id n) (map_layers s) /\ In (node_background n) (map_layers s).
Proof.
  intros R. destruct (session_layers s R) as ((T1 & T2 & _) & _).
  split; [exact T1|]. intros n Hin.
  apply in_split in Hin as (l1 & l2 & E).
  split; apply T2; rewrite E, node_layers_app, node_layers_cons, in_app_iff; right.
  - left. reflexivity.
  - right. left. reflexivity.
Qed.

(** Through such a session the map shows no layer of the editor's that is
    not of the current figure: whatever was removed from the figure, by a
    secondary action, [clear()], a new drawing or an import, or replaced by
    [_updateShape] or a mouse move, is off the map. *)
Theorem map_shows_only_the_figure (s : Editor num) (l : nat) :
  displayed_session s -> In l (map_layers s) ->
  (exists sh, shape s = Some sh /\ l = shape_id sh)
  \/ (exists ls, tempLine s = Some (l, ls))
  \/ (exists n, In n (nodes s) /\ (l = node_id n \/ l = node_background n)).
Proof.
  intros R Hin. destruct (session_layers s R) as ((_ & _ & _ & _ & T5) & _).
  apply T5 in Hin. apply in_figure_layers in Hin.
  destruct Hin as [Hs | [Ht | Hn]]; [left; exact Hs | right; left; exact Ht|].
  right. right. unfold node_layers in Hn. apply in_flat_map in Hn as (n & Hn & Hl).
  exists n. split; [exact Hn|].
  destruct Hl as [E|[E|[]]]; [left | right]; symmetry; exact E.
Qed.
End Tidy.

Lemma displayed_clicks (es : list (MouseEvent float)) (s : Editor float) :
  displayed_session s -> displayed_session (Flat.clicks es s).
Proof.
  revert s. induction es as [|e es IH]; intros s R; [exact R|].
  apply (IH (_onMapClick Flat.surface e s)).
  exact (@displayed_step float _ _ Flat.surface (fun p => mkLatLng (py p) (px p))
           (MapClick e) s R I).
Qed.

Lemma displayed_quadrilateral : displayed_session Flat.quadrilateral.
Proof.
  unfold Flat.quadrilateral, Flat.triangle, Flat.editor.
  do 2 apply displayed_clicks.
  exact (@displayed_step float _ _ Flat.surface (fun p => mkLatLng (py p) (px p))
           (CallStartDrawing "polygon") (initialize None) (displayed_new None) I).
Qed.

Lemma nodes_are_on_the_map_witness :
  NoDup (node_layers (nodes Flat.quadrilateral))
  /\ forall n, In n (nodes Flat.quadrilateral) ->
               In (node_id n) (map_layers Flat.quadrilateral)
               /\ In (node_background n) (map_layers Flat.quadrilateral).
Proof. apply nodes_are_on_the_map. exact displayed_quadrilateral. Defined.

Lemma map_shows_only_the_figure_witness :
  (exists sh, shape Flat.quadrilateral = Some sh /\ 1 = shape_id sh)
  \/ (exists ls, tempLine Flat.quadrilateral = Some (1, ls))
  \/ (exists n, In n (nodes Flat.quadrilateral)
                /\ (1 = node_id n \/ 1 = node_background n)).
Proof.
  apply map_shows_only_the_figure; [exact displayed_quadrilateral|].
  assert (A : existsb (Nat.eqb 1) (map_layers Flat.quadrilateral) = true)
    by (vm_compute; reflexivity).
  apply existsb_exists in A as (x & Hin & E). apply Nat.eqb_eq in E. subst x. exact Hin.
Defined.
(** ** The shape and the preview line on the map *)

Section Shown.
Context {num : Type} `{JSNumber num} `{JSInfinity num}.

Lemma shown_nothing (x : Editor num) : shape x = None -> tempLine x = None -> shown x.
Proof.
  intros Es Et. unfold shown. rewrite Es, Et.
  repeat split; intros; discriminate.
Qed.

(** The shape and the preview line as they were, on a map that still has
    their layers. *)
Lemma shown_kept (s x : Editor num) :
  shape x = shape s -> tempLine x = tempLine s ->
  (forall l, In l (map_layers s) ->
     (exists p, shape s = Some (ShapeLayer l p)) \/ (exists ls, tempLine s = Some (l, ls)) ->
     In l (map_layers x)) ->
  shown s -> shown x.
Proof.
  intros E1 E2 Hm (S1 & S2 & S3). unfold shown. rewrite E1, E2.
  split; [|split; [|exact S3]].
  - intros id p Es. apply Hm; [exact (S1 id p Es)|].
    left. exists p. exact Es.
  - intros id ls Et. apply Hm; [exact (S2 id ls Et)|].
    right. exists ls. exact Et.
Qed.

Lemma shown_same_fields (s x : Editor num) :
  same_layer_fields s x -> shown s -> shown x.
Proof.
  intros (_ & E2 & E3 & E4 & _). apply shown_kept; [exact E2 | exact E3|].
  intros l Hin _. rewrite E4. exact Hin.
Qed.

Lemma shown_fire (ev : Event num) (x : Editor num) : shown x -> shown (fire ev x).
Proof.
  apply shown_same_fields. unfold same_layer_fields.
  autorewrite with editor_fields. repeat split.
Qed.

Section OnSurface.
Variable surface : MapSurface num.

Lemma shown_updateShape (x : Editor num) :
  layers_in_order x -> shape_has_nodes x -> shown x -> shown (_updateShape surface x).
Proof.
  intros T Hn (S1 & S2 & S3).
  destruct (without_old_shape_layers x T) as (W1 & W2 & W3 & W4 & W5 & W6 & W7).
  destruct T as (T1 & T2 & T3 & T4 & T5).
  assert (Wt : forall id ls, tempLine x = Some (id, ls) ->
               In id (map_layers (without_old_shape x))).
  { intros id ls Et. unfold without_old_shape.
    destruct (shape x) as [sh|] eqn:Es; [|exact (S2 id ls Et)].
    destruct (is_first_node sh (nodes x)); [exact (S2 id ls Et)|].
    apply in_removeLayer. split; [exact (S2 id ls Et)|].
    intros E. exact (S3 sh id ls eq_refl Et (eq_sym E)). }
  destruct (updateShape_whole surface x) as [E | [(n0 & En & Ep & E) | (p & E)]].
  - assert (Ns : forall id p, shape x <> Some (ShapeLayer id p)).
    { intros id p Es. destruct (Hn id p Es) as (ty & X1 & X2 & X3).
      destruct (updateShape_builds surface ty x X2 X1 X3) as (q & _ & B & _).
      rewrite E, W2, Es in B. injection B as B _.
      unfold shape_apart in T3. rewrite Es in T3. destruct T3 as [A _]. lia. }
    rewrite E. set (x1 := without_old_shape x) in *. clearbody x1.
    unfold shown. rewrite W2, W3.
    split; [intros id p Es; destruct (Ns id p Es)|]. split; [exact Wt | exact S3].
  - rewrite E. set (x1 := without_old_shape x) in *. clearbody x1.
    unfold shown. autorewrite with editor_fields. rewrite W3.
    split; [intros id p Es; discriminate Es|]. split; [exact Wt|].
    intros sh id ls Es Et. injection Es as <-. cbn [shape_id].
    intros E'. destruct (T4 id ls Et) as [_ N]. apply N.
    rewrite En, <- E'. left. reflexivity.
  - rewrite E. set (x1 := without_old_shape x) in *. clearbody x1.
    unfold draw, addNewLayer, shown. cbv beta iota zeta.
    autorewrite with editor_fields. rewrite W3, W4.
    split; [|split].
    + intros id q Es. injection Es as <- _. apply in_or_app. right. left. reflexivity.
    + intros id ls Et. apply in_or_app. left. exact (Wt id ls Et).
    + intros sh id ls Es Et. injection Es as <-. cbn [shape_id].
      destruct (T4 id ls Et) as [A _]. lia.
Qed.

Lemma shown_node_added (latlng : LatLng num) (l : list (Node num)) (s : Editor num) :
  shown s -> shown (set_nodes l (snd (_createNode latlng s))).
Proof.
  destruct (createNode_effect latlng s) as (C1 & _ & _ & _ & C5 & _).
  apply shown_kept.
  - rewrite shape_set_nodes. exact C1.
  - rewrite tempLine_set_nodes. exact C5.
  - intros x Hin _. rewrite map_layers_set_nodes.
    change (map_layers (snd (_createNode latlng s)))
      with ((map_layers s ++ [next_id s]) ++ [S (next_id s)]).
    apply in_or_app. left. apply in_or_app. left. exact Hin.
Qed.

Lemma shown_node_removed (n : Node num) (l1 l2 : list (Node num)) (s : Editor num) :
  layers_in_order s -> nodes s = l1 ++ n :: l2 -> shown s ->
  shown (removeLayer (node_background n) (removeLayer (node_id n) (set_nodes (l1 ++ l2) s))).
Proof.
  intros (T1 & T2 & T3 & T4 & T5) En.
  assert (In1 : In (node_id n) (node_layers (nodes s))
                /\ In (node_background n) (node_layers (nodes s))).
  { rewrite En, node_layers_app, node_layers_cons, !in_app_iff. cbn [In]. split; auto. }
  destruct In1 as [I1 I2].
  apply shown_kept; [autorewrite with editor_fields; reflexivity
                    | autorewrite with editor_fields; reflexivity |].
  intros l Hin Hl. autorewrite with editor_fields.
  assert (Nl : ~ In l (node_layers (nodes s))).
  { destruct Hl as [(p & Es) | (ls & Et)].
    - unfold shape_apart in T3. rewrite Es in T3. apply T3.
    - apply (T4 l ls Et). }
  apply in_filter_other. split; [apply in_filter_other; split; [exact Hin|]|];
    intros ->; contradiction.
Qed.

Lemma shown_preview_removed (x : Editor num) :
  shown x ->
  shown (match tempLine x with
         | Some (id, _) => set_tempLine None (removeLayer id x)
         | None => x
         end).
Proof.
  intros Hsh. pose proof Hsh as (S1 & S2 & S3).
  case_eq (tempLine x); [intros [t ls] Et | intros _; exact Hsh].
  unfold shown. autorewrite with editor_fields.
  split; [|split; [intros id ls' E; discriminate E | intros sh id ls' _ E; discriminate E]].
  intros id p Es. apply in_filter_other. split; [exact (S1 id p Es)|].
  exact (S3 _ t ls Es Et).
Qed.

Lemma shown_preview_replaced (latlngs : list (LatLng num)) (x : Editor num) :
  layers_in_order x -> shown x ->
  shown (let b := match tempLine x with
                  | Some (id, _) => removeLayer id x
                  | None => x
                  end in
         set_tempLine (Some (next_id b, latlngs))
           (set_map_layers (map_layers b ++ [next_id b]) (set_next_id (S (next_id b)) b))).
Proof.
  intros (T1 & T2 & T3 & T4 & T5) (S1 & S2 & S3). cbv zeta.
  set (b := match tempLine x with
            | Some (id, _) => removeLayer id x
            | None => x
            end).
  assert (B : shape b = shape x /\ next_id b = next_id x
              /\ (forall id p, shape x = Some (ShapeLayer id p) -> In id (map_layers b))).
  { unfold b. case_eq (tempLine x); [intros [t ls] Et | intros _].
    - do 2 (split; [reflexivity|]). intros id p Es.
      apply in_removeLayer. split; [exact (S1 id p Es) | exact (S3 _ t ls Es Et)].
    - do 2 (split; [reflexivity|]). exact S1. }
  destruct B as (B1 & B2 & B3). clearbody b.
  unfold shown. autorewrite with editor_fields. rewrite B1, B2.
  split; [|split].
  - intros id p Es. apply in_or_app. left. exact (B3 id p Es).
  - intros id ls E. injection E as <- _. apply in_or_app. right. left. reflexivity.
  - intros sh id ls Es E. injection E as <- _.
    unfold shape_apart in T3. rewrite Es in T3.
    destruct sh as [i|i p]; cbn [shape_id]; destruct T3 as [A _]; lia.
Qed.

Lemma shown_point_placed (x : Editor num) (n0 : Node num) :
  layers_in_order x -> In n0 (nodes x) -> shown x ->
  shown (set_shape (Some (ShapeIsNode (node_id n0))) x).
Proof.
  intros (T1 & T2 & T3 & T4 & T5) Hin (S1 & S2 & S3).
  unfold shown. autorewrite with editor_fields.
  split; [intros id p E; discriminate E|]. split; [exact S2|].
  intros sh id ls E Et. injection E as <-. cbn [shape_id]. intros E.
  destruct (T4 id ls Et) as [_ N]. apply N. rewrite <- E.
  apply in_split in Hin as (l1 & l2 & ->).
  rewrite node_layers_app, node_layers_cons, in_app_iff. right. left. reflexivity.
Qed.

Lemma shown_finish (x : Editor num) : shown x -> shown (finish_drawing x).
Proof.
  intros Hsh. unfold finish_drawing. cbv zeta.
  apply shown_preview_removed. apply shown_fire.
  apply (shown_same_fields x); [|exact Hsh].
  unfold same_layer_fields. autorewrite with editor_fields. repeat split.
Qed.

Lemma shown_rebuilt (ev : Event num) (latlng : LatLng num) (l1 l2 : list (Node num))
    (s : Editor num) :
  well_kept s -> nodes s = l1 ++ l2 ->
  (forall id, shape s = Some (ShapeIsNode id) ->
     is_first_node (ShapeIsNode id) (l1 ++ l2) = true -> l1 <> []) ->
  shown (fire ev (_updateShape surface
                    (set_nodes (l1 ++ mkNode (S (next_id s)) latlng (next_id s) :: l2)
                       (snd (_createNode latlng s))))).
Proof.
  intros ((T & _) & Hn & Hsh) En Hf.
  destruct (createNode_effect latlng s) as (C1 & C2 & _).
  apply shown_fire. apply shown_updateShape.
  - apply order_node_added; assumption.
  - apply (has_nodes_transfer s); [|  | | exact Hn].
    + rewrite shape_set_nodes. exact C1.
    + rewrite shapeType_set_nodes. exact C2.
    + rewrite nodes_set_nodes, En, !length_app. cbn [List.length]. lia.
  - apply shown_node_added. exact Hsh.
Qed.

Lemma shown_click (e : MouseEvent num) (s : Editor num) :
  well_kept s -> shown (_onMapClick surface e s).
Proof.
  intros W. pose proof W as ((T & P) & _ & Hsh).
  destruct (createNode_effect (ev_latlng e) s) as (C1 & C2 & _).
  destruct (onMapClick_branches surface e s)
    as [E | [(Ep & idx & E) | [(Ep & Es & E) | [E | (Ep & E)]]]]; rewrite E; clear E.
  - exact Hsh.
  - rewrite insert_node_eq.
    destruct (splice_insert_split idx (mkNode (S (next_id s)) (ev_latlng e) (next_id s))
                (nodes s)) as (l1 & l2 & E1 & E2).
    rewrite E2. apply shown_rebuilt; [exact W | exact E1|].
    intros id Hs _. destruct T as (_ & _ & T3 & _). unfold shape_apart in T3.
    rewrite Hs in T3. destruct T3 as (_ & B & _). rewrite Ep in B. discriminate B.
  - pose proof (P Es Ep) as En. rewrite place_point_eq. do 2 apply shown_fire.
    apply (shown_same_fields
             (set_shape (Some (ShapeIsNode (S (next_id s))))
                (set_nodes ([] ++ mkNode (S (next_id s)) (ev_latlng e) (next_id s) :: [])
                   (snd (_createNode (ev_latlng e) s))))).
    + unfold same_layer_fields. autorewrite with editor_fields. rewrite En.
      repeat split.
    + apply (shown_point_placed _ (mkNode (S (next_id s)) (ev_latlng e) (next_id s))).
      * apply order_node_added; [exact T | exact En|].
        intros id Hs. rewrite Es in Hs. discriminate Hs.
      * rewrite nodes_set_nodes. left. reflexivity.
      * apply shown_node_added. exact Hsh.
  - apply shown_finish. exact Hsh.
  - rewrite append_node_eq. cbv zeta.
    assert (X : shown (fire (nodeadd (S (next_id s)))
                         (_updateShape surface
                            (set_nodes
                               (nodes s ++ mkNode (S (next_id s)) (ev_latlng e) (next_id s) :: [])
                               (snd (_createNode (ev_latlng e) s)))))).
    { apply shown_rebuilt; [exact W | symmetry; apply app_nil_r|].
      intros id _ F. rewrite app_nil_r in F.
      destruct (nodes s); [discriminate F | discriminate]. }
    set (x := fire _ _) in *. clearbody x.
    destruct (reached_count x); [apply shown_finish|]; exact X.
Qed.

Lemma shown_mouseMove (e : MouseEvent num) (s : Editor num) :
  well_kept s -> shown (_onMouseMove surface e s).
Proof.
  intros ((T & _) & _ & Hsh). unfold _onMouseMove.
  destruct (negb (isDrawing s) || _ || _); [exact Hsh|].
  destruct (shapeType_is s "polygon" && _); [exact Hsh|].
  destruct ((shapeType_is s "rectangle" || shapeType_is s "circle") && _); [exact Hsh|].
  cbv zeta.
  destruct (autoPan_frame surface (ev_containerPoint e) s)
    as (A1 & A2 & A3 & _ & _ & A6 & A7 & A8).
  assert (A : layers_in_order (_autoPan surface (ev_containerPoint e) s)
              /\ shown (_autoPan surface (ev_containerPoint e) s)).
  { split; [apply (order_same_fields s) | apply (shown_same_fields s)];
      try assumption; repeat split; assumption. }
  clear A1 A2 A3 A6 A7 A8.
  set (a := _autoPan surface (ev_containerPoint e) s) in *. clearbody a.
  destruct A as [Ta Sa]. unfold addNewLayer. cbv beta iota zeta.
  match goal with
  | |- shown (set_tempLine (Some (_, ?ls)) _) =>
      exact (shown_preview_replaced ls a Ta Sa)
  end.
Qed.

Lemma has_nodes_after_removal (node : Node num) (l1 l2 : list (Node num)) (s : Editor num) :
  shape_has_nodes s -> nodes s = l1 ++ node :: l2 ->
  minNodes s < List.length (nodes s) ->
  shape_has_nodes
    (removeLayer (node_background node)
       (removeLayer (node_id node) (set_nodes (l1 ++ l2) s))).
Proof.
  intros Hn En L id p Es. autorewrite with editor_fields in Es |- *.
  destruct (Hn id p Es) as (ty & X1 & X2 & _).
  exists ty. split; [exact X1|]. split; [exact X2|].
  pose proof (minNodes_of_type ty s X2) as M.
  rewrite En, length_app in L. cbn [List.length] in L. rewrite length_app.
  destruct ty; cbn [minimum_nodes] in *; lia.
Qed.

Lemma shown_contextmenu (node : Node num) (s : Editor num) :
  In node (nodes s) -> well_kept s -> shown (node_contextmenu surface node s).
Proof.
  intros Hin ((T & _) & Hn & Hsh).
  destruct (node_contextmenu_cases surface node s) as [E | [E | (L & E)]]; rewrite E;
    clear E.
  - destruct (clear_frame s) as (_ & _ & _ & Ct & _).
    apply shown_nothing; [apply clear_shape | exact Ct].
  - exact Hsh.
  - destruct (indexOf_of_member node (nodes s) (proj1 T) Hin) as (l1 & l2 & E1 & E2).
    rewrite E2. apply shown_fire. apply shown_updateShape.
    + apply order_node_removed; assumption.
    + apply has_nodes_after_removal; assumption.
    + apply shown_node_removed; assumption.
Qed.

Lemma shown_drag (toLatLng : Point num -> LatLng num) (isDragging : bool)
    (node : Node num) (e : MouseEvent num) (s : Editor num) :
  well_kept s -> shown (node_onMouseMove surface toLatLng isDragging node e s).
Proof.
  intros ((T & _) & Hn & Hsh). unfold node_onMouseMove.
  destruct (negb isDragging); [exact Hsh|].
  cbv zeta. unfold setLatLng.
  set (f := fun n : Node num =>
              if Nat.eqb (node_id n) (node_id node)
              then mkNode (node_id n) (toLatLng (ev_containerPoint e)) (node_background n)
              else n).
  assert (Hf : forall n, node_id (f n) = node_id n
                         /\ node_background (f n) = node_background n).
  { intros n. unfold f. destruct (Nat.eqb (node_id n) (node_id node)); split; reflexivity. }
  apply shown_updateShape.
  - apply order_nodes_moved; assumption.
  - apply (has_nodes_transfer s);
      [apply shape_set_nodes | apply shapeType_set_nodes | | exact Hn].
    rewrite nodes_set_nodes, length_map. lia.
  - apply (shown_kept s); [apply shape_set_nodes | apply tempLine_set_nodes | | exact Hsh].
    intros l Hl _. rewrite map_layers_set_nodes. exact Hl.
Qed.

Lemma shown_updateShape_fresh (y : Editor num) :
  shape y = None -> tempLine y = None -> shown (_updateShape surface y).
Proof.
  intros Es Et.
  assert (W : without_old_shape y = y) by (unfold without_old_shape; rewrite Es; reflexivity).
  destruct (updateShape_whole surface y) as [E | [(n0 & _ & _ & E) | (p & E)]];
    rewrite E, W; clear E W.
  - apply shown_nothing; assumption.
  - unfold shown. autorewrite with editor_fields. rewrite Et.
    repeat split; intros; discriminate.
  - unfold draw, addNewLayer, shown. cbv beta iota zeta.
    autorewrite with editor_fields. rewrite Et.
    split; [|split; intros; discriminate].
    intros id q Ei. injection Ei as <- _. apply in_or_app. right. left. reflexivity.
Qed.

Lemma shown_import (geojson : GeoJSONValue num) (opts : option (OptionsPatch num))
    (s : Editor num) :
  shown (fst (drawFromGeoJSON surface geojson opts s)).
Proof.
  destruct (drawFromGeoJSON_cases surface geojson opts s)
    as (x & (X1 & X2 & _ & _ & X5 & _) & [E | (cs & E)]); rewrite E.
  - apply shown_nothing; assumption.
  - destruct (create_nodes_effect cs x) as (C1 & _ & _ & C4 & _).
    apply shown_updateShape_fresh; [rewrite C1; exact X2 | rewrite C4; exact X5].
Qed.
End OnSurface.

(** Through a session in which the events of the nodes are delivered to
    nodes of the figure, the editor is well kept. *)
Lemma session_well_kept (s : Editor num) : displayed_session s -> well_kept s.
Proof.
  intros R. induction R as [opts | surface toLatLng a s R IH D].
  - split; [|split].
    + apply session_layers. apply displayed_new.
    + apply has_nodes_no_layer. intros id p. discriminate.
    + apply shown_nothing; reflexivity.
  - pose proof IH as (K & F & Hsh).
    split; [exact (session_layers _ (displayed_step surface toLatLng a R D))|].
    split; [exact (has_nodes_step surface toLatLng a s F)|].
    destruct a as [type | | geojson opts | e | e | node | | isDragging node e | ];
      cbn [step].
    + destruct (startDrawing_effect type s) as (_ & E2 & _ & _ & _ & E6 & _).
      apply shown_nothing; assumption.
    + destruct (clear_frame s) as (_ & _ & _ & Ct & _).
      apply shown_nothing; [apply clear_shape | exact Ct].
    + apply shown_import.
    + apply shown_click; exact IH.
    + apply shown_mouseMove; exact IH.
    + apply shown_contextmenu; [exact D | exact IH].
    + apply (shown_same_fields s); [|exact Hsh].
      unfold node_onMouseDown, same_layer_fields. autorewrite with editor_fields.
      repeat split.
    + apply shown_drag; exact IH.
    + apply (shown_same_fields s); [|exact Hsh].
      unfold node_onMouseUp, same_layer_fields. autorewrite with editor_fields.
      repeat split.
Qed.

(** Through such a session, the shape that is a layer of its own and the
    preview line are on the map: with the nodes and their backgrounds, the
    figure is shown whole. *)
Theorem figure_is_on_the_map (s : Editor num) :
  displayed_session s ->
  (forall id p, shape s = Some (ShapeLayer id p) -> In id (map_layers s))
  /\ (forall id ls, tempLine s = Some (id, ls) -> In id (map_layers s)).
Proof.
  intros R. destruct (session_well_kept s R) as (_ & _ & S1 & S2 & _).
  split; [exact S1 | exact S2].
Qed.
End Shown.

Lemma figure_is_on_the_map_witness :
  (forall id p, shape Flat.quadrilateral = Some (ShapeLayer id p) ->
     In id (map_layers Flat.quadrilateral))
  /\ (forall id ls, tempLine Flat.quadrilateral = Some (id, ls) ->
        In id (map_layers Flat.quadrilateral)).
Proof. apply figure_is_on_the_map. exact displayed_quadrilateral. Defined.
(** ** Figures drawn by clicks, imported, and left idle *)

Section Scenarios.
Context {num : Type} `{JSNumber num} `{JSInfinity num}.
Variable surface : MapSurface num.

(** The rectangle [_updateShape] draws on two nodes, and its export. *)
Lemma rectangle_drawn (a b : LatLng num) (y : Editor num) :
  coordinates_of y = [a; b] -> shapeType y = Some "rectangle"%string ->
  shapeType (_updateShape surface y) = Some "rectangle"%string
  /\ coordinates_of (_updateShape surface y) = [a; b]
  /\ (exists id, shape (_updateShape surface y) = Some (ShapeLayer id (Rectangle [a; b])))
  /\ getGeoJSON (_updateShape surface y)
     = Returns (geojson_polygon
                  [a; mkLatLng (lat a) (lng b); b; mkLatLng (lat b) (lng a); a]).
Proof.
  intros C1 C2.
  assert (Ln : minimum_nodes TRectangle <= List.length (nodes y)).
  { unfold coordinates_of in C1. rewrite <- (length_map (@node_latlng num)), C1. cbn. lia. }
  destruct (updateShape_builds surface TRectangle y C2 ltac:(discriminate) Ln)
    as (p & B1 & B2 & _).
  rewrite C1 in B1.
  assert (Ep : p = Rectangle [a; b]) by (injection B1 as <-; reflexivity).
  subst p. clear B1.
  assert (F1 : coordinates_of (_updateShape surface y) = [a; b])
    by (unfold coordinates_of; rewrite updateShape_nodes; exact C1).
  assert (F2 : shapeType (_updateShape surface y) = Some "rectangle"%string)
    by (rewrite updateShape_shapeType; exact C2).
  revert B2 F1 F2. generalize (_updateShape surface y). intros u B2 F1 F2.
  split; [exact F2|]. split; [exact F1|]. split; [eexists; exact B2|].
  unfold coordinates_of in F1.
  destruct (nodes u) as [|n0 [|n1 [|n2 ns]]] eqn:En; try discriminate F1.
  injection F1 as E0 E1.
  assert (Hs : shape u <> None) by (rewrite B2; discriminate).
  rewrite (getGeoJSON_rectangle u n0 n1 Hs F2 En).
  unfold geojson_polygon, position, coordinate_of. cbn [map lat lng].
  rewrite E0, E1. reflexivity.
Qed.

(** A [Polygon] whose ring has five entries is imported as a rectangle on
    its first and third positions, which have no NaN component, whatever
    the other three entries are (they are never read); exporting it gives
    the ring of the box those two corners span. *)
Theorem five_positions_import_as_rectangle (p0 p2 : LatLng num) (r1 r3 r4 : JSValue num)
    (s : Editor num) :
  let g := GObject (mkGeoJSON (Some "Polygon"%string)
                      (JArray [JArray [position p0; r1; position p2; r3; r4]]) None) in
  is_position p0 = true -> is_position p2 = true ->
  snd (drawFromGeoJSON surface g None s) = Returns tt
  /\ shapeType (fst (drawFromGeoJSON surface g None s)) = Some "rectangle"%string
  /\ coordinates_of (fst (drawFromGeoJSON surface g None s)) = [p0; p2]
  /\ (exists id, shape (fst (drawFromGeoJSON surface g None s))
                 = Some (ShapeLayer id (Rectangle [p0; p2])))
  /\ getGeoJSON (fst (drawFromGeoJSON surface g None s))
     = Returns (geojson_polygon
                  [p0; mkLatLng (lat p0) (lng p2); p2; mkLatLng (lat p2) (lng p0); p0]).
Proof.
  cbv zeta. intros V0 V2.
  rewrite (drawFromGeoJSON_rectangle surface (position p0) r1 (position p2) r3 r4 p0 p2 s
             (coord_latLng_position p0 V0) (coord_latLng_position p2 V2)).
  split; [reflexivity|].
  destruct (create_nodes_frame [p0; p2]
              (set_shapeType (Some "rectangle"%string)
                 (set_shapeType (Some "polygon"%string) (clear s)))) as (C1 & C2 & _).
  assert (Ex : coordinates_of (set_shapeType (Some "rectangle"%string)
                                 (set_shapeType (Some "polygon"%string) (clear s))) = []).
  { unfold coordinates_of. autorewrite with editor_fields. rewrite clear_nodes. reflexivity. }
  rewrite Ex in C1. rewrite shapeType_set_shapeType in C2.
  exact (rectangle_drawn p0 p2 _ C1 C2).
Qed.

(** An editor that is not drawing and whose shape type is neither
    ["polygon"] nor ["line"] (a new editor, a finished point, rectangle or
    circle) ignores the clicks and the moves of the mouse on the map. *)
Theorem idle_editor_ignores_the_map (e : MouseEvent num) (s : Editor num) :
  isDrawing s = false ->
  shapeType_is s "polygon" = false -> shapeType_is s "line" = false ->
  _onMapClick surface e s = s /\ _onMouseMove surface e s = s.
Proof.
  intros Ed Ep El. split.
  - unfold _onMapClick, idle_insertion, insertion_applies.
    rewrite Ed, Ep, El. reflexivity.
  - unfold _onMouseMove. rewrite Ed. reflexivity.
Qed.

(** Clicks while a polygon, rectangle or circle is drawn, up to the count. *)
Lemma clicks_to_count (ty : ShapeType) (es : list (MouseEvent num)) (s : Editor num) :
  ty <> TPoint -> ty <> TLine ->
  isDrawing s = true -> shapeType s = Some (type_name ty) ->
  es <> [] -> List.length (nodes s) + List.length es = minimum_nodes ty ->
  isDrawing (click_all surface es s) = false
  /\ state (click_all surface es s) = Idle
  /\ tempLine (click_all surface es s) = None
  /\ shapeType (click_all surface es s) = shapeType s
  /\ coordinates_of (click_all surface es s)
     = coordinates_of s ++ map (@ev_latlng num) es
  /\ exists id p,
       built_primitive surface ty (coordinates_of s ++ map (@ev_latlng num) es) = Some p
       /\ shape (click_all surface es s) = Some (ShapeLayer id p).
Proof.
  intros Hp Hl. revert s. induction es as [|e es IH]; intros s Ed Et Hne Hn;
    [destruct (Hne eq_refl)|].
  change (click_all surface (e :: es) s)
    with (click_all surface es (_onMapClick surface e s)).
  cbn [List.length map] in *.
  destruct (click_by_count surface ty e s Ed Et Hp Hl) as (C1 & C2 & C3 & C4).
  assert (Ec : coordinates_of (_onMapClick surface e s) = coordinates_of s ++ [ev_latlng e])
    by (unfold coordinates_of; rewrite C1, map_app; reflexivity).
  destruct es as [|e' es'].
  - destruct C4 as (D1 & D2 & D3 & p & D4 & D5); [cbn [List.length] in Hn; lia|].
    unfold click_all. cbn [fold_left map].
    rewrite D1, D2, D3, C2, Ec, D5. repeat split. exists (S (S (next_id s))), p.
    split; [exact D4 | reflexivity].
  - destruct C3 as (D1 & _ & _); [cbn [List.length] in Hn; lia|].
    destruct (IH (_onMapClick surface e s) D1) as (I1 & I2 & I3 & I4 & I5 & I6).
    + rewrite C2. exact Et.
    + discriminate.
    + rewrite C1, length_app. cbn [List.length] in *. lia.
    + rewrite I1, I2, I3, I4, I5, C2, Ec, <- app_assoc. cbn [app].
      repeat split. rewrite Ec, <- app_assoc in I6. exact I6.
Qed.

(** [startDrawing] of a polygon, rectangle or circle followed by as many
    clicks as the type needs (three, two, two), wherever they are, leaves a
    finished figure: not drawing, state ["idle"], no preview line, a node at
    each click in order, and the shape of the type built from them. The
    export is then the closed ring for a polygon and the ring of the box for
    a rectangle; for a circle it throws. *)
Theorem drawing_by_clicks (ty : ShapeType) (es : list (MouseEvent num)) (s : Editor num) :
  ty <> TPoint -> ty <> TLine -> List.length es = minimum_nodes ty ->
  isDrawing (click_all surface es (startDrawing (type_name ty) s)) = false
  /\ state (click_all surface es (startDrawing (type_name ty) s)) = Idle
  /\ tempLine (click_all surface es (startDrawing (type_name ty) s)) = None
  /\ coordinates_of (click_all surface es (startDrawing (type_name ty) s))
     = map (@ev_latlng num) es
  /\ completed ty (click_all surface es (startDrawing (type_name ty) s)) = true
  /\ getGeoJSON (click_all surface es (startDrawing (type_name ty) s))
     = match ty, map (@ev_latlng num) es with
       | TPolygon, c0 :: cs => Returns (geojson_polygon ((c0 :: cs) ++ [c0]))
       | TRectangle, [a; b] =>
           Returns (geojson_polygon
                      [a; mkLatLng (lat a) (lng b); b; mkLatLng (lat b) (lng a); a])
       | _, _ => Throws TypeError
       end.
Proof.
  intros Hp Hl Hn.
  destruct (startDrawing_effect (type_name ty) s) as (E1 & _ & E3 & E4 & _).
  assert (Hne : es <> []) by (intros ->; destruct ty; discriminate Hn).
  assert (Hc : List.length (nodes (startDrawing (type_name ty) s)) + List.length es
               = minimum_nodes ty) by (rewrite E1; exact Hn).
  destruct (clicks_to_count ty es (startDrawing (type_name ty) s) Hp Hl E4 E3 Hne Hc)
    as (I1 & I2 & I3 & I4 & I5 & id & p & I6 & I7).
  assert (E0 : coordinates_of (startDrawing (type_name ty) s) = [])
    by (unfold coordinates_of; rewrite E1; reflexivity).
  rewrite E0 in I5, I6. cbn [app] in I5, I6. rewrite E3 in I4.
  revert I1 I2 I3 I4 I5 I7.
  generalize (click_all surface es (startDrawing (type_name ty) s)).
  intros x I1 I2 I3 I4 I5 I7.
  assert (Ln : List.length (nodes x) = minimum_nodes ty).
  { rewrite <- Hn, <- (length_map (@ev_latlng num) es), <- I5.
    unfold coordinates_of. rewrite length_map. reflexivity. }
  assert (Hcomp : completed ty x = true).
  { unfold completed, shapeType_is. rewrite I7, I4, Ln, String.eqb_refl.
    destruct ty; reflexivity. }
  split; [exact I1|]. split; [exact I2|]. split; [exact I3|]. split; [exact I5|].
  split; [exact Hcomp|].
  assert (Hs : shape x <> None) by (rewrite I7; discriminate).
  destruct ty; try contradiction; cbn [minimum_nodes type_name] in *.
  - rewrite (getGeoJSON_polygon x Hcomp).
    assert (Em : map (@coordinate_of num) (nodes x)
                 = map (@position num) (map (@ev_latlng num) es)).
    { rewrite <- I5. unfold coordinates_of. rewrite map_map. reflexivity. }
    rewrite Em. destruct (map (@ev_latlng num) es) as [|c0 cs]; [discriminate I6|].
    unfold geojson_polygon. rewrite map_app. reflexivity.
  - unfold coordinates_of in I5.
    destruct (nodes x) as [|n0 [|n1 [|n2 ns]]] eqn:En; try discriminate Ln.
    rewrite (getGeoJSON_rectangle x n0 n1 Hs I4 En).
    rewrite <- I5. reflexivity.
  - destruct (getGeoJSON_cases x Hs) as [(_ & G) | (C & _)];
      [|rewrite Hcomp in C; discriminate C].
    rewrite G. destruct (map (@ev_latlng num) es) as [|a [|b l]]; reflexivity.
Qed.
End Scenarios.

(** A ring of five entries of which only the first and the third are
    positions, imported over the triangle. *)
Lemma five_positions_import_as_rectangle_witness :
  coordinates_of
    (fst (drawFromGeoJSON Flat.surface
            (GObject (mkGeoJSON (Some "Polygon"%string)
                        (JArray [JArray [position (mkLatLng 10 10)%float; JUndefined;
                                         position (mkLatLng 20 20)%float; JNumber 3%float;
                                         JArray []]]) None))
            None Flat.triangle))
  = [mkLatLng 10 10; mkLatLng 20 20]%float.
Proof.
  refine (proj1 (proj2 (proj2
            (five_positions_import_as_rectangle Flat.surface
               (mkLatLng 10 10)%float (mkLatLng 20 20)%float
               JUndefined (JNumber 3%float) (JArray []) Flat.triangle _ _))));
    vm_compute; reflexivity.
Defined.

Lemma idle_editor_ignores_the_map_witness :
  _onMapClick Flat.surface (Flat.at_latlng 15 15) Flat.rectangle_10_20
  = Flat.rectangle_10_20
  /\ _onMouseMove Flat.surface (Flat.at_latlng 15 15) Flat.rectangle_10_20
     = Flat.rectangle_10_20.
Proof.
  apply idle_editor_ignores_the_map; vm_compute; reflexivity.
Defined.

Lemma drawing_by_clicks_witness :
  isDrawing (click_all Flat.surface [Flat.at_latlng 10 10; Flat.at_latlng 20 20]
               (startDrawing (type_name TRectangle) Flat.editor)) = false.
Proof.
  refine (proj1 (drawing_by_clicks Flat.surface TRectangle
                   [Flat.at_latlng 10 10; Flat.at_latlng 20 20] Flat.editor _ _ _));
    [discriminate | discriminate | reflexivity].
Defined.
(** ** Panning of the map *)

Section Pans.
Context {num : Type} `{JSNumber num} `{JSInfinity num}.

Lemma same_pans_trans (a b c : Editor num) : same_pans a b -> same_pans b c -> same_pans a c.
Proof. unfold same_pans. intros A B. rewrite B. exact A. Qed.

Variable surface : MapSurface num.

Lemma pans_updateShape (s : Editor num) : same_pans s (_updateShape surface s).
Proof.
  unfold same_pans, _updateShape.
  repeat match goal with
  | |- context [match ?x with _ => _ end] => destruct x; cbn
  end; reflexivity.
Qed.

Lemma pans_clear (s : Editor num) : same_pans s (clear s).
Proof. destruct (clear_frame s) as (_ & _ & _ & _ & _ & C6). exact C6. Qed.

Lemma pans_finish (s : Editor num) : same_pans s (finish_drawing s).
Proof.
  unfold same_pans, finish_drawing. cbv zeta. autorewrite with editor_fields.
  destruct (tempLine s) as [[t ls]|]; reflexivity.
Qed.

Lemma pans_rebuilt (ev : Event num) (l : list (Node num)) (latlng : LatLng num)
    (s : Editor num) :
  same_pans s (fire ev (_updateShape surface (set_nodes l (snd (_createNode latlng s))))).
Proof.
  unfold same_pans. rewrite map_panned_fire.
  rewrite (pans_updateShape (set_nodes l (snd (_createNode latlng s)))).
  rewrite map_panned_set_nodes. reflexivity.
Qed.

Lemma pans_click (e : MouseEvent num) (s : Editor num) :
  same_pans s (_onMapClick surface e s).
Proof.
  destruct (onMapClick_cases surface e s)
    as [E | [(_ & idx & E) | [(_ & _ & _ & E) | [(_ & E) | (_ & E)]]]]; rewrite E.
  - reflexivity.
  - rewrite insert_node_eq. apply pans_rebuilt.
  - reflexivity.
  - apply pans_finish.
  - rewrite append_node_eq. cbv zeta.
    pose proof (pans_rebuilt (nodeadd (S (next_id s)))
                  (nodes s ++ [mkNode (S (next_id s)) (ev_latlng e) (next_id s)])
                  (ev_latlng e) s) as X.
    revert X. generalize (fire (nodeadd (S (next_id s)))
       (_updateShape surface
          (set_nodes (nodes s ++ [mkNode (S (next_id s)) (ev_latlng e) (next_id s)])
             (snd (_createNode (ev_latlng e) s))))).
    intros x X. destruct (reached_count x); [|exact X].
    apply (same_pans_trans s x); [exact X | apply pans_finish].
Qed.

Lemma pans_contextmenu (node : Node num) (s : Editor num) :
  same_pans s (node_contextmenu surface node s).
Proof.
  destruct (node_contextmenu_cases surface node s) as [E | [E | (_ & E)]]; rewrite E.
  - apply pans_clear.
  - reflexivity.
  - unfold same_pans. rewrite map_panned_fire.
    match goal with |- map_panned (_updateShape surface ?y) = _ =>
      rewrite (pans_updateShape y) end.
    autorewrite with editor_fields. reflexivity.
Qed.

Lemma pans_create_nodes (cs : list (LatLng num)) (x : Editor num) :
  same_pans x (create_nodes cs x).
Proof.
  revert x. induction cs as [|c cs IH]; intros x; [reflexivity|].
  rewrite create_nodes_cons.
  apply (same_pans_trans x
           (set_nodes (nodes x ++ [mkNode (S (next_id x)) c (next_id x)])
              (snd (_createNode c x)))); [reflexivity | apply IH].
Qed.

Lemma pans_import (geojson : GeoJSONValue num) (opts : option (OptionsPatch num))
    (s : Editor num) :
  same_pans s (fst (drawFromGeoJSON surface geojson opts s)).
Proof.
  unfold drawFromGeoJSON.
  pose proof (pans_clear s) as Hc. revert Hc. generalize (clear s). intros c Hc.
  destruct geojson as [| |g]; try exact Hc.
  destruct (g_type g) as [ty|]; [|exact Hc].
  destruct (String.eqb ty ""); [exact Hc|].
  assert (H1 : same_pans s (match opts with
                            | Some p => set_options (setOptions (options c) p) c
                            | None => c
                            end)).
  { destruct opts; [|exact Hc]. unfold same_pans. rewrite map_panned_set_options. exact Hc. }
  revert H1. generalize (match opts with
                         | Some p => set_options (setOptions (options c) p) c
                         | None => c
                         end). intros c1 H1.
  assert (Typed : forall v x, same_pans s x -> same_pans s (set_shapeType v x)).
  { intros v x Hx. unfold same_pans. rewrite map_panned_set_shapeType. exact Hx. }
  pose proof (Typed (Some (toLowerCase ty)) c1 H1) as H2.
  revert H2. generalize (set_shapeType (Some (toLowerCase ty)) c1). intros c2 H2.
  destruct (import_switch ty g) as [[assigned read]|]; [|exact H2].
  assert (H3 : same_pans s (match assigned with
                            | Some t => set_shapeType (Some t) c2
                            | None => c2
                            end)) by (destruct assigned; [apply Typed|]; exact H2).
  revert H3. generalize (match assigned with
                         | Some t => set_shapeType (Some t) c2
                         | None => c2
                         end). intros c3 H3.
  destruct read as [coordinates|err|]; try exact H3.
  destruct (String.eqb ty "Point" && _).
  - pose proof (Typed (Some "circle"%string) c3 H3) as H4.
    revert H4. generalize (set_shapeType (Some "circle"%string) c3). intros c4 H4.
    destruct (bind _ _) as [cs|err|]; cbn [fst]; try exact H4.
    apply (same_pans_trans s c4); [exact H4|].
    apply (same_pans_trans c4 (create_nodes cs c4));
      [apply pans_create_nodes | apply pans_updateShape].
  - cbn [fst]. apply (same_pans_trans s c3); [exact H3|].
    apply (same_pans_trans c3 (create_nodes coordinates c3));
      [apply pans_create_nodes | apply pans_updateShape].
Qed.

Variable toLatLng : Point num -> LatLng num.

(** The map is panned by the editor only in a mouse move on the map while
    a figure is being drawn and has a node: then by the offset of
    [_autoPan], if it is not zero. No click, call, context menu or drag of a
    node pans the map. *)
Theorem map_pans_only_while_drawing (a : Action) (s : Editor num) :
  map_panned (step surface toLatLng a s) = map_panned s
  \/ exists e,
       a = MapMouseMove e /\ isDrawing s = true /\ nodes s <> []
       /\ map_panned (step surface toLatLng a s)
          = map_panned s ++ [autoPan_offset surface (ev_containerPoint e) s].
Proof.
  destruct a as [type | | geojson opts | e | e | node | | isDragging node e | ];
    cbn [step].
  - left. unfold startDrawing. cbv zeta. autorewrite with editor_fields. apply pans_clear.
  - left. apply pans_clear.
  - left. apply pans_import.
  - left. apply pans_click.
  - unfold _onMouseMove.
    destruct (isDrawing s) eqn:Ed; [|left; reflexivity]. cbn [negb orb].
    destruct (nodes s) as [|n0 ns] eqn:En; [left; reflexivity|].
    cbn [List.length Nat.eqb orb].
    destruct (shapeType_is s "point"); [left; reflexivity|].
    destruct (shapeType_is s "polygon" && _); [left; reflexivity|].
    destruct ((shapeType_is s "rectangle" || shapeType_is s "circle") && _);
      [left; reflexivity|].
    cbv zeta.
    assert (A : map_panned (_autoPan surface (ev_containerPoint e) s) = map_panned s
                \/ map_panned (_autoPan surface (ev_containerPoint e) s)
                   = map_panned s ++ [autoPan_offset surface (ev_containerPoint e) s]).
    { unfold _autoPan. destruct (autoPan_offset surface (ev_containerPoint e) s) as [x y].
      destruct (_ || _); [right | left]; reflexivity. }
    revert A. generalize (_autoPan surface (ev_containerPoint e) s). intros p A.
    assert (B : map_panned (match tempLine p with
                            | Some (id, _) => removeLayer id p
                            | None => p
                            end) = map_panned p)
      by (destruct (tempLine p) as [[t ls]|]; reflexivity).
    revert B. generalize (match tempLine p with
                          | Some (id, _) => removeLayer id p
                          | None => p
                          end). intros b B.
    unfold addNewLayer. cbv beta iota zeta. autorewrite with editor_fields. rewrite B.
    destruct A as [A|A]; [left; exact A|].
    right. exists e. repeat split; [discriminate | exact A].
  - left. apply pans_contextmenu.
  - left. reflexivity.
  - left. unfold node_onMouseMove. destruct (negb isDragging); [reflexivity|].
    cbv zeta. unfold setLatLng.
    match goal with |- map_panned (_updateShape surface ?y) = _ =>
      rewrite (pans_updateShape y) end.
    apply map_panned_set_nodes.
  - left. reflexivity.
Qed.
End Pans.
(** ** The positions of the nodes *)

Section Positions.
Context {num : Type} `{JSNumber num} `{JSInfinity num}.

Lemma positioned_by_nodes (s : Editor num) :
  (forall n, In n (nodes s) -> is_position (node_latlng n) = true) -> positioned s = true.
Proof.
  intros Hn. unfold positioned, coordinates_of. apply forallb_forall.
  intros ll Hin. apply in_map_iff in Hin as (n & <- & Hin). exact (Hn n Hin).
Qed.

Lemma positioned_same (s x : Editor num) :
  nodes x = nodes s -> positioned s = true -> positioned x = true.
Proof. unfold positioned, coordinates_of. intros ->. exact (fun p => p). Qed.

Lemma positioned_empty (x : Editor num) : nodes x = [] -> positioned x = true.
Proof. unfold positioned, coordinates_of. intros ->. reflexivity. Qed.

Lemma positioned_coordinates (cs : list (LatLng num)) (x : Editor num) :
  coordinates_of x = cs -> forallb is_position cs = true -> positioned x = true.
Proof. unfold positioned. intros ->. exact (fun p => p). Qed.

(** What [L.latLng] returns is a position. *)
Lemma L_latLng_returns (a b : JSValue num) (ll : LatLng num) :
  L_latLng a b = Returns ll -> is_position ll = true.
Proof.
  unfold L_latLng, is_position.
  destruct a as [|la|]; try discriminate. destruct b as [|ln|]; try discriminate.
  destruct (isNaN la) eqn:Ea; [discriminate|]. destruct (isNaN ln) eqn:Eb; [discriminate|].
  cbn [orb]. intros E. injection E as <-. cbn [lat lng]. rewrite Ea, Eb. reflexivity.
Qed.

Lemma coord_latLng_returns (v : JSValue num) (ll : LatLng num) :
  coord_latLng v = Returns ll -> is_position ll = true.
Proof.
  unfold coord_latLng.
  destruct (js_index v 1) as [c1|e|]; cbn [bind]; try discriminate.
  destruct (js_index v 0) as [c0|e|]; cbn [bind]; try discriminate.
  apply L_latLng_returns.
Qed.

Lemma mapM_coord_latLng_returns (items : list (JSValue num)) (cs : list (LatLng num)) :
  mapM coord_latLng items = Returns cs -> forallb is_position cs = true.
Proof.
  revert cs. induction items as [|v items IH]; intros cs; cbn [mapM].
  - intros E. injection E as <-. reflexivity.
  - destruct (coord_latLng v) as [ll|e|] eqn:Ev; cbn [bind]; try discriminate.
    destruct (mapM coord_latLng items) as [rest|e|]; cbn [bind]; try discriminate.
    intros E. injection E as <-. cbn [forallb].
    apply coord_latLng_returns in Ev. rewrite Ev, (IH rest eq_refl). reflexivity.
Qed.

(** The coordinates the [switch] of an import reads are positions. *)
Lemma import_switch_returns (ty : string) (g : GeoJSON num) (assigned : option string)
    (cs : list (LatLng num)) :
  import_switch ty g = Some (assigned, Returns cs) -> forallb is_position cs = true.
Proof.
  unfold import_switch.
  destruct (String.eqb ty "Point").
  { intros E. injection E as _ E. revert E.
    destruct (js_index (g_coordinates g) 1) as [c1|e|]; cbn [bind]; try discriminate.
    destruct (js_index (g_coordinates g) 0) as [c0|e|]; cbn [bind]; try discriminate.
    destruct (L_latLng c1 c0) as [ll|e|] eqn:El; cbn [bind]; try discriminate.
    intros E. injection E as <-. cbn [forallb].
    apply L_latLng_returns in El. rewrite El. reflexivity. }
  destruct (String.eqb ty "LineString").
  { intros E. injection E as _ E. revert E.
    destruct (g_coordinates g) as [|x|items]; try discriminate.
    apply mapM_coord_latLng_returns. }
  destruct (String.eqb ty "Polygon"); [|discriminate].
  destruct (js_index (g_coordinates g) 0) as [[|x|ring]|e|]; try discriminate.
  destruct (List.length ring =? 5)%nat.
  - intros E. injection E as _ E. revert E.
    destruct (coord_latLng (js_nth ring 0)) as [a|e|] eqn:Ea; cbn [bind]; try discriminate.
    destruct (coord_latLng (js_nth ring 2)) as [b|e|] eqn:Eb; cbn [bind]; try discriminate.
    intros E. injection E as <-. cbn [forallb].
    apply coord_latLng_returns in Ea, Eb. rewrite Ea, Eb. reflexivity.
  - intros E. injection E as _ E. revert E. apply mapM_coord_latLng_returns.
Qed.

Lemma positioned_imported (surface : MapSurface num) (cs : list (LatLng num))
    (x : Editor num) :
  nodes x = [] -> forallb is_position cs = true ->
  positioned (_updateShape surface (create_nodes cs x)) = true.
Proof.
  intros En V. destruct (imported_frame surface cs x En) as (F1 & _).
  exact (positioned_coordinates cs _ F1 V).
Qed.

Lemma positioned_after_import (surface : MapSurface num) (toLatLng : Point num -> LatLng num)
    (geojson : GeoJSONValue num) (opts : option (OptionsPatch num)) (s : Editor num) :
  brings_positions surface toLatLng (CallDrawFromGeoJSON geojson opts) ->
  positioned (fst (drawFromGeoJSON surface geojson opts s)) = true.
Proof.
  intros Hd. cbn [brings_positions] in Hd. unfold drawFromGeoJSON.
  pose proof (clear_nodes s) as Hc. revert Hc. generalize (clear s). intros c Hc.
  destruct geojson as [| |g]; try (apply positioned_empty; exact Hc).
  destruct (g_type g) as [ty|]; [|apply positioned_empty; exact Hc].
  destruct (String.eqb ty ""); [apply positioned_empty; exact Hc|].
  assert (H1 : nodes (match opts with
                      | Some p => set_options (setOptions (options c) p) c
                      | None => c
                      end) = [])
    by (destruct opts; [rewrite nodes_set_options|]; exact Hc).
  revert H1. generalize (match opts with
                         | Some p => set_options (setOptions (options c) p) c
                         | None => c
                         end). intros c1 H1.
  assert (Typed : forall v (x : Editor num), nodes x = [] -> nodes (set_shapeType v x) = [])
    by (intros v x Hx; rewrite nodes_set_shapeType; exact Hx).
  pose proof (Typed (Some (toLowerCase ty)) c1 H1) as H2.
  revert H2. generalize (set_shapeType (Some (toLowerCase ty)) c1). intros c2 H2.
  destruct (import_switch ty g) as [[assigned read]|] eqn:Esw;
    [|apply positioned_empty; exact H2].
  assert (H3 : nodes (match assigned with
                      | Some t => set_shapeType (Some t) c2
                      | None => c2
                      end) = []) by (destruct assigned; [apply Typed|]; exact H2).
  revert H3. generalize (match assigned with
                         | Some t => set_shapeType (Some t) c2
                         | None => c2
                         end). intros c3 H3.
  destruct read as [coordinates|err|]; try (apply positioned_empty; exact H3).
  pose proof Esw as V. apply import_switch_returns in V.
  destruct (String.eqb ty "Point" && _).
  - pose proof (Typed (Some "circle"%string) c3 H3) as H4.
    revert H4. generalize (set_shapeType (Some "circle"%string) c3). intros c4 H4.
    destruct (js_index (g_coordinates g) 1) as [v1|e|]; cbn [bind fst];
      try (apply positioned_empty; exact H4).
    destruct (js_index (g_coordinates g) 0) as [v0|e|]; cbn [bind fst];
      try (apply positioned_empty; exact H4).
    destruct (L_latLng v1 v0) as [center|e|] eqn:El; cbn [bind fst];
      try (apply positioned_empty; exact H4).
    pose proof El as Vc. apply L_latLng_returns in Vc.
    destruct (g_radius g) as [r|]; cbn [fst]; apply positioned_imported;
      try exact H4; cbn [forallb]; rewrite Vc, ?(Hd center r eq_refl Vc); reflexivity.
  - cbn [fst]. apply positioned_imported; assumption.
Qed.

Lemma positioned_rebuilt (surface : MapSurface num) (ev : Event num) (l : list (Node num))
    (x : Editor num) :
  (forall n, In n l -> is_position (node_latlng n) = true) ->
  positioned (fire ev (_updateShape surface (set_nodes l x))) = true.
Proof.
  intros Hl. apply positioned_by_nodes.
  rewrite nodes_fire, updateShape_nodes, nodes_set_nodes. exact Hl.
Qed.

Lemma positioned_after_click (surface : MapSurface num) (e : MouseEvent num)
    (s : Editor num) :
  is_position (ev_latlng e) = true ->
  positioned s = true -> positioned (_onMapClick surface e s) = true.
Proof.
  intros Ve Hs.
  pose proof (positioned_nodes s) as Hn. specialize (fun n => Hn n Hs).
  destruct (onMapClick_cases surface e s)
    as [E | [(_ & idx & E) | [(_ & _ & _ & E) | [(_ & E) | (_ & E)]]]]; rewrite E.
  - exact Hs.
  - rewrite insert_node_eq. apply positioned_rebuilt. intros n Hin.
    destruct (splice_insert_split idx (mkNode (S (next_id s)) (ev_latlng e) (next_id s))
                (nodes s)) as (l1 & l2 & E1 & E2).
    rewrite E2 in Hin. apply in_app_or in Hin as [Hin | [<- | Hin]];
      [|exact Ve|]; apply Hn; rewrite E1; apply in_or_app; [left | right]; exact Hin.
  - apply positioned_by_nodes. destruct (place_point_effect e s) as (P1 & _).
    rewrite P1. intros n Hin. apply in_app_or in Hin as [Hin | [<- | []]];
      [apply Hn; exact Hin | exact Ve].
  - apply (positioned_same s); [apply finish_drawing_nodes | exact Hs].
  - rewrite append_node_eq. cbv zeta.
    pose proof (positioned_rebuilt surface (nodeadd (S (next_id s)))
                  (nodes s ++ [mkNode (S (next_id s)) (ev_latlng e) (next_id s)])
                  (snd (_createNode (ev_latlng e) s))) as X.
    revert X. generalize (fire (nodeadd (S (next_id s)))
       (_updateShape surface
          (set_nodes (nodes s ++ [mkNode (S (next_id s)) (ev_latlng e) (next_id s)])
             (snd (_createNode (ev_latlng e) s))))).
    intros x X.
    assert (Px : positioned x = true).
    { apply X. intros n Hin. apply in_app_or in Hin as [Hin | [<- | []]];
        [apply Hn; exact Hin | exact Ve]. }
    destruct (reached_count x); [|exact Px].
    apply (positioned_same x); [apply finish_drawing_nodes | exact Px].
Qed.

Lemma positioned_after_contextmenu (surface : MapSurface num) (node : Node num)
    (s : Editor num) :
  positioned s = true -> positioned (node_contextmenu surface node s) = true.
Proof.
  intros Hs.
  pose proof (positioned_nodes s) as Hn. specialize (fun n => Hn n Hs).
  destruct (node_contextmenu_cases surface node s) as [E | [E | (_ & E)]]; rewrite E.
  - apply positioned_empty. apply clear_nodes.
  - exact Hs.
  - apply positioned_by_nodes. rewrite nodes_fire, updateShape_nodes.
    autorewrite with editor_fields. intros n Hin.
    destruct (splice_remove1_split (indexOf node (nodes s)) (nodes s))
      as [E1 | (l1 & x & l2 & E1 & E2)].
    + rewrite E1 in Hin. exact (Hn n Hin).
    + rewrite E2 in Hin. apply Hn. rewrite E1.
      apply in_app_or in Hin as [Hin | Hin]; apply in_or_app;
        [left; exact Hin | right; right; exact Hin].
Qed.

Lemma positioned_after_drag (surface : MapSurface num) (toLatLng : Point num -> LatLng num)
    (isDragging : bool) (node : Node num) (e : MouseEvent num) (s : Editor num) :
  is_position (toLatLng (ev_containerPoint e)) = true ->
  positioned s = true ->
  positioned (node_onMouseMove surface toLatLng isDragging node e s) = true.
Proof.
  intros Ve Hs. unfold node_onMouseMove. destruct (negb isDragging); [exact Hs|].
  cbv zeta. unfold setLatLng. apply positioned_by_nodes.
  rewrite updateShape_nodes, nodes_set_nodes. intros n Hin.
  apply in_map_iff in Hin as (m & <- & Hin).
  destruct (Nat.eqb (node_id m) (node_id node)); [exact Ve|].
  exact (positioned_nodes s m Hs Hin).
Qed.

(** Whatever the calls and events, when the positions Leaflet brings are
    [L.LatLng] objects, so are the positions of the nodes: no coordinate of a
    node is NaN. An import creates nodes only at positions [L.latLng]
    accepted. *)
Theorem nodes_are_at_positions (s : Editor num) :
  leaflet_session s -> positioned s = true.
Proof.
  intros R. induction R as [opts | surface toLatLng a s R IH B].
  - reflexivity.
  - destruct a as [type | | geojson opts | e | e | node | | isDragging node e | ];
      cbn [step]; cbn [brings_positions] in B.
    + apply positioned_empty. destruct (startDrawing_effect type s) as (E & _). exact E.
    + apply positioned_empty. apply clear_nodes.
    + apply (positioned_after_import surface toLatLng). exact B.
    + apply positioned_after_click; assumption.
    + destruct (onMouseMove_effect surface e s) as ((E & _) & _).
      apply (positioned_same s); assumption.
    + apply positioned_after_contextmenu. exact IH.
    + exact IH.
    + apply positioned_after_drag; assumption.
    + exact IH.
Qed.
End Positions.

Lemma leaflet_clicks (es : list (MouseEvent float)) (s : Editor float) :
  forallb (fun e => is_position (ev_latlng e)) es = true ->
  leaflet_session s -> leaflet_session (Flat.clicks es s).
Proof.
  revert s. induction es as [|e es IH]; intros s V R; [exact R|].
  cbn [forallb] in V. apply andb_prop in V as [V1 V2].
  apply (IH (_onMapClick Flat.surface e s) V2).
  exact (@leaflet_step float _ _ Flat.surface (fun p => mkLatLng (py p) (px p)) (MapClick e)
           s R V1).
Qed.

(** The triangle of the scenario, then the import of a polygon of five
    corners: the corners are the nodes. *)
Lemma nodes_are_at_positions_witness :
  positioned
    (step Flat.surface (fun p => mkLatLng (py p) (px p))
       (CallDrawFromGeoJSON
          (geojson_polygon [mkLatLng 0 0; mkLatLng 0 9; mkLatLng 9 9; mkLatLng 9 0;
                            mkLatLng 5 5; mkLatLng 0 0]%float) None)
       Flat.triangle) = true.
Proof.
  apply nodes_are_at_positions.
  apply leaflet_step.
  - unfold Flat.triangle, Flat.editor.
    apply leaflet_clicks; [vm_compute; reflexivity|].
    exact (@leaflet_step float _ _ Flat.surface (fun p => mkLatLng (py p) (px p))
             (CallStartDrawing "polygon") _ (leaflet_new None) I).
  - intros center radius E. discriminate E.
Defined.
